(** * Wintun ring protocol: a shallow embedding of [wintun.c]

    The development follows the driver source section by section:
    machine arithmetic and the ring macros, the shared ring memory, the
    send path ([TunSendNetBufferLists]), the receive path
    ([TunProcessReceiveData]) and the registration / teardown handshake
    ([TunDispatchRegisterBuffers], [TunDispatchUnregisterBuffers]).

    Conventions.  A [ULONG] is a [Z] in [[0, 2^32)]; every arithmetic
    operation of the source on [ULONG] values is followed by an explicit
    reduction modulo [2^32].  (On 64-bit targets some sub-expressions are
    evaluated as [size_t]; every such expression is masked with, or stored
    into, a [ULONG] before use, so that the 32-bit reduction is exact for
    both targets.)  A [LONG] flags word is a [Z] with two's complement bit
    operations.  Pointers and handles are [Z] with [NULL = 0]. *)

From Stdlib Require Import ZArith List Lia Bool.
From Stdlib Require Import Init.Byte Strings.Byte.
Import ListNotations.
Local Open Scope Z_scope.

(** ** Machine integers *)

Module Ulong.

Definition modulus : Z := 2 ^ 32.

(** Conversion to [ULONG] (the C cast, or a store into a [ULONG]). *)
Definition cast (x : Z) : Z := x mod modulus.

Definition add (x y : Z) : Z := cast (x + y).
Definition sub (x y : Z) : Z := cast (x - y).
Definition not (x : Z) : Z := cast (Z.lnot x).

Definition MAXULONG : Z := modulus - 1.

Definition in_range (x : Z) : Prop := 0 <= x < modulus.

End Ulong.

(** 64-bit statistics counters ([InterlockedAdd64], [InterlockedIncrement64]). *)
Definition InterlockedAdd64 (Target Value : Z) : Z := (Target + Value) mod 2 ^ 64.
Definition InterlockedIncrement64 (Target : Z) : Z := InterlockedAdd64 Target 1.

(** [PopulationCount64]: the number of set bits of a 64-bit value. *)
Fixpoint popcount_pos (p : positive) : Z :=
  match p with
  | xH => 1
  | xO q => popcount_pos q
  | xI q => 1 + popcount_pos q
  end.

Definition PopulationCount64 (v : Z) : Z :=
  match v mod 2 ^ 64 with
  | Zpos p => popcount_pos p
  | _ => 0
  end.

(** ** Ring macros *)

Definition NULL : Z := 0.

(** [sizeof(ULONG)], [sizeof(TUN_PACKET)] (one [ULONG] and a flexible array)
    and [sizeof(TUN_RING)] (two [ULONG]s, one [LONG] and a flexible array). *)
Definition sizeof_ULONG : Z := 4.
Definition sizeof_TUN_PACKET : Z := 4.
Definition sizeof_TUN_RING : Z := 12.

Definition TUN_ALIGNMENT : Z := sizeof_ULONG.

Definition TUN_ALIGN (Size : Z) : Z :=
  Z.land (Ulong.add (Ulong.cast Size) (Ulong.cast (TUN_ALIGNMENT - 1)))
         (Ulong.not (Ulong.cast (TUN_ALIGNMENT - 1))).

Definition TUN_MAX_IP_PACKET_SIZE : Z := 0xFFFF.

Definition TUN_MAX_PACKET_SIZE : Z :=
  TUN_ALIGN (sizeof_TUN_PACKET + TUN_MAX_IP_PACKET_SIZE).

Definition TUN_MIN_RING_CAPACITY : Z := 0x20000.
Definition TUN_MAX_RING_CAPACITY : Z := 0x4000000.

(** The value of [TUN_RING_CAPACITY(Size)] once stored in a [ULONG]
    [Capacity] field. *)
Definition TUN_RING_CAPACITY (Size : Z) : Z :=
  Ulong.cast (Size - sizeof_TUN_RING - (TUN_MAX_PACKET_SIZE - TUN_ALIGNMENT)).

Definition TUN_RING_WRAP (Value Capacity : Z) : Z :=
  Z.land Value (Ulong.sub Capacity 1).

(** The capacity test of registration: within bounds and exactly one bit set. *)
Definition capacity_rejected (Capacity : Z) : bool :=
  (Capacity <? TUN_MIN_RING_CAPACITY) || (Capacity >? TUN_MAX_RING_CAPACITY) ||
  negb (PopulationCount64 Capacity =? 1).

Definition capacity_legal (Capacity : Z) : Prop :=
  capacity_rejected Capacity = false.

(** The two space computations, as written in the send and receive paths. *)
Definition RingSpace (RingHead RingTail RingCapacity : Z) : Z :=
  TUN_RING_WRAP (Ulong.sub (Ulong.sub RingHead RingTail) TUN_ALIGNMENT) RingCapacity.

Definition RingContent (RingTail RingHead RingCapacity : Z) : Z :=
  TUN_RING_WRAP (Ulong.sub RingTail RingHead) RingCapacity.

(** Head and Tail as the [TUN_RING] comments require them. *)
Definition offset_ok (Capacity Offset : Z) : Prop :=
  0 <= Offset < Capacity /\ Offset mod TUN_ALIGNMENT = 0.

(** ** Status codes

    [NDIS_STATUS] is the same integer type as [NTSTATUS]; the constants the
    driver uses, and the failure codes [ObReferenceObjectByHandle] documents,
    are pairwise distinct values and are kept symbolic.  Only
    [STATUS_SUCCESS] satisfies [NT_SUCCESS]. *)

Inductive NTSTATUS : Set :=
| STATUS_SUCCESS
| STATUS_ALREADY_INITIALIZED
| STATUS_INVALID_PARAMETER
| STATUS_INSUFFICIENT_RESOURCES
| STATUS_INVALID_USER_BUFFER
| STATUS_INVALID_HANDLE
| STATUS_OBJECT_TYPE_MISMATCH
| STATUS_ACCESS_DENIED
| NDIS_STATUS_FAILURE
| NDIS_STATUS_ADAPTER_REMOVED
| NDIS_STATUS_PAUSED
| NDIS_STATUS_MEDIA_DISCONNECTED
| NDIS_STATUS_INVALID_LENGTH
| NDIS_STATUS_ADAPTER_NOT_READY
| NDIS_STATUS_BUFFER_OVERFLOW.

Definition NDIS_STATUS : Set := NTSTATUS.
Definition NDIS_STATUS_SUCCESS : NDIS_STATUS := STATUS_SUCCESS.

Definition NT_SUCCESS (Status : NTSTATUS) : bool :=
  match Status with STATUS_SUCCESS => true | _ => false end.

(** ** Adapter flags *)

Definition TUN_FLAGS_RUNNING : Z := Z.shiftl 1 0.
Definition TUN_FLAGS_PRESENT : Z := Z.shiftl 1 1.
Definition TUN_FLAGS_CONNECTED : Z := Z.shiftl 1 2.

(** [Flags & Mask] read as a C truth value. *)
Definition flag_set (Flags Mask : Z) : bool := negb (Z.land Flags Mask =? 0).

Definition InterlockedOr (Target Mask : Z) : Z := Z.lor Target Mask.
Definition InterlockedAnd (Target Mask : Z) : Z := Z.land Target Mask.

(** ** Ring memory

    [Ring->Data] is addressed by byte offset.  The mapped region extends
    [TUN_MAX_PACKET_SIZE - TUN_ALIGNMENT] bytes past the capacity, so a
    packet that starts below the capacity is stored without wrapping.  A
    [ULONG] in memory is little-endian, as on every target of the driver. *)

Definition UCHAR : Set := byte.

Definition Z_of_uchar (b : UCHAR) : Z := Z.of_N (Byte.to_N b).

Definition uchar_of_Z (z : Z) : UCHAR :=
  match Byte.of_N (Z.to_N (z mod 256)) with
  | Some b => b
  | None => x00
  end.

Definition memory : Set := Z -> UCHAR.

Definition write_bytes (m : memory) (off : Z) (bs : list UCHAR) : memory :=
  fun a =>
    if (off <=? a) && (a <? off + Z.of_nat (length bs))
    then nth (Z.to_nat (a - off)) bs x00
    else m a.

Definition read_bytes (m : memory) (off : Z) (n : nat) : list UCHAR :=
  map (fun i => m (off + Z.of_nat i)) (seq 0 n).

Definition encode_ULONG (v : Z) : list UCHAR :=
  [uchar_of_Z v; uchar_of_Z (Z.shiftr v 8);
   uchar_of_Z (Z.shiftr v 16); uchar_of_Z (Z.shiftr v 24)].

Definition decode_ULONG (bs : list UCHAR) : Z :=
  fold_right (fun b acc => Z_of_uchar b + 256 * acc) 0 bs.

Definition store_ULONG (m : memory) (off v : Z) : memory :=
  write_bytes m off (encode_ULONG v).

Definition load_ULONG (m : memory) (off : Z) : Z :=
  decode_ULONG (read_bytes m off 4).

(** [NdisMoveMemory(Destination, Source, Length)] with the source bytes given. *)
Definition NdisMoveMemory (m : memory) (Destination : Z) (Source : list UCHAR) (Length : Z) : memory :=
  write_bytes m Destination (firstn (Z.to_nat Length) Source).

Record TUN_RING : Set := mkRing {
  Head : Z;
  Tail : Z;
  Alertable : Z;
  Data : memory
}.

Definition set_Head (Ring : TUN_RING) (v : Z) : TUN_RING :=
  mkRing v (Tail Ring) (Alertable Ring) (Data Ring).
Definition set_Tail (Ring : TUN_RING) (v : Z) : TUN_RING :=
  mkRing (Head Ring) v (Alertable Ring) (Data Ring).
Definition set_Alertable (Ring : TUN_RING) (v : Z) : TUN_RING :=
  mkRing (Head Ring) (Tail Ring) v (Data Ring).
Definition set_Data (Ring : TUN_RING) (m : memory) : TUN_RING :=
  mkRing (Head Ring) (Tail Ring) (Alertable Ring) m.

(** [InterlockedExchangeU(&Ring->Head, v)] and [InterlockedExchangeU(&Ring->Tail, v)]. *)
Definition InterlockedExchangeU_Head := set_Head.
Definition InterlockedExchangeU_Tail := set_Tail.

(** Offset of [Packet->Data] from [Packet]. *)
Definition offsetof_TUN_PACKET_Data : Z := sizeof_TUN_PACKET.

(** ** Net buffers

    A [NET_BUFFER] carries its data bytes; [NbLayout] says what
    [NdisGetDataBuffer] can do with them: return a pointer to contiguous
    data, copy scattered data into the caller's storage, or fail to map the
    data (a low-resource condition). *)

Inductive NB_LAYOUT : Set := NbContiguous | NbScattered | NbUnmappable.

Record NET_BUFFER : Set := mkNb {
  NbBytes : list UCHAR;
  NbLayout : NB_LAYOUT
}.

(** The data length is the number of data bytes (a [ULONG] in NDIS, which
    has no net buffer of [2^32] bytes or more). *)
Definition NET_BUFFER_DATA_LENGTH (Nb : NET_BUFFER) : Z :=
  Z.of_nat (length (NbBytes Nb)).

(** The pointer [NdisGetDataBuffer] returns: [NULL], the [Storage] argument,
    or a location inside the net buffer. *)
Inductive NB_DATA : Set := NbDataNull | NbDataStorage | NbDataInternal.

Definition NdisGetDataBuffer (Nb : NET_BUFFER) (BytesNeeded Storage : Z) (m : memory)
  : NB_DATA * memory :=
  match NbLayout Nb with
  | NbContiguous => (NbDataInternal, m)
  | NbScattered => (NbDataStorage, NdisMoveMemory m Storage (NbBytes Nb) BytesNeeded)
  | NbUnmappable => (NbDataNull, m)
  end.

(** ** Send path: [TunSendNetBufferLists]

    The body of the inner loop for one net buffer.  [Flags] is the value
    read once before the loops; [RingCapacity] is
    [Ctx->Device.Send.Capacity].  The per-ring spin lock makes the body
    atomic with respect to other producers; the consumer only ever writes
    [Head], which the body reads once. *)

Inductive SEND_RESULT : Set :=
| SendAccepted (Ring' : TUN_RING)
    (* Tail moved, TailMoved event set, [continue] *)
| SendDiscarded (Ring' : TUN_RING) (Status : NDIS_STATUS).
    (* cleanupDiscardPacket reached with this Status *)

Definition TunSendNetBuffer (Flags RingCapacity : Z) (Ring : TUN_RING) (Nb : NET_BUFFER)
  : SEND_RESULT :=
  if negb (flag_set Flags TUN_FLAGS_PRESENT) then
    SendDiscarded Ring NDIS_STATUS_ADAPTER_REMOVED
  else if negb (flag_set Flags TUN_FLAGS_RUNNING) then
    SendDiscarded Ring NDIS_STATUS_PAUSED
  else if negb (flag_set Flags TUN_FLAGS_CONNECTED) then
    SendDiscarded Ring NDIS_STATUS_MEDIA_DISCONNECTED
  else
    let PacketSize := NET_BUFFER_DATA_LENGTH Nb in
    if PacketSize >? TUN_MAX_IP_PACKET_SIZE then
      SendDiscarded Ring NDIS_STATUS_INVALID_LENGTH
    else
      let AlignedPacketSize := TUN_ALIGN (sizeof_TUN_PACKET + PacketSize) in
      let RingHead := Head Ring in
      if RingHead >=? RingCapacity then
        SendDiscarded Ring NDIS_STATUS_ADAPTER_NOT_READY
      else
        let RingTail := Tail Ring in
        if RingTail >=? RingCapacity then
          SendDiscarded Ring NDIS_STATUS_ADAPTER_NOT_READY
        else
          let RingSpace := RingSpace RingHead RingTail RingCapacity in
          if AlignedPacketSize >? RingSpace then
            SendDiscarded Ring NDIS_STATUS_BUFFER_OVERFLOW
          else
            let Packet := RingTail in
            let PacketData := Packet + offsetof_TUN_PACKET_Data in
            let m1 := store_ULONG (Data Ring) Packet PacketSize in
            match NdisGetDataBuffer Nb PacketSize PacketData m1 with
            | (NbDataNull, m2) =>
                (* Status still holds the value assigned for the last test *)
                SendDiscarded (set_Data Ring m2) NDIS_STATUS_BUFFER_OVERFLOW
            | (NbDataStorage, m2) =>
                SendAccepted
                  (InterlockedExchangeU_Tail (set_Data Ring m2)
                     (TUN_RING_WRAP (Ulong.add RingTail AlignedPacketSize) RingCapacity))
            | (NbDataInternal, m2) =>
                let m3 := NdisMoveMemory m2 PacketData (NbBytes Nb) PacketSize in
                SendAccepted
                  (InterlockedExchangeU_Tail (set_Data Ring m3)
                     (TUN_RING_WRAP (Ulong.add RingTail AlignedPacketSize) RingCapacity))
            end.

(** The three flags an outbound packet needs. *)
Definition flags_all_set (Flags : Z) : Prop :=
  flag_set Flags TUN_FLAGS_PRESENT = true /\
  flag_set Flags TUN_FLAGS_RUNNING = true /\
  flag_set Flags TUN_FLAGS_CONNECTED = true.

(** The footprint of a net buffer in the ring. *)
Definition footprint (Nb : NET_BUFFER) : Z :=
  TUN_ALIGN (sizeof_TUN_PACKET + NET_BUFFER_DATA_LENGTH Nb).

(** The condition each failure status of the send path stands for. *)
Definition send_reject_condition (Flags RingCapacity : Z) (Ring : TUN_RING) (Nb : NET_BUFFER)
  (Status : NDIS_STATUS) : Prop :=
  match Status with
  | NDIS_STATUS_ADAPTER_REMOVED => flag_set Flags TUN_FLAGS_PRESENT = false
  | NDIS_STATUS_PAUSED => flag_set Flags TUN_FLAGS_RUNNING = false
  | NDIS_STATUS_MEDIA_DISCONNECTED => flag_set Flags TUN_FLAGS_CONNECTED = false
  | NDIS_STATUS_INVALID_LENGTH => NET_BUFFER_DATA_LENGTH Nb > TUN_MAX_IP_PACKET_SIZE
  | NDIS_STATUS_ADAPTER_NOT_READY => Head Ring >= RingCapacity \/ Tail Ring >= RingCapacity
  | NDIS_STATUS_BUFFER_OVERFLOW =>
      footprint Nb > RingSpace (Head Ring) (Tail Ring) RingCapacity
  | _ => False
  end.

(** All six tests of the send path pass. *)
Definition send_admissible (Flags RingCapacity : Z) (Ring : TUN_RING) (Nb : NET_BUFFER) : Prop :=
  flags_all_set Flags /\
  NET_BUFFER_DATA_LENGTH Nb <= TUN_MAX_IP_PACKET_SIZE /\
  Head Ring < RingCapacity /\ Tail Ring < RingCapacity /\
  footprint Nb <= RingSpace (Head Ring) (Tail Ring) RingCapacity.

(** The ring after a packet has been copied in at [Tail] and [Tail] moved. *)
Definition enqueued (RingCapacity : Z) (Ring : TUN_RING) (Nb : NET_BUFFER) : TUN_RING :=
  mkRing (Head Ring)
    (TUN_RING_WRAP (Ulong.add (Tail Ring) (footprint Nb)) RingCapacity)
    (Alertable Ring)
    (write_bytes
       (store_ULONG (Data Ring) (Tail Ring) (NET_BUFFER_DATA_LENGTH Nb))
       (Tail Ring + offsetof_TUN_PACKET_Data) (NbBytes Nb)).

(** The two loops over the batch.  A [NET_BUFFER_LIST] carries one status
    for all its net buffers; the locals [SentPacketsCount],
    [SentPacketsSize] and [DiscardedPacketsCount] and the number of
    [KeSetEvent] calls on the send ring's [TailMoved] are accumulated. *)

Record NET_BUFFER_LIST : Set := mkNbl {
  NblStatus : NDIS_STATUS;
  NblBuffers : list NET_BUFFER
}.

Record SEND_STATE : Set := mkSendState {
  SendRing : TUN_RING;
  SentPacketsCount : Z;
  SentPacketsSize : Z;
  DiscardedPacketsCount : Z;
  SendTailMovedSet : Z
}.

Definition TunSendStep (Flags RingCapacity : Z) (acc : SEND_STATE * NDIS_STATUS) (Nb : NET_BUFFER)
  : SEND_STATE * NDIS_STATUS :=
  let (s, NblSt) := acc in
  match TunSendNetBuffer Flags RingCapacity (SendRing s) Nb with
  | SendAccepted Ring' =>
      (mkSendState Ring' (SentPacketsCount s + 1)
         (SentPacketsSize s + NET_BUFFER_DATA_LENGTH Nb)
         (DiscardedPacketsCount s) (SendTailMovedSet s + 1),
       NblSt)
  | SendDiscarded Ring' Status =>
      (mkSendState Ring' (SentPacketsCount s) (SentPacketsSize s)
         (DiscardedPacketsCount s + 1) (SendTailMovedSet s),
       Status)
  end.

Definition TunSendNetBufferList (Flags RingCapacity : Z) (s : SEND_STATE) (Nbl : NET_BUFFER_LIST)
  : SEND_STATE * NET_BUFFER_LIST :=
  let (s', st) := fold_left (TunSendStep Flags RingCapacity) (NblBuffers Nbl) (s, NblStatus Nbl) in
  (s', mkNbl st (NblBuffers Nbl)).

Fixpoint TunSendNetBufferLists (Flags RingCapacity : Z) (s : SEND_STATE)
  (NetBufferLists : list NET_BUFFER_LIST) : SEND_STATE * list NET_BUFFER_LIST :=
  match NetBufferLists with
  | [] => (s, [])
  | Nbl :: rest =>
      let (s1, Nbl') := TunSendNetBufferList Flags RingCapacity s Nbl in
      let (s2, rest') := TunSendNetBufferLists Flags RingCapacity s1 rest in
      (s2, Nbl' :: rest')
  end.

(** ** Receive path: [TunProcessReceiveData] *)

Inductive NBL_FLAGS : Set := NDIS_NBL_FLAGS_IS_IPV4 | NDIS_NBL_FLAGS_IS_IPV6.

(** A packet indicated to NDIS: the flag set on the list and the bytes the
    net buffer describes (offset [Packet->Data - Ring] of the receive MDL,
    [PacketSize] bytes).  With [NDIS_RECEIVE_FLAGS_RESOURCES] the stack is
    done with the bytes when the indication returns. *)
Record INDICATION : Set := mkIndication {
  IndFlags : NBL_FLAGS;
  IndBytes : list UCHAR
}.

(** What the loop knows about the packet at [RingHead] after the length
    and content checks (lines following [RingContent]). *)
Record FRAME : Set := mkFrame {
  PacketSize : Z;
  AlignedPacketSize : Z;
  PacketBytes : list UCHAR
}.

Definition TunReceiveFrame (RingCapacity RingHead RingTail : Z) (m : memory) : option FRAME :=
  if RingTail >=? RingCapacity then None
  else
    let RingContent := RingContent RingTail RingHead RingCapacity in
    if RingContent <? sizeof_TUN_PACKET then None
    else
      let Packet := RingHead in
      let PacketSize := load_ULONG m Packet in
      if PacketSize >? TUN_MAX_IP_PACKET_SIZE then None
      else
        let AlignedPacketSize := TUN_ALIGN (sizeof_TUN_PACKET + PacketSize) in
        if AlignedPacketSize >? RingContent then None
        else
          Some (mkFrame PacketSize AlignedPacketSize
                  (read_bytes m (Packet + offsetof_TUN_PACKET_Data) (Z.to_nat PacketSize))).

(** [Packet->Data[0] >> 4]; only evaluated when [PacketSize >= 20]. *)
Definition first_nibble (f : FRAME) : Z :=
  Z.shiftr (Z_of_uchar (nth 0 (PacketBytes f) x00)) 4.

Definition TunClassify (f : FRAME) : option NBL_FLAGS :=
  if (PacketSize f >=? 20) && (first_nibble f =? 4) then Some NDIS_NBL_FLAGS_IS_IPV4
  else if (PacketSize f >=? 40) && (first_nibble f =? 6) then Some NDIS_NBL_FLAGS_IS_IPV6
  else None.

(** The statistics counters the two paths add to. *)
Record NDIS_STATISTICS_INFO : Set := mkStatistics {
  ifHCInOctets : Z;
  ifHCInUcastOctets : Z;
  ifHCInUcastPkts : Z;
  ifInDiscards : Z;
  ifHCOutOctets : Z;
  ifHCOutUcastOctets : Z;
  ifHCOutUcastPkts : Z;
  ifOutDiscards : Z
}.

(** The four [InterlockedAdd64] calls that end [TunSendNetBufferLists]. *)
Definition TunSendStatistics (st : NDIS_STATISTICS_INFO) (s : SEND_STATE) : NDIS_STATISTICS_INFO :=
  mkStatistics (ifHCInOctets st) (ifHCInUcastOctets st) (ifHCInUcastPkts st) (ifInDiscards st)
    (InterlockedAdd64 (ifHCOutOctets st) (SentPacketsSize s))
    (InterlockedAdd64 (ifHCOutUcastOctets st) (SentPacketsSize s))
    (InterlockedAdd64 (ifHCOutUcastPkts st) (SentPacketsCount s))
    (InterlockedAdd64 (ifOutDiscards st) (DiscardedPacketsCount s)).

(** State the receive worker acts on: the receive ring, the counters, the
    packets indicated so far (most recent first) and the number of net
    buffer lists taken from [Ctx->NblPool] and not yet freed. *)
Record RECEIVE_STATE : Set := mkReceiveState {
  ReceiveRing : TUN_RING;
  Statistics : NDIS_STATISTICS_INFO;
  Indicated : list INDICATION;
  NblOutstanding : Z
}.

Definition count_received (st : NDIS_STATISTICS_INFO) (PacketSize : Z) : NDIS_STATISTICS_INFO :=
  mkStatistics
    (InterlockedAdd64 (ifHCInOctets st) PacketSize)
    (InterlockedAdd64 (ifHCInUcastOctets st) PacketSize)
    (InterlockedIncrement64 (ifHCInUcastPkts st))
    (ifInDiscards st)
    (ifHCOutOctets st) (ifHCOutUcastOctets st) (ifHCOutUcastPkts st) (ifOutDiscards st).

Definition count_discarded (st : NDIS_STATISTICS_INFO) : NDIS_STATISTICS_INFO :=
  mkStatistics
    (ifHCInOctets st) (ifHCInUcastOctets st) (ifHCInUcastPkts st)
    (InterlockedIncrement64 (ifInDiscards st))
    (ifHCOutOctets st) (ifHCOutUcastOctets st) (ifHCOutUcastPkts st) (ifOutDiscards st).

Inductive RECEIVE_RESULT : Set :=
| ReceiveBreak
    (* the loop is left *)
| ReceiveWait
    (* Head == Tail: the spin-then-block path is entered *)
| ReceiveNext (s' : RECEIVE_STATE).
    (* nextPacket reached and Head advanced; the loop continues *)

(** The label [nextPacket]. *)
Definition nextPacket (RingCapacity RingHead : Z) (f : FRAME) (s : RECEIVE_STATE) : RECEIVE_STATE :=
  mkReceiveState
    (InterlockedExchangeU_Head (ReceiveRing s)
       (TUN_RING_WRAP (Ulong.add RingHead (AlignedPacketSize f)) RingCapacity))
    (Statistics s) (Indicated s) (NblOutstanding s).

(** The label [cleanupDiscardPacket], falling through to [nextPacket]. *)
Definition cleanupDiscardPacket (RingCapacity RingHead : Z) (f : FRAME) (s : RECEIVE_STATE)
  : RECEIVE_STATE :=
  nextPacket RingCapacity RingHead f
    (mkReceiveState (ReceiveRing s) (count_discarded (Statistics s)) (Indicated s)
       (NblOutstanding s)).

(** [NdisFreeNetBufferList]. *)
Definition NdisFreeNetBufferList (s : RECEIVE_STATE) : RECEIVE_STATE :=
  mkReceiveState (ReceiveRing s) (Statistics s) (Indicated s) (NblOutstanding s - 1).

(** The label [cleanupFreeNbl], falling through to [cleanupDiscardPacket]. *)
Definition cleanupFreeNbl (RingCapacity RingHead : Z) (f : FRAME) (s : RECEIVE_STATE)
  : RECEIVE_STATE :=
  cleanupDiscardPacket RingCapacity RingHead f (NdisFreeNetBufferList s).

(** From the test of [RingTail] against the capacity to [nextPacket], for
    the values of [Flags], [RingHead] and [RingTail] the iteration has read.
    [NblAllocated] is the outcome of [NdisAllocateNetBufferAndNetBufferList].
    The bytes between [RingHead] and [RingTail] are taken to be stable
    while the packet is processed. *)
Definition TunReceivePacket (Flags RingCapacity RingHead RingTail : Z) (NblAllocated : bool)
  (s : RECEIVE_STATE) : RECEIVE_RESULT :=
  match TunReceiveFrame RingCapacity RingHead RingTail (Data (ReceiveRing s)) with
  | None => ReceiveBreak
  | Some f =>
      match TunClassify f with
      | None => ReceiveBreak
      | Some NblFlags =>
          if negb NblAllocated then
            ReceiveNext (cleanupDiscardPacket RingCapacity RingHead f s)
          else
            let s1 := mkReceiveState (ReceiveRing s) (Statistics s) (Indicated s)
                        (NblOutstanding s + 1) in
            if negb (Z.land Flags (Z.lor TUN_FLAGS_PRESENT TUN_FLAGS_RUNNING)
                     =? Z.lor TUN_FLAGS_PRESENT TUN_FLAGS_RUNNING) then
              ReceiveNext (cleanupFreeNbl RingCapacity RingHead f s1)
            else
              let s2 := mkReceiveState (ReceiveRing s1)
                          (count_received (Statistics s1) (PacketSize f))
                          (mkIndication NblFlags (PacketBytes f) :: Indicated s1)
                          (NblOutstanding s1) in
              ReceiveNext (nextPacket RingCapacity RingHead f (NdisFreeNetBufferList s2))
      end
  end.

(** One pass through the body of the outer [for (;;)], up to the point where
    it leaves the loop, enters the wait path, or reaches [nextPacket]. *)
Definition TunReceiveIteration (Flags RingCapacity : Z) (NblAllocated : bool) (s : RECEIVE_STATE)
  : RECEIVE_RESULT :=
  if negb (flag_set Flags TUN_FLAGS_CONNECTED) then ReceiveBreak
  else
    let RingHead := Head (ReceiveRing s) in
    if RingHead >=? RingCapacity then ReceiveBreak
    else
      let RingTail := Tail (ReceiveRing s) in
      if RingHead =? RingTail then ReceiveWait
      else TunReceivePacket Flags RingCapacity RingHead RingTail NblAllocated s.

(** The wait path, from the values of [Ring->Tail] the worker observes: when
    the spin loop is left ([SpinTail]) and after [Alertable] has been set
    ([AlertTail]).  Either the worker has blocked and the outer loop
    restarts ([None]), or processing resumes with the re-read [RingTail].
    The state of the [TailMoved] event ([KeWaitForSingleObject],
    [KeClearEvent]) is not part of the ring and is not represented. *)
Definition TunReceiveWait (RingHead SpinTail AlertTail : Z) (Ring : TUN_RING)
  : TUN_RING * option Z :=
  if RingHead =? SpinTail then
    let Ring1 := set_Alertable Ring 1 in
    if RingHead =? AlertTail then (set_Alertable Ring1 0, None)
    else (set_Alertable Ring1 0, Some AlertTail)
  else (Ring, Some SpinTail).

(** What the worker does on leaving the loop. *)
Definition TunReceiveExit (s : RECEIVE_STATE) : RECEIVE_STATE :=
  mkReceiveState (InterlockedExchangeU_Head (ReceiveRing s) Ulong.MAXULONG)
    (Statistics s) (Indicated s) (NblOutstanding s).

(** ** Adapter context and kernel objects

    The fields of [TUN_CTX] the ring protocol uses, with the nested
    structs flattened ([Ctx->Device.Send.Capacity] is
    [Device_Send_Capacity]).  The locks are not state of this sequential
    model: the exclusive acquire-and-release of [TransitionLock] is
    recorded as an event. *)

Record TUN_CTX : Set := mkCtx {
  Ctx_Flags : Z;
  MiniportAdapterHandle : Z;
  Ctx_Statistics : NDIS_STATISTICS_INFO;
  Device_Owner : Z;
  Device_Send_Mdl : Z;
  Device_Send_Ring : Z;
  Device_Send_Capacity : Z;
  Device_Send_TailMoved : Z;
  Device_Receive_Mdl : Z;
  Device_Receive_Ring : Z;
  Device_Receive_Capacity : Z;
  Device_Receive_TailMoved : Z;
  Device_Receive_Thread : Z;
  NblPool : Z
}.

Definition set_Flags (c : TUN_CTX) (v : Z) : TUN_CTX :=
  mkCtx v (MiniportAdapterHandle c) (Ctx_Statistics c) (Device_Owner c)
    (Device_Send_Mdl c) (Device_Send_Ring c) (Device_Send_Capacity c) (Device_Send_TailMoved c)
    (Device_Receive_Mdl c) (Device_Receive_Ring c) (Device_Receive_Capacity c)
    (Device_Receive_TailMoved c) (Device_Receive_Thread c) (NblPool c).

Definition set_Owner (c : TUN_CTX) (v : Z) : TUN_CTX :=
  mkCtx (Ctx_Flags c) (MiniportAdapterHandle c) (Ctx_Statistics c) v
    (Device_Send_Mdl c) (Device_Send_Ring c) (Device_Send_Capacity c) (Device_Send_TailMoved c)
    (Device_Receive_Mdl c) (Device_Receive_Ring c) (Device_Receive_Capacity c)
    (Device_Receive_TailMoved c) (Device_Receive_Thread c) (NblPool c).

Definition set_Send_Mdl (c : TUN_CTX) (v : Z) : TUN_CTX :=
  mkCtx (Ctx_Flags c) (MiniportAdapterHandle c) (Ctx_Statistics c) (Device_Owner c)
    v (Device_Send_Ring c) (Device_Send_Capacity c) (Device_Send_TailMoved c)
    (Device_Receive_Mdl c) (Device_Receive_Ring c) (Device_Receive_Capacity c)
    (Device_Receive_TailMoved c) (Device_Receive_Thread c) (NblPool c).

Definition set_Send_Ring (c : TUN_CTX) (v : Z) : TUN_CTX :=
  mkCtx (Ctx_Flags c) (MiniportAdapterHandle c) (Ctx_Statistics c) (Device_Owner c)
    (Device_Send_Mdl c) v (Device_Send_Capacity c) (Device_Send_TailMoved c)
    (Device_Receive_Mdl c) (Device_Receive_Ring c) (Device_Receive_Capacity c)
    (Device_Receive_TailMoved c) (Device_Receive_Thread c) (NblPool c).

Definition set_Send_Capacity (c : TUN_CTX) (v : Z) : TUN_CTX :=
  mkCtx (Ctx_Flags c) (MiniportAdapterHandle c) (Ctx_Statistics c) (Device_Owner c)
    (Device_Send_Mdl c) (Device_Send_Ring c) v (Device_Send_TailMoved c)
    (Device_Receive_Mdl c) (Device_Receive_Ring c) (Device_Receive_Capacity c)
    (Device_Receive_TailMoved c) (Device_Receive_Thread c) (NblPool c).

Definition set_Send_TailMoved (c : TUN_CTX) (v : Z) : TUN_CTX :=
  mkCtx (Ctx_Flags c) (MiniportAdapterHandle c) (Ctx_Statistics c) (Device_Owner c)
    (Device_Send_Mdl c) (Device_Send_Ring c) (Device_Send_Capacity c) v
    (Device_Receive_Mdl c) (Device_Receive_Ring c) (Device_Receive_Capacity c)
    (Device_Receive_TailMoved c) (Device_Receive_Thread c) (NblPool c).

Definition set_Receive_Mdl (c : TUN_CTX) (v : Z) : TUN_CTX :=
  mkCtx (Ctx_Flags c) (MiniportAdapterHandle c) (Ctx_Statistics c) (Device_Owner c)
    (Device_Send_Mdl c) (Device_Send_Ring c) (Device_Send_Capacity c) (Device_Send_TailMoved c)
    v (Device_Receive_Ring c) (Device_Receive_Capacity c)
    (Device_Receive_TailMoved c) (Device_Receive_Thread c) (NblPool c).

Definition set_Receive_Ring (c : TUN_CTX) (v : Z) : TUN_CTX :=
  mkCtx (Ctx_Flags c) (MiniportAdapterHandle c) (Ctx_Statistics c) (Device_Owner c)
    (Device_Send_Mdl c) (Device_Send_Ring c) (Device_Send_Capacity c) (Device_Send_TailMoved c)
    (Device_Receive_Mdl c) v (Device_Receive_Capacity c)
    (Device_Receive_TailMoved c) (Device_Receive_Thread c) (NblPool c).

Definition set_Receive_Capacity (c : TUN_CTX) (v : Z) : TUN_CTX :=
  mkCtx (Ctx_Flags c) (MiniportAdapterHandle c) (Ctx_Statistics c) (Device_Owner c)
    (Device_Send_Mdl c) (Device_Send_Ring c) (Device_Send_Capacity c) (Device_Send_TailMoved c)
    (Device_Receive_Mdl c) (Device_Receive_Ring c) v
    (Device_Receive_TailMoved c) (Device_Receive_Thread c) (NblPool c).

Definition set_Receive_TailMoved (c : TUN_CTX) (v : Z) : TUN_CTX :=
  mkCtx (Ctx_Flags c) (MiniportAdapterHandle c) (Ctx_Statistics c) (Device_Owner c)
    (Device_Send_Mdl c) (Device_Send_Ring c) (Device_Send_Capacity c) (Device_Send_TailMoved c)
    (Device_Receive_Mdl c) (Device_Receive_Ring c) (Device_Receive_Capacity c)
    v (Device_Receive_Thread c) (NblPool c).

Definition set_Receive_Thread (c : TUN_CTX) (v : Z) : TUN_CTX :=
  mkCtx (Ctx_Flags c) (MiniportAdapterHandle c) (Ctx_Statistics c) (Device_Owner c)
    (Device_Send_Mdl c) (Device_Send_Ring c) (Device_Send_Capacity c) (Device_Send_TailMoved c)
    (Device_Receive_Mdl c) (Device_Receive_Ring c) (Device_Receive_Capacity c)
    (Device_Receive_TailMoved c) v (NblPool c).

(** [InterlockedCompareExchangePointer(&Ctx->Device.Owner, Exchange, Comperand)]:
    the previous owner, and the context after the operation. *)
Definition InterlockedCompareExchangePointer_Owner (c : TUN_CTX) (Exchange Comperand : Z)
  : Z * TUN_CTX :=
  (Device_Owner c, if Device_Owner c =? Comperand then set_Owner c Exchange else c).

(** [InterlockedExchangePointer(&Ctx->Device.Owner, v)]. *)
Definition InterlockedExchangePointer_Owner := set_Owner.

(** Kernel objects the handshake acquires and releases, the mapped rings by
    system address, and the calls with an effect outside the context, most
    recent first. *)

Inductive MEDIA_CONNECT_STATE : Set :=
| MediaConnectStateConnected
| MediaConnectStateDisconnected.

Inductive KERNEL_CALL : Set :=
| CallKeSetEvent (Event : Z)
| CallTunIndicateStatus (State : MEDIA_CONNECT_STATE)
| CallTransitionBarrier
| CallThreadJoined (Thread : Z).

Record KERNEL : Type := mkKernel {
  ObjectReferences : list Z;
    (* objects referenced by handle and not yet dereferenced *)
  Mdls : list Z;
    (* MDLs allocated and not yet freed *)
  LockedPages : list (Z * bool);
    (* MDLs whose pages are locked; the flag tells whether they are mapped
       into system address space *)
  OpenHandles : list Z;
    (* kernel handles created and not yet closed *)
  RingMemory : Z -> TUN_RING;
    (* the ring found at a system address *)
  Calls : list KERNEL_CALL
}.

Fixpoint remove_one (x : Z) (l : list Z) : list Z :=
  match l with
  | [] => []
  | y :: l' => if x =? y then l' else y :: remove_one x l'
  end.

Fixpoint mark_mapped (mdl : Z) (l : list (Z * bool)) : list (Z * bool) :=
  match l with
  | [] => []
  | (m, b) :: l' => if mdl =? m then (m, true) :: l' else (m, b) :: mark_mapped mdl l'
  end.

Fixpoint remove_locked (mdl : Z) (l : list (Z * bool)) : list (Z * bool) :=
  match l with
  | [] => []
  | (m, b) :: l' => if mdl =? m then l' else (m, b) :: remove_locked mdl l'
  end.

Definition ObReferenceObjectByHandle (K : KERNEL) (Status : NTSTATUS) (Object : Z) : KERNEL :=
  if NT_SUCCESS Status then
    mkKernel (Object :: ObjectReferences K) (Mdls K) (LockedPages K) (OpenHandles K)
      (RingMemory K) (Calls K)
  else K.

Definition ObDereferenceObject (K : KERNEL) (Object : Z) : KERNEL :=
  mkKernel (remove_one Object (ObjectReferences K)) (Mdls K) (LockedPages K) (OpenHandles K)
    (RingMemory K) (Calls K).

(** [IoAllocateMdl] returning [Mdl] ([NULL] on failure). *)
Definition IoAllocateMdl (K : KERNEL) (Mdl : Z) : KERNEL :=
  if Mdl =? NULL then K
  else mkKernel (ObjectReferences K) (Mdl :: Mdls K) (LockedPages K) (OpenHandles K)
         (RingMemory K) (Calls K).

Definition IoFreeMdl (K : KERNEL) (Mdl : Z) : KERNEL :=
  mkKernel (ObjectReferences K) (remove_one Mdl (Mdls K)) (LockedPages K) (OpenHandles K)
    (RingMemory K) (Calls K).

(** [MmProbeAndLockPages] when it does not raise. *)
Definition MmProbeAndLockPages (K : KERNEL) (Mdl : Z) : KERNEL :=
  mkKernel (ObjectReferences K) (Mdls K) ((Mdl, false) :: LockedPages K) (OpenHandles K)
    (RingMemory K) (Calls K).

(** [MmGetSystemAddressForMdlSafe] returning [Address] ([NULL] on failure). *)
Definition MmGetSystemAddressForMdlSafe (K : KERNEL) (Mdl Address : Z) : KERNEL :=
  if Address =? NULL then K
  else mkKernel (ObjectReferences K) (Mdls K) (mark_mapped Mdl (LockedPages K)) (OpenHandles K)
         (RingMemory K) (Calls K).

(** [MmUnlockPages] also releases the system mapping of the pages. *)
Definition MmUnlockPages (K : KERNEL) (Mdl : Z) : KERNEL :=
  mkKernel (ObjectReferences K) (Mdls K) (remove_locked Mdl (LockedPages K)) (OpenHandles K)
    (RingMemory K) (Calls K).

Definition PsCreateSystemThread (K : KERNEL) (Status : NTSTATUS) (Thread : Z) : KERNEL :=
  if NT_SUCCESS Status then
    mkKernel (ObjectReferences K) (Mdls K) (LockedPages K) (Thread :: OpenHandles K)
      (RingMemory K) (Calls K)
  else K.

Definition ZwClose (K : KERNEL) (Handle : Z) : KERNEL :=
  mkKernel (ObjectReferences K) (Mdls K) (LockedPages K) (remove_one Handle (OpenHandles K))
    (RingMemory K) (Calls K).

Definition kernel_call (K : KERNEL) (c : KERNEL_CALL) : KERNEL :=
  mkKernel (ObjectReferences K) (Mdls K) (LockedPages K) (OpenHandles K)
    (RingMemory K) (c :: Calls K).

Definition KeSetEvent (K : KERNEL) (Event : Z) : KERNEL := kernel_call K (CallKeSetEvent Event).

Definition TunIndicateStatus (K : KERNEL) (State : MEDIA_CONNECT_STATE) : KERNEL :=
  kernel_call K (CallTunIndicateStatus State).

(** [ExReleaseSpinLockExclusive(&Ctx->TransitionLock, ExAcquireSpinLockExclusive(...))]. *)
Definition TransitionBarrier (K : KERNEL) : KERNEL := kernel_call K CallTransitionBarrier.

(** A store to [Tail] of the ring at a system address. *)
Definition store_ring_Tail (K : KERNEL) (Address v : Z) : KERNEL :=
  mkKernel (ObjectReferences K) (Mdls K) (LockedPages K) (OpenHandles K)
    (fun a => if a =? Address then set_Tail (RingMemory K a) v else RingMemory K a)
    (Calls K).

(** A store to [Head] of the ring at a system address. *)
Definition store_ring_Head (K : KERNEL) (Address v : Z) : KERNEL :=
  mkKernel (ObjectReferences K) (Mdls K) (LockedPages K) (OpenHandles K)
    (fun a => if a =? Address then set_Head (RingMemory K a) v else RingMemory K a)
    (Calls K).

(** [KeWaitForSingleObject] on the worker's thread object.  The wait
    returns when the worker has returned from [TunProcessReceiveData],
    whose last statement stores [MAXULONG] in [Head] of the receive ring:
    when the wait is over that store has been made. *)
Definition KeWaitForWorker (K : KERNEL) (Thread ReceiveRing : Z) : KERNEL :=
  kernel_call (store_ring_Head K ReceiveRing Ulong.MAXULONG) (CallThreadJoined Thread).

(** What registration pins, maps, references or opens. *)
Definition kernel_resources (K : KERNEL) : list Z * list Z * list (Z * bool) * list Z :=
  (ObjectReferences K, Mdls K, LockedPages K, OpenHandles K).

(** ** Registration: [TunDispatchRegisterBuffers] *)

Record TUN_REGISTER_RING : Set := mkRegisterRing {
  RingSize : Z;
  Ring : Z;
  TailMoved : Z
}.

Record TUN_REGISTER_RINGS : Set := mkRegisterRings {
  Rrb_Send : TUN_REGISTER_RING;
  Rrb_Receive : TUN_REGISTER_RING
}.

(** Each of the two members is a [ULONG] padded to pointer alignment, a
    pointer and a handle: six pointer sizes in all (a 64-bit target here;
    nothing below depends on the value). *)
Definition sizeof_pointer : Z := 8.
Definition sizeof_TUN_REGISTER_RINGS : Z := 6 * sizeof_pointer.

(** The parts of the IRP and of its current stack location the operation
    reads. *)
Record IRP : Set := mkIrp {
  FileObject : Z;
  InputBufferLength : Z;
  SystemBuffer : TUN_REGISTER_RINGS
}.

(** What the kernel answers to the calls of one registration: for
    [ObReferenceObjectByHandle] the status and the pointer left in the
    output argument, for [IoAllocateMdl] and [MmGetSystemAddressForMdlSafe]
    the pointer returned, for [MmProbeAndLockPages] whether it returns
    without raising, for [PsCreateSystemThread] the status and the handle. *)
Record REGISTER_ENV : Set := mkRegisterEnv {
  Send_TailMoved_Reference : NTSTATUS * Z;
  Send_Mdl_Allocated : Z;
  Send_Pages_Locked : bool;
  Send_System_Address : Z;
  Receive_TailMoved_Reference : NTSTATUS * Z;
  Receive_Mdl_Allocated : Z;
  Receive_Pages_Locked : bool;
  Receive_System_Address : Z;
  Thread_Created : NTSTATUS * Z
}.

Definition REGISTER_RESULT : Type := NTSTATUS * TUN_CTX * KERNEL.

(** The cleanup labels, each falling through to the next. *)

Definition cleanupResetOwner (Status : NTSTATUS) (Ctx : TUN_CTX) (K : KERNEL) : REGISTER_RESULT :=
  (Status, InterlockedExchangePointer_Owner Ctx NULL, K).

Definition cleanupSendTailMoved (Status : NTSTATUS) (Ctx : TUN_CTX) (K : KERNEL)
  : REGISTER_RESULT :=
  cleanupResetOwner Status Ctx (ObDereferenceObject K (Device_Send_TailMoved Ctx)).

Definition cleanupSendMdl (Status : NTSTATUS) (Ctx : TUN_CTX) (K : KERNEL) : REGISTER_RESULT :=
  cleanupSendTailMoved Status Ctx (IoFreeMdl K (Device_Send_Mdl Ctx)).

Definition cleanupSendUnlockPages (Status : NTSTATUS) (Ctx : TUN_CTX) (K : KERNEL)
  : REGISTER_RESULT :=
  cleanupSendMdl Status Ctx (MmUnlockPages K (Device_Send_Mdl Ctx)).

Definition cleanupReceiveTailMoved (Status : NTSTATUS) (Ctx : TUN_CTX) (K : KERNEL)
  : REGISTER_RESULT :=
  cleanupSendUnlockPages Status Ctx (ObDereferenceObject K (Device_Receive_TailMoved Ctx)).

Definition cleanupReceiveMdl (Status : NTSTATUS) (Ctx : TUN_CTX) (K : KERNEL)
  : REGISTER_RESULT :=
  cleanupReceiveTailMoved Status Ctx (IoFreeMdl K (Device_Receive_Mdl Ctx)).

Definition cleanupReceiveUnlockPages (Status : NTSTATUS) (Ctx : TUN_CTX) (K : KERNEL)
  : REGISTER_RESULT :=
  cleanupReceiveMdl Status Ctx (MmUnlockPages K (Device_Receive_Mdl Ctx)).

Definition cleanupFlagsConnected (Status : NTSTATUS) (Ctx : TUN_CTX) (K : KERNEL)
  : REGISTER_RESULT :=
  cleanupReceiveUnlockPages Status
    (set_Flags Ctx (InterlockedAnd (Ctx_Flags Ctx) (Z.lnot TUN_FLAGS_CONNECTED)))
    (TransitionBarrier K).

(** The test applied to each ring descriptor after its capacity is stored. *)
Definition ring_rejected (Capacity : Z) (r : TUN_REGISTER_RING) : bool :=
  capacity_rejected Capacity || (TailMoved r =? NULL) || (Ring r =? NULL).

(** From "Analyze and lock receive ring" to the end. *)
Definition TunRegisterReceiveRing (Env : REGISTER_ENV) (Rrb : TUN_REGISTER_RINGS)
  (Ctx : TUN_CTX) (K : KERNEL) : REGISTER_RESULT :=
  let Ctx := set_Receive_Capacity Ctx (TUN_RING_CAPACITY (RingSize (Rrb_Receive Rrb))) in
  if ring_rejected (Device_Receive_Capacity Ctx) (Rrb_Receive Rrb) then
    cleanupSendUnlockPages STATUS_INVALID_PARAMETER Ctx K
  else
    let (Status, Object) := Receive_TailMoved_Reference Env in
    let Ctx := set_Receive_TailMoved Ctx Object in
    let K := ObReferenceObjectByHandle K Status Object in
    if negb (NT_SUCCESS Status) then cleanupSendUnlockPages Status Ctx K
    else
      let Ctx := set_Receive_Mdl Ctx (Receive_Mdl_Allocated Env) in
      let K := IoAllocateMdl K (Device_Receive_Mdl Ctx) in
      if Device_Receive_Mdl Ctx =? NULL then
        cleanupReceiveTailMoved STATUS_INSUFFICIENT_RESOURCES Ctx K
      else if negb (Receive_Pages_Locked Env) then
        cleanupReceiveMdl STATUS_INVALID_USER_BUFFER Ctx K
      else
        let K := MmProbeAndLockPages K (Device_Receive_Mdl Ctx) in
        let Ctx := set_Receive_Ring Ctx (Receive_System_Address Env) in
        let K := MmGetSystemAddressForMdlSafe K (Device_Receive_Mdl Ctx)
                   (Device_Receive_Ring Ctx) in
        if Device_Receive_Ring Ctx =? NULL then
          cleanupReceiveUnlockPages STATUS_INSUFFICIENT_RESOURCES Ctx K
        else
          let Ctx := set_Flags Ctx (InterlockedOr (Ctx_Flags Ctx) TUN_FLAGS_CONNECTED) in
          (* Spawn receiver thread. *)
          let (ThreadStatus, Thread) := Thread_Created Env in
          let Ctx := set_Receive_Thread Ctx Thread in
          let K := PsCreateSystemThread K ThreadStatus Thread in
          if negb (NT_SUCCESS ThreadStatus) then
            cleanupFlagsConnected NDIS_STATUS_FAILURE Ctx K
          else
            (STATUS_SUCCESS, Ctx,
             TunIndicateStatus K MediaConnectStateConnected).

(** From "Analyze and lock send ring" to the receive ring. *)
Definition TunRegisterSendRing (Env : REGISTER_ENV) (Rrb : TUN_REGISTER_RINGS)
  (Ctx : TUN_CTX) (K : KERNEL) : REGISTER_RESULT :=
  let Ctx := set_Send_Capacity Ctx (TUN_RING_CAPACITY (RingSize (Rrb_Send Rrb))) in
  if ring_rejected (Device_Send_Capacity Ctx) (Rrb_Send Rrb) then
    cleanupResetOwner STATUS_INVALID_PARAMETER Ctx K
  else
    let (Status, Object) := Send_TailMoved_Reference Env in
    let Ctx := set_Send_TailMoved Ctx Object in
    let K := ObReferenceObjectByHandle K Status Object in
    if negb (NT_SUCCESS Status) then cleanupResetOwner Status Ctx K
    else
      let Ctx := set_Send_Mdl Ctx (Send_Mdl_Allocated Env) in
      let K := IoAllocateMdl K (Device_Send_Mdl Ctx) in
      if Device_Send_Mdl Ctx =? NULL then
        cleanupSendTailMoved STATUS_INSUFFICIENT_RESOURCES Ctx K
      else if negb (Send_Pages_Locked Env) then
        cleanupSendMdl STATUS_INVALID_USER_BUFFER Ctx K
      else
        let K := MmProbeAndLockPages K (Device_Send_Mdl Ctx) in
        let Ctx := set_Send_Ring Ctx (Send_System_Address Env) in
        let K := MmGetSystemAddressForMdlSafe K (Device_Send_Mdl Ctx) (Device_Send_Ring Ctx) in
        if Device_Send_Ring Ctx =? NULL then
          cleanupSendUnlockPages STATUS_INSUFFICIENT_RESOURCES Ctx K
        else
          TunRegisterReceiveRing Env Rrb Ctx K.

Definition TunDispatchRegisterBuffers (Env : REGISTER_ENV) (Ctx : TUN_CTX) (K : KERNEL)
  (Irp : IRP) : REGISTER_RESULT :=
  let (Previous, Claimed) :=
    InterlockedCompareExchangePointer_Owner Ctx (FileObject Irp) NULL in
  if negb (Previous =? NULL) then (STATUS_ALREADY_INITIALIZED, Claimed, K)
  else
    let Rrb := SystemBuffer Irp in
    if negb (InputBufferLength Irp =? sizeof_TUN_REGISTER_RINGS) then
      cleanupResetOwner STATUS_INVALID_PARAMETER Claimed K
    else
      TunRegisterSendRing Env Rrb Claimed K.

(** ** Teardown: [TunDispatchUnregisterBuffers]

    [ThreadReferenced] tells whether [ObReferenceObjectByHandle] on the
    worker's handle succeeds, in which case the caller waits for the worker
    to exit; the worker's last store, of [MAXULONG] to [Head] of the
    receive ring, is then behind it.  The passes the worker makes before
    it exits are its own ([TunReceiveIteration]): here the receive ring
    is the one the worker finds when it leaves its loop. *)
Definition TunDispatchUnregisterBuffers (ThreadReferenced : bool) (Ctx : TUN_CTX) (K : KERNEL)
  (Owner : Z) : TUN_CTX * KERNEL :=
  let (Previous, Ctx) := InterlockedCompareExchangePointer_Owner Ctx NULL Owner in
  if negb (Previous =? Owner) then (Ctx, K)
  else
    let Ctx := set_Flags Ctx (InterlockedAnd (Ctx_Flags Ctx) (Z.lnot TUN_FLAGS_CONNECTED)) in
    let K := TransitionBarrier K in
    let K := KeSetEvent K (Device_Receive_TailMoved Ctx) in
    let K := TunIndicateStatus K MediaConnectStateDisconnected in
    let K := if ThreadReferenced
             then KeWaitForWorker K (Device_Receive_Thread Ctx) (Device_Receive_Ring Ctx)
             else K in
    let K := ZwClose K (Device_Receive_Thread Ctx) in
    let K := store_ring_Tail K (Device_Send_Ring Ctx) Ulong.MAXULONG in
    let K := KeSetEvent K (Device_Send_TailMoved Ctx) in
    let K := MmUnlockPages K (Device_Receive_Mdl Ctx) in
    let K := IoFreeMdl K (Device_Receive_Mdl Ctx) in
    let K := ObDereferenceObject K (Device_Receive_TailMoved Ctx) in
    let K := MmUnlockPages K (Device_Send_Mdl Ctx) in
    let K := IoFreeMdl K (Device_Send_Mdl Ctx) in
    let K := ObDereferenceObject K (Device_Send_TailMoved Ctx) in
    (Ctx, K).

(** What "no registration takes effect" means for a context and kernel
    before and after a call: the owner and the fields outside [Device.Send]
    and [Device.Receive] are as before, the flags word is as before or
    differs from it in [TUN_FLAGS_CONNECTED] being clear, nothing stays
    referenced, allocated, locked, mapped or open that was not before, and
    no ring is written. *)
Definition unwound (Ctx Ctx' : TUN_CTX) (K K' : KERNEL) : Prop :=
  Device_Owner Ctx' = Device_Owner Ctx /\
  (Ctx_Flags Ctx' = Ctx_Flags Ctx \/
   Ctx_Flags Ctx' = Z.land (Ctx_Flags Ctx) (Z.lnot TUN_FLAGS_CONNECTED)) /\
  MiniportAdapterHandle Ctx' = MiniportAdapterHandle Ctx /\
  Ctx_Statistics Ctx' = Ctx_Statistics Ctx /\
  NblPool Ctx' = NblPool Ctx /\
  kernel_resources K' = kernel_resources K /\
  RingMemory K' = RingMemory K.

(** The state a cleanup label leaves: the owner is reset, the resources
    and rings are those of [K0], and the context outside [Device.Send],
    [Device.Receive] and the flags word is that of [Ctx]. *)
Definition released (Ctx : TUN_CTX) (K0 : KERNEL) (r : REGISTER_RESULT) : Prop :=
  Device_Owner (snd (fst r)) = NULL /\
  MiniportAdapterHandle (snd (fst r)) = MiniportAdapterHandle Ctx /\
  Ctx_Statistics (snd (fst r)) = Ctx_Statistics Ctx /\
  NblPool (snd (fst r)) = NblPool Ctx /\
  kernel_resources (snd r) = kernel_resources K0 /\
  RingMemory (snd r) = RingMemory K0.

(** The send ring passes its test and its event, MDL, page lock and mapping
    are all obtained. *)
Definition send_ring_registers (Env : REGISTER_ENV) (Irp : IRP) : Prop :=
  InputBufferLength Irp = sizeof_TUN_REGISTER_RINGS /\
  ring_rejected (TUN_RING_CAPACITY (RingSize (Rrb_Send (SystemBuffer Irp))))
    (Rrb_Send (SystemBuffer Irp)) = false /\
  NT_SUCCESS (fst (Send_TailMoved_Reference Env)) = true /\
  Send_Mdl_Allocated Env <> NULL /\
  Send_Pages_Locked Env = true /\
  Send_System_Address Env <> NULL.

(** The status of the first step of the send ring's registration that does
    not go through, if there is one: the test of the descriptor, the
    reference to the event, the allocation of the MDL, the page lock, the
    mapping. *)
Definition send_ring_failure (Env : REGISTER_ENV) (Rrb : TUN_REGISTER_RINGS)
  : option NTSTATUS :=
  if ring_rejected (TUN_RING_CAPACITY (RingSize (Rrb_Send Rrb))) (Rrb_Send Rrb) then
    Some STATUS_INVALID_PARAMETER
  else if negb (NT_SUCCESS (fst (Send_TailMoved_Reference Env))) then
    Some (fst (Send_TailMoved_Reference Env))
  else if Send_Mdl_Allocated Env =? NULL then Some STATUS_INSUFFICIENT_RESOURCES
  else if negb (Send_Pages_Locked Env) then Some STATUS_INVALID_USER_BUFFER
  else if Send_System_Address Env =? NULL then Some STATUS_INSUFFICIENT_RESOURCES
  else None.

(** The same for the receive ring, whose steps come after those of the
    send ring. *)
Definition receive_ring_failure (Env : REGISTER_ENV) (Rrb : TUN_REGISTER_RINGS)
  : option NTSTATUS :=
  if ring_rejected (TUN_RING_CAPACITY (RingSize (Rrb_Receive Rrb))) (Rrb_Receive Rrb) then
    Some STATUS_INVALID_PARAMETER
  else if negb (NT_SUCCESS (fst (Receive_TailMoved_Reference Env))) then
    Some (fst (Receive_TailMoved_Reference Env))
  else if Receive_Mdl_Allocated Env =? NULL then Some STATUS_INSUFFICIENT_RESOURCES
  else if negb (Receive_Pages_Locked Env) then Some STATUS_INVALID_USER_BUFFER
  else if Receive_System_Address Env =? NULL then Some STATUS_INSUFFICIENT_RESOURCES
  else None.

(** The status a failing registration returns on an adapter nobody owns
    for a request of the right length: that of the first failing step of
    the send ring, else of the receive ring, else the failure to create
    the worker. *)
Definition registration_failure_status (Env : REGISTER_ENV) (Rrb : TUN_REGISTER_RINGS)
  : NTSTATUS :=
  match send_ring_failure Env Rrb with
  | Some Status => Status
  | None =>
      match receive_ring_failure Env Rrb with
      | Some Status => Status
      | None => NDIS_STATUS_FAILURE
      end
  end.

(** How far an attempt at registration gets once the owner has been
    claimed and the length test passed.  Each test says that the store
    named after it is made: of the pointer to the send ring's event, of its
    MDL, of its system address, of the receive ring's capacity, of the
    pointer to its event, of its MDL, of its system address, of the
    worker's handle.  Each store is made when the one before it was made
    and the test between them passed. *)
Definition send_event_stored (Env : REGISTER_ENV) (Rrb : TUN_REGISTER_RINGS) : bool :=
  negb (ring_rejected (TUN_RING_CAPACITY (RingSize (Rrb_Send Rrb))) (Rrb_Send Rrb)).

Definition send_mdl_stored (Env : REGISTER_ENV) (Rrb : TUN_REGISTER_RINGS) : bool :=
  send_event_stored Env Rrb && NT_SUCCESS (fst (Send_TailMoved_Reference Env)).

Definition send_ring_stored (Env : REGISTER_ENV) (Rrb : TUN_REGISTER_RINGS) : bool :=
  send_mdl_stored Env Rrb && negb (Send_Mdl_Allocated Env =? NULL) && Send_Pages_Locked Env.

Definition receive_capacity_stored (Env : REGISTER_ENV) (Rrb : TUN_REGISTER_RINGS) : bool :=
  send_ring_stored Env Rrb && negb (Send_System_Address Env =? NULL).

Definition receive_event_stored (Env : REGISTER_ENV) (Rrb : TUN_REGISTER_RINGS) : bool :=
  receive_capacity_stored Env Rrb &&
  negb (ring_rejected (TUN_RING_CAPACITY (RingSize (Rrb_Receive Rrb))) (Rrb_Receive Rrb)).

Definition receive_mdl_stored (Env : REGISTER_ENV) (Rrb : TUN_REGISTER_RINGS) : bool :=
  receive_event_stored Env Rrb && NT_SUCCESS (fst (Receive_TailMoved_Reference Env)).

Definition receive_ring_stored (Env : REGISTER_ENV) (Rrb : TUN_REGISTER_RINGS) : bool :=
  receive_mdl_stored Env Rrb && negb (Receive_Mdl_Allocated Env =? NULL) &&
  Receive_Pages_Locked Env.

Definition thread_stored (Env : REGISTER_ENV) (Rrb : TUN_REGISTER_RINGS) : bool :=
  receive_ring_stored Env Rrb && negb (Receive_System_Address Env =? NULL).

(** What an attempt at registration leaves in [Device.Send] and
    [Device.Receive] once the owner has been claimed and the length test
    passed: the send capacity is the one computed from the request, and
    each other field holds the value the attempt stored in it when it got
    that far, and its old value when it did not. *)
Definition attempt_left (Env : REGISTER_ENV) (Rrb : TUN_REGISTER_RINGS) (Ctx Ctx' : TUN_CTX)
  : Prop :=
  Device_Send_Capacity Ctx' = TUN_RING_CAPACITY (RingSize (Rrb_Send Rrb)) /\
  Device_Send_TailMoved Ctx'
  = (if send_event_stored Env Rrb then snd (Send_TailMoved_Reference Env)
     else Device_Send_TailMoved Ctx) /\
  Device_Send_Mdl Ctx'
  = (if send_mdl_stored Env Rrb then Send_Mdl_Allocated Env else Device_Send_Mdl Ctx) /\
  Device_Send_Ring Ctx'
  = (if send_ring_stored Env Rrb then Send_System_Address Env else Device_Send_Ring Ctx) /\
  Device_Receive_Capacity Ctx'
  = (if receive_capacity_stored Env Rrb
     then TUN_RING_CAPACITY (RingSize (Rrb_Receive Rrb))
     else Device_Receive_Capacity Ctx) /\
  Device_Receive_TailMoved Ctx'
  = (if receive_event_stored Env Rrb then snd (Receive_TailMoved_Reference Env)
     else Device_Receive_TailMoved Ctx) /\
  Device_Receive_Mdl Ctx'
  = (if receive_mdl_stored Env Rrb then Receive_Mdl_Allocated Env
     else Device_Receive_Mdl Ctx) /\
  Device_Receive_Ring Ctx'
  = (if receive_ring_stored Env Rrb then Receive_System_Address Env
     else Device_Receive_Ring Ctx) /\
  Device_Receive_Thread Ctx'
  = (if thread_stored Env Rrb then snd (Thread_Created Env)
     else Device_Receive_Thread Ctx).

(** ** Sample inputs

    A ring of the minimum legal capacity, zero-filled and empty; the same
    ring with 24 bytes of free space; a 20-byte IPv4-shaped payload in the
    three layouts; all three flags set. *)

Definition sample_capacity : Z := TUN_MIN_RING_CAPACITY.

Definition sample_flags : Z :=
  Z.lor TUN_FLAGS_RUNNING (Z.lor TUN_FLAGS_PRESENT TUN_FLAGS_CONNECTED).

Definition sample_ring : TUN_RING := mkRing 0 0 0 (fun _ => x00).

Definition sample_ring_24_free : TUN_RING := mkRing 28 0 0 (fun _ => x00).

Definition sample_payload : list UCHAR := x45 :: repeat x00 19.

Definition sample_nb : NET_BUFFER := mkNb sample_payload NbContiguous.

Definition sample_nb_scattered : NET_BUFFER := mkNb sample_payload NbScattered.

Definition sample_nb_unmappable : NET_BUFFER := mkNb sample_payload NbUnmappable.

(** A net buffer one byte longer than the largest IP packet. *)
Definition sample_nb_oversize : NET_BUFFER :=
  mkNb (repeat x00 (Z.to_nat (TUN_MAX_IP_PACKET_SIZE + 1))) NbContiguous.

Definition sample_statistics : NDIS_STATISTICS_INFO := mkStatistics 0 0 0 0 0 0 0 0.

(** A receive worker state whose ring holds the sample packet. *)
Definition sample_receive_state : RECEIVE_STATE :=
  mkReceiveState (enqueued sample_capacity sample_ring sample_nb) sample_statistics [] 0.

(** An adapter that is present and running with no endpoint registered, a
    kernel holding nothing for it, a well-formed registration request for
    two rings of the minimum capacity from file object [0x1000], and a
    kernel that grants every call. *)

Definition sample_ctx : TUN_CTX :=
  mkCtx (Z.lor TUN_FLAGS_RUNNING TUN_FLAGS_PRESENT) 0x100 sample_statistics
    NULL 0 0 0 0 0 0 0 0 0 0x200.

Definition sample_kernel : KERNEL :=
  mkKernel [] [] [] [] (fun _ => sample_ring) [].

Definition sample_ring_size : Z :=
  TUN_MIN_RING_CAPACITY + sizeof_TUN_RING + (TUN_MAX_PACKET_SIZE - TUN_ALIGNMENT).

Definition sample_rrb : TUN_REGISTER_RINGS :=
  mkRegisterRings (mkRegisterRing sample_ring_size 0x10000000 0x44)
    (mkRegisterRing sample_ring_size 0x20000000 0x48).

Definition sample_irp : IRP := mkIrp 0x1000 sizeof_TUN_REGISTER_RINGS sample_rrb.

Definition sample_env : REGISTER_ENV :=
  mkRegisterEnv (STATUS_SUCCESS, 0x5000) 0x6000 true 0x7000
    (STATUS_SUCCESS, 0x5100) 0x6100 true 0x7100 (STATUS_SUCCESS, 0x80).

(** The same request one byte short. *)
Definition sample_irp_short : IRP :=
  mkIrp 0x1000 (sizeof_TUN_REGISTER_RINGS - 1) sample_rrb.

(** The same request with a send ring too small to hold the ring header. *)
Definition sample_irp_small_send : IRP :=
  mkIrp 0x1000 sizeof_TUN_REGISTER_RINGS
    (mkRegisterRings (mkRegisterRing 0 0x10000000 0x44)
       (mkRegisterRing sample_ring_size 0x20000000 0x48)).

(** The same request with a receive ring too small to hold the ring header. *)
Definition sample_irp_small_receive : IRP :=
  mkIrp 0x1000 sizeof_TUN_REGISTER_RINGS
    (mkRegisterRings (mkRegisterRing sample_ring_size 0x10000000 0x44)
       (mkRegisterRing 0 0x20000000 0x48)).

(** A kernel that does not know the send ring's event handle. *)
Definition sample_env_bad_send_handle : REGISTER_ENV :=
  mkRegisterEnv (STATUS_INVALID_HANDLE, NULL) 0x6000 true 0x7000
    (STATUS_SUCCESS, 0x5100) 0x6100 true 0x7100 (STATUS_SUCCESS, 0x80).

(** A kernel that cannot allocate the receive ring's MDL. *)
Definition sample_env_no_receive_mdl : REGISTER_ENV :=
  mkRegisterEnv (STATUS_SUCCESS, 0x5000) 0x6000 true 0x7000
    (STATUS_SUCCESS, 0x5100) NULL true 0x7100 (STATUS_SUCCESS, 0x80).

(** The sample adapter after the sample registration. *)
Definition sample_registered : TUN_CTX * KERNEL :=
  (snd (fst (TunDispatchRegisterBuffers sample_env sample_ctx sample_kernel sample_irp)),
   snd (TunDispatchRegisterBuffers sample_env sample_ctx sample_kernel sample_irp)).

(** ** The registered state

    The context and the kernel objects a granted registration leaves:
    the caller is owner, [TUN_FLAGS_CONNECTED] is set, the two events are
    referenced, the two MDLs are allocated, locked and mapped, the worker's
    handle is open, and link-up has been indicated. *)

Definition registered_ctx (Env : REGISTER_ENV) (Ctx : TUN_CTX) (Irp : IRP) : TUN_CTX :=
  mkCtx (InterlockedOr (Ctx_Flags Ctx) TUN_FLAGS_CONNECTED)
    (MiniportAdapterHandle Ctx) (Ctx_Statistics Ctx) (FileObject Irp)
    (Send_Mdl_Allocated Env) (Send_System_Address Env)
    (TUN_RING_CAPACITY (RingSize (Rrb_Send (SystemBuffer Irp))))
    (snd (Send_TailMoved_Reference Env))
    (Receive_Mdl_Allocated Env) (Receive_System_Address Env)
    (TUN_RING_CAPACITY (RingSize (Rrb_Receive (SystemBuffer Irp))))
    (snd (Receive_TailMoved_Reference Env))
    (snd (Thread_Created Env)) (NblPool Ctx).

Definition registered_kernel (Env : REGISTER_ENV) (K : KERNEL) : KERNEL :=
  mkKernel
    (snd (Receive_TailMoved_Reference Env) :: snd (Send_TailMoved_Reference Env)
       :: ObjectReferences K)
    (Receive_Mdl_Allocated Env :: Send_Mdl_Allocated Env :: Mdls K)
    ((Receive_Mdl_Allocated Env, true) :: (Send_Mdl_Allocated Env, true) :: LockedPages K)
    (snd (Thread_Created Env) :: OpenHandles K)
    (RingMemory K)
    (CallTunIndicateStatus MediaConnectStateConnected :: Calls K).

(** Everything registration asks for is in order: nobody owns the adapter,
    the request has the right length, both ring descriptors pass their
    test, and the kernel grants every call. *)
Definition registration_granted (Env : REGISTER_ENV) (Ctx : TUN_CTX) (Irp : IRP) : Prop :=
  Device_Owner Ctx = NULL /\
  InputBufferLength Irp = sizeof_TUN_REGISTER_RINGS /\
  ring_rejected (TUN_RING_CAPACITY (RingSize (Rrb_Send (SystemBuffer Irp))))
    (Rrb_Send (SystemBuffer Irp)) = false /\
  NT_SUCCESS (fst (Send_TailMoved_Reference Env)) = true /\
  (Send_Mdl_Allocated Env =? NULL) = false /\
  Send_Pages_Locked Env = true /\
  (Send_System_Address Env =? NULL) = false /\
  ring_rejected (TUN_RING_CAPACITY (RingSize (Rrb_Receive (SystemBuffer Irp))))
    (Rrb_Receive (SystemBuffer Irp)) = false /\
  NT_SUCCESS (fst (Receive_TailMoved_Reference Env)) = true /\
  (Receive_Mdl_Allocated Env =? NULL) = false /\
  Receive_Pages_Locked Env = true /\
  (Receive_System_Address Env =? NULL) = false /\
  NT_SUCCESS (fst (Thread_Created Env)) = true.

(** The calls teardown makes, most recent first, on top of those made
    before: the barrier, the receive event, link-down, the wait for the
    worker when its handle could be referenced, and the send event. *)
Definition teardown_calls (ThreadReferenced : bool) (Ctx : TUN_CTX) (Before : list KERNEL_CALL)
  : list KERNEL_CALL :=
  CallKeSetEvent (Device_Send_TailMoved Ctx)
  :: (if ThreadReferenced then [CallThreadJoined (Device_Receive_Thread Ctx)] else [])
  ++ CallTunIndicateStatus MediaConnectStateDisconnected
  :: CallKeSetEvent (Device_Receive_TailMoved Ctx)
  :: CallTransitionBarrier
  :: Before.

(** The rings as teardown finds them after the wait for the worker: when
    the worker's handle could be referenced the worker has exited and its
    last store has put [MAXULONG] in [Head] of the receive ring mapped at
    [Receive_System_Address]; otherwise teardown does not wait and the
    rings are as they were. *)
Definition worker_exit (ThreadReferenced : bool) (Env : REGISTER_ENV) (M : Z -> TUN_RING)
  : Z -> TUN_RING :=
  if ThreadReferenced
  then fun a => if a =? Receive_System_Address Env
                then set_Head (M a) Ulong.MAXULONG
                else M a
  else M.

(** ** Queues of packets in a ring

    [queued RingCapacity m h ps] says that the memory [m] holds the frames
    of the payloads [ps] one after the other from offset [h] on, each
    frame following the previous one at its aligned size, wrapped as
    [nextPacket] and the send path wrap their offsets. *)

Definition frame_footprint (p : list UCHAR) : Z :=
  TUN_ALIGN (sizeof_TUN_PACKET + Z.of_nat (length p)).

Fixpoint queued (RingCapacity : Z) (m : memory) (h : Z) (ps : list (list UCHAR)) : Prop :=
  match ps with
  | [] => True
  | p :: ps' =>
      Z.of_nat (length p) <= TUN_MAX_IP_PACKET_SIZE /\
      load_ULONG m h = Z.of_nat (length p) /\
      read_bytes m (h + offsetof_TUN_PACKET_Data) (length p) = p /\
      queued RingCapacity m
        (TUN_RING_WRAP (Ulong.add h (frame_footprint p)) RingCapacity) ps'
  end.

Definition queue_size (ps : list (list UCHAR)) : Z :=
  fold_right (fun p acc => frame_footprint p + acc) 0 ps.

(** A ring in its normal state holding exactly the payloads [ps], oldest
    first: Head and Tail aligned and in range, the frames of [ps] queued
    from Head on, and the used space equal to their total footprint. *)
Definition ring_holds (RingCapacity : Z) (Ring : TUN_RING) (ps : list (list UCHAR)) : Prop :=
  offset_ok RingCapacity (Head Ring) /\
  offset_ok RingCapacity (Tail Ring) /\
  queued RingCapacity (Data Ring) (Head Ring) ps /\
  RingContent (Tail Ring) (Head Ring) RingCapacity = queue_size ps.

(** The payloads of the net buffers a run of the send loop accepts. *)
Fixpoint accepted_payloads (Flags RingCapacity : Z) (Ring : TUN_RING) (Nbs : list NET_BUFFER)
  : list (list UCHAR) :=
  match Nbs with
  | [] => []
  | Nb :: rest =>
      match TunSendNetBuffer Flags RingCapacity Ring Nb with
      | SendAccepted Ring' => NbBytes Nb :: accepted_payloads Flags RingCapacity Ring' rest
      | SendDiscarded Ring' _ => accepted_payloads Flags RingCapacity Ring' rest
      end
  end.

(** The frame the receive loop decodes for a queued payload. *)
Definition frame_of (p : list UCHAR) : FRAME :=
  mkFrame (Z.of_nat (length p)) (frame_footprint p) p.

(** The payload has the shape of an IP packet: the receive loop classifies
    its frame. *)
Definition ip_shaped (p : list UCHAR) : Prop := TunClassify (frame_of p) <> None.

Definition classified (p : list UCHAR) : NBL_FLAGS :=
  match TunClassify (frame_of p) with
  | Some NblFlags => NblFlags
  | None => NDIS_NBL_FLAGS_IS_IPV4
  end.

Definition indication_of (p : list UCHAR) : INDICATION := mkIndication (classified p) p.

(** ** The receive loop over an idle producer

    The outer loop of [TunProcessReceiveData], one element of [Envs] per
    iteration: the flags word the iteration reads and whether a net buffer
    list can be allocated.  The run ends when the loop is left (the worker
    stores the sentinel in Head and exits), when the ring is found empty
    (the worker goes to wait for the producer), or when [Envs] is used up
    with the loop still going. *)

Inductive RUN_END : Set := RunExited | RunWaiting | RunContinues.

Fixpoint TunReceiveRun (Envs : list (Z * bool)) (RingCapacity : Z) (s : RECEIVE_STATE)
  : RECEIVE_STATE * RUN_END :=
  match Envs with
  | [] => (s, RunContinues)
  | (Flags, NblAllocated) :: rest =>
      match TunReceiveIteration Flags RingCapacity NblAllocated s with
      | ReceiveBreak => (TunReceiveExit s, RunExited)
      | ReceiveWait => (s, RunWaiting)
      | ReceiveNext s' => TunReceiveRun rest RingCapacity s'
      end
  end.

(** The iteration finds the adapter connected, present and running and can
    allocate a net buffer list. *)
Definition delivering (e : Z * bool) : Prop :=
  flag_set (fst e) TUN_FLAGS_CONNECTED = true /\
  Z.land (fst e) (Z.lor TUN_FLAGS_PRESENT TUN_FLAGS_RUNNING)
  = Z.lor TUN_FLAGS_PRESENT TUN_FLAGS_RUNNING /\
  snd e = true.

(** The size of the ring's data region as registration maps it. *)
Definition ring_data_size (RingCapacity : Z) : Z :=
  RingCapacity + (TUN_MAX_PACKET_SIZE - TUN_ALIGNMENT).

(** The ring a send leaves, accepted or not. *)
Definition send_result_ring (r : SEND_RESULT) : TUN_RING :=
  match r with
  | SendAccepted Ring' => Ring'
  | SendDiscarded Ring' _ => Ring'
  end.

(** The number of payload bytes in a list of packets. *)
Definition payload_octets (ps : list (list UCHAR)) : Z :=
  fold_right (fun p acc => Z.of_nat (length p) + acc) 0 ps.

(** The status the three flag tests at the top of the send loop leave when
    one of them fails: the tests are made in this order and the first
    failing one decides. *)
Definition TunSendFlagsStatus (Flags : Z) : NDIS_STATUS :=
  if negb (flag_set Flags TUN_FLAGS_PRESENT) then NDIS_STATUS_ADAPTER_REMOVED
  else if negb (flag_set Flags TUN_FLAGS_RUNNING) then NDIS_STATUS_PAUSED
  else NDIS_STATUS_MEDIA_DISCONNECTED.

(** The counters after the packets [ps] have been indicated one by one. *)
Definition count_all_received (st : NDIS_STATISTICS_INFO) (ps : list (list UCHAR))
  : NDIS_STATISTICS_INFO :=
  fold_left (fun acc p => count_received acc (Z.of_nat (length p))) ps st.

(** ** The send handler on the adapter context

    [TunSendNetBufferLists] as NDIS calls it: the flags word is read once
    from the context, the ring and its capacity are those registered in
    [Ctx->Device.Send], the locals start at zero, the event of the send
    ring is set once for each packet enqueued, and the four counters are
    added to [Ctx->Statistics] at the end.  The lists are completed with
    the statuses the loops left in them. *)

Definition set_Statistics (c : TUN_CTX) (v : NDIS_STATISTICS_INFO) : TUN_CTX :=
  mkCtx (Ctx_Flags c) (MiniportAdapterHandle c) v (Device_Owner c)
    (Device_Send_Mdl c) (Device_Send_Ring c) (Device_Send_Capacity c) (Device_Send_TailMoved c)
    (Device_Receive_Mdl c) (Device_Receive_Ring c) (Device_Receive_Capacity c)
    (Device_Receive_TailMoved c) (Device_Receive_Thread c) (NblPool c).

(** The ring at a system address replaced by [Ring']. *)
Definition store_ring (K : KERNEL) (Address : Z) (Ring' : TUN_RING) : KERNEL :=
  mkKernel (ObjectReferences K) (Mdls K) (LockedPages K) (OpenHandles K)
    (fun a => if a =? Address then Ring' else RingMemory K a)
    (Calls K).

Definition kernel_calls (K : KERNEL) (cs : list KERNEL_CALL) : KERNEL :=
  mkKernel (ObjectReferences K) (Mdls K) (LockedPages K) (OpenHandles K)
    (RingMemory K) (cs ++ Calls K).

Definition TunSendNetBufferLists_Ctx (Ctx : TUN_CTX) (K : KERNEL)
  (NetBufferLists : list NET_BUFFER_LIST) : TUN_CTX * KERNEL * list NET_BUFFER_LIST :=
  let Flags := Ctx_Flags Ctx in
  let r := TunSendNetBufferLists Flags (Device_Send_Capacity Ctx)
             (mkSendState (RingMemory K (Device_Send_Ring Ctx)) 0 0 0 0) NetBufferLists in
  let K := store_ring K (Device_Send_Ring Ctx) (SendRing (fst r)) in
  let K := kernel_calls K
             (repeat (CallKeSetEvent (Device_Send_TailMoved Ctx))
                (Z.to_nat (SendTailMovedSet (fst r)))) in
  (set_Statistics Ctx (TunSendStatistics (Ctx_Statistics Ctx) (fst r)), K, snd r).

(** ** Pause, restart and Plug and Play

    [TunRestart] sets [TUN_FLAGS_RUNNING]; [TunPause] clears it and passes
    the transition lock once so that no send or receive still runs with
    the old flags.  [TunDispatchPnP] clears [TUN_FLAGS_PRESENT] on a
    removal query or a surprise removal, sets it again when the removal is
    cancelled, and hands every request on to NDIS, whose status it
    returns. *)

Definition TunRestart (Ctx : TUN_CTX) : TUN_CTX * NDIS_STATUS :=
  (set_Flags Ctx (InterlockedOr (Ctx_Flags Ctx) TUN_FLAGS_RUNNING), NDIS_STATUS_SUCCESS).

Definition TunPause (Ctx : TUN_CTX) (K : KERNEL) : TUN_CTX * KERNEL * NDIS_STATUS :=
  let Ctx := set_Flags Ctx (InterlockedAnd (Ctx_Flags Ctx) (Z.lnot TUN_FLAGS_RUNNING)) in
  let K := TransitionBarrier K in
  (Ctx, K, NDIS_STATUS_SUCCESS).

Inductive MAJOR_FUNCTION : Set :=
| IRP_MJ_CREATE
| IRP_MJ_CLOSE
| IRP_MJ_DEVICE_CONTROL
| IRP_MJ_PNP
| IRP_MJ_OTHER (Code : Z).

Inductive MINOR_FUNCTION : Set :=
| IRP_MN_QUERY_REMOVE_DEVICE
| IRP_MN_SURPRISE_REMOVAL
| IRP_MN_CANCEL_REMOVE_DEVICE
| IRP_MN_OTHER (Code : Z).

(** The current stack location of a request: its function codes, the
    control code of a device control request, the address of the IRP
    (used as a tag of the remove lock) and the parts of the IRP read by
    registration. *)
Record IO_STACK_LOCATION : Set := mkStack {
  MajorFunction : MAJOR_FUNCTION;
  MinorFunction : MINOR_FUNCTION;
  IoControlCode : Z;
  IrpAddress : Z;
  StackIrp : IRP
}.

(** [DeviceObject->Reserved] holds the context or [NULL]. *)
Definition TunDispatchPnP (NdisDispatchPnP : NTSTATUS) (Ctx : option TUN_CTX) (K : KERNEL)
  (Stack : IO_STACK_LOCATION) : NTSTATUS * option TUN_CTX * KERNEL :=
  match MajorFunction Stack with
  | IRP_MJ_PNP =>
      match Ctx with
      | None => (NdisDispatchPnP, None, K)
      | Some c =>
          match MinorFunction Stack with
          | IRP_MN_QUERY_REMOVE_DEVICE
          | IRP_MN_SURPRISE_REMOVAL =>
              let c := set_Flags c (InterlockedAnd (Ctx_Flags c) (Z.lnot TUN_FLAGS_PRESENT)) in
              let K := TransitionBarrier K in
              (NdisDispatchPnP, Some c, K)
          | IRP_MN_CANCEL_REMOVE_DEVICE =>
              let c := set_Flags c (InterlockedOr (Ctx_Flags c) TUN_FLAGS_PRESENT) in
              (NdisDispatchPnP, Some c, K)
          | IRP_MN_OTHER _ => (NdisDispatchPnP, Some c, K)
          end
      end
  | _ => (NdisDispatchPnP, Ctx, K)
  end.

(** ** The device's dispatch routine

    The status codes of the dispatch routine and of the OID handlers that
    are not among those of the data and registration paths.  All of them
    are failure codes. *)

Inductive STATUS_EX : Set :=
| Known (Status : NTSTATUS)
| STATUS_DELETE_PENDING
| NDIS_STATUS_BUFFER_TOO_SHORT
| NDIS_STATUS_NOT_SUPPORTED
| NDIS_STATUS_INVALID_OID
| NDIS_STATUS_INVALID_DATA.

Definition NT_SUCCESS_EX (Status : STATUS_EX) : bool :=
  match Status with
  | Known s => NT_SUCCESS s
  | _ => false
  end.

(** The remove lock of the device: the tags it is held with, most recent
    first, and whether removal has begun
    ([IoReleaseRemoveLockAndWait] has been called).  [IoAcquireRemoveLock]
    fails with [STATUS_DELETE_PENDING] once removal has begun and
    otherwise adds its tag; [IoReleaseRemoveLock] gives one acquisition
    with the tag back. *)
Record IO_REMOVE_LOCK : Set := mkRemoveLock {
  LockTags : list Z;
  Removed : bool
}.

Definition IoAcquireRemoveLock (L : IO_REMOVE_LOCK) (Tag : Z) : STATUS_EX * IO_REMOVE_LOCK :=
  if Removed L then (STATUS_DELETE_PENDING, L)
  else (Known STATUS_SUCCESS, mkRemoveLock (Tag :: LockTags L) (Removed L)).

Definition IoReleaseRemoveLock (L : IO_REMOVE_LOCK) (Tag : Z) : IO_REMOVE_LOCK :=
  mkRemoveLock (remove_one Tag (LockTags L)) (Removed L).

(** [CTL_CODE] of the driver kit and the one control code of the device:
    [FILE_DEVICE_UNKNOWN] is 0x22, [METHOD_BUFFERED] is 0 and
    [FILE_READ_DATA | FILE_WRITE_DATA] is 3. *)
Definition CTL_CODE (DeviceType Function Method Access : Z) : Z :=
  Z.lor (Z.lor (Z.lor (Z.shiftl DeviceType 16) (Z.shiftl Access 14)) (Z.shiftl Function 2))
    Method.

Definition TUN_IOCTL_REGISTER_RINGS : Z := CTL_CODE 0x22 0x800 0 3.

Definition TunDispatchCreate (Ctx : TUN_CTX) (L : IO_REMOVE_LOCK) (Irp : IRP)
  : STATUS_EX * IO_REMOVE_LOCK :=
  let Flags := Ctx_Flags Ctx in
  if negb (flag_set Flags TUN_FLAGS_PRESENT) then (STATUS_DELETE_PENDING, L)
  else IoAcquireRemoveLock L (FileObject Irp).

(** What a request leaves behind: the status and the information field
    the IRP is completed with, the context, the kernel objects and the
    remove lock. *)
Record DISPATCH_RESULT : Type := mkDispatchResult {
  IoStatus_Status : STATUS_EX;
  IoStatus_Information : Z;
  Dispatch_Ctx : option TUN_CTX;
  Dispatch_Kernel : KERNEL;
  Dispatch_Lock : IO_REMOVE_LOCK
}.

(** [Env] holds the kernel's answers to the calls of a registration and
    [ThreadReferenced] whether teardown can reference the worker's handle;
    [Ctx] is [None] when the device has no reserved extension. *)
Definition TunDispatch (Env : REGISTER_ENV) (ThreadReferenced : bool) (Ctx : option TUN_CTX)
  (K : KERNEL) (L : IO_REMOVE_LOCK) (Stack : IO_STACK_LOCATION) : DISPATCH_RESULT :=
  let Information := 0 in
  match Ctx with
  | None => mkDispatchResult (Known STATUS_INVALID_HANDLE) Information None K L
  | Some c =>
      match MajorFunction Stack with
      | IRP_MJ_CREATE =>
          let (Status, L1) := IoAcquireRemoveLock L (IrpAddress Stack) in
          if negb (NT_SUCCESS_EX Status) then
            mkDispatchResult Status Information (Some c) K L1
          else
            let (Status, L2) := TunDispatchCreate c L1 (StackIrp Stack) in
            let L3 := IoReleaseRemoveLock L2 (IrpAddress Stack) in
            mkDispatchResult Status Information (Some c) K L3
      | IRP_MJ_DEVICE_CONTROL =>
          if negb (IoControlCode Stack =? TUN_IOCTL_REGISTER_RINGS) then
            mkDispatchResult (Known STATUS_INVALID_PARAMETER) Information (Some c) K L
          else
            let (Status, L1) := IoAcquireRemoveLock L (IrpAddress Stack) in
            if negb (NT_SUCCESS_EX Status) then
              mkDispatchResult Status Information (Some c) K L1
            else
              match TunDispatchRegisterBuffers Env c K (StackIrp Stack) with
              | (Status, c', K') =>
                  let L2 := IoReleaseRemoveLock L1 (IrpAddress Stack) in
                  mkDispatchResult (Known Status) Information (Some c') K' L2
              end
      | IRP_MJ_CLOSE =>
          let (c', K') :=
            TunDispatchUnregisterBuffers ThreadReferenced c K (FileObject (StackIrp Stack)) in
          let L1 := IoReleaseRemoveLock L (FileObject (StackIrp Stack)) in
          mkDispatchResult (Known STATUS_SUCCESS) Information (Some c') K' L1
      | _ => mkDispatchResult (Known STATUS_INVALID_PARAMETER) Information (Some c) K L
      end
  end.

(** A remove lock nobody holds, and the requests of one handle's life on
    the sample adapter: open, register the sample rings, close; and the
    Plug and Play requests that start and cancel a removal. *)

Definition sample_lock : IO_REMOVE_LOCK := mkRemoveLock [] false.

Definition sample_create : IO_STACK_LOCATION :=
  mkStack IRP_MJ_CREATE (IRP_MN_OTHER 0) 0 0x9000 sample_irp.

Definition sample_control : IO_STACK_LOCATION :=
  mkStack IRP_MJ_DEVICE_CONTROL (IRP_MN_OTHER 0) TUN_IOCTL_REGISTER_RINGS 0x9100 sample_irp.

Definition sample_close : IO_STACK_LOCATION :=
  mkStack IRP_MJ_CLOSE (IRP_MN_OTHER 0) 0 0x9200 sample_irp.

Definition sample_query_remove : IO_STACK_LOCATION :=
  mkStack IRP_MJ_PNP IRP_MN_QUERY_REMOVE_DEVICE 0 0x9300 sample_irp.

Definition sample_cancel_remove : IO_STACK_LOCATION :=
  mkStack IRP_MJ_PNP IRP_MN_CANCEL_REMOVE_DEVICE 0 0x9400 sample_irp.

(** ** Byte order

    The driver's targets are little-endian, where [TUN_HTONS] and
    [TUN_HTONL] swap the bytes of a [USHORT] and of a [ULONG].  The shifts
    that move bytes up are made in [ULONG] arithmetic. *)

Definition Ushort_cast (x : Z) : Z := x mod 2 ^ 16.

Definition TUN_HTONS (x : Z) : Z :=
  Z.lor (Z.shiftl (Z.land (Ushort_cast x) 0x00ff) 8)
        (Z.shiftr (Z.land (Ushort_cast x) 0xff00) 8).

Definition TUN_HTONL (x : Z) : Z :=
  Z.lor
    (Z.lor
       (Z.lor (Ulong.cast (Z.shiftl (Z.land (Ulong.cast x) 0x000000ff) 24))
              (Ulong.cast (Z.shiftl (Z.land (Ulong.cast x) 0x0000ff00) 8)))
       (Z.shiftr (Z.land (Ulong.cast x) 0x00ff0000) 8))
    (Z.shiftr (Z.land (Ulong.cast x) 0xff000000) 24).

Definition TUN_VENDOR_ID : Z := 0xFFFFFF00.

(** ["Wintun Tunnel"] with its terminating zero. *)
Definition TUN_VENDOR_NAME : list UCHAR :=
  [x57; x69; x6e; x74; x75; x6e; x20; x54; x75; x6e; x6e; x65; x6c; x00].

(** ** OID requests

    The request types and object identifiers the handlers tell apart; every
    other value takes the default branch of its switch.  The query and the
    set member of the request's union have the same layout, so that
    [BytesWritten] of a query is [BytesRead] of a set request. *)

Inductive NDIS_REQUEST_TYPE : Set :=
| NdisRequestQueryInformation
| NdisRequestQueryStatistics
| NdisRequestSetInformation
| NdisRequestOther (Code : Z).

Inductive NDIS_OID : Set :=
| OID_GEN_MAXIMUM_TOTAL_SIZE
| OID_GEN_CURRENT_LOOKAHEAD
| OID_GEN_TRANSMIT_BUFFER_SPACE
| OID_GEN_RECEIVE_BUFFER_SPACE
| OID_GEN_TRANSMIT_BLOCK_SIZE
| OID_GEN_RECEIVE_BLOCK_SIZE
| OID_GEN_VENDOR_DESCRIPTION
| OID_GEN_VENDOR_ID
| OID_GEN_VENDOR_DRIVER_VERSION
| OID_GEN_XMIT_OK
| OID_GEN_RCV_OK
| OID_GEN_CURRENT_PACKET_FILTER
| OID_GEN_STATISTICS
| OID_GEN_INTERRUPT_MODERATION
| OID_GEN_LINK_PARAMETERS
| OID_PNP_SET_POWER
| OID_PNP_QUERY_POWER
| OID_OTHER (Code : Z).

Record NDIS_OID_REQUEST : Set := mkOidRequest {
  RequestType : NDIS_REQUEST_TYPE;
  Oid : NDIS_OID;
  InformationBuffer : memory;
  InformationBufferLength : Z;
  BytesWritten : Z;
  BytesNeeded : Z
}.

Definition BytesRead := BytesWritten.

Definition set_BytesWritten (r : NDIS_OID_REQUEST) (v : Z) : NDIS_OID_REQUEST :=
  mkOidRequest (RequestType r) (Oid r) (InformationBuffer r) (InformationBufferLength r)
    v (BytesNeeded r).

Definition set_BytesRead := set_BytesWritten.

Definition set_BytesNeeded (r : NDIS_OID_REQUEST) (v : Z) : NDIS_OID_REQUEST :=
  mkOidRequest (RequestType r) (Oid r) (InformationBuffer r) (InformationBufferLength r)
    (BytesWritten r) v.

Definition set_InformationBuffer (r : NDIS_OID_REQUEST) (m : memory) : NDIS_OID_REQUEST :=
  mkOidRequest (RequestType r) (Oid r) m (InformationBufferLength r)
    (BytesWritten r) (BytesNeeded r).

Definition sizeof_ULONG64 : Z := 8.

(** A [ULONG64] in memory, low half first. *)
Definition encode_ULONG64 (v : Z) : list UCHAR :=
  encode_ULONG v ++ encode_ULONG (Z.shiftr v 32).

Definition store_ULONG64 (m : memory) (off v : Z) : memory :=
  write_bytes m off (encode_ULONG64 v).

Definition TunOidQueryWrite (OidRequest : NDIS_OID_REQUEST) (Value : Z)
  : NDIS_OID_REQUEST * STATUS_EX :=
  if InformationBufferLength OidRequest <? sizeof_ULONG then
    let r := set_BytesNeeded OidRequest sizeof_ULONG in
    let r := set_BytesWritten r 0 in
    (r, NDIS_STATUS_BUFFER_TOO_SHORT)
  else
    let r := set_BytesWritten OidRequest sizeof_ULONG in
    let r := set_BytesNeeded r sizeof_ULONG in
    let r := set_InformationBuffer r (store_ULONG (InformationBuffer r) 0 Value) in
    (r, Known NDIS_STATUS_SUCCESS).

Definition TunOidQueryWrite32or64 (OidRequest : NDIS_OID_REQUEST) (Value : Z)
  : NDIS_OID_REQUEST * STATUS_EX :=
  if InformationBufferLength OidRequest <? sizeof_ULONG then
    let r := set_BytesNeeded OidRequest sizeof_ULONG64 in
    let r := set_BytesWritten r 0 in
    (r, NDIS_STATUS_BUFFER_TOO_SHORT)
  else if InformationBufferLength OidRequest <? sizeof_ULONG64 then
    let r := set_BytesNeeded OidRequest sizeof_ULONG64 in
    let r := set_BytesWritten r sizeof_ULONG in
    let r := set_InformationBuffer r
               (store_ULONG (InformationBuffer r) 0 (Ulong.cast (Z.land Value 0xffffffff))) in
    (r, Known NDIS_STATUS_SUCCESS)
  else
    let r := set_BytesWritten OidRequest sizeof_ULONG64 in
    let r := set_BytesNeeded r sizeof_ULONG64 in
    let r := set_InformationBuffer r (store_ULONG64 (InformationBuffer r) 0 Value) in
    (r, Known NDIS_STATUS_SUCCESS).

Definition TunOidQueryWriteBuf (OidRequest : NDIS_OID_REQUEST) (Buf : list UCHAR) (Size : Z)
  : NDIS_OID_REQUEST * STATUS_EX :=
  if InformationBufferLength OidRequest <? Size then
    let r := set_BytesNeeded OidRequest Size in
    let r := set_BytesWritten r 0 in
    (r, NDIS_STATUS_BUFFER_TOO_SHORT)
  else
    let r := set_BytesWritten OidRequest Size in
    let r := set_BytesNeeded r Size in
    let r := set_InformationBuffer r (NdisMoveMemory (InformationBuffer r) 0 Buf Size) in
    (r, Known NDIS_STATUS_SUCCESS).

(** What the query handler reads besides the counters of the data paths:
    the version numbers the driver is built with, the four multicast and
    broadcast counters of [Ctx->Statistics], the bytes of
    [Ctx->Statistics] as the compiler lays the structure out, and the
    bytes of the constant [InterruptParameters]. *)
Record OID_ENV : Type := mkOidEnv {
  WINTUN_VERSION_MAJ : Z;
  WINTUN_VERSION_MIN : Z;
  ifHCOutMulticastPkts : Z;
  ifHCOutBroadcastPkts : Z;
  ifHCInMulticastPkts : Z;
  ifHCInBroadcastPkts : Z;
  StatisticsImage : NDIS_STATISTICS_INFO -> list UCHAR;
  InterruptParametersImage : list UCHAR
}.

Definition InterlockedGet64 (Value : Z) : Z := Value.

(** The sum of three [LONG64] counters passed as a [ULONG64]. *)
Definition counter_sum (a b c : Z) : Z := (a + b + c) mod 2 ^ 64.

Definition TunOidQuery (E : OID_ENV) (Ctx : TUN_CTX) (OidRequest : NDIS_OID_REQUEST)
  : NDIS_OID_REQUEST * STATUS_EX :=
  match Oid OidRequest with
  | OID_GEN_MAXIMUM_TOTAL_SIZE
  | OID_GEN_TRANSMIT_BLOCK_SIZE
  | OID_GEN_RECEIVE_BLOCK_SIZE =>
      TunOidQueryWrite OidRequest TUN_MAX_IP_PACKET_SIZE
  | OID_GEN_TRANSMIT_BUFFER_SPACE =>
      TunOidQueryWrite OidRequest TUN_MAX_RING_CAPACITY
  | OID_GEN_RECEIVE_BUFFER_SPACE =>
      TunOidQueryWrite OidRequest TUN_MAX_RING_CAPACITY
  | OID_GEN_VENDOR_ID =>
      TunOidQueryWrite OidRequest (TUN_HTONL TUN_VENDOR_ID)
  | OID_GEN_VENDOR_DESCRIPTION =>
      TunOidQueryWriteBuf OidRequest TUN_VENDOR_NAME (Z.of_nat (length TUN_VENDOR_NAME))
  | OID_GEN_VENDOR_DRIVER_VERSION =>
      TunOidQueryWrite OidRequest
        (Z.lor (Z.shiftl (WINTUN_VERSION_MAJ E) 16) (WINTUN_VERSION_MIN E))
  | OID_GEN_XMIT_OK =>
      TunOidQueryWrite32or64 OidRequest
        (counter_sum (InterlockedGet64 (ifHCOutUcastPkts (Ctx_Statistics Ctx)))
           (InterlockedGet64 (ifHCOutMulticastPkts E))
           (InterlockedGet64 (ifHCOutBroadcastPkts E)))
  | OID_GEN_RCV_OK =>
      TunOidQueryWrite32or64 OidRequest
        (counter_sum (InterlockedGet64 (ifHCInUcastPkts (Ctx_Statistics Ctx)))
           (InterlockedGet64 (ifHCInMulticastPkts E))
           (InterlockedGet64 (ifHCInBroadcastPkts E)))
  | OID_GEN_STATISTICS =>
      TunOidQueryWriteBuf OidRequest (StatisticsImage E (Ctx_Statistics Ctx))
        (Z.of_nat (length (StatisticsImage E (Ctx_Statistics Ctx))))
  | OID_GEN_INTERRUPT_MODERATION =>
      TunOidQueryWriteBuf OidRequest (InterruptParametersImage E)
        (Z.of_nat (length (InterruptParametersImage E)))
  | OID_PNP_QUERY_POWER =>
      let r := set_BytesWritten OidRequest 0 in
      let r := set_BytesNeeded r 0 in
      (r, Known NDIS_STATUS_SUCCESS)
  | _ =>
      (set_BytesWritten OidRequest 0, NDIS_STATUS_NOT_SUPPORTED)
  end.

(** [NDIS_DEVICE_POWER_STATE] is an enumeration, four bytes wide. *)
Definition sizeof_NDIS_DEVICE_POWER_STATE : Z := 4.

Definition TunOidSet (Ctx : TUN_CTX) (OidRequest : NDIS_OID_REQUEST)
  : NDIS_OID_REQUEST * STATUS_EX :=
  let r := set_BytesRead OidRequest 0 in
  let r := set_BytesNeeded r 0 in
  match Oid r with
  | OID_GEN_CURRENT_PACKET_FILTER
  | OID_GEN_CURRENT_LOOKAHEAD =>
      if negb (InformationBufferLength r =? 4) then
        (set_BytesNeeded r 4, Known NDIS_STATUS_INVALID_LENGTH)
      else
        (set_BytesRead r 4, Known NDIS_STATUS_SUCCESS)
  | OID_GEN_LINK_PARAMETERS =>
      (set_BytesRead r (InformationBufferLength r), Known NDIS_STATUS_SUCCESS)
  | OID_GEN_INTERRUPT_MODERATION =>
      (r, NDIS_STATUS_INVALID_DATA)
  | OID_PNP_SET_POWER =>
      if negb (InformationBufferLength r =? sizeof_NDIS_DEVICE_POWER_STATE) then
        (set_BytesNeeded r sizeof_NDIS_DEVICE_POWER_STATE, Known NDIS_STATUS_INVALID_LENGTH)
      else
        (set_BytesRead r sizeof_NDIS_DEVICE_POWER_STATE, Known NDIS_STATUS_SUCCESS)
  | _ => (r, NDIS_STATUS_NOT_SUPPORTED)
  end.

Definition TunOidRequest (E : OID_ENV) (Ctx : TUN_CTX) (OidRequest : NDIS_OID_REQUEST)
  : NDIS_OID_REQUEST * STATUS_EX :=
  match RequestType OidRequest with
  | NdisRequestQueryInformation
  | NdisRequestQueryStatistics => TunOidQuery E Ctx OidRequest
  | NdisRequestSetInformation => TunOidSet Ctx OidRequest
  | NdisRequestOther _ => (OidRequest, NDIS_STATUS_INVALID_OID)
  end.

(** The list of object identifiers [TunInitializeEx] advertises. *)
Definition SupportedOids : list NDIS_OID :=
  [OID_GEN_MAXIMUM_TOTAL_SIZE; OID_GEN_CURRENT_LOOKAHEAD; OID_GEN_TRANSMIT_BUFFER_SPACE;
   OID_GEN_RECEIVE_BUFFER_SPACE; OID_GEN_TRANSMIT_BLOCK_SIZE; OID_GEN_RECEIVE_BLOCK_SIZE;
   OID_GEN_VENDOR_DESCRIPTION; OID_GEN_VENDOR_ID; OID_GEN_VENDOR_DRIVER_VERSION;
   OID_GEN_XMIT_OK; OID_GEN_RCV_OK; OID_GEN_CURRENT_PACKET_FILTER; OID_GEN_STATISTICS;
   OID_GEN_INTERRUPT_MODERATION; OID_GEN_LINK_PARAMETERS; OID_PNP_SET_POWER;
   OID_PNP_QUERY_POWER].

Definition sample_oid_env : OID_ENV :=
  mkOidEnv 0 7 0 0 0 0 (fun _ => repeat x00 160) (repeat x00 16).

Definition sample_oid_request (t : NDIS_REQUEST_TYPE) (o : NDIS_OID) (len : Z)
  : NDIS_OID_REQUEST :=
  mkOidRequest t o (fun _ => xff) len 0 0.

(** ** Waiting for the device's references

    [TunWaitForReferencesToDropToZero]: [ReferenceCount n] is the value
    the [n]-th read of [DeviceObject->ReferenceCount] finds; the result is
    the arguments of the calls of [NdisMSleep] made, in order, so that its
    length is the final value of [Try]. *)

Definition SleepTime : Z := 50.
Definition TotalTime : Z := 2 * 60 * 1000.
Definition MaxTries : Z := TotalTime / SleepTime.

Fixpoint TunWaitLoop (Remaining : nat) (Try : nat) (ReferenceCount : nat -> Z) : list Z :=
  match Remaining with
  | O => []
  | S Remaining' =>
      if ReferenceCount Try =? 0 then []
      else SleepTime :: TunWaitLoop Remaining' (S Try) ReferenceCount
  end.

Definition TunWaitForReferencesToDropToZero (ReferenceCount : nat -> Z) : list Z :=
  TunWaitLoop (Z.to_nat MaxTries) 0 ReferenceCount.

(** The answer [r'] to the request [r] stays within the caller's buffer:
    no byte outside the first [InformationBufferLength] bytes of the
    buffer differs, the number of bytes reported as written (or read) is
    at most the buffer's length, and the request's own fields are kept. *)
Definition within_buffer (r r' : NDIS_OID_REQUEST) : Prop :=
  (forall a, a < 0 \/ InformationBufferLength r <= a ->
             InformationBuffer r' a = InformationBuffer r a) /\
  0 <= BytesWritten r' <= InformationBufferLength r /\
  InformationBufferLength r' = InformationBufferLength r /\
  RequestType r' = RequestType r /\
  Oid r' = Oid r.

(** The request [r] asked again with a buffer of [len] bytes. *)
Definition retry_with (r : NDIS_OID_REQUEST) (buf : memory) (len : Z) : NDIS_OID_REQUEST :=
  mkOidRequest (RequestType r) (Oid r) buf len 0 0.

(** The number of packets an [OID_GEN_XMIT_OK] or [OID_GEN_RCV_OK] query
    reports. *)
Definition packets_ok (E : OID_ENV) (Ctx : TUN_CTX) (o : NDIS_OID) : Z :=
  match o with
  | OID_GEN_RCV_OK =>
      counter_sum (ifHCInUcastPkts (Ctx_Statistics Ctx)) (ifHCInMulticastPkts E)
        (ifHCInBroadcastPkts E)
  | _ =>
      counter_sum (ifHCOutUcastPkts (Ctx_Statistics Ctx)) (ifHCOutMulticastPkts E)
        (ifHCOutBroadcastPkts E)
  end.

(** A reference count that is three at the first two reads and zero from
    the third on. *)
Definition ReferenceCount_sample (n : nat) : Z := if (n <? 2)%nat then 3 else 0.
(** ** Arithmetic facts *)

Section Arithmetic.

Lemma popcount_pos_positive (p : positive) : 1 <= popcount_pos p.
Proof. induction p; cbn [popcount_pos]; lia. Qed.

Lemma popcount_pos_one (p : positive) :
  popcount_pos p = 1 -> exists k, 0 <= k /\ Zpos p = 2 ^ k.
Proof.
  induction p as [q IH | q IH | ]; cbn [popcount_pos]; intros H.
  - pose proof (popcount_pos_positive q). lia.
  - destruct (IH H) as [k [Hk Hq]].
    exists (k + 1). split; [lia |].
    rewrite Z.pow_add_r by lia.
    change (2 ^ 1) with 2. lia.
  - exists 0. split; [lia | reflexivity].
Qed.

Lemma capacity_legal_bounds (c : Z) :
  capacity_legal c -> TUN_MIN_RING_CAPACITY <= c <= TUN_MAX_RING_CAPACITY.
Proof.
  unfold capacity_legal, capacity_rejected. intros H.
  apply orb_false_iff in H. destruct H as [H _].
  apply orb_false_iff in H. destruct H as [H1 H2].
  apply Z.ltb_ge in H1. rewrite Z.gtb_ltb in H2. apply Z.ltb_ge in H2.
  split; assumption.
Qed.

Lemma capacity_legal_pow2 (c : Z) :
  capacity_legal c -> exists k, 17 <= k <= 26 /\ c = 2 ^ k.
Proof.
  intros H. pose proof (capacity_legal_bounds c H) as Hb.
  unfold capacity_legal, capacity_rejected in H.
  apply orb_false_iff in H. destruct H as [_ H].
  apply negb_false_iff, Z.eqb_eq in H.
  unfold TUN_MIN_RING_CAPACITY, TUN_MAX_RING_CAPACITY in Hb.
  unfold PopulationCount64 in H.
  rewrite Z.mod_small in H by (split; [lia | ]; apply Z.le_lt_trans with 0x4000000; [lia | reflexivity]).
  destruct c as [| p | p]; try lia.
  destruct (popcount_pos_one p H) as [k [Hk Hp]].
  exists k. split; [| exact Hp].
  rewrite Hp in Hb.
  change 0x20000 with (2 ^ 17) in Hb. change 0x4000000 with (2 ^ 26) in Hb.
  destruct Hb as [Hlo Hhi].
  apply Z.pow_le_mono_r_iff in Hlo; try lia.
  apply Z.pow_le_mono_r_iff in Hhi; lia.
Qed.

(** Masking with [Capacity - 1] is reduction modulo a legal capacity. *)
Lemma TUN_RING_WRAP_mod (v c : Z) :
  capacity_legal c -> TUN_RING_WRAP v c = v mod c.
Proof.
  intros H. destruct (capacity_legal_pow2 c H) as [k [Hk ->]].
  unfold TUN_RING_WRAP, Ulong.sub, Ulong.cast, Ulong.modulus.
  assert (Hlt : 2 ^ k < 2 ^ 32) by (apply Z.pow_lt_mono_r; lia).
  assert (Hpos : 0 < 2 ^ k) by (apply Z.pow_pos_nonneg; lia).
  rewrite Z.mod_small by lia.
  replace (2 ^ k - 1) with (Z.ones k) by (rewrite Z.ones_equiv; lia).
  apply Z.land_ones. lia.
Qed.

Lemma capacity_divides_modulus (c : Z) :
  capacity_legal c -> exists q, Ulong.modulus = q * c /\ 0 < q.
Proof.
  intros H. destruct (capacity_legal_pow2 c H) as [k [Hk ->]].
  exists (2 ^ (32 - k)). split.
  - unfold Ulong.modulus. rewrite <- Z.pow_add_r by lia. f_equal. lia.
  - apply Z.pow_pos_nonneg; lia.
Qed.

Lemma capacity_multiple_of_alignment (c : Z) :
  capacity_legal c -> exists q, c = q * TUN_ALIGNMENT.
Proof.
  intros H. destruct (capacity_legal_pow2 c H) as [k [Hk ->]].
  exists (2 ^ (k - 2)).
  change TUN_ALIGNMENT with (2 ^ 2).
  rewrite <- Z.pow_add_r by lia. f_equal. lia.
Qed.

(** A 32-bit reduction followed by the capacity mask is the capacity mask. *)
Lemma wrap_cast (v c : Z) :
  capacity_legal c -> TUN_RING_WRAP (Ulong.cast v) c = v mod c.
Proof.
  intros H. rewrite TUN_RING_WRAP_mod by assumption.
  destruct (capacity_divides_modulus c H) as [q [Hq Hq0]].
  pose proof (capacity_legal_bounds c H) as Hb.
  unfold TUN_MIN_RING_CAPACITY in Hb.
  unfold Ulong.cast. rewrite Hq.
  replace (q * c) with (c * q) by ring.
  rewrite Z.rem_mul_r by lia.
  rewrite (Z.mul_comm c), Z.mod_add by lia.
  apply Z.mod_mod. lia.
Qed.

Lemma wrap_aligned (v c : Z) :
  capacity_legal c -> v mod TUN_ALIGNMENT = 0 -> (v mod c) mod TUN_ALIGNMENT = 0.
Proof.
  intros H Hv.
  destruct (capacity_multiple_of_alignment c H) as [q Hq].
  pose proof (capacity_legal_bounds c H) as Hb.
  unfold TUN_MIN_RING_CAPACITY in Hb.
  rewrite (Z.mod_eq v c) by lia.
  rewrite Hq at 1.
  replace (v - q * TUN_ALIGNMENT * (v / c))
    with (v + (- (q * (v / c))) * TUN_ALIGNMENT) by ring.
  rewrite Z.mod_add by (unfold TUN_ALIGNMENT, sizeof_ULONG; lia).
  exact Hv.
Qed.

(** [TUN_ALIGN] rounds up to the next multiple of four. *)
Lemma TUN_ALIGN_spec (n : Z) :
  0 <= n < Ulong.modulus - 3 -> TUN_ALIGN n = 4 * ((n + 3) / 4).
Proof.
  intros Hn. unfold TUN_ALIGN, Ulong.add, Ulong.not, Ulong.cast, Ulong.modulus in *.
  change (TUN_ALIGNMENT - 1) with 3.
  change (Z.lnot (3 mod 2 ^ 32) mod 2 ^ 32) with (Z.ones 32 - 3).
  rewrite (Z.mod_small n), (Z.mod_small 3), (Z.mod_small (n + 3)) by lia.
  set (a := n + 3).
  assert (Ha : 0 <= a < 2 ^ 32) by (unfold a; lia).
  assert (Hsplit : a = Z.land a (Z.ones 32 - 3) + Z.land a 3).
  { rewrite Z.add_nocarry_lxor.
    - rewrite Z.lxor_lor.
      + rewrite <- Z.land_lor_distr_r.
        change (Z.lor (Z.ones 32 - 3) 3) with (Z.ones 32).
        rewrite Z.land_ones by lia. rewrite Z.mod_small; lia.
      + rewrite Z.land_assoc, (Z.land_comm (Z.land a (Z.ones 32 - 3)) a).
        rewrite Z.land_assoc, Z.land_diag, <- Z.land_assoc.
        change (Z.land (Z.ones 32 - 3) 3) with 0. apply Z.land_0_r.
    - rewrite Z.land_assoc, (Z.land_comm (Z.land a (Z.ones 32 - 3)) a).
      rewrite Z.land_assoc, Z.land_diag, <- Z.land_assoc.
      change (Z.land (Z.ones 32 - 3) 3) with 0. apply Z.land_0_r. }
  change 3 with (Z.ones 2) in Hsplit at 2.
  rewrite Z.land_ones in Hsplit by lia.
  change (2 ^ 2) with 4 in Hsplit.
  pose proof (Z.div_mod a 4 ltac:(lia)). lia.
Qed.

Lemma TUN_ALIGN_bounds (n : Z) :
  0 <= n < Ulong.modulus - 3 ->
  n <= TUN_ALIGN n < n + 4 /\ TUN_ALIGN n mod TUN_ALIGNMENT = 0.
Proof.
  intros Hn. rewrite TUN_ALIGN_spec by assumption.
  change TUN_ALIGNMENT with 4.
  pose proof (Z.div_mod (n + 3) 4 ltac:(lia)).
  pose proof (Z.mod_pos_bound (n + 3) 4 ltac:(lia)).
  split; [lia |].
  rewrite Z.mul_comm. apply Z.mod_mul. lia.
Qed.

Lemma TUN_MAX_PACKET_SIZE_value : TUN_MAX_PACKET_SIZE = 0x10004.
Proof. reflexivity. Qed.

End Arithmetic.

(** ** C2: free space and used space *)

(** C2.  For a legal capacity (within the ring bounds, one bit set) and Head
  and Tail that are multiples of the alignment unit below the capacity, the
  free space of the send path plus the used space of the receive path is
  the capacity minus one alignment unit. *)
Theorem free_plus_used_is_capacity_minus_alignment (head tail capacity : Z) :
capacity_legal capacity ->
offset_ok capacity head ->
offset_ok capacity tail ->
RingSpace head tail capacity + RingContent tail head capacity
= capacity - TUN_ALIGNMENT.
Proof.
intros Hc [Hh Hha] [Ht Hta].
pose proof (capacity_legal_bounds capacity Hc) as Hb.
destruct (capacity_multiple_of_alignment capacity Hc) as [q Hq].
unfold TUN_MIN_RING_CAPACITY, TUN_MAX_RING_CAPACITY in Hb.
unfold RingSpace, RingContent, Ulong.sub.
rewrite !wrap_cast by assumption.
destruct (capacity_divides_modulus capacity Hc) as [m [Hm Hm0]].
assert (Hfree : (Ulong.cast (head - tail) - TUN_ALIGNMENT) mod capacity
                = (head - tail - TUN_ALIGNMENT) mod capacity).
{ unfold Ulong.cast. rewrite Hm.
  rewrite (Z.mod_eq (head - tail) (m * capacity)) by lia.
  replace (head - tail - m * capacity * ((head - tail) / (m * capacity)) - TUN_ALIGNMENT)
    with (head - tail - TUN_ALIGNMENT + (- (m * ((head - tail) / (m * capacity)))) * capacity)
    by ring.
  apply Z.mod_add. lia. }
rewrite Hfree. clear Hfree.
unfold TUN_ALIGNMENT, sizeof_ULONG in *.
apply Z.mod_divide in Hha; [| lia]. apply Z.mod_divide in Hta; [| lia].
destruct Hha as [a Ha]. destruct Hta as [b Hb'].
subst head tail capacity.
destruct (Z_le_gt_dec a b) as [Hab | Hab].
- (* head <= tail *)
  rewrite (Z.mod_small (b * 4 - a * 4)) by lia.
  replace (a * 4 - b * 4 - 4) with ((q * 4 - (b * 4 - a * 4) - 4) + (-1) * (q * 4)) by ring.
  rewrite Z.mod_add by lia.
  rewrite Z.mod_small by lia. lia.
- (* tail < head *)
  rewrite (Z.mod_small (a * 4 - b * 4 - 4)) by lia.
  replace (b * 4 - a * 4) with ((q * 4 - (a * 4 - b * 4)) + (-1) * (q * 4)) by ring.
  rewrite Z.mod_add by lia.
  rewrite Z.mod_small by lia. lia.
Qed.


Lemma free_plus_used_witness :
  RingSpace 28 0 sample_capacity + RingContent 0 28 sample_capacity
  = sample_capacity - TUN_ALIGNMENT.
Proof.
  apply (free_plus_used_is_capacity_minus_alignment 28 0 sample_capacity).
  - reflexivity.
  - split; [vm_compute; split; [discriminate | reflexivity] | reflexivity].
  - split; [vm_compute; split; [discriminate | reflexivity] | reflexivity].
Defined.

(** ** Ring memory facts *)

Section Memory.

Lemma Z_of_uchar_of_Z (z : Z) : Z_of_uchar (uchar_of_Z z) = z mod 256.
Proof.
  unfold Z_of_uchar, uchar_of_Z.
  pose proof (Z.mod_pos_bound z 256 ltac:(lia)) as Hb.
  destruct (Byte.of_N (Z.to_N (z mod 256))) as [b |] eqn:E.
  - apply Byte.to_of_N in E. rewrite E. apply Z2N.id. lia.
  - apply Byte.of_N_None_iff in E. lia.
Qed.

Lemma decode_encode_ULONG (v : Z) :
  Ulong.in_range v -> decode_ULONG (encode_ULONG v) = v.
Proof.
  unfold Ulong.in_range, Ulong.modulus. intros Hv.
  unfold decode_ULONG, encode_ULONG. cbn [fold_right].
  rewrite !Z_of_uchar_of_Z.
  rewrite !Z.shiftr_div_pow2 by lia.
  change (2 ^ 8) with 256. change (2 ^ 16) with (256 * 256).
  change (2 ^ 24) with (256 * (256 * 256)).
  rewrite <- !Z.div_div by lia.
  pose proof (Z.div_mod v 256 ltac:(lia)).
  pose proof (Z.div_mod (v / 256) 256 ltac:(lia)).
  pose proof (Z.div_mod (v / 256 / 256) 256 ltac:(lia)).
  assert (v / 256 / 256 / 256 < 256).
  { apply Z.div_lt_upper_bound; [lia |].
    apply Z.div_lt_upper_bound; [lia |].
    apply Z.div_lt_upper_bound; lia. }
  assert (0 <= v / 256 / 256 / 256) by (repeat apply Z.div_pos; lia).
  rewrite (Z.mod_small (v / 256 / 256 / 256)) by lia.
  lia.
Qed.

Lemma read_bytes_length (m : memory) (off : Z) (n : nat) :
  length (read_bytes m off n) = n.
Proof. unfold read_bytes. rewrite length_map. apply length_seq. Qed.

Lemma read_bytes_ext (m1 m2 : memory) (off : Z) (n : nat) :
  (forall a, off <= a < off + Z.of_nat n -> m1 a = m2 a) ->
  read_bytes m1 off n = read_bytes m2 off n.
Proof.
  intros H. unfold read_bytes. apply map_ext_in.
  intros i Hi. apply in_seq in Hi. apply H. lia.
Qed.

Lemma write_bytes_outside (m : memory) (off : Z) (bs : list UCHAR) (a : Z) :
  a < off \/ off + Z.of_nat (length bs) <= a ->
  write_bytes m off bs a = m a.
Proof.
  intros H. unfold write_bytes.
  destruct (off <=? a) eqn:E1; [| reflexivity].
  destruct (a <? off + Z.of_nat (length bs)) eqn:E2; [| reflexivity].
  apply Z.leb_le in E1. apply Z.ltb_lt in E2. lia.
Qed.

Lemma write_bytes_inside (m : memory) (off : Z) (bs : list UCHAR) (i : nat) :
  (i < length bs)%nat ->
  write_bytes m off bs (off + Z.of_nat i) = nth i bs x00.
Proof.
  intros H. unfold write_bytes.
  replace (off <=? off + Z.of_nat i) with true by (symmetry; apply Z.leb_le; lia).
  replace (off + Z.of_nat i <? off + Z.of_nat (length bs)) with true
    by (symmetry; apply Z.ltb_lt; lia).
  cbn [andb]. f_equal. lia.
Qed.

Lemma read_write_same (m : memory) (off : Z) (bs : list UCHAR) :
  read_bytes (write_bytes m off bs) off (length bs) = bs.
Proof.
  apply nth_ext with (d := x00) (d' := x00).
  - apply read_bytes_length.
  - intros i Hi. rewrite read_bytes_length in Hi.
    unfold read_bytes.
    rewrite nth_indep with (d' := write_bytes m off bs (off + Z.of_nat 0))
      by (rewrite length_map, length_seq; exact Hi).
    rewrite (map_nth (fun j => write_bytes m off bs (off + Z.of_nat j))).
    rewrite seq_nth by exact Hi.
    apply write_bytes_inside. exact Hi.
Qed.

Lemma read_write_disjoint (m : memory) (off : Z) (bs : list UCHAR) (off' : Z) (n : nat) :
  off' + Z.of_nat n <= off \/ off + Z.of_nat (length bs) <= off' ->
  read_bytes (write_bytes m off bs) off' n = read_bytes m off' n.
Proof.
  intros H. apply read_bytes_ext. intros a Ha.
  apply write_bytes_outside. lia.
Qed.

Lemma load_store_same (m : memory) (off v : Z) :
  Ulong.in_range v -> load_ULONG (store_ULONG m off v) off = v.
Proof.
  intros Hv. unfold load_ULONG, store_ULONG.
  change 4%nat with (length (encode_ULONG v)).
  rewrite read_write_same. apply decode_encode_ULONG. exact Hv.
Qed.

Lemma load_write_disjoint (m : memory) (off : Z) (bs : list UCHAR) (off' : Z) :
  off' + 4 <= off \/ off + Z.of_nat (length bs) <= off' ->
  load_ULONG (write_bytes m off bs) off' = load_ULONG m off'.
Proof.
  intros H. unfold load_ULONG. f_equal. apply read_write_disjoint.
  change (Z.of_nat 4) with 4. exact H.
Qed.

Lemma NET_BUFFER_whole (Nb : NET_BUFFER) :
  firstn (Z.to_nat (NET_BUFFER_DATA_LENGTH Nb)) (NbBytes Nb) = NbBytes Nb.
Proof.
  unfold NET_BUFFER_DATA_LENGTH. rewrite Nat2Z.id. apply firstn_all.
Qed.

End Memory.

(** ** Send path facts *)

Section Send.

Variables Flags RingCapacity : Z.
Variable Ring : TUN_RING.
Variable Nb : NET_BUFFER.

Lemma gtb_false_le (a b : Z) : (a >? b) = false -> a <= b.
Proof. rewrite Z.gtb_ltb. apply Z.ltb_ge. Qed.

Lemma gtb_true_gt (a b : Z) : (a >? b) = true -> a > b.
Proof. rewrite Z.gtb_ltb. intros H. apply Z.ltb_lt in H. lia. Qed.

Lemma geb_false_lt (a b : Z) : (a >=? b) = false -> a < b.
Proof. rewrite Z.geb_leb. apply Z.leb_gt. Qed.

Lemma geb_true_ge (a b : Z) : (a >=? b) = true -> a >= b.
Proof. rewrite Z.geb_leb. intros H. apply Z.leb_le in H. lia. Qed.

(** An accepted packet passed every test, its data could be obtained, and
    the ring is the old ring with the packet enqueued. *)
Lemma TunSendNetBuffer_accepted (Ring' : TUN_RING) :
  TunSendNetBuffer Flags RingCapacity Ring Nb = SendAccepted Ring' ->
  send_admissible Flags RingCapacity Ring Nb /\
  NbLayout Nb <> NbUnmappable /\
  Ring' = enqueued RingCapacity Ring Nb.
Proof.
  unfold TunSendNetBuffer, send_admissible, flags_all_set, footprint.
  destruct (flag_set Flags TUN_FLAGS_PRESENT); cbn [negb]; [| discriminate].
  destruct (flag_set Flags TUN_FLAGS_RUNNING); cbn [negb]; [| discriminate].
  destruct (flag_set Flags TUN_FLAGS_CONNECTED); cbn [negb]; [| discriminate].
  destruct (NET_BUFFER_DATA_LENGTH Nb >? TUN_MAX_IP_PACKET_SIZE) eqn:E1; [discriminate |].
  destruct (Head Ring >=? RingCapacity) eqn:E2; [discriminate |].
  destruct (Tail Ring >=? RingCapacity) eqn:E3; [discriminate |].
  destruct (_ >? RingSpace _ _ _) eqn:E4; [discriminate |].
  apply gtb_false_le in E1, E4. apply geb_false_lt in E2, E3.
  unfold NdisGetDataBuffer, enqueued, footprint.
  destruct (NbLayout Nb) eqn:EL; intros H; inversion H; subst; clear H;
    (repeat split; try assumption; try discriminate);
    unfold InterlockedExchangeU_Tail, set_Tail, set_Data, NdisMoveMemory; cbn;
    rewrite NET_BUFFER_whole; reflexivity.
Qed.

(** The converse: an admissible packet whose data can be obtained is accepted. *)
Lemma TunSendNetBuffer_accepts :
  send_admissible Flags RingCapacity Ring Nb ->
  NbLayout Nb <> NbUnmappable ->
  TunSendNetBuffer Flags RingCapacity Ring Nb = SendAccepted (enqueued RingCapacity Ring Nb).
Proof.
  intros (Hf & Hl & Hh & Ht & Hs) Hm.
  destruct Hf as (Hp & Hr & Hc).
  unfold TunSendNetBuffer. rewrite Hp, Hr, Hc. cbn [negb].
  unfold footprint in Hs.
  replace (NET_BUFFER_DATA_LENGTH Nb >? TUN_MAX_IP_PACKET_SIZE) with false
    by (symmetry; rewrite Z.gtb_ltb; apply Z.ltb_ge; lia).
  replace (Head Ring >=? RingCapacity) with false
    by (symmetry; rewrite Z.geb_leb; apply Z.leb_gt; lia).
  replace (Tail Ring >=? RingCapacity) with false
    by (symmetry; rewrite Z.geb_leb; apply Z.leb_gt; lia).
  replace (_ >? RingSpace _ _ _) with false
    by (symmetry; rewrite Z.gtb_ltb; apply Z.ltb_ge; lia).
  unfold NdisGetDataBuffer, enqueued, footprint.
  destruct (NbLayout Nb); try congruence;
    unfold InterlockedExchangeU_Tail, set_Tail, set_Data, NdisMoveMemory; cbn;
    rewrite NET_BUFFER_whole; reflexivity.
Qed.

(** A discarded packet either failed one of the six tests, with the status
    of that test and the ring untouched, or passed them all and could not
    be mapped, with only the length slot at [Tail] written. *)
Lemma TunSendNetBuffer_discarded (Ring' : TUN_RING) (Status : NDIS_STATUS) :
  TunSendNetBuffer Flags RingCapacity Ring Nb = SendDiscarded Ring' Status ->
  (send_reject_condition Flags RingCapacity Ring Nb Status /\ Ring' = Ring) \/
  (send_admissible Flags RingCapacity Ring Nb /\ NbLayout Nb = NbUnmappable /\
   Ring' = set_Data Ring (store_ULONG (Data Ring) (Tail Ring) (NET_BUFFER_DATA_LENGTH Nb))).
Proof.
  unfold TunSendNetBuffer, send_admissible, flags_all_set, footprint.
  destruct (flag_set Flags TUN_FLAGS_PRESENT) eqn:Ep; cbn [negb];
    [| intros H; inversion H; subst; left; split; [exact Ep | reflexivity]].
  destruct (flag_set Flags TUN_FLAGS_RUNNING) eqn:Er; cbn [negb];
    [| intros H; inversion H; subst; left; split; [exact Er | reflexivity]].
  destruct (flag_set Flags TUN_FLAGS_CONNECTED) eqn:Ec; cbn [negb];
    [| intros H; inversion H; subst; left; split; [exact Ec | reflexivity]].
  destruct (NET_BUFFER_DATA_LENGTH Nb >? TUN_MAX_IP_PACKET_SIZE) eqn:E1.
  { intros H; inversion H; subst; left; split; [| reflexivity].
    apply gtb_true_gt in E1. exact E1. }
  destruct (Head Ring >=? RingCapacity) eqn:E2.
  { intros H; inversion H; subst; left; split; [| reflexivity].
    left. apply geb_true_ge. exact E2. }
  destruct (Tail Ring >=? RingCapacity) eqn:E3.
  { intros H; inversion H; subst; left; split; [| reflexivity].
    right. apply geb_true_ge. exact E3. }
  destruct (_ >? RingSpace _ _ _) eqn:E4.
  { intros H; inversion H; subst; left; split; [| reflexivity].
    apply gtb_true_gt in E4. exact E4. }
  apply gtb_false_le in E1, E4. apply geb_false_lt in E2, E3.
  unfold NdisGetDataBuffer.
  destruct (NbLayout Nb) eqn:EL; intros H; inversion H; subst; clear H.
  right. repeat split; assumption.
Qed.

End Send.

(** ** Receive path facts *)

Section Receive.

Lemma Z_of_uchar_nonneg (b : UCHAR) : 0 <= Z_of_uchar b.
Proof. unfold Z_of_uchar. apply N2Z.is_nonneg. Qed.

Lemma decode_ULONG_nonneg (bs : list UCHAR) : 0 <= decode_ULONG bs.
Proof.
  induction bs as [| b bs IH]; cbn [decode_ULONG fold_right]; [lia |].
  pose proof (Z_of_uchar_nonneg b). unfold decode_ULONG in IH. lia.
Qed.

Lemma load_ULONG_nonneg (m : memory) (off : Z) : 0 <= load_ULONG m off.
Proof. apply decode_ULONG_nonneg. Qed.

Lemma TunReceiveFrame_inv (RingCapacity RingHead RingTail : Z) (m : memory) (f : FRAME) :
  TunReceiveFrame RingCapacity RingHead RingTail m = Some f ->
  RingTail < RingCapacity /\
  sizeof_TUN_PACKET <= RingContent RingTail RingHead RingCapacity /\
  PacketSize f = load_ULONG m RingHead /\
  0 <= PacketSize f <= TUN_MAX_IP_PACKET_SIZE /\
  AlignedPacketSize f = TUN_ALIGN (sizeof_TUN_PACKET + PacketSize f) /\
  AlignedPacketSize f <= RingContent RingTail RingHead RingCapacity /\
  PacketBytes f
  = read_bytes m (RingHead + offsetof_TUN_PACKET_Data) (Z.to_nat (PacketSize f)).
Proof.
  unfold TunReceiveFrame.
  destruct (RingTail >=? RingCapacity) eqn:E1; [discriminate |].
  destruct (RingContent RingTail RingHead RingCapacity <? sizeof_TUN_PACKET) eqn:E2;
    [discriminate |].
  destruct (load_ULONG m RingHead >? TUN_MAX_IP_PACKET_SIZE) eqn:E3; [discriminate |].
  destruct (_ >? RingContent _ _ _) eqn:E4; [discriminate |].
  intros H. inversion H; subst; clear H. cbn [PacketSize AlignedPacketSize PacketBytes].
  apply geb_false_lt in E1. apply Z.ltb_ge in E2. apply gtb_false_le in E3, E4.
  pose proof (load_ULONG_nonneg m RingHead).
  repeat split; try assumption; try reflexivity.
Qed.

(** Every way of reaching [nextPacket]: the iteration decoded a frame of an
    IP packet at [Head]; the state is the discard state when no net buffer
    list could be allocated or the adapter is not present and running, and
    the delivery state otherwise.  In each case only [Head] of the ring
    changes, by the frame's aligned size. *)
Lemma TunReceiveIteration_next (Flags RingCapacity : Z) (NblAllocated : bool)
  (s s' : RECEIVE_STATE) :
  TunReceiveIteration Flags RingCapacity NblAllocated s = ReceiveNext s' ->
  exists f NblFlags,
    flag_set Flags TUN_FLAGS_CONNECTED = true /\
    Head (ReceiveRing s) < RingCapacity /\
    Head (ReceiveRing s) <> Tail (ReceiveRing s) /\
    TunReceiveFrame RingCapacity (Head (ReceiveRing s)) (Tail (ReceiveRing s))
      (Data (ReceiveRing s)) = Some f /\
    TunClassify f = Some NblFlags /\
    ReceiveRing s'
    = set_Head (ReceiveRing s)
        (TUN_RING_WRAP (Ulong.add (Head (ReceiveRing s)) (AlignedPacketSize f)) RingCapacity).
Proof.
  unfold TunReceiveIteration.
  destruct (flag_set Flags TUN_FLAGS_CONNECTED); cbn [negb]; [| discriminate].
  destruct (Head (ReceiveRing s) >=? RingCapacity) eqn:E1; [discriminate |].
  destruct (Head (ReceiveRing s) =? Tail (ReceiveRing s)) eqn:E2; [discriminate |].
  apply geb_false_lt in E1. apply Z.eqb_neq in E2.
  unfold TunReceivePacket.
  destruct (TunReceiveFrame _ _ _ _) as [f |] eqn:Ef; [| discriminate].
  destruct (TunClassify f) as [fl |] eqn:Ec; [| discriminate].
  intros H. exists f, fl.
  repeat split; try assumption.
  destruct NblAllocated; cbn [negb] in H.
  - destruct (negb _) in H; inversion H; subst; reflexivity.
  - inversion H; subst; reflexivity.
Qed.

End Receive.

(** ** Offsets after an advance *)

Section Advance.

Variable RingCapacity : Z.
Hypothesis Hlegal : capacity_legal RingCapacity.

Lemma aligned_add (a b : Z) :
  a mod TUN_ALIGNMENT = 0 -> b mod TUN_ALIGNMENT = 0 -> (a + b) mod TUN_ALIGNMENT = 0.
Proof.
  unfold TUN_ALIGNMENT, sizeof_ULONG. intros Ha Hb.
  rewrite Z.add_mod by lia. rewrite Ha, Hb. reflexivity.
Qed.

Lemma advance_value (off size : Z) :
  TUN_RING_WRAP (Ulong.add off size) RingCapacity = (off + size) mod RingCapacity.
Proof. unfold Ulong.add. apply wrap_cast. exact Hlegal. Qed.

Lemma advance_offset_ok (off size : Z) :
  off mod TUN_ALIGNMENT = 0 -> size mod TUN_ALIGNMENT = 0 ->
  offset_ok RingCapacity (TUN_RING_WRAP (Ulong.add off size) RingCapacity).
Proof.
  intros Ho Hs. rewrite advance_value.
  pose proof (capacity_legal_bounds RingCapacity Hlegal) as Hb.
  unfold TUN_MIN_RING_CAPACITY in Hb.
  split.
  - apply Z.mod_pos_bound. lia.
  - apply wrap_aligned; [exact Hlegal |]. apply aligned_add; assumption.
Qed.

Lemma footprint_aligned (n : Z) :
  0 <= n <= TUN_MAX_IP_PACKET_SIZE ->
  sizeof_TUN_PACKET + n <= TUN_ALIGN (sizeof_TUN_PACKET + n) < sizeof_TUN_PACKET + n + 4 /\
  TUN_ALIGN (sizeof_TUN_PACKET + n) mod TUN_ALIGNMENT = 0.
Proof.
  intros Hn. apply TUN_ALIGN_bounds.
  unfold TUN_MAX_IP_PACKET_SIZE, sizeof_TUN_PACKET, Ulong.modulus in *. lia.
Qed.

Lemma RingSpace_below_capacity (h t : Z) : 0 <= RingSpace h t RingCapacity < RingCapacity.
Proof.
  assert (E : RingSpace h t RingCapacity
              = (Ulong.sub h t - TUN_ALIGNMENT) mod RingCapacity).
  { unfold RingSpace. unfold Ulong.sub at 1. apply wrap_cast. exact Hlegal. }
  rewrite E.
  pose proof (capacity_legal_bounds RingCapacity Hlegal) as Hb.
  unfold TUN_MIN_RING_CAPACITY in Hb.
  apply Z.mod_pos_bound. lia.
Qed.

(** Used space seen by the consumer at the old [Tail] after an advance of
    [Tail] by [size]. *)
Lemma RingContent_after_advance (t size : Z) :
  0 <= size < RingCapacity ->
  RingContent (TUN_RING_WRAP (Ulong.add t size) RingCapacity) t RingCapacity = size.
Proof.
  intros Hs. rewrite advance_value.
  unfold RingContent, Ulong.sub. rewrite wrap_cast by exact Hlegal.
  pose proof (capacity_legal_bounds RingCapacity Hlegal) as Hb.
  unfold TUN_MIN_RING_CAPACITY in Hb.
  rewrite Zminus_mod_idemp_l.
  replace (t + size - t) with size by ring.
  apply Z.mod_small. exact Hs.
Qed.

End Advance.

(** ** C1: round trip *)

(** The frame read back at the old [Tail] of a ring in which a packet has
    been enqueued. *)
Lemma TunReceiveFrame_enqueued (RingCapacity : Z) (Ring : TUN_RING) (Nb : NET_BUFFER) :
  capacity_legal RingCapacity ->
  Tail Ring mod TUN_ALIGNMENT = 0 ->
  NET_BUFFER_DATA_LENGTH Nb <= TUN_MAX_IP_PACKET_SIZE ->
  footprint Nb <= RingSpace (Head Ring) (Tail Ring) RingCapacity ->
  TunReceiveFrame RingCapacity (Tail Ring) (Tail (enqueued RingCapacity Ring Nb))
    (Data (enqueued RingCapacity Ring Nb))
  = Some (mkFrame (NET_BUFFER_DATA_LENGTH Nb) (footprint Nb) (NbBytes Nb)) /\
  Tail (enqueued RingCapacity Ring Nb) <> Tail Ring.
Proof.
  intros Hc Hta Hl Hs.
  assert (Hlen : 0 <= NET_BUFFER_DATA_LENGTH Nb <= TUN_MAX_IP_PACKET_SIZE).
  { split; [unfold NET_BUFFER_DATA_LENGTH; lia | exact Hl]. }
  destruct (footprint_aligned (NET_BUFFER_DATA_LENGTH Nb) Hlen) as [Hfp Hfa].
  fold (footprint Nb) in Hfp, Hfa.
  pose proof (RingSpace_below_capacity RingCapacity Hc (Head Ring) (Tail Ring)) as Hsp.
  assert (Hfr : 0 <= footprint Nb < RingCapacity)
    by (unfold sizeof_TUN_PACKET in Hfp; lia).
  destruct (advance_offset_ok RingCapacity Hc (Tail Ring) (footprint Nb) Hta Hfa)
    as [Hnew _].
  pose proof (RingContent_after_advance RingCapacity Hc (Tail Ring) (footprint Nb) Hfr)
    as Hcontent.
  split.
  - unfold TunReceiveFrame, enqueued. cbn [Tail Data].
    rewrite Hcontent.
    replace (_ >=? RingCapacity) with false
      by (symmetry; rewrite Z.geb_leb; apply Z.leb_gt; lia).
    replace (footprint Nb <? sizeof_TUN_PACKET) with false
      by (symmetry; apply Z.ltb_ge; unfold sizeof_TUN_PACKET in *; lia).
    rewrite load_write_disjoint by (unfold offsetof_TUN_PACKET_Data, sizeof_TUN_PACKET; lia).
    rewrite load_store_same
      by (unfold Ulong.in_range, Ulong.modulus, TUN_MAX_IP_PACKET_SIZE in *; lia).
    fold (footprint Nb).
    replace (NET_BUFFER_DATA_LENGTH Nb >? TUN_MAX_IP_PACKET_SIZE) with false
      by (symmetry; rewrite Z.gtb_ltb; apply Z.ltb_ge; lia).
    replace (footprint Nb >? footprint Nb) with false
      by (symmetry; rewrite Z.gtb_ltb; apply Z.ltb_ge; lia).
    do 2 f_equal.
    unfold NET_BUFFER_DATA_LENGTH. rewrite Nat2Z.id.
    apply read_write_same.
  - unfold enqueued. cbn [Tail]. intros Heq.
    unfold RingContent, Ulong.sub in Hcontent. rewrite Heq in Hcontent.
    rewrite Z.sub_diag in Hcontent.
    rewrite wrap_cast in Hcontent by exact Hc.
    rewrite Z.mod_0_l in Hcontent by lia.
    unfold sizeof_TUN_PACKET in Hfp. lia.
Qed.

(** C1.  A payload of at most [TUN_MAX_IP_PACKET_SIZE] bytes that the send
    algorithm enqueues into a ring of legal capacity whose Head and Tail are
    aligned and in range and whose free space holds the footprint is read
    back by the receive algorithm, once its Head stands at the packet, with
    the same length field and the same payload bytes.  When the ring was
    empty and the payload has the shape of an IP packet, the very next
    iteration of a connected, present and running receive loop indicates
    exactly these bytes, counts them, and leaves the ring empty again. *)
Theorem send_receive_roundtrip (Flags RingCapacity : Z) (Ring Ring' : TUN_RING)
  (Nb : NET_BUFFER) :
  capacity_legal RingCapacity ->
  offset_ok RingCapacity (Head Ring) ->
  offset_ok RingCapacity (Tail Ring) ->
  NET_BUFFER_DATA_LENGTH Nb <= TUN_MAX_IP_PACKET_SIZE ->
  footprint Nb <= RingSpace (Head Ring) (Tail Ring) RingCapacity ->
  TunSendNetBuffer Flags RingCapacity Ring Nb = SendAccepted Ring' ->
  TunReceiveFrame RingCapacity (Tail Ring) (Tail Ring') (Data Ring')
  = Some (mkFrame (NET_BUFFER_DATA_LENGTH Nb) (footprint Nb) (NbBytes Nb)) /\
  (Head Ring = Tail Ring ->
   forall Flags' NblFlags st ind n,
     flag_set Flags' TUN_FLAGS_CONNECTED = true ->
     Z.land Flags' (Z.lor TUN_FLAGS_PRESENT TUN_FLAGS_RUNNING)
     = Z.lor TUN_FLAGS_PRESENT TUN_FLAGS_RUNNING ->
     TunClassify (mkFrame (NET_BUFFER_DATA_LENGTH Nb) (footprint Nb) (NbBytes Nb))
     = Some NblFlags ->
     TunReceiveIteration Flags' RingCapacity true (mkReceiveState Ring' st ind n)
     = ReceiveNext
         (mkReceiveState (set_Head Ring' (Tail Ring'))
            (count_received st (NET_BUFFER_DATA_LENGTH Nb))
            (mkIndication NblFlags (NbBytes Nb) :: ind) (n + 1 - 1))).
Proof.
  intros Hc [Hh Hha] [Ht Hta] Hl Hs Hacc.
  apply TunSendNetBuffer_accepted in Hacc. destruct Hacc as (_ & _ & ->).
  destruct (TunReceiveFrame_enqueued RingCapacity Ring Nb Hc Hta Hl Hs) as [Hframe Hmoved].
  split; [exact Hframe |].
  intros Hempty Flags' NblFlags st ind n Hconn Hready Hclass.
  unfold TunReceiveIteration. cbn [ReceiveRing]. rewrite Hconn. cbn [negb].
  replace (Head (enqueued RingCapacity Ring Nb)) with (Tail Ring)
    by (unfold enqueued; cbn [Head]; symmetry; exact Hempty).
  replace (Tail Ring >=? RingCapacity) with false
    by (symmetry; rewrite Z.geb_leb; apply Z.leb_gt; lia).
  replace (Tail Ring =? Tail (enqueued RingCapacity Ring Nb)) with false
    by (symmetry; apply Z.eqb_neq; congruence).
  unfold TunReceivePacket. cbn [ReceiveRing]. rewrite Hframe, Hclass. cbn [negb].
  apply Z.eqb_eq in Hready. rewrite Hready. cbn [negb].
  unfold nextPacket, NdisFreeNetBufferList, InterlockedExchangeU_Head, set_Head.
  cbn [ReceiveRing Statistics Indicated NblOutstanding PacketSize AlignedPacketSize
       PacketBytes].
  unfold enqueued. cbn [Head Tail Alertable Data]. reflexivity.
Qed.

Lemma send_receive_roundtrip_witness :
  TunReceiveFrame sample_capacity (Tail sample_ring)
    (Tail (enqueued sample_capacity sample_ring sample_nb))
    (Data (enqueued sample_capacity sample_ring sample_nb))
  = Some (mkFrame 20 24 sample_payload) /\
  TunReceiveIteration sample_flags sample_capacity true sample_receive_state
  = ReceiveNext
      (mkReceiveState
         (set_Head (enqueued sample_capacity sample_ring sample_nb) 24)
         (count_received sample_statistics 20)
         [mkIndication NDIS_NBL_FLAGS_IS_IPV4 sample_payload] 0).
Proof.
  destruct (send_receive_roundtrip sample_flags sample_capacity sample_ring
              (enqueued sample_capacity sample_ring sample_nb) sample_nb)
    as [Hframe Hnext].
  - reflexivity.
  - split; [vm_compute; split; [discriminate | reflexivity] | reflexivity].
  - split; [vm_compute; split; [discriminate | reflexivity] | reflexivity].
  - vm_compute. discriminate.
  - vm_compute. discriminate.
  - reflexivity.
  - split; [exact Hframe |].
    exact (Hnext eq_refl sample_flags NDIS_NBL_FLAGS_IS_IPV4 sample_statistics [] 0
             eq_refl eq_refl eq_refl).
Defined.

(** ** C4: rejected packets *)

(** C4, as stated, fails: a packet that passes all six tests but whose data
    cannot be mapped is discarded with [NDIS_STATUS_BUFFER_OVERFLOW] although
    the ring has room, and its length has been stored at [Tail]. *)
Lemma send_unmappable_counterexample :
  match TunSendNetBuffer sample_flags sample_capacity sample_ring sample_nb_unmappable with
  | SendDiscarded Ring' Status =>
      Status = NDIS_STATUS_BUFFER_OVERFLOW /\
      ~ send_reject_condition sample_flags sample_capacity sample_ring
          sample_nb_unmappable Status /\
      Data Ring' (Tail sample_ring) <> Data sample_ring (Tail sample_ring) /\
      Ring' <> sample_ring
  | SendAccepted _ => False
  end.
Proof.
  cbv beta iota delta [TunSendNetBuffer]. vm_compute.
  repeat split.
  - intros H. discriminate H.
  - intros H. discriminate H.
  - intros H. apply (f_equal (fun r => Data r 0)) in H. vm_compute in H. discriminate H.
Qed.

(** C4, amended.  A rejected packet never moves Head or Tail and never
    writes a byte of the ring outside the four-byte length slot that starts
    at Tail, and the rejected status is what the net buffer list is marked
    with; unless the packet passed all six tests and its data could not be
    mapped, the status identifies the failed test and the ring is exactly
    as before. *)
Theorem send_discard_leaves_ring (Flags RingCapacity : Z) (s : SEND_STATE)
  (NblSt : NDIS_STATUS) (Nb : NET_BUFFER) (Ring' : TUN_RING) (Status : NDIS_STATUS) :
  TunSendNetBuffer Flags RingCapacity (SendRing s) Nb = SendDiscarded Ring' Status ->
  snd (TunSendStep Flags RingCapacity (s, NblSt) Nb) = Status /\
  Head Ring' = Head (SendRing s) /\
  Tail Ring' = Tail (SendRing s) /\
  Alertable Ring' = Alertable (SendRing s) /\
  (forall a, a < Tail (SendRing s) \/ Tail (SendRing s) + sizeof_TUN_PACKET <= a ->
             Data Ring' a = Data (SendRing s) a) /\
  (~ (send_admissible Flags RingCapacity (SendRing s) Nb /\ NbLayout Nb = NbUnmappable) ->
   send_reject_condition Flags RingCapacity (SendRing s) Nb Status /\
   Ring' = SendRing s).
Proof.
  intros H. split.
  { unfold TunSendStep. rewrite H. reflexivity. }
  apply TunSendNetBuffer_discarded in H.
  destruct H as [[Hcond ->] | (Hadm & Hlay & ->)].
  - repeat split; try reflexivity. exact Hcond.
  - cbn [set_Data Head Tail Alertable Data].
    repeat split.
    + intros a Ha. unfold store_ULONG. apply write_bytes_outside.
      unfold sizeof_TUN_PACKET in Ha. cbn [encode_ULONG length]. lia.
    + exfalso. apply H. split; assumption.
    + exfalso. apply H. split; assumption.
Qed.

Lemma send_discard_leaves_ring_witness :
  let s := mkSendState sample_ring_24_free 0 0 0 0 in
  let big := mkNb (sample_payload ++ sample_payload) NbContiguous in
  snd (TunSendStep sample_flags sample_capacity (s, NDIS_STATUS_SUCCESS) big)
  = NDIS_STATUS_BUFFER_OVERFLOW /\
  send_reject_condition sample_flags sample_capacity sample_ring_24_free big
    NDIS_STATUS_BUFFER_OVERFLOW.
Proof.
  intros s big.
  destruct (send_discard_leaves_ring sample_flags sample_capacity s NDIS_STATUS_SUCCESS
              big sample_ring_24_free NDIS_STATUS_BUFFER_OVERFLOW eq_refl)
    as (Hst & _ & _ & _ & _ & Hid).
  split; [exact Hst |].
  apply Hid. intros [_ Hlay]. discriminate Hlay.
Defined.

(** ** C5: the free-space boundary *)

(** C5, as stated, fails: with Head and Tail aligned and in range and all
    three flags set, a packet whose footprint equals the free space is
    still rejected when its data cannot be mapped, and a packet longer than
    [TUN_MAX_IP_PACKET_SIZE], whose footprint exceeds the free space, is
    rejected with [NDIS_STATUS_INVALID_LENGTH]. *)
Lemma send_exact_fit_counterexample :
  flags_all_set sample_flags /\
  offset_ok sample_capacity (Head sample_ring_24_free) /\
  offset_ok sample_capacity (Tail sample_ring_24_free) /\
  footprint sample_nb_unmappable
  = RingSpace (Head sample_ring_24_free) (Tail sample_ring_24_free) sample_capacity /\
  match TunSendNetBuffer sample_flags sample_capacity sample_ring_24_free
          sample_nb_unmappable with
  | SendDiscarded Ring' _ => Tail Ring' = Tail sample_ring_24_free
  | SendAccepted _ => False
  end /\
  footprint sample_nb_oversize
  > RingSpace (Head sample_ring_24_free) (Tail sample_ring_24_free) sample_capacity /\
  TunSendNetBuffer sample_flags sample_capacity sample_ring_24_free sample_nb_oversize
  = SendDiscarded sample_ring_24_free NDIS_STATUS_INVALID_LENGTH.
Proof.
  repeat split; try (vm_compute; reflexivity); try (vm_compute; discriminate).
Qed.

(** C5, amended.  With Head and Tail aligned and in range, all three flags
    set and a payload of at most [TUN_MAX_IP_PACKET_SIZE] bytes: a packet
    whose footprint equals the free space is accepted — copied in at Tail
    and Tail advanced by the footprint — provided its data can be mapped;
    a packet whose footprint exceeds the free space is rejected with
    [NDIS_STATUS_BUFFER_OVERFLOW] and the ring is unchanged. *)
Theorem send_free_space_boundary (Flags RingCapacity : Z) (Ring : TUN_RING) (Nb : NET_BUFFER) :
  flags_all_set Flags ->
  offset_ok RingCapacity (Head Ring) ->
  offset_ok RingCapacity (Tail Ring) ->
  NET_BUFFER_DATA_LENGTH Nb <= TUN_MAX_IP_PACKET_SIZE ->
  (footprint Nb = RingSpace (Head Ring) (Tail Ring) RingCapacity ->
   NbLayout Nb <> NbUnmappable ->
   TunSendNetBuffer Flags RingCapacity Ring Nb
   = SendAccepted (enqueued RingCapacity Ring Nb)) /\
  (footprint Nb > RingSpace (Head Ring) (Tail Ring) RingCapacity ->
   TunSendNetBuffer Flags RingCapacity Ring Nb
   = SendDiscarded Ring NDIS_STATUS_BUFFER_OVERFLOW).
Proof.
  intros Hf [Hh _] [Ht _] Hl. split.
  - intros Heq Hlay. apply TunSendNetBuffer_accepts; [| exact Hlay].
    repeat split; try apply Hf; try lia.
  - intros Hgt. destruct Hf as (Hp & Hr & Hc).
    unfold TunSendNetBuffer. rewrite Hp, Hr, Hc. cbn [negb].
    replace (NET_BUFFER_DATA_LENGTH Nb >? TUN_MAX_IP_PACKET_SIZE) with false
      by (symmetry; rewrite Z.gtb_ltb; apply Z.ltb_ge; lia).
    replace (Head Ring >=? RingCapacity) with false
      by (symmetry; rewrite Z.geb_leb; apply Z.leb_gt; lia).
    replace (Tail Ring >=? RingCapacity) with false
      by (symmetry; rewrite Z.geb_leb; apply Z.leb_gt; lia).
    fold (footprint Nb).
    replace (_ >? RingSpace _ _ _) with true
      by (symmetry; rewrite Z.gtb_ltb; apply Z.ltb_lt; lia).
    reflexivity.
Qed.

Lemma send_free_space_boundary_witness :
  TunSendNetBuffer sample_flags sample_capacity sample_ring_24_free sample_nb_scattered
  = SendAccepted (enqueued sample_capacity sample_ring_24_free sample_nb_scattered).
Proof.
  apply (send_free_space_boundary sample_flags sample_capacity sample_ring_24_free
           sample_nb_scattered).
  - repeat split.
  - split; [vm_compute; split; [discriminate | reflexivity] | reflexivity].
  - split; [vm_compute; split; [discriminate | reflexivity] | reflexivity].
  - vm_compute. discriminate.
  - reflexivity.
  - discriminate.
Defined.

(** ** C8: Head and Tail stay aligned and in range *)

(** C8.  For a legal capacity and a ring whose Head and Tail are multiples
    of the alignment unit below the capacity, the Tail advance of an
    accepted send and the Head advance of a receive iteration that reaches
    [nextPacket] leave Head and Tail multiples of the alignment unit below
    the capacity. *)
Theorem advance_preserves_offsets (RingCapacity : Z) (Ring : TUN_RING) :
  capacity_legal RingCapacity ->
  offset_ok RingCapacity (Head Ring) ->
  offset_ok RingCapacity (Tail Ring) ->
  (forall Flags Nb Ring',
      TunSendNetBuffer Flags RingCapacity Ring Nb = SendAccepted Ring' ->
      Tail Ring' = (Tail Ring + footprint Nb) mod RingCapacity /\
      offset_ok RingCapacity (Head Ring') /\ offset_ok RingCapacity (Tail Ring')) /\
  (forall Flags NblAllocated s s',
      ReceiveRing s = Ring ->
      TunReceiveIteration Flags RingCapacity NblAllocated s = ReceiveNext s' ->
      offset_ok RingCapacity (Head (ReceiveRing s')) /\
      offset_ok RingCapacity (Tail (ReceiveRing s'))).
Proof.
  intros Hc Hh Ht. split.
  - intros Flags Nb Ring' Hacc.
    apply TunSendNetBuffer_accepted in Hacc.
    destruct Hacc as ((_ & Hl & _) & _ & ->).
    unfold enqueued. cbn [Head Tail].
    assert (Hlen : 0 <= NET_BUFFER_DATA_LENGTH Nb <= TUN_MAX_IP_PACKET_SIZE).
    { split; [unfold NET_BUFFER_DATA_LENGTH; lia | exact Hl]. }
    destruct (footprint_aligned (NET_BUFFER_DATA_LENGTH Nb) Hlen) as [_ Hfa].
    split; [apply advance_value; exact Hc |].
    split; [exact Hh |].
    apply advance_offset_ok; [exact Hc | apply Ht | exact Hfa].
  - intros Flags NblAllocated s s' Hs Hnext.
    apply TunReceiveIteration_next in Hnext.
    destruct Hnext as (f & fl & _ & _ & _ & Hf & _ & ->).
    apply TunReceiveFrame_inv in Hf.
    destruct Hf as (_ & _ & _ & Hsz & Hal & _ & _).
    rewrite Hs. cbn [set_Head Head Tail].
    split; [| exact Ht].
    destruct (footprint_aligned (PacketSize f) Hsz) as [_ Hfa].
    apply advance_offset_ok; [exact Hc | apply Hh |].
    rewrite Hal. exact Hfa.
Qed.

Lemma advance_preserves_offsets_witness :
  Tail (enqueued sample_capacity sample_ring sample_nb) = 24 /\
  offset_ok sample_capacity (Tail (enqueued sample_capacity sample_ring sample_nb)).
Proof.
  destruct (advance_preserves_offsets sample_capacity sample_ring) as [Hsend _].
  - reflexivity.
  - split; [vm_compute; split; [discriminate | reflexivity] | reflexivity].
  - split; [vm_compute; split; [discriminate | reflexivity] | reflexivity].
  - destruct (Hsend sample_flags sample_nb (enqueued sample_capacity sample_ring sample_nb)
                eq_refl) as (Hv & _ & Hok).
    split; [exact Hv | exact Hok].
Defined.

(** ** C9: a packet that cannot be delivered is still consumed *)

(** C9.  When the iteration has decoded an IP packet at Head and delivery
    fails — no net buffer list could be allocated, or the present and
    running flags are not both set — the loop continues with a state in
    which the discard counter is the old one plus one (modulo 2^64) and
    the other counters are as before, nothing is indicated, no net buffer
    list stays allocated, Tail, Alertable and the data of the ring are as
    before, and Head is the old Head plus the packet's aligned size — the
    multiple of four reached from the header's four bytes plus the size
    stored at Head — wrapped by the capacity mask; for a legal capacity
    that is the sum modulo the capacity, and the used space seen from the
    new Head is smaller by exactly the aligned size, so the packet is not
    read again. *)
Theorem receive_discard_advances_head (Flags RingCapacity : Z) (NblAllocated : bool)
  (s : RECEIVE_STATE) (f : FRAME) (NblFlags : NBL_FLAGS) :
  flag_set Flags TUN_FLAGS_CONNECTED = true ->
  Head (ReceiveRing s) < RingCapacity ->
  Head (ReceiveRing s) <> Tail (ReceiveRing s) ->
  TunReceiveFrame RingCapacity (Head (ReceiveRing s)) (Tail (ReceiveRing s))
    (Data (ReceiveRing s)) = Some f ->
  TunClassify f = Some NblFlags ->
  NblAllocated = false \/
  Z.land Flags (Z.lor TUN_FLAGS_PRESENT TUN_FLAGS_RUNNING)
  <> Z.lor TUN_FLAGS_PRESENT TUN_FLAGS_RUNNING ->
  let Head' :=
    TUN_RING_WRAP
      (Ulong.add (Head (ReceiveRing s)) (TUN_ALIGN (sizeof_TUN_PACKET + PacketSize f)))
      RingCapacity in
  TunReceiveIteration Flags RingCapacity NblAllocated s
  = ReceiveNext
      (mkReceiveState (set_Head (ReceiveRing s) Head')
         (count_discarded (Statistics s)) (Indicated s) (NblOutstanding s)) /\
  ifInDiscards (count_discarded (Statistics s))
  = InterlockedIncrement64 (ifInDiscards (Statistics s)) /\
  (capacity_legal RingCapacity ->
   RingContent (Tail (ReceiveRing s)) Head' RingCapacity
   = RingContent (Tail (ReceiveRing s)) (Head (ReceiveRing s)) RingCapacity
     - TUN_ALIGN (sizeof_TUN_PACKET + PacketSize f)) /\
  (exists s' Aligned,
     TunReceiveIteration Flags RingCapacity NblAllocated s = ReceiveNext s' /\
     PacketSize f = load_ULONG (Data (ReceiveRing s)) (Head (ReceiveRing s)) /\
     Aligned mod 4 = 0 /\
     4 + PacketSize f <= Aligned < 4 + PacketSize f + 4 /\
     Head (ReceiveRing s')
     = Z.land ((Head (ReceiveRing s) + Aligned) mod 2 ^ 32) ((RingCapacity - 1) mod 2 ^ 32) /\
     (capacity_legal RingCapacity ->
      Head (ReceiveRing s') = (Head (ReceiveRing s) + Aligned) mod RingCapacity /\
      Head (ReceiveRing s') <> Head (ReceiveRing s)) /\
     Tail (ReceiveRing s') = Tail (ReceiveRing s) /\
     Alertable (ReceiveRing s') = Alertable (ReceiveRing s) /\
     Data (ReceiveRing s') = Data (ReceiveRing s) /\
     ifInDiscards (Statistics s') = (ifInDiscards (Statistics s) + 1) mod 2 ^ 64 /\
     ifHCInOctets (Statistics s') = ifHCInOctets (Statistics s) /\
     ifHCInUcastOctets (Statistics s') = ifHCInUcastOctets (Statistics s) /\
     ifHCInUcastPkts (Statistics s') = ifHCInUcastPkts (Statistics s) /\
     ifHCOutOctets (Statistics s') = ifHCOutOctets (Statistics s) /\
     ifHCOutUcastOctets (Statistics s') = ifHCOutUcastOctets (Statistics s) /\
     ifHCOutUcastPkts (Statistics s') = ifHCOutUcastPkts (Statistics s) /\
     ifOutDiscards (Statistics s') = ifOutDiscards (Statistics s) /\
     Indicated s' = Indicated s /\
     NblOutstanding s' = NblOutstanding s).
Proof.
  intros Hconn Hh Hne Hf Hcl Hfail Head'.
  pose proof (TunReceiveFrame_inv _ _ _ _ _ Hf) as (_ & Hc4 & Hld & Hsz & Hal & Hfit & _).
  assert (Hstep :
    TunReceiveIteration Flags RingCapacity NblAllocated s
    = ReceiveNext
        (mkReceiveState (set_Head (ReceiveRing s) Head')
           (count_discarded (Statistics s)) (Indicated s) (NblOutstanding s))).
  { unfold TunReceiveIteration. rewrite Hconn. cbn [negb].
    replace (Head (ReceiveRing s) >=? RingCapacity) with false
      by (symmetry; rewrite Z.geb_leb; apply Z.leb_gt; lia).
    replace (Head (ReceiveRing s) =? Tail (ReceiveRing s)) with false
      by (symmetry; apply Z.eqb_neq; exact Hne).
    unfold TunReceivePacket. rewrite Hf, Hcl.
    destruct NblAllocated; cbn [negb].
    + destruct Hfail as [Hfail | Hfail]; [discriminate |].
      apply Z.eqb_neq in Hfail. rewrite Hfail. cbn [negb].
      unfold cleanupFreeNbl, cleanupDiscardPacket, nextPacket, NdisFreeNetBufferList,
        InterlockedExchangeU_Head.
      cbn [ReceiveRing Statistics Indicated NblOutstanding].
      subst Head'. rewrite Hal. do 2 f_equal. lia.
    + unfold cleanupDiscardPacket, nextPacket, InterlockedExchangeU_Head.
      cbn [ReceiveRing Statistics Indicated NblOutstanding].
      subst Head'. rewrite Hal. reflexivity. }
  destruct (footprint_aligned (PacketSize f) Hsz) as [Hfp Hmod].
  assert (Hcont : capacity_legal RingCapacity ->
                  forall h, RingContent (Tail (ReceiveRing s)) h RingCapacity
                            = (Tail (ReceiveRing s) - h) mod RingCapacity).
  { intros Hc h. unfold RingContent, Ulong.sub. apply wrap_cast. exact Hc. }
  split; [exact Hstep |].
  split; [reflexivity |].
  split.
  { intros Hc. subst Head'. rewrite <- Hal.
    rewrite advance_value by exact Hc.
    pose proof (capacity_legal_bounds RingCapacity Hc) as Hb.
    unfold TUN_MIN_RING_CAPACITY in Hb.
    rewrite <- Hal in Hfp. unfold sizeof_TUN_PACKET in Hfp.
    rewrite !(Hcont Hc). rewrite (Hcont Hc) in Hfit.
    rewrite Zminus_mod_idemp_r.
    replace (Tail (ReceiveRing s) - (Head (ReceiveRing s) + AlignedPacketSize f))
      with (Tail (ReceiveRing s) - Head (ReceiveRing s) - AlignedPacketSize f) by ring.
    rewrite <- Zminus_mod_idemp_l.
    pose proof (Z.mod_pos_bound (Tail (ReceiveRing s) - Head (ReceiveRing s)) RingCapacity
                  ltac:(lia)).
    apply Z.mod_small. lia. }
  exists (mkReceiveState (set_Head (ReceiveRing s) Head')
            (count_discarded (Statistics s)) (Indicated s) (NblOutstanding s)).
  exists (TUN_ALIGN (sizeof_TUN_PACKET + PacketSize f)).
  cbn [ReceiveRing Statistics Indicated NblOutstanding set_Head Head Tail Alertable Data
       count_discarded ifInDiscards ifHCInOctets ifHCInUcastOctets ifHCInUcastPkts
       ifHCOutOctets ifHCOutUcastOctets ifHCOutUcastPkts ifOutDiscards].
  split; [exact Hstep |].
  split; [exact Hld |].
  split; [exact Hmod |].
  split; [unfold sizeof_TUN_PACKET in Hfp; exact Hfp |].
  split; [reflexivity |].
  split; [| repeat split].
  intros Hc. subst Head'. rewrite advance_value by exact Hc.
  split; [reflexivity |].
  pose proof (capacity_legal_bounds RingCapacity Hc) as Hb.
  unfold TUN_MIN_RING_CAPACITY in Hb.
  rewrite (Hcont Hc) in Hfit. rewrite Hal in Hfit.
  pose proof (Z.mod_pos_bound (Tail (ReceiveRing s) - Head (ReceiveRing s)) RingCapacity
                ltac:(lia)) as Hlt.
  unfold sizeof_TUN_PACKET in Hfp.
  intros Heq.
  pose proof (Z.div_mod (Head (ReceiveRing s) + TUN_ALIGN (sizeof_TUN_PACKET + PacketSize f))
                RingCapacity ltac:(lia)) as Hdm.
  rewrite Heq in Hdm.
  unfold sizeof_TUN_PACKET in *.
  set (q := (Head (ReceiveRing s) + TUN_ALIGN (4 + PacketSize f)) / RingCapacity) in Hdm.
  assert (Hq : TUN_ALIGN (4 + PacketSize f) = RingCapacity * q) by lia.
  destruct (Z_le_gt_dec q 0) as [Hq0 | Hq0].
  - assert (RingCapacity * q <= 0) by (apply Z.mul_nonneg_nonpos; lia). lia.
  - assert (RingCapacity * 1 <= RingCapacity * q) by (apply Z.mul_le_mono_nonneg_l; lia).
    lia.
Qed.

Lemma receive_discard_advances_head_witness :
  TunReceiveIteration TUN_FLAGS_CONNECTED sample_capacity true sample_receive_state
  = ReceiveNext
      (mkReceiveState (set_Head (ReceiveRing sample_receive_state) 24)
         (count_discarded sample_statistics) [] 0) /\
  exists s',
    TunReceiveIteration TUN_FLAGS_CONNECTED sample_capacity true sample_receive_state
    = ReceiveNext s' /\
    Head (ReceiveRing s') = 24 /\
    ifInDiscards (Statistics s') = 1.
Proof.
  destruct (receive_discard_advances_head TUN_FLAGS_CONNECTED sample_capacity true
              sample_receive_state (mkFrame 20 24 sample_payload) NDIS_NBL_FLAGS_IS_IPV4)
    as (Hstep & _ & _ & s' & Aligned & Hs' & _ & _ & _ & _ & Hlegal & _ & _ & _ & Hdisc & _).
  - reflexivity.
  - vm_compute. reflexivity.
  - vm_compute. discriminate.
  - reflexivity.
  - reflexivity.
  - right. vm_compute. discriminate.
  - split; [exact Hstep |].
    exists s'. split; [exact Hs' |].
    split; [| rewrite Hdisc; reflexivity].
    rewrite Hstep in Hs'. injection Hs' as Hs'. rewrite <- Hs'. reflexivity.
Defined.

(** ** Registration and teardown facts *)

Section Handshake.

Lemma remove_one_head (x : Z) (l : list Z) : remove_one x (x :: l) = l.
Proof. cbn [remove_one]. rewrite Z.eqb_refl. reflexivity. Qed.

Lemma remove_locked_head (m : Z) (b : bool) (l : list (Z * bool)) :
  remove_locked m ((m, b) :: l) = l.
Proof. cbn [remove_locked]. rewrite Z.eqb_refl. reflexivity. Qed.

Lemma mark_mapped_head (m : Z) (b : bool) (l : list (Z * bool)) :
  mark_mapped m ((m, b) :: l) = (m, true) :: l.
Proof. cbn [mark_mapped]. rewrite Z.eqb_refl. reflexivity. Qed.

Lemma flag_clear_after_set (F C : Z) :
  Z.land (Z.lor F C) (Z.lnot C) = Z.land F (Z.lnot C).
Proof.
  apply Z.bits_inj'. intros n Hn.
  rewrite !Z.land_spec, Z.lor_spec, Z.lnot_spec by exact Hn.
  destruct (Z.testbit F n), (Z.testbit C n); reflexivity.
Qed.

Lemma flag_clear_when_clear (F C : Z) :
  flag_set F C = false -> Z.land F (Z.lnot C) = F.
Proof.
  unfold flag_set. intros H. apply negb_false_iff, Z.eqb_eq in H.
  apply Z.bits_inj'. intros n Hn.
  rewrite Z.land_spec, Z.lnot_spec by exact Hn.
  assert (Hb : Z.testbit (Z.land F C) n = false) by (rewrite H; apply Z.bits_0).
  rewrite Z.land_spec in Hb.
  destruct (Z.testbit F n), (Z.testbit C n); cbn in *; congruence.
Qed.

Lemma set_then_clear_connected (F : Z) :
  flag_set F TUN_FLAGS_CONNECTED = false ->
  InterlockedAnd (InterlockedOr F TUN_FLAGS_CONNECTED) (Z.lnot TUN_FLAGS_CONNECTED) = F.
Proof.
  intros H. unfold InterlockedAnd, InterlockedOr.
  rewrite flag_clear_after_set. apply flag_clear_when_clear. exact H.
Qed.

End Handshake.

Section KernelCalls.

Variable K : KERNEL.

Lemma ObReferenceObjectByHandle_success (Status : NTSTATUS) (Object : Z) :
  NT_SUCCESS Status = true ->
  ObReferenceObjectByHandle K Status Object
  = mkKernel (Object :: ObjectReferences K) (Mdls K) (LockedPages K) (OpenHandles K)
      (RingMemory K) (Calls K).
Proof. intros H. unfold ObReferenceObjectByHandle. rewrite H. reflexivity. Qed.

Lemma ObReferenceObjectByHandle_failure (Status : NTSTATUS) (Object : Z) :
  NT_SUCCESS Status = false -> ObReferenceObjectByHandle K Status Object = K.
Proof. intros H. unfold ObReferenceObjectByHandle. rewrite H. reflexivity. Qed.

Lemma IoAllocateMdl_success (Mdl : Z) :
  (Mdl =? NULL) = false ->
  IoAllocateMdl K Mdl
  = mkKernel (ObjectReferences K) (Mdl :: Mdls K) (LockedPages K) (OpenHandles K)
      (RingMemory K) (Calls K).
Proof. intros H. unfold IoAllocateMdl. rewrite H. reflexivity. Qed.

Lemma IoAllocateMdl_failure (Mdl : Z) :
  (Mdl =? NULL) = true -> IoAllocateMdl K Mdl = K.
Proof. intros H. unfold IoAllocateMdl. rewrite H. reflexivity. Qed.

Lemma MmGetSystemAddressForMdlSafe_success (Mdl Address : Z) :
  (Address =? NULL) = false ->
  MmGetSystemAddressForMdlSafe K Mdl Address
  = mkKernel (ObjectReferences K) (Mdls K) (mark_mapped Mdl (LockedPages K)) (OpenHandles K)
      (RingMemory K) (Calls K).
Proof. intros H. unfold MmGetSystemAddressForMdlSafe. rewrite H. reflexivity. Qed.

Lemma MmGetSystemAddressForMdlSafe_failure (Mdl Address : Z) :
  (Address =? NULL) = true -> MmGetSystemAddressForMdlSafe K Mdl Address = K.
Proof. intros H. unfold MmGetSystemAddressForMdlSafe. rewrite H. reflexivity. Qed.

Lemma PsCreateSystemThread_success (Status : NTSTATUS) (Thread : Z) :
  NT_SUCCESS Status = true ->
  PsCreateSystemThread K Status Thread
  = mkKernel (ObjectReferences K) (Mdls K) (LockedPages K) (Thread :: OpenHandles K)
      (RingMemory K) (Calls K).
Proof. intros H. unfold PsCreateSystemThread. rewrite H. reflexivity. Qed.

Lemma PsCreateSystemThread_failure (Status : NTSTATUS) (Thread : Z) :
  NT_SUCCESS Status = false -> PsCreateSystemThread K Status Thread = K.
Proof. intros H. unfold PsCreateSystemThread. rewrite H. reflexivity. Qed.

End KernelCalls.

Section Registration.

Variable Env : REGISTER_ENV.
Variable Rrb : TUN_REGISTER_RINGS.

(** Reduction of the context and kernel records, leaving integer
    operations and the tests on the descriptors alone. *)
Ltac step :=
  cbn -[Z.eqb Z.land Z.lor Z.lnot TUN_RING_CAPACITY ring_rejected NT_SUCCESS
        TUN_FLAGS_CONNECTED NULL TunRegisterReceiveRing TunRegisterSendRing] in *.

(** The answers of the kernel, once the tests on them are decided. *)
Ltac kernel_answers :=
  repeat first
    [ rewrite ObReferenceObjectByHandle_success by assumption
    | rewrite ObReferenceObjectByHandle_failure by assumption
    | rewrite IoAllocateMdl_success by assumption
    | rewrite IoAllocateMdl_failure by assumption
    | rewrite MmGetSystemAddressForMdlSafe_success by assumption
    | rewrite MmGetSystemAddressForMdlSafe_failure by assumption
    | rewrite PsCreateSystemThread_success by assumption
    | rewrite PsCreateSystemThread_failure by assumption ].

Ltac unwind :=
  repeat (progress (step;
                    rewrite ?mark_mapped_head, ?remove_locked_head, ?remove_one_head,
                      ?Z.eqb_refl)).

Ltac released_now Hr Hm Hl Ho Hg :=
  kernel_answers; step; unfold released, kernel_resources; unwind;
  rewrite ?Hr, ?Hm, ?Hl, ?Ho, ?Hg; unwind;
  repeat split; try reflexivity; try assumption.

(** The receive half of registration, entered with the send ring's event,
    MDL and page lock on top of the resources of [K0]. *)
Lemma TunRegisterReceiveRing_failure (Ctx : TUN_CTX) (K K0 : KERNEL) (b : bool) :
  ObjectReferences K = Device_Send_TailMoved Ctx :: ObjectReferences K0 ->
  Mdls K = Device_Send_Mdl Ctx :: Mdls K0 ->
  LockedPages K = (Device_Send_Mdl Ctx, b) :: LockedPages K0 ->
  OpenHandles K = OpenHandles K0 ->
  RingMemory K = RingMemory K0 ->
  NT_SUCCESS (fst (fst (TunRegisterReceiveRing Env Rrb Ctx K))) = false ->
  released Ctx K0 (TunRegisterReceiveRing Env Rrb Ctx K) /\
  (Ctx_Flags (snd (fst (TunRegisterReceiveRing Env Rrb Ctx K))) = Ctx_Flags Ctx \/
   Ctx_Flags (snd (fst (TunRegisterReceiveRing Env Rrb Ctx K)))
   = InterlockedAnd (InterlockedOr (Ctx_Flags Ctx) TUN_FLAGS_CONNECTED)
       (Z.lnot TUN_FLAGS_CONNECTED)).
Proof.
  intros Hr Hm Hl Ho Hg. unfold TunRegisterReceiveRing. step.
  destruct (ring_rejected _ (Rrb_Receive Rrb)) eqn:E1.
  { intros _. split; [released_now Hr Hm Hl Ho Hg | left; reflexivity]. }
  destruct (Receive_TailMoved_Reference Env) as [rst robj].
  destruct (NT_SUCCESS rst) eqn:E2; cbn [negb].
  2: { intros _. split; [released_now Hr Hm Hl Ho Hg | left; reflexivity]. }
  destruct (Receive_Mdl_Allocated Env =? NULL) eqn:E3.
  { intros _. split; [released_now Hr Hm Hl Ho Hg | left; reflexivity]. }
  destruct (Receive_Pages_Locked Env) eqn:E4; cbn [negb].
  2: { intros _. split; [released_now Hr Hm Hl Ho Hg | left; reflexivity]. }
  destruct (Receive_System_Address Env =? NULL) eqn:E5.
  { intros _. split; [released_now Hr Hm Hl Ho Hg | left; reflexivity]. }
  destruct (Thread_Created Env) as [tst th].
  destruct (NT_SUCCESS tst) eqn:E6; cbn [negb].
  { intros Hs. cbn [fst] in Hs. discriminate Hs. }
  intros _. split; [released_now Hr Hm Hl Ho Hg | right; reflexivity].
Qed.

(** An illegal receive ring is always answered with
    [STATUS_INVALID_PARAMETER], with the flags and the call log untouched. *)
Lemma TunRegisterReceiveRing_rejected (Ctx : TUN_CTX) (K : KERNEL) :
  ring_rejected (TUN_RING_CAPACITY (RingSize (Rrb_Receive Rrb))) (Rrb_Receive Rrb) = true ->
  fst (fst (TunRegisterReceiveRing Env Rrb Ctx K)) = STATUS_INVALID_PARAMETER /\
  Ctx_Flags (snd (fst (TunRegisterReceiveRing Env Rrb Ctx K))) = Ctx_Flags Ctx /\
  Calls (snd (TunRegisterReceiveRing Env Rrb Ctx K)) = Calls K.
Proof.
  intros E1. unfold TunRegisterReceiveRing. step. rewrite E1.
  repeat split.
Qed.

(** The send half, entered with the owner claimed. *)
Lemma TunRegisterSendRing_failure (Ctx : TUN_CTX) (K : KERNEL) :
  NT_SUCCESS (fst (fst (TunRegisterSendRing Env Rrb Ctx K))) = false ->
  released Ctx K (TunRegisterSendRing Env Rrb Ctx K) /\
  (Ctx_Flags (snd (fst (TunRegisterSendRing Env Rrb Ctx K))) = Ctx_Flags Ctx \/
   Ctx_Flags (snd (fst (TunRegisterSendRing Env Rrb Ctx K)))
   = InterlockedAnd (InterlockedOr (Ctx_Flags Ctx) TUN_FLAGS_CONNECTED)
       (Z.lnot TUN_FLAGS_CONNECTED)).
Proof.
  unfold TunRegisterSendRing. step.
  destruct (ring_rejected _ (Rrb_Send Rrb)) eqn:E1.
  { intros _. split; [released_now E1 E1 E1 E1 E1 | left; reflexivity]. }
  destruct (Send_TailMoved_Reference Env) as [sst sobj].
  destruct (NT_SUCCESS sst) eqn:E2; cbn [negb].
  2: { intros _. split; [released_now E1 E1 E1 E1 E1 | left; reflexivity]. }
  destruct (Send_Mdl_Allocated Env =? NULL) eqn:E3.
  { intros _. split; [released_now E1 E1 E1 E1 E1 | left; reflexivity]. }
  destruct (Send_Pages_Locked Env) eqn:E4; cbn [negb].
  2: { intros _. split; [released_now E1 E1 E1 E1 E1 | left; reflexivity]. }
  destruct (Send_System_Address Env =? NULL) eqn:E5.
  { intros _. split; [released_now E1 E1 E1 E1 E1 | left; reflexivity]. }
  kernel_answers. unwind.
  intros Hs.
  apply (TunRegisterReceiveRing_failure _ _ K true) in Hs; try reflexivity.
  exact Hs.
Qed.

Lemma TunRegisterSendRing_rejected (Ctx : TUN_CTX) (K : KERNEL) :
  ring_rejected (TUN_RING_CAPACITY (RingSize (Rrb_Send Rrb))) (Rrb_Send Rrb) = true ->
  fst (fst (TunRegisterSendRing Env Rrb Ctx K)) = STATUS_INVALID_PARAMETER /\
  Ctx_Flags (snd (fst (TunRegisterSendRing Env Rrb Ctx K))) = Ctx_Flags Ctx /\
  Calls (snd (TunRegisterSendRing Env Rrb Ctx K)) = Calls K.
Proof.
  intros E1. unfold TunRegisterSendRing. step. rewrite E1.
  repeat split.
Qed.

(** An illegal receive ring behind a send ring that may or may not register. *)
Lemma TunRegisterSendRing_receive_rejected (Ctx : TUN_CTX) (K : KERNEL) :
  ring_rejected (TUN_RING_CAPACITY (RingSize (Rrb_Receive Rrb))) (Rrb_Receive Rrb) = true ->
  NT_SUCCESS (fst (fst (TunRegisterSendRing Env Rrb Ctx K))) = false /\
  Ctx_Flags (snd (fst (TunRegisterSendRing Env Rrb Ctx K))) = Ctx_Flags Ctx /\
  (ring_rejected (TUN_RING_CAPACITY (RingSize (Rrb_Send Rrb))) (Rrb_Send Rrb) = false ->
   NT_SUCCESS (fst (Send_TailMoved_Reference Env)) = true ->
   Send_Mdl_Allocated Env <> NULL ->
   Send_Pages_Locked Env = true ->
   Send_System_Address Env <> NULL ->
   fst (fst (TunRegisterSendRing Env Rrb Ctx K)) = STATUS_INVALID_PARAMETER).
Proof.
  intros Hrej. unfold TunRegisterSendRing. step.
  destruct (ring_rejected _ (Rrb_Send Rrb)) eqn:E1.
  { split; [reflexivity | split; [reflexivity |]]. intros H. discriminate H. }
  destruct (Send_TailMoved_Reference Env) as [sst sobj].
  destruct (NT_SUCCESS sst) eqn:E2; cbn [negb].
  2: { step. split; [exact E2 | split; [reflexivity |]].
       intros _ H. rewrite E2 in H. discriminate H. }
  destruct (Send_Mdl_Allocated Env =? NULL) eqn:E3.
  { step. split; [reflexivity | split; [reflexivity |]].
    intros _ _ H. apply Z.eqb_eq in E3. contradiction. }
  destruct (Send_Pages_Locked Env) eqn:E4; cbn [negb].
  2: { step. split; [reflexivity | split; [reflexivity |]].
       intros _ _ _ H. discriminate H. }
  destruct (Send_System_Address Env =? NULL) eqn:E5.
  { step. split; [reflexivity | split; [reflexivity |]].
    intros _ _ _ _ H. apply Z.eqb_eq in E5. contradiction. }
  destruct (TunRegisterReceiveRing_rejected
              (set_Send_Ring
                 (set_Send_Mdl
                    (set_Send_TailMoved
                       (set_Send_Capacity Ctx (TUN_RING_CAPACITY (RingSize (Rrb_Send Rrb))))
                       sobj)
                    (Send_Mdl_Allocated Env))
                 (Send_System_Address Env))
              (MmGetSystemAddressForMdlSafe
                 (MmProbeAndLockPages
                    (IoAllocateMdl (ObReferenceObjectByHandle K sst sobj)
                       (Send_Mdl_Allocated Env))
                    (Send_Mdl_Allocated Env))
                 (Send_Mdl_Allocated Env) (Send_System_Address Env))
              Hrej) as (Hst & Hfl & _).
  rewrite Hst, Hfl. split; [reflexivity | split; [reflexivity |]].
  intros; reflexivity.
Qed.

(** The status, the flags word and the stored send capacity after a
    failure of the receive half. *)
Lemma TunRegisterReceiveRing_outcome (Ctx : TUN_CTX) (K : KERNEL) :
  NT_SUCCESS (fst (fst (TunRegisterReceiveRing Env Rrb Ctx K))) = false ->
  fst (fst (TunRegisterReceiveRing Env Rrb Ctx K))
  = match receive_ring_failure Env Rrb with
    | Some Status => Status
    | None => NDIS_STATUS_FAILURE
    end /\
  Ctx_Flags (snd (fst (TunRegisterReceiveRing Env Rrb Ctx K)))
  = match receive_ring_failure Env Rrb with
    | Some _ => Ctx_Flags Ctx
    | None => Z.land (Ctx_Flags Ctx) (Z.lnot TUN_FLAGS_CONNECTED)
    end /\
  Device_Send_Capacity (snd (fst (TunRegisterReceiveRing Env Rrb Ctx K)))
  = Device_Send_Capacity Ctx.
Proof.
  unfold TunRegisterReceiveRing, receive_ring_failure. step.
  destruct (ring_rejected _ (Rrb_Receive Rrb)) eqn:E1.
  { intros _. step. repeat split. }
  destruct (Receive_TailMoved_Reference Env) as [rst robj]. cbn [fst].
  destruct (NT_SUCCESS rst) eqn:E2; cbn [negb].
  2: { intros _. step. repeat split. }
  destruct (Receive_Mdl_Allocated Env =? NULL) eqn:E3.
  { intros _. step. repeat split. }
  destruct (Receive_Pages_Locked Env) eqn:E4; cbn [negb].
  2: { intros _. step. repeat split. }
  destruct (Receive_System_Address Env =? NULL) eqn:E5.
  { intros _. step. repeat split. }
  destruct (Thread_Created Env) as [tst th].
  destruct (NT_SUCCESS tst) eqn:E6; cbn [negb].
  { intros Hs. cbn [fst] in Hs. discriminate Hs. }
  intros _. step. split; [reflexivity |]. split; [| reflexivity].
  unfold InterlockedAnd, InterlockedOr. apply flag_clear_after_set.
Qed.

(** The fields the receive half leaves behind, whatever its outcome. *)
Lemma TunRegisterReceiveRing_fields (Ctx : TUN_CTX) (K : KERNEL) :
  Device_Send_Capacity (snd (fst (TunRegisterReceiveRing Env Rrb Ctx K)))
  = Device_Send_Capacity Ctx /\
  Device_Send_TailMoved (snd (fst (TunRegisterReceiveRing Env Rrb Ctx K)))
  = Device_Send_TailMoved Ctx /\
  Device_Send_Mdl (snd (fst (TunRegisterReceiveRing Env Rrb Ctx K))) = Device_Send_Mdl Ctx /\
  Device_Send_Ring (snd (fst (TunRegisterReceiveRing Env Rrb Ctx K))) = Device_Send_Ring Ctx /\
  Device_Receive_Capacity (snd (fst (TunRegisterReceiveRing Env Rrb Ctx K)))
  = TUN_RING_CAPACITY (RingSize (Rrb_Receive Rrb)) /\
  Device_Receive_TailMoved (snd (fst (TunRegisterReceiveRing Env Rrb Ctx K)))
  = (if negb (ring_rejected (TUN_RING_CAPACITY (RingSize (Rrb_Receive Rrb)))
                (Rrb_Receive Rrb))
     then snd (Receive_TailMoved_Reference Env)
     else Device_Receive_TailMoved Ctx) /\
  Device_Receive_Mdl (snd (fst (TunRegisterReceiveRing Env Rrb Ctx K)))
  = (if negb (ring_rejected (TUN_RING_CAPACITY (RingSize (Rrb_Receive Rrb)))
                (Rrb_Receive Rrb))
        && NT_SUCCESS (fst (Receive_TailMoved_Reference Env))
     then Receive_Mdl_Allocated Env
     else Device_Receive_Mdl Ctx) /\
  Device_Receive_Ring (snd (fst (TunRegisterReceiveRing Env Rrb Ctx K)))
  = (if negb (ring_rejected (TUN_RING_CAPACITY (RingSize (Rrb_Receive Rrb)))
                (Rrb_Receive Rrb))
        && NT_SUCCESS (fst (Receive_TailMoved_Reference Env))
        && negb (Receive_Mdl_Allocated Env =? NULL) && Receive_Pages_Locked Env
     then Receive_System_Address Env
     else Device_Receive_Ring Ctx) /\
  Device_Receive_Thread (snd (fst (TunRegisterReceiveRing Env Rrb Ctx K)))
  = (if negb (ring_rejected (TUN_RING_CAPACITY (RingSize (Rrb_Receive Rrb)))
                (Rrb_Receive Rrb))
        && NT_SUCCESS (fst (Receive_TailMoved_Reference Env))
        && negb (Receive_Mdl_Allocated Env =? NULL) && Receive_Pages_Locked Env
        && negb (Receive_System_Address Env =? NULL)
     then snd (Thread_Created Env)
     else Device_Receive_Thread Ctx).
Proof.
  unfold TunRegisterReceiveRing. step.
  destruct (ring_rejected _ (Rrb_Receive Rrb)) eqn:E1.
  { step. repeat split. }
  destruct (Receive_TailMoved_Reference Env) as [rst robj]. cbn [fst snd].
  destruct (NT_SUCCESS rst) eqn:E2; cbn [negb andb].
  2: { step. repeat split. }
  destruct (Receive_Mdl_Allocated Env =? NULL) eqn:E3; cbn [negb andb].
  { step. repeat split. }
  destruct (Receive_Pages_Locked Env) eqn:E4; cbn [negb andb].
  2: { step. repeat split. }
  destruct (Receive_System_Address Env =? NULL) eqn:E5; cbn [negb andb].
  { step. repeat split. }
  destruct (Thread_Created Env) as [tst th]. cbn [snd].
  destruct (NT_SUCCESS tst) eqn:E6; cbn [negb]; step; repeat split.
Qed.

(** The fields registration leaves behind past the length test. *)
Lemma TunRegisterSendRing_fields (Ctx : TUN_CTX) (K : KERNEL) :
  attempt_left Env Rrb Ctx (snd (fst (TunRegisterSendRing Env Rrb Ctx K))).
Proof.
  unfold attempt_left, thread_stored, receive_ring_stored, receive_mdl_stored,
    receive_event_stored, receive_capacity_stored, send_ring_stored, send_mdl_stored,
    send_event_stored.
  unfold TunRegisterSendRing. step.
  destruct (ring_rejected _ (Rrb_Send Rrb)) eqn:E1.
  { step. repeat split. }
  destruct (Send_TailMoved_Reference Env) as [sst sobj]. cbn [fst snd].
  destruct (NT_SUCCESS sst) eqn:E2; cbn [negb andb].
  2: { step. repeat split. }
  destruct (Send_Mdl_Allocated Env =? NULL) eqn:E3; cbn [negb andb].
  { step. repeat split. }
  destruct (Send_Pages_Locked Env) eqn:E4; cbn [negb andb].
  2: { step. repeat split. }
  destruct (Send_System_Address Env =? NULL) eqn:E5; cbn [negb andb].
  { step. repeat split. }
  match goal with
  | |- context [TunRegisterReceiveRing Env Rrb ?c ?k] =>
      destruct (TunRegisterReceiveRing_fields c k)
        as (H1 & H2 & H3 & H4 & H5 & H6 & H7 & H8 & H9)
  end.
  rewrite H1, H2, H3, H4, H5, H6, H7, H8, H9. step.
  repeat split.
Qed.

(** The same for the whole of registration past the length test. *)
Lemma TunRegisterSendRing_outcome (Ctx : TUN_CTX) (K : KERNEL) :
  NT_SUCCESS (fst (fst (TunRegisterSendRing Env Rrb Ctx K))) = false ->
  fst (fst (TunRegisterSendRing Env Rrb Ctx K)) = registration_failure_status Env Rrb /\
  Ctx_Flags (snd (fst (TunRegisterSendRing Env Rrb Ctx K)))
  = match send_ring_failure Env Rrb, receive_ring_failure Env Rrb with
    | None, None => Z.land (Ctx_Flags Ctx) (Z.lnot TUN_FLAGS_CONNECTED)
    | _, _ => Ctx_Flags Ctx
    end /\
  Device_Send_Capacity (snd (fst (TunRegisterSendRing Env Rrb Ctx K)))
  = TUN_RING_CAPACITY (RingSize (Rrb_Send Rrb)).
Proof.
  unfold TunRegisterSendRing, registration_failure_status, send_ring_failure. step.
  destruct (ring_rejected _ (Rrb_Send Rrb)) eqn:E1.
  { intros _. step. repeat split. }
  destruct (Send_TailMoved_Reference Env) as [sst sobj]. cbn [fst].
  destruct (NT_SUCCESS sst) eqn:E2; cbn [negb].
  2: { intros _. step. repeat split. }
  destruct (Send_Mdl_Allocated Env =? NULL) eqn:E3.
  { intros _. step. repeat split. }
  destruct (Send_Pages_Locked Env) eqn:E4; cbn [negb].
  2: { intros _. step. repeat split. }
  destruct (Send_System_Address Env =? NULL) eqn:E5.
  { intros _. step. repeat split. }
  intros Hs. apply TunRegisterReceiveRing_outcome in Hs.
  destruct Hs as (Hst & Hfl & Hcap).
  rewrite Hst, Hfl, Hcap.
  split; [reflexivity |]. split; [| reflexivity].
  destruct (receive_ring_failure Env Rrb); reflexivity.
Qed.

(** A send ring that fails its test leaves only its capacity behind. *)
Lemma TunRegisterSendRing_rejected_result (Ctx : TUN_CTX) (K : KERNEL) :
  ring_rejected (TUN_RING_CAPACITY (RingSize (Rrb_Send Rrb))) (Rrb_Send Rrb) = true ->
  TunRegisterSendRing Env Rrb Ctx K
  = (STATUS_INVALID_PARAMETER,
     set_Owner (set_Send_Capacity Ctx (TUN_RING_CAPACITY (RingSize (Rrb_Send Rrb)))) NULL, K).
Proof.
  intros E1. unfold TunRegisterSendRing. step. rewrite E1. reflexivity.
Qed.

(** An illegal receive ring is met only after the send ring's steps. *)
Lemma TunRegisterSendRing_receive_rejected_status (Ctx : TUN_CTX) (K : KERNEL) :
  ring_rejected (TUN_RING_CAPACITY (RingSize (Rrb_Receive Rrb))) (Rrb_Receive Rrb) = true ->
  fst (fst (TunRegisterSendRing Env Rrb Ctx K))
  = match send_ring_failure Env Rrb with
    | Some Status => Status
    | None => STATUS_INVALID_PARAMETER
    end.
Proof.
  intros Hrej.
  destruct (TunRegisterSendRing_receive_rejected Ctx K Hrej) as (Hs & _ & _).
  destruct (TunRegisterSendRing_outcome Ctx K Hs) as (Hst & _ & _).
  rewrite Hst. unfold registration_failure_status, receive_ring_failure.
  rewrite Hrej. reflexivity.
Qed.

End Registration.

Section Dispatch.

Variable Env : REGISTER_ENV.
Variable Ctx : TUN_CTX.
Variable K : KERNEL.
Variable Irp : IRP.

Lemma set_Owner_back (v : Z) :
  Device_Owner Ctx = NULL -> set_Owner (set_Owner Ctx v) NULL = Ctx.
Proof. destruct Ctx. cbn. intros ->. reflexivity. Qed.

Lemma TunDispatchRegisterBuffers_owned :
  Device_Owner Ctx <> NULL ->
  TunDispatchRegisterBuffers Env Ctx K Irp = (STATUS_ALREADY_INITIALIZED, Ctx, K).
Proof.
  intros H. apply Z.eqb_neq in H.
  unfold TunDispatchRegisterBuffers, InterlockedCompareExchangePointer_Owner.
  rewrite H. reflexivity.
Qed.

Lemma TunDispatchRegisterBuffers_malformed :
  Device_Owner Ctx = NULL ->
  InputBufferLength Irp <> sizeof_TUN_REGISTER_RINGS ->
  TunDispatchRegisterBuffers Env Ctx K Irp
  = cleanupResetOwner STATUS_INVALID_PARAMETER (set_Owner Ctx (FileObject Irp)) K.
Proof.
  intros Ho Hl. apply Z.eqb_eq in Ho. apply Z.eqb_neq in Hl.
  unfold TunDispatchRegisterBuffers, InterlockedCompareExchangePointer_Owner.
  rewrite Ho, Hl. reflexivity.
Qed.

Lemma TunDispatchRegisterBuffers_wellformed :
  Device_Owner Ctx = NULL ->
  InputBufferLength Irp = sizeof_TUN_REGISTER_RINGS ->
  TunDispatchRegisterBuffers Env Ctx K Irp
  = TunRegisterSendRing Env (SystemBuffer Irp) (set_Owner Ctx (FileObject Irp)) K.
Proof.
  intros Ho Hl. apply Z.eqb_eq in Ho. apply Z.eqb_eq in Hl.
  unfold TunDispatchRegisterBuffers, InterlockedCompareExchangePointer_Owner.
  rewrite Ho, Hl. reflexivity.
Qed.

(** A registration that does not succeed leaves nothing behind. *)
Lemma TunDispatchRegisterBuffers_failure :
  NT_SUCCESS (fst (fst (TunDispatchRegisterBuffers Env Ctx K Irp))) = false ->
  unwound Ctx (snd (fst (TunDispatchRegisterBuffers Env Ctx K Irp))) K
    (snd (TunDispatchRegisterBuffers Env Ctx K Irp)).
Proof.
  destruct (Z.eq_dec (Device_Owner Ctx) NULL) as [Ho | Ho].
  2: { rewrite TunDispatchRegisterBuffers_owned by exact Ho.
       intros _. unfold unwound. cbn [fst snd]. repeat split. left. reflexivity. }
  destruct (Z.eq_dec (InputBufferLength Irp) sizeof_TUN_REGISTER_RINGS) as [Hl | Hl].
  2: { rewrite TunDispatchRegisterBuffers_malformed by assumption.
       intros _. unfold cleanupResetOwner, InterlockedExchangePointer_Owner, unwound.
       cbn [fst snd]. rewrite set_Owner_back by exact Ho. repeat split.
       left. reflexivity. }
  rewrite TunDispatchRegisterBuffers_wellformed by assumption.
  intros Hs. apply TunRegisterSendRing_failure in Hs.
  destruct Hs as [(Hown & Hh & Hst & Hp & Hres & Hmem) Hfl].
  unfold unwound. rewrite Hown, Ho.
  split; [reflexivity |]. split; [| repeat split; assumption].
  destruct Hfl as [Hfl | Hfl]; rewrite Hfl; [left; reflexivity | right].
  unfold InterlockedAnd, InterlockedOr. apply flag_clear_after_set.
Qed.

(** What a failing registration returns and leaves in the flags word and
    in [Device.Send.Capacity], case by case. *)
Lemma TunDispatchRegisterBuffers_failure_cases :
  NT_SUCCESS (fst (fst (TunDispatchRegisterBuffers Env Ctx K Irp))) = false ->
  (Device_Owner Ctx <> NULL ->
   TunDispatchRegisterBuffers Env Ctx K Irp = (STATUS_ALREADY_INITIALIZED, Ctx, K)) /\
  (Device_Owner Ctx = NULL ->
   InputBufferLength Irp <> sizeof_TUN_REGISTER_RINGS ->
   TunDispatchRegisterBuffers Env Ctx K Irp = (STATUS_INVALID_PARAMETER, Ctx, K)) /\
  (Device_Owner Ctx = NULL ->
   InputBufferLength Irp = sizeof_TUN_REGISTER_RINGS ->
   fst (fst (TunDispatchRegisterBuffers Env Ctx K Irp))
   = registration_failure_status Env (SystemBuffer Irp) /\
   Ctx_Flags (snd (fst (TunDispatchRegisterBuffers Env Ctx K Irp)))
   = match send_ring_failure Env (SystemBuffer Irp),
           receive_ring_failure Env (SystemBuffer Irp) with
     | None, None => Z.land (Ctx_Flags Ctx) (Z.lnot TUN_FLAGS_CONNECTED)
     | _, _ => Ctx_Flags Ctx
     end /\
   Device_Send_Capacity (snd (fst (TunDispatchRegisterBuffers Env Ctx K Irp)))
   = TUN_RING_CAPACITY (RingSize (Rrb_Send (SystemBuffer Irp)))).
Proof.
  intros Hs. split; [| split].
  - apply TunDispatchRegisterBuffers_owned.
  - intros Ho Hl. rewrite TunDispatchRegisterBuffers_malformed by assumption.
    unfold cleanupResetOwner, InterlockedExchangePointer_Owner.
    rewrite set_Owner_back by exact Ho. reflexivity.
  - intros Ho Hl. rewrite TunDispatchRegisterBuffers_wellformed in * by assumption.
    apply TunRegisterSendRing_outcome in Hs. exact Hs.
Qed.

(** The fields of [Device.Send] and [Device.Receive] after an attempt that
    went past the length test. *)
Lemma TunDispatchRegisterBuffers_attempt :
  Device_Owner Ctx = NULL ->
  InputBufferLength Irp = sizeof_TUN_REGISTER_RINGS ->
  attempt_left Env (SystemBuffer Irp) Ctx
    (snd (fst (TunDispatchRegisterBuffers Env Ctx K Irp))).
Proof.
  intros Ho Hl. rewrite TunDispatchRegisterBuffers_wellformed by assumption.
  exact (TunRegisterSendRing_fields Env (SystemBuffer Irp) (set_Owner Ctx (FileObject Irp)) K).
Qed.

Lemma set_Send_Capacity_owner (v w : Z) :
  Device_Owner Ctx = NULL ->
  set_Owner (set_Send_Capacity (set_Owner Ctx v) w) NULL = set_Send_Capacity Ctx w.
Proof. destruct Ctx. cbn. intros ->. reflexivity. Qed.

(** A send ring of illegal capacity, in a request of the right length to
    an adapter nobody owns, leaves its capacity behind and nothing else. *)
Lemma TunDispatchRegisterBuffers_send_rejected :
  Device_Owner Ctx = NULL ->
  InputBufferLength Irp = sizeof_TUN_REGISTER_RINGS ->
  capacity_rejected (TUN_RING_CAPACITY (RingSize (Rrb_Send (SystemBuffer Irp)))) = true ->
  TunDispatchRegisterBuffers Env Ctx K Irp
  = (STATUS_INVALID_PARAMETER,
     set_Send_Capacity Ctx (TUN_RING_CAPACITY (RingSize (Rrb_Send (SystemBuffer Irp)))), K).
Proof.
  intros Ho Hl Hc. rewrite TunDispatchRegisterBuffers_wellformed by assumption.
  rewrite TunRegisterSendRing_rejected_result
    by (unfold ring_rejected; rewrite Hc; reflexivity).
  rewrite set_Send_Capacity_owner by exact Ho. reflexivity.
Qed.

(** A receive ring of illegal capacity behind a send ring of legal one. *)
Lemma TunDispatchRegisterBuffers_receive_rejected :
  Device_Owner Ctx = NULL ->
  InputBufferLength Irp = sizeof_TUN_REGISTER_RINGS ->
  capacity_rejected (TUN_RING_CAPACITY (RingSize (Rrb_Receive (SystemBuffer Irp)))) = true ->
  fst (fst (TunDispatchRegisterBuffers Env Ctx K Irp))
  = match send_ring_failure Env (SystemBuffer Irp) with
    | Some Status => Status
    | None => STATUS_INVALID_PARAMETER
    end.
Proof.
  intros Ho Hl Hc. rewrite TunDispatchRegisterBuffers_wellformed by assumption.
  apply TunRegisterSendRing_receive_rejected_status.
  unfold ring_rejected. rewrite Hc. reflexivity.
Qed.

End Dispatch.

(** The model is not vacuous: the sample request registers both rings. *)
Example register_sample_succeeds :
  fst (fst (TunDispatchRegisterBuffers sample_env sample_ctx sample_kernel sample_irp))
  = STATUS_SUCCESS /\
  Device_Owner
    (snd (fst (TunDispatchRegisterBuffers sample_env sample_ctx sample_kernel sample_irp)))
  = FileObject sample_irp /\
  flag_set
    (Ctx_Flags
       (snd (fst (TunDispatchRegisterBuffers sample_env sample_ctx sample_kernel sample_irp))))
    TUN_FLAGS_CONNECTED = true /\
  kernel_resources
    (snd (TunDispatchRegisterBuffers sample_env sample_ctx sample_kernel sample_irp))
  = ([0x5100; 0x5000], [0x6100; 0x6000], [(0x6100, true); (0x6000, true)], [0x80]).
Proof. repeat split. Qed.

(** ** C3: failed registration *)

(** C3, as stated, fails: a request whose send ring is too small is refused
    with [STATUS_INVALID_PARAMETER], yet the capacity computed from it has
    been stored in the context. *)
Lemma register_failure_counterexample :
  fst (fst (TunDispatchRegisterBuffers sample_env sample_ctx sample_kernel
              sample_irp_small_send))
  = STATUS_INVALID_PARAMETER /\
  Device_Send_Capacity
    (snd (fst (TunDispatchRegisterBuffers sample_env sample_ctx sample_kernel
                 sample_irp_small_send)))
  <> Device_Send_Capacity sample_ctx /\
  snd (fst (TunDispatchRegisterBuffers sample_env sample_ctx sample_kernel
              sample_irp_small_send))
  <> sample_ctx.
Proof.
  split; [reflexivity |]. split.
  - vm_compute. discriminate.
  - intros H. apply (f_equal Device_Send_Capacity) in H. vm_compute in H. discriminate H.
Qed.

(** C3, amended.  When registration returns a failure status: on an
    adapter that already has an owner the status is
    [STATUS_ALREADY_INITIALIZED] and the context and the kernel objects
    are exactly as before the call; on an adapter with no owner and a
    request of the wrong length the status is [STATUS_INVALID_PARAMETER]
    and the context and the kernel objects are exactly as before the call;
    on an adapter with no owner and a request of the right length the
    status is that of the first step that failed, the owner is null again,
    the flags word is as before unless it is the creation of the worker
    that failed, when it is the old word with the connected flag cleared,
    the other fields of the context outside [Device.Send] and
    [Device.Receive] are unchanged, [Device.Send.Capacity] holds the
    capacity computed from the request and each other field of
    [Device.Send] and [Device.Receive] holds the value the attempt stored
    in it when the attempt got as far as that store, and its old value
    when it did not.  In every case no object reference, MDL, page lock,
    mapping or thread handle taken by the call is left, and no ring has
    been written. *)
Theorem register_failure_unwinds (Env : REGISTER_ENV) (Ctx : TUN_CTX) (K : KERNEL) (Irp : IRP) :
  NT_SUCCESS (fst (fst (TunDispatchRegisterBuffers Env Ctx K Irp))) = false ->
  unwound Ctx (snd (fst (TunDispatchRegisterBuffers Env Ctx K Irp))) K
    (snd (TunDispatchRegisterBuffers Env Ctx K Irp)) /\
  (Device_Owner Ctx = NULL ->
   Device_Owner (snd (fst (TunDispatchRegisterBuffers Env Ctx K Irp))) = NULL) /\
  (Device_Owner Ctx <> NULL ->
   TunDispatchRegisterBuffers Env Ctx K Irp = (STATUS_ALREADY_INITIALIZED, Ctx, K)) /\
  (Device_Owner Ctx = NULL ->
   InputBufferLength Irp <> sizeof_TUN_REGISTER_RINGS ->
   TunDispatchRegisterBuffers Env Ctx K Irp = (STATUS_INVALID_PARAMETER, Ctx, K)) /\
  (Device_Owner Ctx = NULL ->
   InputBufferLength Irp = sizeof_TUN_REGISTER_RINGS ->
   fst (fst (TunDispatchRegisterBuffers Env Ctx K Irp))
   = registration_failure_status Env (SystemBuffer Irp) /\
   Ctx_Flags (snd (fst (TunDispatchRegisterBuffers Env Ctx K Irp)))
   = match send_ring_failure Env (SystemBuffer Irp),
           receive_ring_failure Env (SystemBuffer Irp) with
     | None, None => Z.land (Ctx_Flags Ctx) (Z.lnot TUN_FLAGS_CONNECTED)
     | _, _ => Ctx_Flags Ctx
     end /\
   attempt_left Env (SystemBuffer Irp) Ctx
     (snd (fst (TunDispatchRegisterBuffers Env Ctx K Irp)))).
Proof.
  intros Hs. pose proof (TunDispatchRegisterBuffers_failure Env Ctx K Irp Hs) as Hu.
  destruct (TunDispatchRegisterBuffers_failure_cases Env Ctx K Irp Hs) as (Ha & Hb & Hc).
  split; [exact Hu |].
  split. { intros Ho. destruct Hu as [Hown _]. rewrite Hown. exact Ho. }
  split; [exact Ha |]. split; [exact Hb |].
  intros Ho Hl. destruct (Hc Ho Hl) as (Hst & Hfl & _).
  split; [exact Hst |]. split; [exact Hfl |].
  apply TunDispatchRegisterBuffers_attempt; assumption.
Qed.

Lemma register_failure_unwinds_witness :
  fst (fst (TunDispatchRegisterBuffers sample_env_no_receive_mdl sample_ctx sample_kernel
              sample_irp))
  = STATUS_INSUFFICIENT_RESOURCES /\
  unwound sample_ctx
    (snd (fst (TunDispatchRegisterBuffers sample_env_no_receive_mdl sample_ctx sample_kernel
                 sample_irp)))
    sample_kernel
    (snd (TunDispatchRegisterBuffers sample_env_no_receive_mdl sample_ctx sample_kernel
            sample_irp)) /\
  Ctx_Flags
    (snd (fst (TunDispatchRegisterBuffers sample_env_no_receive_mdl sample_ctx sample_kernel
                 sample_irp)))
  = Ctx_Flags sample_ctx.
Proof.
  destruct (register_failure_unwinds sample_env_no_receive_mdl sample_ctx sample_kernel
              sample_irp) as (Hu & _ & _ & _ & Hc).
  - reflexivity.
  - destruct Hc as (Hst & Hfl & _); [reflexivity | reflexivity |].
    split; [rewrite Hst; reflexivity |].
    split; [exact Hu | rewrite Hfl; reflexivity].
Defined.

(** ** C6: illegal capacities *)

(** C6, as stated, fails: with an illegal receive capacity, a send ring whose
    event handle the kernel does not know makes registration fail with the
    status of that lookup, not with [STATUS_INVALID_PARAMETER]. *)
Lemma register_capacity_counterexample :
  capacity_rejected
    (TUN_RING_CAPACITY (RingSize (Rrb_Receive (SystemBuffer sample_irp_small_receive))))
  = true /\
  fst (fst (TunDispatchRegisterBuffers sample_env_bad_send_handle sample_ctx sample_kernel
              sample_irp_small_receive))
  = STATUS_INVALID_HANDLE /\
  fst (fst (TunDispatchRegisterBuffers sample_env_bad_send_handle sample_ctx sample_kernel
              sample_irp_small_receive))
  <> STATUS_INVALID_PARAMETER.
Proof.
  split; [reflexivity |]. split; [reflexivity |].
  vm_compute. discriminate.
Qed.

(** C6, amended.  When the capacity derived from either ring's declared
    size is below the minimum, above the maximum or not a power of two,
    registration fails and no registration takes effect: owner and flags
    are as before and nothing stays referenced, allocated, locked or mapped.
    On an adapter that already has an owner the status is
    [STATUS_ALREADY_INITIALIZED] and the context and the kernel objects
    are exactly as before the call.  On an adapter with no owner: a request
    of the wrong length is refused with [STATUS_INVALID_PARAMETER], the
    context and the kernel objects exactly as before; a request of the
    right length whose send capacity is illegal is refused with
    [STATUS_INVALID_PARAMETER], the kernel objects exactly as before and
    the context as before but for [Device.Send.Capacity], which holds the
    illegal capacity; a request of the right length whose send capacity is
    legal and whose receive capacity is illegal is refused with the status
    of the first step of the send ring that fails (its descriptor's test,
    the reference to its event, its MDL, its page lock, its mapping) and
    with [STATUS_INVALID_PARAMETER] when none does, [Device.Send.Capacity]
    holds the send capacity and each other field of [Device.Send] and
    [Device.Receive] holds the value the attempt stored in it when the
    attempt got as far as that store, and its old value when it did not;
    nothing is stored after the receive capacity. *)
Theorem register_rejects_illegal_capacity (Env : REGISTER_ENV) (Ctx : TUN_CTX) (K : KERNEL)
  (Irp : IRP) :
  capacity_rejected (TUN_RING_CAPACITY (RingSize (Rrb_Send (SystemBuffer Irp)))) = true \/
  capacity_rejected (TUN_RING_CAPACITY (RingSize (Rrb_Receive (SystemBuffer Irp)))) = true ->
  NT_SUCCESS (fst (fst (TunDispatchRegisterBuffers Env Ctx K Irp))) = false /\
  unwound Ctx (snd (fst (TunDispatchRegisterBuffers Env Ctx K Irp))) K
    (snd (TunDispatchRegisterBuffers Env Ctx K Irp)) /\
  Ctx_Flags (snd (fst (TunDispatchRegisterBuffers Env Ctx K Irp))) = Ctx_Flags Ctx /\
  (Device_Owner Ctx = NULL ->
   capacity_rejected (TUN_RING_CAPACITY (RingSize (Rrb_Send (SystemBuffer Irp)))) = true ->
   fst (fst (TunDispatchRegisterBuffers Env Ctx K Irp)) = STATUS_INVALID_PARAMETER) /\
  (Device_Owner Ctx = NULL ->
   send_ring_registers Env Irp ->
   capacity_rejected (TUN_RING_CAPACITY (RingSize (Rrb_Receive (SystemBuffer Irp)))) = true ->
   fst (fst (TunDispatchRegisterBuffers Env Ctx K Irp)) = STATUS_INVALID_PARAMETER) /\
  (Device_Owner Ctx <> NULL ->
   TunDispatchRegisterBuffers Env Ctx K Irp = (STATUS_ALREADY_INITIALIZED, Ctx, K)) /\
  (Device_Owner Ctx = NULL ->
   InputBufferLength Irp <> sizeof_TUN_REGISTER_RINGS ->
   TunDispatchRegisterBuffers Env Ctx K Irp = (STATUS_INVALID_PARAMETER, Ctx, K)) /\
  (Device_Owner Ctx = NULL ->
   InputBufferLength Irp = sizeof_TUN_REGISTER_RINGS ->
   capacity_rejected (TUN_RING_CAPACITY (RingSize (Rrb_Send (SystemBuffer Irp)))) = true ->
   TunDispatchRegisterBuffers Env Ctx K Irp
   = (STATUS_INVALID_PARAMETER,
      set_Send_Capacity Ctx (TUN_RING_CAPACITY (RingSize (Rrb_Send (SystemBuffer Irp)))),
      K)) /\
  (Device_Owner Ctx = NULL ->
   InputBufferLength Irp = sizeof_TUN_REGISTER_RINGS ->
   capacity_rejected (TUN_RING_CAPACITY (RingSize (Rrb_Send (SystemBuffer Irp)))) = false ->
   fst (fst (TunDispatchRegisterBuffers Env Ctx K Irp))
   = match send_ring_failure Env (SystemBuffer Irp) with
     | Some Status => Status
     | None => STATUS_INVALID_PARAMETER
     end /\
   attempt_left Env (SystemBuffer Irp) Ctx
     (snd (fst (TunDispatchRegisterBuffers Env Ctx K Irp))) /\
   receive_event_stored Env (SystemBuffer Irp) = false).
Proof.
  intros Hcap.
  assert (Hmain :
    NT_SUCCESS (fst (fst (TunDispatchRegisterBuffers Env Ctx K Irp))) = false /\
    Ctx_Flags (snd (fst (TunDispatchRegisterBuffers Env Ctx K Irp))) = Ctx_Flags Ctx /\
    (Device_Owner Ctx = NULL ->
     capacity_rejected (TUN_RING_CAPACITY (RingSize (Rrb_Send (SystemBuffer Irp)))) = true ->
     fst (fst (TunDispatchRegisterBuffers Env Ctx K Irp)) = STATUS_INVALID_PARAMETER) /\
    (Device_Owner Ctx = NULL ->
     send_ring_registers Env Irp ->
     capacity_rejected (TUN_RING_CAPACITY (RingSize (Rrb_Receive (SystemBuffer Irp)))) = true ->
     fst (fst (TunDispatchRegisterBuffers Env Ctx K Irp)) = STATUS_INVALID_PARAMETER)).
  { destruct (Z.eq_dec (Device_Owner Ctx) NULL) as [Ho | Ho].
    2: { rewrite TunDispatchRegisterBuffers_owned by exact Ho. cbn [fst snd].
         repeat split; intros; contradiction. }
    destruct (Z.eq_dec (InputBufferLength Irp) sizeof_TUN_REGISTER_RINGS) as [Hl | Hl].
    2: { rewrite TunDispatchRegisterBuffers_malformed by assumption.
         unfold cleanupResetOwner, InterlockedExchangePointer_Owner. cbn [fst snd].
         repeat split. }
    rewrite TunDispatchRegisterBuffers_wellformed by assumption.
    destruct (capacity_rejected
                (TUN_RING_CAPACITY (RingSize (Rrb_Send (SystemBuffer Irp))))) eqn:Es.
    - destruct (TunRegisterSendRing_rejected Env (SystemBuffer Irp)
                  (set_Owner Ctx (FileObject Irp)) K) as (Hst & Hfl & _).
      { unfold ring_rejected. rewrite Es. reflexivity. }
      rewrite Hst, Hfl. repeat split.
    - destruct Hcap as [Hcap | Hcap]; [discriminate Hcap |].
      destruct (TunRegisterSendRing_receive_rejected Env (SystemBuffer Irp)
                  (set_Owner Ctx (FileObject Irp)) K) as (Hst & Hfl & Hinv).
      { unfold ring_rejected. rewrite Hcap. reflexivity. }
      split; [exact Hst |]. split; [exact Hfl |].
      split; [intros _ H; discriminate H |].
      intros _ (_ & H1 & H2 & H3 & H4 & H5) _.
      apply Hinv; assumption. }
  destruct Hmain as (Hs & Hfl & H1 & H2).
  destruct (TunDispatchRegisterBuffers_failure_cases Env Ctx K Irp Hs) as (Ha & Hb & _).
  split; [exact Hs |].
  split; [apply TunDispatchRegisterBuffers_failure; exact Hs |].
  split; [exact Hfl |].
  split; [exact H1 |]. split; [exact H2 |].
  split; [exact Ha |]. split; [exact Hb |].
  split; [apply TunDispatchRegisterBuffers_send_rejected |].
  intros Ho Hl Hsend.
  destruct Hcap as [Hcap | Hcap]; [rewrite Hsend in Hcap; discriminate Hcap |].
  split; [apply TunDispatchRegisterBuffers_receive_rejected; assumption |].
  split; [apply TunDispatchRegisterBuffers_attempt; assumption |].
  unfold receive_event_stored, ring_rejected. rewrite Hcap.
  apply andb_false_r.
Qed.

Lemma register_rejects_illegal_capacity_witness :
  fst (fst (TunDispatchRegisterBuffers sample_env sample_ctx sample_kernel
              sample_irp_small_receive))
  = STATUS_INVALID_PARAMETER.
Proof.
  destruct (register_rejects_illegal_capacity sample_env sample_ctx sample_kernel
              sample_irp_small_receive) as (_ & _ & _ & _ & H & _).
  - right. reflexivity.
  - apply H.
    + reflexivity.
    + repeat split; try reflexivity; vm_compute; discriminate.
    + reflexivity.
Defined.

(** ** C10: a request of the wrong length *)

(** C10.  Registration claims the owner before it looks at its input: a
    request whose input buffer length is not the size of
    [TUN_REGISTER_RINGS] meets an adapter that is already owned with
    [STATUS_ALREADY_INITIALIZED]; otherwise the caller's file object is
    made the owner, the request is refused with [STATUS_INVALID_PARAMETER]
    through [cleanupResetOwner], and the owner is null again, with the
    context and the kernel objects as they were. *)
Theorem register_malformed_length (Env : REGISTER_ENV) (Ctx : TUN_CTX) (K : KERNEL) (Irp : IRP) :
  InputBufferLength Irp <> sizeof_TUN_REGISTER_RINGS ->
  (Device_Owner Ctx = NULL ->
   Device_Owner
     (snd (InterlockedCompareExchangePointer_Owner Ctx (FileObject Irp) NULL))
   = FileObject Irp /\
   TunDispatchRegisterBuffers Env Ctx K Irp
   = cleanupResetOwner STATUS_INVALID_PARAMETER
       (snd (InterlockedCompareExchangePointer_Owner Ctx (FileObject Irp) NULL)) K /\
   TunDispatchRegisterBuffers Env Ctx K Irp = (STATUS_INVALID_PARAMETER, Ctx, K) /\
   Device_Owner (snd (fst (TunDispatchRegisterBuffers Env Ctx K Irp))) = NULL) /\
  (Device_Owner Ctx <> NULL ->
   TunDispatchRegisterBuffers Env Ctx K Irp = (STATUS_ALREADY_INITIALIZED, Ctx, K)).
Proof.
  intros Hl. split.
  - intros Ho.
    assert (Hclaim : snd (InterlockedCompareExchangePointer_Owner Ctx (FileObject Irp) NULL)
                     = set_Owner Ctx (FileObject Irp)).
    { unfold InterlockedCompareExchangePointer_Owner. cbn [snd].
      rewrite Ho. reflexivity. }
    rewrite Hclaim.
    rewrite (TunDispatchRegisterBuffers_malformed Env Ctx K Irp Ho Hl).
    unfold cleanupResetOwner, InterlockedExchangePointer_Owner.
    rewrite set_Owner_back by exact Ho.
    repeat split. exact Ho.
  - intros Ho. apply TunDispatchRegisterBuffers_owned. exact Ho.
Qed.

Lemma register_malformed_length_witness :
  TunDispatchRegisterBuffers sample_env sample_ctx sample_kernel sample_irp_short
  = (STATUS_INVALID_PARAMETER, sample_ctx, sample_kernel).
Proof.
  destruct (register_malformed_length sample_env sample_ctx sample_kernel sample_irp_short)
    as [H _].
  - vm_compute. discriminate.
  - destruct (H eq_refl) as (_ & _ & Hres & _). exact Hres.
Defined.

(** ** C7: teardown by a stranger, teardown twice *)

Section Teardown.

Variable ThreadReferenced : bool.
Variable Ctx : TUN_CTX.
Variable K : KERNEL.
Variable Owner : Z.

Lemma TunDispatchUnregisterBuffers_mismatch :
  Owner <> Device_Owner Ctx ->
  TunDispatchUnregisterBuffers ThreadReferenced Ctx K Owner = (Ctx, K).
Proof.
  intros H.
  assert (E : (Device_Owner Ctx =? Owner) = false) by (apply Z.eqb_neq; congruence).
  unfold TunDispatchUnregisterBuffers, InterlockedCompareExchangePointer_Owner.
  rewrite E. reflexivity.
Qed.

Lemma TunDispatchUnregisterBuffers_owner :
  Device_Owner (fst (TunDispatchUnregisterBuffers ThreadReferenced Ctx K Owner))
  = if Device_Owner Ctx =? Owner then NULL else Device_Owner Ctx.
Proof.
  unfold TunDispatchUnregisterBuffers, InterlockedCompareExchangePointer_Owner.
  destruct (Device_Owner Ctx =? Owner); reflexivity.
Qed.

End Teardown.

(** C7.  Teardown called with a file object other than the recorded owner
    changes neither the context nor any kernel object or ring and makes no
    call; in particular, after a teardown by the owner has cleared the
    owner, a second teardown with the same file object does nothing. *)
Theorem unregister_mismatch_is_noop (ThreadReferenced Again : bool) (Ctx : TUN_CTX)
  (K : KERNEL) (Owner : Z) :
  (Owner <> Device_Owner Ctx ->
   TunDispatchUnregisterBuffers ThreadReferenced Ctx K Owner = (Ctx, K)) /\
  (Owner <> NULL ->
   Device_Owner Ctx = Owner ->
   Device_Owner (fst (TunDispatchUnregisterBuffers ThreadReferenced Ctx K Owner)) = NULL /\
   TunDispatchUnregisterBuffers Again
     (fst (TunDispatchUnregisterBuffers ThreadReferenced Ctx K Owner))
     (snd (TunDispatchUnregisterBuffers ThreadReferenced Ctx K Owner)) Owner
   = TunDispatchUnregisterBuffers ThreadReferenced Ctx K Owner).
Proof.
  split.
  - apply TunDispatchUnregisterBuffers_mismatch.
  - intros Hn Ho.
    assert (Hcleared :
      Device_Owner (fst (TunDispatchUnregisterBuffers ThreadReferenced Ctx K Owner)) = NULL).
    { rewrite TunDispatchUnregisterBuffers_owner.
      rewrite Ho, Z.eqb_refl. reflexivity. }
    split; [exact Hcleared |].
    rewrite TunDispatchUnregisterBuffers_mismatch by (rewrite Hcleared; exact Hn).
    symmetry. apply surjective_pairing.
Qed.

Lemma unregister_mismatch_is_noop_witness :
  TunDispatchUnregisterBuffers true (fst sample_registered) (snd sample_registered) 0x2000
  = (fst sample_registered, snd sample_registered) /\
  Calls (snd (TunDispatchUnregisterBuffers true (fst sample_registered)
                (snd sample_registered) (FileObject sample_irp)))
  <> Calls (snd sample_registered) /\
  TunDispatchUnregisterBuffers false
    (fst (TunDispatchUnregisterBuffers true (fst sample_registered)
            (snd sample_registered) (FileObject sample_irp)))
    (snd (TunDispatchUnregisterBuffers true (fst sample_registered)
            (snd sample_registered) (FileObject sample_irp)))
    (FileObject sample_irp)
  = TunDispatchUnregisterBuffers true (fst sample_registered) (snd sample_registered)
      (FileObject sample_irp).
Proof.
  destruct (unregister_mismatch_is_noop true false (fst sample_registered)
              (snd sample_registered) 0x2000) as [Hstranger _].
  destruct (unregister_mismatch_is_noop true false (fst sample_registered)
              (snd sample_registered) (FileObject sample_irp)) as [_ Htwice].
  split; [| split].
  - apply Hstranger. vm_compute. discriminate.
  - vm_compute. discriminate.
  - apply Htwice; [vm_compute; discriminate | reflexivity].
Defined.

(** ** Further facts about the two paths *)

Section Batch.

Variables Flags RingCapacity : Z.

Lemma TunSendStep_counts (acc : SEND_STATE * NDIS_STATUS) (Nb : NET_BUFFER) :
  SentPacketsCount (fst (TunSendStep Flags RingCapacity acc Nb))
  + DiscardedPacketsCount (fst (TunSendStep Flags RingCapacity acc Nb))
  = SentPacketsCount (fst acc) + DiscardedPacketsCount (fst acc) + 1.
Proof.
  destruct acc as [s st]. unfold TunSendStep.
  destruct (TunSendNetBuffer Flags RingCapacity (SendRing s) Nb); cbn; lia.
Qed.

Lemma TunSendSteps_counts (Nbs : list NET_BUFFER) (acc : SEND_STATE * NDIS_STATUS) :
  SentPacketsCount (fst (fold_left (TunSendStep Flags RingCapacity) Nbs acc))
  + DiscardedPacketsCount (fst (fold_left (TunSendStep Flags RingCapacity) Nbs acc))
  = SentPacketsCount (fst acc) + DiscardedPacketsCount (fst acc) + Z.of_nat (length Nbs).
Proof.
  revert acc. induction Nbs as [| Nb Nbs IH]; intros acc; cbn [fold_left length].
  - lia.
  - rewrite IH, TunSendStep_counts. lia.
Qed.

(** Every net buffer of a batch is either sent or discarded, once. *)
Lemma TunSendNetBufferLists_counts (NetBufferLists : list NET_BUFFER_LIST) (s : SEND_STATE) :
  SentPacketsCount (fst (TunSendNetBufferLists Flags RingCapacity s NetBufferLists))
  + DiscardedPacketsCount (fst (TunSendNetBufferLists Flags RingCapacity s NetBufferLists))
  = SentPacketsCount s + DiscardedPacketsCount s
    + Z.of_nat (length (concat (map NblBuffers NetBufferLists))).
Proof.
  revert s. induction NetBufferLists as [| Nbl rest IH]; intros s.
  - cbn. lia.
  - cbn [TunSendNetBufferLists map concat]. unfold TunSendNetBufferList.
    pose proof (TunSendSteps_counts (NblBuffers Nbl) (s, NblStatus Nbl)) as Hin.
    destruct (fold_left (TunSendStep Flags RingCapacity) (NblBuffers Nbl) (s, NblStatus Nbl))
      as [s1 st1].
    specialize (IH s1).
    destruct (TunSendNetBufferLists Flags RingCapacity s1 rest) as [s2 rest'].
    cbn [fst] in *. rewrite length_app. lia.
Qed.

End Batch.

Section Sentinel.

Variable RingCapacity : Z.
Hypothesis Hlegal : capacity_legal RingCapacity.

Lemma MAXULONG_out_of_range : (Ulong.MAXULONG >=? RingCapacity) = true.
Proof.
  pose proof (capacity_legal_bounds RingCapacity Hlegal) as Hb.
  unfold TUN_MAX_RING_CAPACITY in Hb.
  rewrite Z.geb_leb. apply Z.leb_le.
  unfold Ulong.MAXULONG, Ulong.modulus. lia.
Qed.

(** Once the worker has left its loop the receive ring stays broken. *)
Lemma receive_exit_breaks_ring (Flags : Z) (NblAllocated : bool) (s : RECEIVE_STATE) :
  TunReceiveIteration Flags RingCapacity NblAllocated (TunReceiveExit s) = ReceiveBreak.
Proof.
  unfold TunReceiveIteration, TunReceiveExit, InterlockedExchangeU_Head. cbn [ReceiveRing Head set_Head].
  destruct (negb (flag_set Flags TUN_FLAGS_CONNECTED)); [reflexivity |].
  rewrite MAXULONG_out_of_range. reflexivity.
Qed.

(** After teardown has stored the sentinel in [Tail] of the send ring, a
    producer that still sees all three flags set gives up on the ring. *)
Lemma send_after_teardown_sentinel (Flags : Z) (Ring : TUN_RING) (Nb : NET_BUFFER) :
  flags_all_set Flags ->
  NET_BUFFER_DATA_LENGTH Nb <= TUN_MAX_IP_PACKET_SIZE ->
  TunSendNetBuffer Flags RingCapacity (set_Tail Ring Ulong.MAXULONG) Nb
  = SendDiscarded (set_Tail Ring Ulong.MAXULONG) NDIS_STATUS_ADAPTER_NOT_READY.
Proof.
  intros (Hp & Hr & Hc) Hl. unfold TunSendNetBuffer. rewrite Hp, Hr, Hc. cbn [negb].
  replace (NET_BUFFER_DATA_LENGTH Nb >? TUN_MAX_IP_PACKET_SIZE) with false
    by (symmetry; rewrite Z.gtb_ltb; apply Z.ltb_ge; lia).
  cbn [set_Tail Head Tail].
  destruct (Head Ring >=? RingCapacity); [reflexivity |].
  rewrite MAXULONG_out_of_range. reflexivity.
Qed.

End Sentinel.

(** The wait path writes nothing but [Alertable], and clears it again. *)
Lemma TunReceiveWait_ring (RingHead SpinTail AlertTail : Z) (Ring : TUN_RING) :
  Head (fst (TunReceiveWait RingHead SpinTail AlertTail Ring)) = Head Ring /\
  Tail (fst (TunReceiveWait RingHead SpinTail AlertTail Ring)) = Tail Ring /\
  Data (fst (TunReceiveWait RingHead SpinTail AlertTail Ring)) = Data Ring /\
  (Alertable Ring = 0 ->
   Alertable (fst (TunReceiveWait RingHead SpinTail AlertTail Ring)) = 0) /\
  (snd (TunReceiveWait RingHead SpinTail AlertTail Ring) = None ->
   RingHead = SpinTail /\ RingHead = AlertTail).
Proof.
  unfold TunReceiveWait.
  destruct (RingHead =? SpinTail) eqn:E1; [destruct (RingHead =? AlertTail) eqn:E2 |];
    cbn; repeat split; try assumption; try congruence;
    try (apply Z.eqb_eq; assumption).
Qed.

(** ** Registration: when it succeeds and what it leaves *)

Section RegistrationSuccess.

Variable Env : REGISTER_ENV.

Ltac reduce_records :=
  cbn -[Z.eqb Z.land Z.lor Z.lnot TUN_RING_CAPACITY ring_rejected NT_SUCCESS
        TUN_FLAGS_CONNECTED NULL TunRegisterReceiveRing TunRegisterSendRing] in *.

Lemma NT_SUCCESS_only (Status : NTSTATUS) :
  NT_SUCCESS Status = true -> Status = STATUS_SUCCESS.
Proof. destruct Status; intros H; try discriminate H; reflexivity. Qed.

Lemma TunRegisterReceiveRing_granted (Rrb : TUN_REGISTER_RINGS) (Ctx : TUN_CTX) (K : KERNEL) :
  fst (fst (TunRegisterReceiveRing Env Rrb Ctx K)) = STATUS_SUCCESS ->
  ring_rejected (TUN_RING_CAPACITY (RingSize (Rrb_Receive Rrb))) (Rrb_Receive Rrb) = false /\
  NT_SUCCESS (fst (Receive_TailMoved_Reference Env)) = true /\
  (Receive_Mdl_Allocated Env =? NULL) = false /\
  Receive_Pages_Locked Env = true /\
  (Receive_System_Address Env =? NULL) = false /\
  NT_SUCCESS (fst (Thread_Created Env)) = true.
Proof.
  unfold TunRegisterReceiveRing. reduce_records.
  destruct (ring_rejected _ (Rrb_Receive Rrb)) eqn:E1.
  { reduce_records. intros H. discriminate H. }
  destruct (Receive_TailMoved_Reference Env) as [rst robj].
  destruct (NT_SUCCESS rst) eqn:E2; cbn [negb].
  2: { reduce_records. intros H. rewrite H in E2. discriminate E2. }
  destruct (Receive_Mdl_Allocated Env =? NULL) eqn:E3.
  { reduce_records. intros H. discriminate H. }
  destruct (Receive_Pages_Locked Env) eqn:E4; cbn [negb].
  2: { reduce_records. intros H. discriminate H. }
  destruct (Receive_System_Address Env =? NULL) eqn:E5.
  { reduce_records. intros H. discriminate H. }
  destruct (Thread_Created Env) as [tst th].
  destruct (NT_SUCCESS tst) eqn:E6; cbn [negb].
  2: { reduce_records. intros H. discriminate H. }
  intros _. cbn [fst]. repeat split; assumption.
Qed.

Lemma TunRegisterSendRing_granted (Rrb : TUN_REGISTER_RINGS) (Ctx : TUN_CTX) (K : KERNEL) :
  fst (fst (TunRegisterSendRing Env Rrb Ctx K)) = STATUS_SUCCESS ->
  ring_rejected (TUN_RING_CAPACITY (RingSize (Rrb_Send Rrb))) (Rrb_Send Rrb) = false /\
  NT_SUCCESS (fst (Send_TailMoved_Reference Env)) = true /\
  (Send_Mdl_Allocated Env =? NULL) = false /\
  Send_Pages_Locked Env = true /\
  (Send_System_Address Env =? NULL) = false /\
  ring_rejected (TUN_RING_CAPACITY (RingSize (Rrb_Receive Rrb))) (Rrb_Receive Rrb) = false /\
  NT_SUCCESS (fst (Receive_TailMoved_Reference Env)) = true /\
  (Receive_Mdl_Allocated Env =? NULL) = false /\
  Receive_Pages_Locked Env = true /\
  (Receive_System_Address Env =? NULL) = false /\
  NT_SUCCESS (fst (Thread_Created Env)) = true.
Proof.
  unfold TunRegisterSendRing. reduce_records.
  destruct (ring_rejected _ (Rrb_Send Rrb)) eqn:E1.
  { reduce_records. intros H. discriminate H. }
  destruct (Send_TailMoved_Reference Env) as [sst sobj].
  destruct (NT_SUCCESS sst) eqn:E2; cbn [negb].
  2: { reduce_records. intros H. rewrite H in E2. discriminate E2. }
  destruct (Send_Mdl_Allocated Env =? NULL) eqn:E3.
  { reduce_records. intros H. discriminate H. }
  destruct (Send_Pages_Locked Env) eqn:E4; cbn [negb].
  2: { reduce_records. intros H. discriminate H. }
  destruct (Send_System_Address Env =? NULL) eqn:E5.
  { reduce_records. intros H. discriminate H. }
  intros H. apply TunRegisterReceiveRing_granted in H.
  cbn [fst]. repeat split; try assumption; apply H.
Qed.

Ltac kernel_granted :=
  repeat first
    [ rewrite ObReferenceObjectByHandle_success by assumption
    | rewrite IoAllocateMdl_success by assumption
    | rewrite MmGetSystemAddressForMdlSafe_success by assumption
    | rewrite PsCreateSystemThread_success by assumption ].

(** With everything granted, registration computes the registered state. *)
Lemma TunDispatchRegisterBuffers_granted (Ctx : TUN_CTX) (K : KERNEL) (Irp : IRP) :
  registration_granted Env Ctx Irp ->
  TunDispatchRegisterBuffers Env Ctx K Irp
  = (STATUS_SUCCESS, registered_ctx Env Ctx Irp, registered_kernel Env K).
Proof.
  intros (Ho & Hl & S1 & S2 & S3 & S4 & S5 & R1 & R2 & R3 & R4 & R5 & T1).
  rewrite TunDispatchRegisterBuffers_wellformed by assumption.
  unfold registered_ctx, registered_kernel.
  destruct (Send_TailMoved_Reference Env) as [sst sobj] eqn:ES.
  destruct (Receive_TailMoved_Reference Env) as [rst robj] eqn:ER.
  destruct (Thread_Created Env) as [tst th] eqn:ET.
  cbn [fst snd] in *.
  unfold TunRegisterSendRing. rewrite ES. reduce_records.
  rewrite S1, S2. cbn [negb]. rewrite S3, S4. cbn [negb]. rewrite S5.
  kernel_granted. unfold MmProbeAndLockPages. reduce_records. rewrite Z.eqb_refl.
  unfold TunRegisterReceiveRing. rewrite ER, ET. reduce_records.
  rewrite R1, R2. cbn [negb]. rewrite R3, R4. cbn [negb]. rewrite R5, T1. cbn [negb].
  kernel_granted. unfold MmProbeAndLockPages, TunIndicateStatus, kernel_call.
  reduce_records. rewrite Z.eqb_refl.
  reflexivity.
Qed.

End RegistrationSuccess.

Lemma register_succeeds_iff_granted_aux (Env : REGISTER_ENV) (Ctx : TUN_CTX) (K : KERNEL)
  (Irp : IRP) :
  NT_SUCCESS (fst (fst (TunDispatchRegisterBuffers Env Ctx K Irp))) = true <->
  registration_granted Env Ctx Irp.
Proof.
  split.
  - intros Hs. apply NT_SUCCESS_only in Hs.
    destruct (Z.eq_dec (Device_Owner Ctx) NULL) as [Ho | Ho].
    2: { rewrite TunDispatchRegisterBuffers_owned in Hs by exact Ho. discriminate Hs. }
    destruct (Z.eq_dec (InputBufferLength Irp) sizeof_TUN_REGISTER_RINGS) as [Hl | Hl].
    2: { rewrite TunDispatchRegisterBuffers_malformed in Hs by assumption. discriminate Hs. }
    rewrite TunDispatchRegisterBuffers_wellformed in Hs by assumption.
    apply TunRegisterSendRing_granted in Hs.
    unfold registration_granted. split; [exact Ho |]. split; [exact Hl |]. exact Hs.
  - intros Hg. rewrite TunDispatchRegisterBuffers_granted by exact Hg. reflexivity.
Qed.

(** X1.  Registration returns a success status exactly when nobody owns
    the adapter, the request has the size of [TUN_REGISTER_RINGS], both
    ring descriptors pass their test and the kernel grants every call; it
    then returns [STATUS_SUCCESS] and leaves the registered state. *)
Theorem register_succeeds_iff_granted (Env : REGISTER_ENV) (Ctx : TUN_CTX) (K : KERNEL)
  (Irp : IRP) :
  (NT_SUCCESS (fst (fst (TunDispatchRegisterBuffers Env Ctx K Irp))) = true <->
   registration_granted Env Ctx Irp) /\
  (registration_granted Env Ctx Irp ->
   TunDispatchRegisterBuffers Env Ctx K Irp
   = (STATUS_SUCCESS, registered_ctx Env Ctx Irp, registered_kernel Env K)).
Proof.
  split; [apply register_succeeds_iff_granted_aux | apply TunDispatchRegisterBuffers_granted].
Qed.

Lemma sample_registration_granted : registration_granted sample_env sample_ctx sample_irp.
Proof. repeat split. Qed.

Lemma register_succeeds_iff_granted_witness :
  TunDispatchRegisterBuffers sample_env sample_ctx sample_kernel sample_irp
  = (STATUS_SUCCESS, registered_ctx sample_env sample_ctx sample_irp,
     registered_kernel sample_env sample_kernel).
Proof.
  apply (register_succeeds_iff_granted sample_env sample_ctx sample_kernel sample_irp).
  exact sample_registration_granted.
Defined.

(** A ring descriptor that passes the test has a legal capacity, and its
    declared size is the ring header, the capacity and the slack of one
    maximum packet less one alignment unit. *)
Lemma ring_accepted_size (r : TUN_REGISTER_RING) :
  Ulong.in_range (RingSize r) ->
  ring_rejected (TUN_RING_CAPACITY (RingSize r)) r = false ->
  capacity_legal (TUN_RING_CAPACITY (RingSize r)) /\
  RingSize r
  = sizeof_TUN_RING + TUN_RING_CAPACITY (RingSize r) + (TUN_MAX_PACKET_SIZE - TUN_ALIGNMENT) /\
  TailMoved r <> NULL /\ Ring r <> NULL.
Proof.
  intros Hr Hrej. unfold ring_rejected in Hrej.
  apply orb_false_iff in Hrej. destruct Hrej as [Hrej Hring].
  apply orb_false_iff in Hrej. destruct Hrej as [Hcap Htm].
  apply Z.eqb_neq in Hring, Htm.
  assert (Hlegal : capacity_legal (TUN_RING_CAPACITY (RingSize r))) by exact Hcap.
  pose proof (capacity_legal_bounds _ Hlegal) as Hb.
  repeat split; try assumption.
  unfold TUN_RING_CAPACITY, Ulong.cast, Ulong.in_range, Ulong.modulus in *.
  rewrite TUN_MAX_PACKET_SIZE_value in *.
  unfold TUN_MIN_RING_CAPACITY, TUN_MAX_RING_CAPACITY, sizeof_TUN_RING, TUN_ALIGNMENT,
    sizeof_ULONG in *.
  destruct (Z_lt_ge_dec (RingSize r) (12 + (0x10004 - 4))) as [Hsmall | Hbig].
  - exfalso.
    replace (RingSize r - 12 - (0x10004 - 4))
      with (RingSize r - 12 - (0x10004 - 4) + 2 ^ 32 + (-1) * 2 ^ 32) in Hb by ring.
    rewrite Z.mod_add in Hb by lia.
    rewrite Z.mod_small in Hb by lia. lia.
  - rewrite Z.mod_small by lia. lia.
Qed.

(** X2.  After a successful registration both capacities stored in the
    context are legal (a power of two within the bounds), and each ring's
    declared size, a [ULONG], is exactly the ring header plus the capacity
    plus [TUN_MAX_PACKET_SIZE - TUN_ALIGNMENT]: the mapped region holds a
    maximum-size packet that starts at the last aligned offset below the
    capacity. *)
Theorem registered_rings_are_legal (Env : REGISTER_ENV) (Ctx : TUN_CTX) (K : KERNEL)
  (Irp : IRP) :
  Ulong.in_range (RingSize (Rrb_Send (SystemBuffer Irp))) ->
  Ulong.in_range (RingSize (Rrb_Receive (SystemBuffer Irp))) ->
  NT_SUCCESS (fst (fst (TunDispatchRegisterBuffers Env Ctx K Irp))) = true ->
  capacity_legal
    (Device_Send_Capacity (snd (fst (TunDispatchRegisterBuffers Env Ctx K Irp)))) /\
  capacity_legal
    (Device_Receive_Capacity (snd (fst (TunDispatchRegisterBuffers Env Ctx K Irp)))) /\
  RingSize (Rrb_Send (SystemBuffer Irp))
  = sizeof_TUN_RING
    + Device_Send_Capacity (snd (fst (TunDispatchRegisterBuffers Env Ctx K Irp)))
    + (TUN_MAX_PACKET_SIZE - TUN_ALIGNMENT) /\
  RingSize (Rrb_Receive (SystemBuffer Irp))
  = sizeof_TUN_RING
    + Device_Receive_Capacity (snd (fst (TunDispatchRegisterBuffers Env Ctx K Irp)))
    + (TUN_MAX_PACKET_SIZE - TUN_ALIGNMENT).
Proof.
  intros Hs Hr Hok.
  apply (proj1 (register_succeeds_iff_granted_aux Env Ctx K Irp)) in Hok.
  rewrite (TunDispatchRegisterBuffers_granted Env Ctx K Irp Hok).
  destruct Hok as (_ & _ & S1 & _ & _ & _ & _ & R1 & _).
  cbn [fst snd registered_ctx Device_Send_Capacity Device_Receive_Capacity].
  destruct (ring_accepted_size _ Hs S1) as (L1 & Z1 & _).
  destruct (ring_accepted_size _ Hr R1) as (L2 & Z2 & _).
  repeat split; assumption.
Qed.

Lemma registered_rings_are_legal_witness :
  capacity_legal
    (Device_Send_Capacity
       (snd (fst (TunDispatchRegisterBuffers sample_env sample_ctx sample_kernel sample_irp))))
  /\
  RingSize (Rrb_Send (SystemBuffer sample_irp))
  = sizeof_TUN_RING + TUN_MIN_RING_CAPACITY + (TUN_MAX_PACKET_SIZE - TUN_ALIGNMENT).
Proof.
  destruct (registered_rings_are_legal sample_env sample_ctx sample_kernel sample_irp)
    as (Hl & _ & Hsize & _).
  - vm_compute. split; [discriminate | reflexivity].
  - vm_compute. split; [discriminate | reflexivity].
  - reflexivity.
  - split; [exact Hl | exact Hsize].
Defined.

(** X3.  While an endpoint with a non-null file object is registered,
    every further registration request, whatever it asks for and whatever
    the kernel would grant, is refused with [STATUS_ALREADY_INITIALIZED]
    and changes neither the context nor any kernel object. *)
Theorem registered_refuses_second_owner (Env Env' : REGISTER_ENV) (Ctx : TUN_CTX) (K : KERNEL)
  (Irp Irp' : IRP) :
  NT_SUCCESS (fst (fst (TunDispatchRegisterBuffers Env Ctx K Irp))) = true ->
  FileObject Irp <> NULL ->
  TunDispatchRegisterBuffers Env'
    (snd (fst (TunDispatchRegisterBuffers Env Ctx K Irp)))
    (snd (TunDispatchRegisterBuffers Env Ctx K Irp)) Irp'
  = (STATUS_ALREADY_INITIALIZED,
     snd (fst (TunDispatchRegisterBuffers Env Ctx K Irp)),
     snd (TunDispatchRegisterBuffers Env Ctx K Irp)).
Proof.
  intros Hok Hfile.
  apply (proj1 (register_succeeds_iff_granted_aux Env Ctx K Irp)) in Hok.
  rewrite (TunDispatchRegisterBuffers_granted Env Ctx K Irp Hok). cbn [fst snd].
  apply TunDispatchRegisterBuffers_owned. exact Hfile.
Qed.

Lemma registered_refuses_second_owner_witness :
  TunDispatchRegisterBuffers sample_env
    (snd (fst (TunDispatchRegisterBuffers sample_env sample_ctx sample_kernel sample_irp)))
    (snd (TunDispatchRegisterBuffers sample_env sample_ctx sample_kernel sample_irp))
    sample_irp
  = (STATUS_ALREADY_INITIALIZED,
     snd (fst (TunDispatchRegisterBuffers sample_env sample_ctx sample_kernel sample_irp)),
     snd (TunDispatchRegisterBuffers sample_env sample_ctx sample_kernel sample_irp)).
Proof.
  apply registered_refuses_second_owner.
  - reflexivity.
  - vm_compute. discriminate.
Defined.

Section Lifecycle.

Variable Env : REGISTER_ENV.
Variable Ctx : TUN_CTX.
Variable K : KERNEL.
Variable Irp : IRP.
Variable ThreadReferenced : bool.

(** Teardown by the owner, computed on the registered state. *)
Lemma TunDispatchUnregisterBuffers_registered :
  TunDispatchUnregisterBuffers ThreadReferenced (registered_ctx Env Ctx Irp)
    (registered_kernel Env K) (FileObject Irp)
  = (set_Flags (set_Owner (registered_ctx Env Ctx Irp) NULL)
       (InterlockedAnd (InterlockedOr (Ctx_Flags Ctx) TUN_FLAGS_CONNECTED)
          (Z.lnot TUN_FLAGS_CONNECTED)),
     mkKernel (ObjectReferences K) (Mdls K) (LockedPages K) (OpenHandles K)
       (fun a => if a =? Send_System_Address Env
                 then set_Tail (worker_exit ThreadReferenced Env (RingMemory K) a)
                        Ulong.MAXULONG
                 else worker_exit ThreadReferenced Env (RingMemory K) a)
       (teardown_calls ThreadReferenced (registered_ctx Env Ctx Irp)
          (CallTunIndicateStatus MediaConnectStateConnected :: Calls K))).
Proof.
  unfold TunDispatchUnregisterBuffers, InterlockedCompareExchangePointer_Owner.
  cbn [registered_ctx Device_Owner]. rewrite Z.eqb_refl. cbn [negb].
  unfold registered_kernel, teardown_calls, worker_exit.
  destruct ThreadReferenced;
    cbv beta iota zeta
      delta [ObDereferenceObject IoFreeMdl MmUnlockPages KeSetEvent store_ring_Tail ZwClose
             KeWaitForWorker store_ring_Head
             kernel_call TunIndicateStatus TransitionBarrier ObjectReferences Mdls
             LockedPages OpenHandles RingMemory Calls remove_one remove_locked
             registered_ctx Device_Receive_TailMoved Device_Receive_Thread
             Device_Send_Ring Device_Receive_Ring Device_Send_TailMoved Device_Receive_Mdl
             Device_Send_Mdl set_Flags set_Owner Ctx_Flags app];
    rewrite !Z.eqb_refl; reflexivity.
Qed.

End Lifecycle.

(** X4.  A successful registration followed by teardown with the owner's
    file object gives everything back: the owner is null, the connected
    flag is clear (and the flags word is as before registration when it
    was clear then), no object reference, MDL, page lock, mapping or
    handle taken by registration remains, the send ring's [Tail] holds
    the out-of-range sentinel, and so does the receive ring's [Head] when
    teardown waited for the worker, whose last store puts it there; a ring
    at an address other than those of the two registered rings is as
    registration left it; the calls are the barrier, the receive event,
    link-down, the wait for the worker and the send event, in this
    order. *)
Theorem register_then_unregister (Env : REGISTER_ENV) (Ctx : TUN_CTX) (K : KERNEL) (Irp : IRP)
  (ThreadReferenced : bool) :
  NT_SUCCESS (fst (fst (TunDispatchRegisterBuffers Env Ctx K Irp))) = true ->
  let Ctx1 := snd (fst (TunDispatchRegisterBuffers Env Ctx K Irp)) in
  let K1 := snd (TunDispatchRegisterBuffers Env Ctx K Irp) in
  let Ctx2 := fst (TunDispatchUnregisterBuffers ThreadReferenced Ctx1 K1 (FileObject Irp)) in
  let K2 := snd (TunDispatchUnregisterBuffers ThreadReferenced Ctx1 K1 (FileObject Irp)) in
  Device_Owner Ctx2 = NULL /\
  flag_set (Ctx_Flags Ctx2) TUN_FLAGS_CONNECTED = false /\
  (flag_set (Ctx_Flags Ctx) TUN_FLAGS_CONNECTED = false -> Ctx_Flags Ctx2 = Ctx_Flags Ctx) /\
  kernel_resources K2 = kernel_resources K /\
  Tail (RingMemory K2 (Device_Send_Ring Ctx1)) = Ulong.MAXULONG /\
  (ThreadReferenced = true ->
   Head (RingMemory K2 (Device_Receive_Ring Ctx1)) = Ulong.MAXULONG) /\
  (forall a, a <> Device_Send_Ring Ctx1 -> a <> Device_Receive_Ring Ctx1 ->
             RingMemory K2 a = RingMemory K1 a) /\
  Calls K2 = teardown_calls ThreadReferenced Ctx1 (Calls K1).
Proof.
  intros Hok Ctx1 K1 Ctx2 K2. subst Ctx1 K1 Ctx2 K2.
  apply (proj1 (register_succeeds_iff_granted_aux Env Ctx K Irp)) in Hok.
  rewrite (TunDispatchRegisterBuffers_granted Env Ctx K Irp Hok). cbn [fst snd].
  rewrite TunDispatchUnregisterBuffers_registered. cbn [fst snd].
  cbn [set_Flags set_Owner Device_Owner Ctx_Flags kernel_resources ObjectReferences Mdls
       LockedPages OpenHandles RingMemory Calls registered_ctx registered_kernel
       Device_Send_Ring Device_Receive_Ring].
  split; [reflexivity |].
  split.
  { unfold InterlockedAnd, InterlockedOr, flag_set.
    rewrite <- Z.land_assoc.
    replace (Z.land (Z.lnot TUN_FLAGS_CONNECTED) TUN_FLAGS_CONNECTED) with 0
      by reflexivity.
    rewrite Z.land_0_r. reflexivity. }
  split; [apply set_then_clear_connected |].
  split; [reflexivity |].
  split; [rewrite Z.eqb_refl; reflexivity |].
  split.
  { intros ->. unfold worker_exit.
    destruct (Receive_System_Address Env =? Send_System_Address Env);
      rewrite Z.eqb_refl; reflexivity. }
  split; [| reflexivity].
  intros a Hs Hr. apply Z.eqb_neq in Hs. apply Z.eqb_neq in Hr. rewrite Hs.
  unfold worker_exit. destruct ThreadReferenced; [rewrite Hr |]; reflexivity.
Qed.

Lemma register_then_unregister_witness :
  let r := TunDispatchRegisterBuffers sample_env sample_ctx sample_kernel sample_irp in
  kernel_resources
    (snd (TunDispatchUnregisterBuffers true (snd (fst r)) (snd r) (FileObject sample_irp)))
  = kernel_resources sample_kernel /\
  Ctx_Flags
    (fst (TunDispatchUnregisterBuffers true (snd (fst r)) (snd r) (FileObject sample_irp)))
  = Ctx_Flags sample_ctx /\
  Head (RingMemory
          (snd (TunDispatchUnregisterBuffers true (snd (fst r)) (snd r)
                  (FileObject sample_irp)))
          (Device_Receive_Ring (snd (fst r))))
  = Ulong.MAXULONG.
Proof.
  intros r.
  destruct (register_then_unregister sample_env sample_ctx sample_kernel sample_irp true)
    as (_ & _ & Hflags & Hres & _ & Hhead & _).
  - reflexivity.
  - split; [exact Hres |]. split; [apply Hflags; reflexivity | apply Hhead; reflexivity].
Defined.

Lemma connected_after_set (F : Z) :
  flag_set (InterlockedOr F TUN_FLAGS_CONNECTED) TUN_FLAGS_CONNECTED = true.
Proof.
  unfold flag_set, InterlockedOr.
  replace (Z.land (Z.lor F TUN_FLAGS_CONNECTED) TUN_FLAGS_CONNECTED)
    with TUN_FLAGS_CONNECTED; [reflexivity |].
  apply Z.bits_inj'. intros n Hn.
  rewrite Z.land_spec, Z.lor_spec.
  destruct (Z.testbit F n), (Z.testbit TUN_FLAGS_CONNECTED n); reflexivity.
Qed.

(** X5.  Teardown by the owner makes the adapter registrable again: a
    request that was granted is granted once more after the endpoint has
    been torn down, and takes the same resources as the first time. *)
Theorem unregister_allows_new_registration (Env : REGISTER_ENV) (Ctx : TUN_CTX) (K : KERNEL)
  (Irp : IRP) (ThreadReferenced : bool) :
  NT_SUCCESS (fst (fst (TunDispatchRegisterBuffers Env Ctx K Irp))) = true ->
  let Ctx1 := snd (fst (TunDispatchRegisterBuffers Env Ctx K Irp)) in
  let K1 := snd (TunDispatchRegisterBuffers Env Ctx K Irp) in
  let Ctx2 := fst (TunDispatchUnregisterBuffers ThreadReferenced Ctx1 K1 (FileObject Irp)) in
  let K2 := snd (TunDispatchUnregisterBuffers ThreadReferenced Ctx1 K1 (FileObject Irp)) in
  fst (fst (TunDispatchRegisterBuffers Env Ctx2 K2 Irp)) = STATUS_SUCCESS /\
  Device_Owner (snd (fst (TunDispatchRegisterBuffers Env Ctx2 K2 Irp))) = FileObject Irp /\
  flag_set (Ctx_Flags (snd (fst (TunDispatchRegisterBuffers Env Ctx2 K2 Irp))))
    TUN_FLAGS_CONNECTED = true /\
  kernel_resources (snd (TunDispatchRegisterBuffers Env Ctx2 K2 Irp)) = kernel_resources K1.
Proof.
  intros Hok Ctx1 K1 Ctx2 K2. subst Ctx1 K1 Ctx2 K2.
  apply (proj1 (register_succeeds_iff_granted_aux Env Ctx K Irp)) in Hok.
  rewrite (TunDispatchRegisterBuffers_granted Env Ctx K Irp Hok). cbn [fst snd].
  rewrite TunDispatchUnregisterBuffers_registered. cbn [fst snd].
  rewrite TunDispatchRegisterBuffers_granted.
  - cbn [fst snd registered_ctx registered_kernel Device_Owner Ctx_Flags kernel_resources
         ObjectReferences Mdls LockedPages OpenHandles set_Flags set_Owner].
    repeat split. apply connected_after_set.
  - destruct Hok as (_ & Hrest).
    split; [reflexivity | exact Hrest].
Qed.

Lemma unregister_allows_new_registration_witness :
  let r := TunDispatchRegisterBuffers sample_env sample_ctx sample_kernel sample_irp in
  fst (fst (TunDispatchRegisterBuffers sample_env
              (fst (TunDispatchUnregisterBuffers true (snd (fst r)) (snd r)
                      (FileObject sample_irp)))
              (snd (TunDispatchUnregisterBuffers true (snd (fst r)) (snd r)
                      (FileObject sample_irp)))
              sample_irp))
  = STATUS_SUCCESS.
Proof.
  intros r.
  destruct (unregister_allows_new_registration sample_env sample_ctx sample_kernel
              sample_irp true) as (Hs & _).
  - reflexivity.
  - exact Hs.
Defined.

(** ** The bytes the two paths touch *)

Section Touched.

Variable RingCapacity : Z.
Hypothesis Hlegal : capacity_legal RingCapacity.

Lemma aligned_offset_room (off : Z) :
  offset_ok RingCapacity off -> 0 <= off <= RingCapacity - TUN_ALIGNMENT.
Proof.
  intros [Hr Ha].
  destruct (capacity_multiple_of_alignment RingCapacity Hlegal) as [q Hq].
  unfold TUN_ALIGNMENT, sizeof_ULONG in *.
  apply Z.mod_divide in Ha; [| lia]. destruct Ha as [k Hk]. lia.
Qed.

Lemma send_touches (Flags : Z) (Ring : TUN_RING) (Nb : NET_BUFFER) (a : Z) :
  a < Tail Ring \/
  Tail Ring + sizeof_TUN_PACKET + NET_BUFFER_DATA_LENGTH Nb <= a ->
  Data (send_result_ring (TunSendNetBuffer Flags RingCapacity Ring Nb)) a = Data Ring a.
Proof.
  intros Ha.
  destruct (TunSendNetBuffer Flags RingCapacity Ring Nb) as [Ring' | Ring' Status] eqn:E;
    cbn [send_result_ring].
  - apply TunSendNetBuffer_accepted in E. destruct E as (_ & _ & ->).
    unfold enqueued, store_ULONG. cbn [Data].
    unfold offsetof_TUN_PACKET_Data, sizeof_TUN_PACKET, NET_BUFFER_DATA_LENGTH in *.
    rewrite !write_bytes_outside; [reflexivity | cbn [encode_ULONG length]; lia | lia].
  - apply TunSendNetBuffer_discarded in E.
    destruct E as [[_ ->] | (_ & _ & ->)]; [reflexivity |].
    unfold set_Data, store_ULONG. cbn [Data].
    unfold sizeof_TUN_PACKET, NET_BUFFER_DATA_LENGTH in *.
    apply write_bytes_outside. cbn [encode_ULONG length]. lia.
Qed.

Lemma TunReceiveFrame_reads (h t : Z) (m1 m2 : memory) :
  (forall a, h <= a < h + sizeof_TUN_PACKET + TUN_MAX_IP_PACKET_SIZE -> m1 a = m2 a) ->
  TunReceiveFrame RingCapacity h t m1 = TunReceiveFrame RingCapacity h t m2.
Proof.
  intros Hsame. unfold TunReceiveFrame.
  assert (Hload : load_ULONG m1 h = load_ULONG m2 h).
  { unfold load_ULONG. f_equal. apply read_bytes_ext. intros a Ha. apply Hsame.
    unfold sizeof_TUN_PACKET, TUN_MAX_IP_PACKET_SIZE. lia. }
  rewrite Hload.
  destruct (t >=? RingCapacity); [reflexivity |].
  destruct (RingContent t h RingCapacity <? sizeof_TUN_PACKET); [reflexivity |].
  destruct (load_ULONG m2 h >? TUN_MAX_IP_PACKET_SIZE) eqn:E; [reflexivity |].
  destruct (_ >? RingContent t h RingCapacity); [reflexivity |].
  do 2 f_equal. apply read_bytes_ext. intros a Ha. apply Hsame.
  apply gtb_false_le in E. pose proof (load_ULONG_nonneg m2 h).
  unfold offsetof_TUN_PACKET_Data, sizeof_TUN_PACKET in *. lia.
Qed.

End Touched.

(** X6.  Whatever it decides, the send path writes no byte of the ring
    outside the frame it is about to enqueue, [Tail] up to [Tail] plus the
    header and the payload; with [Tail] aligned this frame lies inside the
    data region registration mapped (capacity plus
    [TUN_MAX_PACKET_SIZE - TUN_ALIGNMENT] bytes), so no byte outside that
    region is ever written. *)
Theorem send_writes_inside_ring (Flags RingCapacity : Z) (Ring : TUN_RING) (Nb : NET_BUFFER) :
  capacity_legal RingCapacity ->
  0 <= Tail Ring ->
  Tail Ring mod TUN_ALIGNMENT = 0 ->
  (forall a,
      a < Tail Ring \/ Tail Ring + sizeof_TUN_PACKET + NET_BUFFER_DATA_LENGTH Nb <= a ->
      Data (send_result_ring (TunSendNetBuffer Flags RingCapacity Ring Nb)) a = Data Ring a) /\
  (forall a,
      a < 0 \/ ring_data_size RingCapacity <= a ->
      Data (send_result_ring (TunSendNetBuffer Flags RingCapacity Ring Nb)) a = Data Ring a).
Proof.
  intros Hc Ht0 Hta. split.
  - intros a Ha. apply send_touches. exact Ha.
  - intros a Ha.
    destruct (TunSendNetBuffer Flags RingCapacity Ring Nb) as [Ring' | Ring' Status] eqn:E.
    + pose proof (send_touches RingCapacity Flags Ring Nb a) as Hout. rewrite E in Hout.
      apply Hout.
      apply TunSendNetBuffer_accepted in E. destruct E as ((_ & Hl & _ & Htl & _) & _ & _).
      pose proof (aligned_offset_room RingCapacity Hc (Tail Ring)
                    (conj (conj Ht0 Htl) Hta)) as Hroom.
      unfold ring_data_size in Ha. rewrite TUN_MAX_PACKET_SIZE_value in Ha.
      unfold TUN_ALIGNMENT, sizeof_ULONG, sizeof_TUN_PACKET, TUN_MAX_IP_PACKET_SIZE in *.
      lia.
    + cbn [send_result_ring].
      apply TunSendNetBuffer_discarded in E.
      destruct E as [[_ ->] | ((_ & Hl & _ & Htl & _) & _ & ->)]; [reflexivity |].
      unfold set_Data, store_ULONG. cbn [Data].
      apply write_bytes_outside. cbn [encode_ULONG length].
      pose proof (aligned_offset_room RingCapacity Hc (Tail Ring)
                    (conj (conj Ht0 Htl) Hta)) as Hroom.
      unfold ring_data_size in Ha. rewrite TUN_MAX_PACKET_SIZE_value in Ha.
      unfold TUN_ALIGNMENT, sizeof_ULONG in *. lia.
Qed.

Lemma send_writes_inside_ring_witness :
  Data (send_result_ring
          (TunSendNetBuffer sample_flags sample_capacity sample_ring sample_nb))
    (ring_data_size sample_capacity)
  = Data sample_ring (ring_data_size sample_capacity).
Proof.
  destruct (send_writes_inside_ring sample_flags sample_capacity sample_ring sample_nb)
    as [_ Hout].
  - reflexivity.
  - vm_compute. discriminate.
  - reflexivity.
  - apply Hout. right. apply Z.le_refl.
Defined.

(** X7.  What the receive loop decodes at an aligned Head below the
    capacity depends only on bytes inside the data region registration
    mapped: two memories that agree there give the same frame (length,
    aligned size and payload bytes) or the same refusal. *)
Theorem receive_reads_inside_ring (RingCapacity RingHead RingTail : Z) (m1 m2 : memory) :
  capacity_legal RingCapacity ->
  offset_ok RingCapacity RingHead ->
  (forall a, 0 <= a < ring_data_size RingCapacity -> m1 a = m2 a) ->
  TunReceiveFrame RingCapacity RingHead RingTail m1
  = TunReceiveFrame RingCapacity RingHead RingTail m2.
Proof.
  intros Hc Hh Hsame. apply TunReceiveFrame_reads. intros a Ha. apply Hsame.
  pose proof (aligned_offset_room RingCapacity Hc RingHead Hh) as Hroom.
  unfold ring_data_size. rewrite TUN_MAX_PACKET_SIZE_value.
  unfold TUN_ALIGNMENT, sizeof_ULONG, sizeof_TUN_PACKET, TUN_MAX_IP_PACKET_SIZE in *.
  lia.
Qed.

Lemma receive_reads_inside_ring_witness :
  TunReceiveFrame sample_capacity 0 24
    (write_bytes (Data (enqueued sample_capacity sample_ring sample_nb))
       (ring_data_size sample_capacity) [x01])
  = TunReceiveFrame sample_capacity 0 24
      (Data (enqueued sample_capacity sample_ring sample_nb)).
Proof.
  apply receive_reads_inside_ring.
  - reflexivity.
  - split; [vm_compute; split; [discriminate | reflexivity] | reflexivity].
  - intros a Ha. apply write_bytes_outside. left. exact (proj2 Ha).
Defined.

(** ** Queues of packets *)

Section Queue.

Variable RingCapacity : Z.
Hypothesis Hlegal : capacity_legal RingCapacity.

Lemma capacity_positive : 4 < RingCapacity.
Proof.
  pose proof (capacity_legal_bounds RingCapacity Hlegal) as Hb.
  unfold TUN_MIN_RING_CAPACITY in Hb. lia.
Qed.

Lemma RingContent_mod (t h : Z) : RingContent t h RingCapacity = (t - h) mod RingCapacity.
Proof. unfold RingContent, Ulong.sub. apply wrap_cast. exact Hlegal. Qed.

Lemma RingContent_range (t h : Z) : 0 <= RingContent t h RingCapacity < RingCapacity.
Proof. rewrite RingContent_mod. apply Z.mod_pos_bound. pose proof capacity_positive. lia. Qed.

Lemma RingSpace_mod (h t : Z) :
  RingSpace h t RingCapacity = (h - t - TUN_ALIGNMENT) mod RingCapacity.
Proof.
  pose proof capacity_positive as Hp.
  unfold RingSpace. unfold Ulong.sub at 1. rewrite wrap_cast by exact Hlegal.
  destruct (capacity_divides_modulus RingCapacity Hlegal) as [q [Hq Hq0]].
  unfold Ulong.sub, Ulong.cast. rewrite Hq.
  rewrite (Z.mod_eq (h - t) (q * RingCapacity)) by lia.
  replace (h - t - q * RingCapacity * ((h - t) / (q * RingCapacity)) - TUN_ALIGNMENT)
    with (h - t - TUN_ALIGNMENT + (- (q * ((h - t) / (q * RingCapacity)))) * RingCapacity)
    by ring.
  apply Z.mod_add. lia.
Qed.

(** Free space in terms of used space. *)
Lemma RingSpace_from_content (h t : Z) :
  offset_ok RingCapacity h -> offset_ok RingCapacity t ->
  RingSpace h t RingCapacity
  = RingCapacity - TUN_ALIGNMENT - RingContent t h RingCapacity.
Proof.
  intros [Hh Hha] [Ht Hta].
  pose proof capacity_positive as Hp.
  destruct (capacity_multiple_of_alignment RingCapacity Hlegal) as [q Hq].
  rewrite RingSpace_mod, RingContent_mod.
  unfold TUN_ALIGNMENT, sizeof_ULONG in *.
  apply Z.mod_divide in Hha; [| lia]. apply Z.mod_divide in Hta; [| lia].
  destruct Hha as [a Ha]. destruct Hta as [b Hb].
  destruct (Z_le_gt_dec h t) as [Hle | Hgt].
  - rewrite (Z.mod_small (t - h)) by lia.
    replace (h - t - 4) with (RingCapacity - 4 - (t - h) + (-1) * RingCapacity) by ring.
    rewrite Z.mod_add by lia. apply Z.mod_small. lia.
  - rewrite (Z.mod_small (h - t - 4)) by lia.
    replace (t - h) with (RingCapacity - (h - t) + (-1) * RingCapacity) by ring.
    rewrite Z.mod_add by lia. rewrite Z.mod_small by lia. lia.
Qed.

Lemma frame_footprint_nonneg (p : list UCHAR) : 0 <= frame_footprint p.
Proof.
  unfold frame_footprint, TUN_ALIGN. apply Z.land_nonneg. left.
  unfold Ulong.add, Ulong.cast, Ulong.modulus. apply Z.mod_pos_bound. lia.
Qed.

Lemma frame_footprint_bounds (p : list UCHAR) :
  Z.of_nat (length p) <= TUN_MAX_IP_PACKET_SIZE ->
  sizeof_TUN_PACKET + Z.of_nat (length p) <= frame_footprint p
  /\ frame_footprint p mod TUN_ALIGNMENT = 0.
Proof.
  intros Hl. destruct (footprint_aligned (Z.of_nat (length p))) as [Hb Ha]; [lia |].
  split; [apply Hb | exact Ha].
Qed.

Lemma queue_size_cons (p : list UCHAR) (ps : list (list UCHAR)) :
  queue_size (p :: ps) = frame_footprint p + queue_size ps.
Proof. reflexivity. Qed.

Lemma queue_size_nonneg (ps : list (list UCHAR)) : 0 <= queue_size ps.
Proof.
  induction ps as [| p ps IH]; [cbn; lia |].
  rewrite queue_size_cons. pose proof (frame_footprint_nonneg p). lia.
Qed.

Lemma queue_size_app (ps qs : list (list UCHAR)) :
  queue_size (ps ++ qs) = queue_size ps + queue_size qs.
Proof.
  induction ps as [| p ps IH]; [reflexivity |].
  cbn [app]. rewrite !queue_size_cons, IH. lia.
Qed.

(** The distance to [t] after stepping over a frame. *)
Lemma content_after_frame (t h f : Z) :
  0 <= f <= (t - h) mod RingCapacity ->
  (t - (h + f) mod RingCapacity) mod RingCapacity = (t - h) mod RingCapacity - f.
Proof.
  intros Hf. pose proof capacity_positive as Hp.
  pose proof (Z.mod_pos_bound (t - h) RingCapacity ltac:(lia)) as Hb.
  rewrite Zminus_mod_idemp_r.
  replace (t - (h + f)) with (t - h - f) by ring.
  rewrite <- Zminus_mod_idemp_l.
  apply Z.mod_small. lia.
Qed.

(** A stretch of memory [w] bytes long at [t], inside the free space, is
    apart from every queued frame: memories that differ only there hold the
    same queue, and frames queued at [t] in the new memory extend it. *)
Lemma queued_extend (m m' : memory) (t w : Z) (extra : list (list UCHAR)) :
  0 <= t < RingCapacity ->
  0 <= w ->
  (forall a, a < t \/ t + w <= a -> m' a = m a) ->
  queued RingCapacity m' t extra ->
  forall ps h,
    0 <= h < RingCapacity ->
    (t - h) mod RingCapacity = queue_size ps ->
    queue_size ps + w <= RingCapacity - TUN_ALIGNMENT ->
    queued RingCapacity m h ps ->
    queued RingCapacity m' h (ps ++ extra).
Proof.
  intros Ht Hw Hsame Hextra. pose proof capacity_positive as Hp.
  induction ps as [| p ps IH]; intros h Hh Hsize Hroom Hq.
  - cbn [app]. change (queue_size []) with 0 in Hsize.
    assert (h = t).
    { destruct (Z_le_gt_dec h t).
      - rewrite Z.mod_small in Hsize by lia. lia.
      - replace (t - h) with (t - h + RingCapacity + (-1) * RingCapacity) in Hsize by ring.
        rewrite Z.mod_add in Hsize by lia. rewrite Z.mod_small in Hsize by lia. lia. }
    subst h. exact Hextra.
  - cbn [app queued] in *. destruct Hq as (Hlen & Hload & Hread & Hrest).
    rewrite queue_size_cons in Hsize, Hroom.
    pose proof (queue_size_nonneg ps) as Hps.
    destruct (frame_footprint_bounds p Hlen) as [Hfp _].
    unfold offsetof_TUN_PACKET_Data, TUN_ALIGNMENT, sizeof_ULONG, sizeof_TUN_PACKET in *.
    assert (Hapart : forall a, h <= a < h + frame_footprint p -> a < t \/ t + w <= a).
    { intros a Ha. destruct (Z_le_gt_dec h t).
      - rewrite Z.mod_small in Hsize by lia. lia.
      - replace (t - h) with (t - h + RingCapacity + (-1) * RingCapacity) in Hsize by ring.
        rewrite Z.mod_add in Hsize by lia. rewrite Z.mod_small in Hsize by lia. lia. }
    split; [exact Hlen |]. split; [| split].
    + rewrite <- Hload. unfold load_ULONG. f_equal. apply read_bytes_ext.
      intros a Ha. apply Hsame, Hapart. lia.
    + rewrite <- Hread at 2. apply read_bytes_ext.
      intros a Ha. apply Hsame, Hapart. lia.
    + rewrite advance_value in * by exact Hlegal.
      apply IH.
      * apply Z.mod_pos_bound. lia.
      * rewrite content_after_frame by lia. lia.
      * lia.
      * exact Hrest.
Qed.

End Queue.

Section QueueSteps.

Variable RingCapacity : Z.
Hypothesis Hlegal : capacity_legal RingCapacity.

(** One send on a ring that holds a queue. *)
Lemma TunSendNetBuffer_queue (Flags : Z) (Ring : TUN_RING) (Nb : NET_BUFFER)
  (ps : list (list UCHAR)) :
  ring_holds RingCapacity Ring ps ->
  ring_holds RingCapacity
    (send_result_ring (TunSendNetBuffer Flags RingCapacity Ring Nb))
    (ps ++ accepted_payloads Flags RingCapacity Ring [Nb]).
Proof.
  intros (Hh & Ht & Hq & Hsize).
  pose proof (capacity_positive RingCapacity Hlegal) as Hp.
  pose proof (RingSpace_from_content RingCapacity Hlegal _ _ Hh Ht) as Hspace.
  pose proof (send_touches RingCapacity Flags Ring Nb) as Htouch.
  cbn [accepted_payloads].
  destruct (TunSendNetBuffer Flags RingCapacity Ring Nb) as [Ring' | Ring' Status] eqn:E;
    cbn [send_result_ring] in *.
  - (* accepted: the frame is appended *)
    apply TunSendNetBuffer_accepted in E. destruct E as ((_ & Hl & _ & _ & Hfit) & _ & ->).
    assert (Hlen : 0 <= NET_BUFFER_DATA_LENGTH Nb <= TUN_MAX_IP_PACKET_SIZE)
      by (split; [unfold NET_BUFFER_DATA_LENGTH; lia | exact Hl]).
    destruct (footprint_aligned _ Hlen) as [Hfp Hfa]. fold (footprint Nb) in Hfp, Hfa.
    rewrite Hspace, Hsize in Hfit.
    pose proof (queue_size_nonneg ps) as Hps.
    unfold ring_holds. cbn [enqueued Head Tail].
    split; [exact Hh |].
    split; [apply advance_offset_ok; [exact Hlegal | apply Ht | exact Hfa] |].
    split.
    + apply (queued_extend RingCapacity Hlegal (Data Ring) _ (Tail Ring)
               (sizeof_TUN_PACKET + NET_BUFFER_DATA_LENGTH Nb) [NbBytes Nb]).
      * apply Ht.
      * unfold TUN_ALIGNMENT, sizeof_ULONG, sizeof_TUN_PACKET in *; lia.
      * intros a Ha. apply Htouch. lia.
      * cbn [queued enqueued Data].
        split; [exact Hl |]. split; [| split; [| exact I]].
        -- rewrite load_write_disjoint
             by (unfold offsetof_TUN_PACKET_Data, sizeof_TUN_PACKET; lia).
           apply load_store_same.
           unfold Ulong.in_range, Ulong.modulus, TUN_MAX_IP_PACKET_SIZE,
             NET_BUFFER_DATA_LENGTH in *. lia.
        -- apply read_write_same.
      * apply Hh.
      * rewrite <- RingContent_mod by exact Hlegal. exact Hsize.
      * unfold TUN_ALIGNMENT, sizeof_ULONG, sizeof_TUN_PACKET in *; lia.
      * exact Hq.
    + rewrite queue_size_app, queue_size_cons. change (queue_size []) with 0.
      change (frame_footprint (NbBytes Nb)) with (footprint Nb).
      rewrite advance_value by exact Hlegal.
      rewrite RingContent_mod in * by exact Hlegal.
      rewrite Zminus_mod_idemp_l.
      replace (Tail Ring + footprint Nb - Head Ring)
        with (Tail Ring - Head Ring + footprint Nb) by ring.
      rewrite <- Zplus_mod_idemp_l. rewrite Hsize.
      unfold TUN_ALIGNMENT, sizeof_ULONG, sizeof_TUN_PACKET in *.
      rewrite Z.mod_small by lia. lia.
  - (* discarded: the queue is as before *)
    rewrite app_nil_r.
    apply TunSendNetBuffer_discarded in E.
    destruct E as [[_ ->] | ((_ & Hl & _ & _ & Hfit) & _ & ->)].
    + repeat split; try apply Hh; try apply Ht; assumption.
    + assert (Hlen : 0 <= NET_BUFFER_DATA_LENGTH Nb <= TUN_MAX_IP_PACKET_SIZE)
        by (split; [unfold NET_BUFFER_DATA_LENGTH; lia | exact Hl]).
      destruct (footprint_aligned _ Hlen) as [Hfp _]. fold (footprint Nb) in Hfp.
      rewrite Hspace, Hsize in Hfit.
      unfold ring_holds. cbn [set_Data Head Tail Data] in *.
      split; [exact Hh |]. split; [exact Ht |]. split; [| exact Hsize].
      rewrite <- (app_nil_r ps).
      apply (queued_extend RingCapacity Hlegal (Data Ring) _ (Tail Ring)
               (sizeof_TUN_PACKET + NET_BUFFER_DATA_LENGTH Nb) []).
      * apply Ht.
      * unfold TUN_ALIGNMENT, sizeof_ULONG, sizeof_TUN_PACKET in *; lia.
      * intros a Ha. apply Htouch. lia.
      * exact I.
      * apply Hh.
      * rewrite <- RingContent_mod by exact Hlegal. exact Hsize.
      * unfold TUN_ALIGNMENT, sizeof_ULONG, sizeof_TUN_PACKET in *; lia.
      * exact Hq.
Qed.

(** The inner loop of the send path on a ring that holds a queue. *)
Lemma TunSendSteps_queue (Flags : Z) (Nbs : list NET_BUFFER) :
  forall (s : SEND_STATE) (st : NDIS_STATUS) (ps : list (list UCHAR)),
    ring_holds RingCapacity (SendRing s) ps ->
    ring_holds RingCapacity
      (SendRing (fst (fold_left (TunSendStep Flags RingCapacity) Nbs (s, st))))
      (ps ++ accepted_payloads Flags RingCapacity (SendRing s) Nbs).
Proof.
  induction Nbs as [| Nb Nbs IH]; intros s st ps Hq.
  - cbn. rewrite app_nil_r. exact Hq.
  - cbn [fold_left accepted_payloads].
    pose proof (TunSendNetBuffer_queue Flags (SendRing s) Nb ps Hq) as Hstep.
    cbn [accepted_payloads] in Hstep.
    unfold TunSendStep at 2.
    destruct (TunSendNetBuffer Flags RingCapacity (SendRing s) Nb) as [Ring' | Ring' Status];
      cbn [send_result_ring] in Hstep.
    + specialize (IH (mkSendState Ring' (SentPacketsCount s + 1)
                        (SentPacketsSize s + NET_BUFFER_DATA_LENGTH Nb)
                        (DiscardedPacketsCount s) (SendTailMovedSet s + 1)) st
                     (ps ++ [NbBytes Nb]) Hstep).
      cbn [SendRing] in IH. rewrite <- app_assoc in IH. exact IH.
    + rewrite app_nil_r in Hstep.
      specialize (IH (mkSendState Ring' (SentPacketsCount s) (SentPacketsSize s)
                        (DiscardedPacketsCount s + 1) (SendTailMovedSet s)) Status
                     ps Hstep).
      exact IH.
Qed.

End QueueSteps.

(** The ring and the counters of the inner loop do not depend on the
    status the list carried. *)
Lemma TunSendSteps_status (Flags RingCapacity : Z) (Nbs : list NET_BUFFER) :
  forall (s : SEND_STATE) (st st' : NDIS_STATUS),
    fst (fold_left (TunSendStep Flags RingCapacity) Nbs (s, st))
    = fst (fold_left (TunSendStep Flags RingCapacity) Nbs (s, st')).
Proof.
  induction Nbs as [| Nb Nbs IH]; intros s st st'; cbn [fold_left]; [reflexivity |].
  unfold TunSendStep at 2 4.
  destruct (TunSendNetBuffer Flags RingCapacity (SendRing s) Nb) as [Ring' | Ring' Status].
  - apply IH.
  - reflexivity.
Qed.

(** The outer loop visits the net buffers of the whole batch in order. *)
Lemma TunSendNetBufferLists_flat (Flags RingCapacity : Z) (NetBufferLists : list NET_BUFFER_LIST) :
  forall (s : SEND_STATE) (st : NDIS_STATUS),
    fst (TunSendNetBufferLists Flags RingCapacity s NetBufferLists)
    = fst (fold_left (TunSendStep Flags RingCapacity)
             (concat (map NblBuffers NetBufferLists)) (s, st)).
Proof.
  induction NetBufferLists as [| Nbl rest IH]; intros s st.
  - reflexivity.
  - cbn [TunSendNetBufferLists map concat]. unfold TunSendNetBufferList.
    rewrite fold_left_app.
    pose proof (TunSendSteps_status Flags RingCapacity (NblBuffers Nbl) s (NblStatus Nbl) st)
      as Hsame.
    destruct (fold_left (TunSendStep Flags RingCapacity) (NblBuffers Nbl) (s, NblStatus Nbl))
      as [s1 st1].
    destruct (fold_left (TunSendStep Flags RingCapacity) (NblBuffers Nbl) (s, st))
      as [s1' st1'].
    cbn [fst] in Hsame. subst s1'.
    specialize (IH s1 st1').
    destruct (TunSendNetBufferLists Flags RingCapacity s1 rest) as [s2 rest'].
    cbn [fst] in *. exact IH.
Qed.

(** X8.  The send path keeps the ring a queue: if the ring holds the
    payloads [ps], oldest first, then after a batch of net buffer lists
    it holds [ps] followed by the payloads of the accepted net buffers in
    submission order; a rejected net buffer leaves no trace in the queue,
    and no queued frame is overwritten. *)
Theorem send_appends_in_order (Flags RingCapacity : Z) (NetBufferLists : list NET_BUFFER_LIST)
  (s : SEND_STATE) (ps : list (list UCHAR)) :
  capacity_legal RingCapacity ->
  ring_holds RingCapacity (SendRing s) ps ->
  ring_holds RingCapacity
    (SendRing (fst (TunSendNetBufferLists Flags RingCapacity s NetBufferLists)))
    (ps ++ accepted_payloads Flags RingCapacity (SendRing s)
             (concat (map NblBuffers NetBufferLists))).
Proof.
  intros Hc Hq.
  rewrite (TunSendNetBufferLists_flat Flags RingCapacity NetBufferLists s NDIS_STATUS_SUCCESS).
  apply TunSendSteps_queue; assumption.
Qed.

Lemma sample_ring_holds_nothing : ring_holds sample_capacity sample_ring [].
Proof.
  repeat split; try reflexivity; vm_compute; discriminate.
Qed.

Lemma send_appends_in_order_witness :
  ring_holds sample_capacity
    (SendRing
       (fst (TunSendNetBufferLists sample_flags sample_capacity
               (mkSendState sample_ring 0 0 0 0)
               [mkNbl NDIS_STATUS_SUCCESS [sample_nb; sample_nb_oversize];
                mkNbl NDIS_STATUS_SUCCESS [sample_nb_scattered]])))
    ([] ++ accepted_payloads sample_flags sample_capacity sample_ring
             (concat (map NblBuffers
                        [mkNbl NDIS_STATUS_SUCCESS [sample_nb; sample_nb_oversize];
                         mkNbl NDIS_STATUS_SUCCESS [sample_nb_scattered]]))).
Proof.
  apply (send_appends_in_order sample_flags sample_capacity
           [mkNbl NDIS_STATUS_SUCCESS [sample_nb; sample_nb_oversize];
            mkNbl NDIS_STATUS_SUCCESS [sample_nb_scattered]]
           (mkSendState sample_ring 0 0 0 0) []).
  - reflexivity.
  - exact sample_ring_holds_nothing.
Defined.

Section QueueReceive.

Variable RingCapacity : Z.
Hypothesis Hlegal : capacity_legal RingCapacity.

(** The frame decoded at the head of a queue. *)
Lemma TunReceiveFrame_queue (Ring : TUN_RING) (p : list UCHAR) (ps : list (list UCHAR)) :
  ring_holds RingCapacity Ring (p :: ps) ->
  TunReceiveFrame RingCapacity (Head Ring) (Tail Ring) (Data Ring) = Some (frame_of p) /\
  Head Ring <> Tail Ring /\
  ring_holds RingCapacity
    (set_Head Ring (TUN_RING_WRAP (Ulong.add (Head Ring) (frame_footprint p)) RingCapacity))
    ps.
Proof.
  intros (Hh & Ht & Hq & Hsize).
  pose proof (capacity_positive RingCapacity Hlegal) as Hp.
  cbn [queued] in Hq. destruct Hq as (Hlen & Hload & Hread & Hrest).
  rewrite queue_size_cons in Hsize.
  pose proof (queue_size_nonneg ps) as Hps.
  destruct (frame_footprint_bounds p Hlen) as [Hfp Hfa].
  unfold sizeof_TUN_PACKET in Hfp.
  split; [| split].
  - unfold TunReceiveFrame, frame_of. rewrite Hsize, Hload.
    replace (Tail Ring >=? RingCapacity) with false
      by (symmetry; rewrite Z.geb_leb; apply Z.leb_gt; apply Ht).
    replace (frame_footprint p + queue_size ps <? sizeof_TUN_PACKET) with false
      by (symmetry; apply Z.ltb_ge; unfold sizeof_TUN_PACKET; lia).
    replace (Z.of_nat (length p) >? TUN_MAX_IP_PACKET_SIZE) with false
      by (symmetry; rewrite Z.gtb_ltb; apply Z.ltb_ge; lia).
    fold (frame_footprint p).
    replace (frame_footprint p >? frame_footprint p + queue_size ps) with false
      by (symmetry; rewrite Z.gtb_ltb; apply Z.ltb_ge; lia).
    rewrite Nat2Z.id, Hread. reflexivity.
  - intros Heq. rewrite Heq in Hsize.
    rewrite RingContent_mod in Hsize by exact Hlegal.
    rewrite Z.sub_diag, Z.mod_0_l in Hsize by lia. lia.
  - unfold ring_holds. cbn [set_Head Head Tail Data].
    split; [apply advance_offset_ok; [exact Hlegal | apply Hh | exact Hfa] |].
    split; [exact Ht |]. split; [exact Hrest |].
    rewrite advance_value by exact Hlegal.
    rewrite RingContent_mod in * by exact Hlegal.
    rewrite content_after_frame by (try exact Hlegal; lia). lia.
Qed.

(** One iteration on a ring that holds a queue. *)
Lemma TunReceiveIteration_queue (Flags : Z) (NblAllocated : bool) (s : RECEIVE_STATE)
  (p : list UCHAR) (ps : list (list UCHAR)) :
  flag_set Flags TUN_FLAGS_CONNECTED = true ->
  ring_holds RingCapacity (ReceiveRing s) (p :: ps) ->
  ip_shaped p ->
  exists s',
    TunReceiveIteration Flags RingCapacity NblAllocated s = ReceiveNext s' /\
    ring_holds RingCapacity (ReceiveRing s') ps /\
    (delivering (Flags, NblAllocated) ->
     Indicated s' = indication_of p :: Indicated s /\
     Statistics s' = count_received (Statistics s) (Z.of_nat (length p))) /\
    (~ delivering (Flags, NblAllocated) ->
     Indicated s' = Indicated s /\
     Statistics s' = count_discarded (Statistics s)).
Proof.
  intros Hconn Hq Hip.
  destruct (TunReceiveFrame_queue (ReceiveRing s) p ps Hq) as (Hframe & Hne & Hnext).
  destruct Hq as (Hh & _).
  unfold ip_shaped in Hip. unfold indication_of, classified.
  destruct (TunClassify (frame_of p)) as [fl |] eqn:Hcl; [| contradiction].
  unfold TunReceiveIteration. rewrite Hconn. cbn [negb].
  replace (Head (ReceiveRing s) >=? RingCapacity) with false
    by (symmetry; rewrite Z.geb_leb; apply Z.leb_gt; apply Hh).
  replace (Head (ReceiveRing s) =? Tail (ReceiveRing s)) with false
    by (symmetry; apply Z.eqb_neq; exact Hne).
  unfold TunReceivePacket. rewrite Hframe, Hcl.
  unfold delivering. cbn [fst snd].
  destruct NblAllocated; cbn [negb].
  - destruct (Z.land Flags (Z.lor TUN_FLAGS_PRESENT TUN_FLAGS_RUNNING)
              =? Z.lor TUN_FLAGS_PRESENT TUN_FLAGS_RUNNING) eqn:Er; cbn [negb].
    + eexists. split; [reflexivity |].
      cbn [nextPacket NdisFreeNetBufferList ReceiveRing Statistics Indicated frame_of
           AlignedPacketSize PacketSize PacketBytes InterlockedExchangeU_Head].
      split; [exact Hnext |]. split.
      * intros _. split; reflexivity.
      * intros Hnot. exfalso. apply Hnot. apply Z.eqb_eq in Er. repeat split; assumption.
    + eexists. split; [reflexivity |].
      cbn [cleanupFreeNbl cleanupDiscardPacket nextPacket NdisFreeNetBufferList ReceiveRing
           Statistics Indicated frame_of AlignedPacketSize InterlockedExchangeU_Head].
      split; [exact Hnext |]. split.
      * intros (_ & Hr & _). apply Z.eqb_neq in Er. contradiction.
      * intros _. split; reflexivity.
  - eexists. split; [reflexivity |].
    cbn [cleanupDiscardPacket nextPacket ReceiveRing Statistics Indicated frame_of
         AlignedPacketSize InterlockedExchangeU_Head].
    split; [exact Hnext |]. split.
    + intros (_ & _ & Ha). discriminate Ha.
    + intros _. split; reflexivity.
Qed.

Lemma TunReceiveIteration_empty (Flags : Z) (NblAllocated : bool) (s : RECEIVE_STATE) :
  flag_set Flags TUN_FLAGS_CONNECTED = true ->
  ring_holds RingCapacity (ReceiveRing s) [] ->
  TunReceiveIteration Flags RingCapacity NblAllocated s = ReceiveWait /\
  Head (ReceiveRing s) = Tail (ReceiveRing s).
Proof.
  intros Hconn ([Hh _] & [Ht _] & _ & Hsize).
  pose proof (capacity_positive RingCapacity Hlegal) as Hp.
  change (queue_size []) with 0 in Hsize.
  rewrite RingContent_mod in Hsize by exact Hlegal.
  assert (Heq : Head (ReceiveRing s) = Tail (ReceiveRing s)).
  { destruct (Z_le_gt_dec (Head (ReceiveRing s)) (Tail (ReceiveRing s))).
    - rewrite Z.mod_small in Hsize by lia. lia.
    - replace (Tail (ReceiveRing s) - Head (ReceiveRing s))
        with (Tail (ReceiveRing s) - Head (ReceiveRing s) + RingCapacity
              + (-1) * RingCapacity) in Hsize by ring.
      rewrite Z.mod_add in Hsize by lia. rewrite Z.mod_small in Hsize by lia. lia. }
  split; [| exact Heq].
  unfold TunReceiveIteration. rewrite Hconn. cbn [negb].
  replace (Head (ReceiveRing s) >=? RingCapacity) with false
    by (symmetry; rewrite Z.geb_leb; apply Z.leb_gt; lia).
  rewrite Heq, Z.eqb_refl. reflexivity.
Qed.

(** A run of delivering iterations over a queue of IP-shaped payloads. *)
Lemma TunReceiveRun_queue (ps : list (list UCHAR)) :
  forall (Envs : list (Z * bool)) (s : RECEIVE_STATE),
    Forall delivering Envs ->
    (length ps < length Envs)%nat ->
    Forall ip_shaped ps ->
    ring_holds RingCapacity (ReceiveRing s) ps ->
    snd (TunReceiveRun Envs RingCapacity s) = RunWaiting /\
    Indicated (fst (TunReceiveRun Envs RingCapacity s))
    = rev (map indication_of ps) ++ Indicated s /\
    Statistics (fst (TunReceiveRun Envs RingCapacity s))
    = count_all_received (Statistics s) ps /\
    ring_holds RingCapacity (ReceiveRing (fst (TunReceiveRun Envs RingCapacity s))) [].
Proof.
  induction ps as [| p ps IH]; intros Envs s Henv Hlen Hip Hq.
  - destruct Envs as [| [Flags a] rest]; [cbn in Hlen; lia |].
    apply Forall_inv in Henv. destruct Henv as (Hconn & _).
    cbn [TunReceiveRun fst] in *.
    destruct (TunReceiveIteration_empty Flags a s Hconn Hq) as [-> _].
    cbn. repeat split; apply Hq.
  - destruct Envs as [| [Flags a] rest]; [cbn in Hlen; lia |].
    pose proof (Forall_inv Henv) as He. apply Forall_inv_tail in Henv.
    pose proof (Forall_inv Hip) as Hp0. apply Forall_inv_tail in Hip.
    destruct (TunReceiveIteration_queue Flags a s p ps (proj1 He) Hq Hp0)
      as (s' & Hstep & Hq' & Hdel & _).
    cbn [TunReceiveRun]. rewrite Hstep.
    destruct (IH rest s' Henv ltac:(cbn in Hlen; lia) Hip Hq')
      as (Hend & Hind & Hstat & Hempty).
    split; [exact Hend |]. destruct (Hdel He) as [Hi Hs].
    split; [| split; [| exact Hempty]].
    + rewrite Hind, Hi. cbn [map rev]. rewrite <- app_assoc. reflexivity.
    + rewrite Hstat, Hs. reflexivity.
Qed.

End QueueReceive.

(** X9.  One pass of the receive loop over a ring that holds a queue takes
    exactly the oldest payload: the loop goes on with the rest of the
    queue; when the adapter is connected, present and running and a net
    buffer list could be allocated the payload is indicated with its IP
    version and counted as received, and otherwise it is dropped and
    counted as discarded. *)
Theorem receive_pops_oldest (Flags RingCapacity : Z) (NblAllocated : bool)
  (s : RECEIVE_STATE) (p : list UCHAR) (ps : list (list UCHAR)) :
  capacity_legal RingCapacity ->
  flag_set Flags TUN_FLAGS_CONNECTED = true ->
  ring_holds RingCapacity (ReceiveRing s) (p :: ps) ->
  ip_shaped p ->
  exists s',
    TunReceiveIteration Flags RingCapacity NblAllocated s = ReceiveNext s' /\
    ring_holds RingCapacity (ReceiveRing s') ps /\
    (delivering (Flags, NblAllocated) ->
     Indicated s' = indication_of p :: Indicated s /\
     Statistics s' = count_received (Statistics s) (Z.of_nat (length p))) /\
    (~ delivering (Flags, NblAllocated) ->
     Indicated s' = Indicated s /\
     Statistics s' = count_discarded (Statistics s)).
Proof. intros Hc. apply TunReceiveIteration_queue. exact Hc. Qed.

Lemma sample_flags_connected : flag_set sample_flags TUN_FLAGS_CONNECTED = true.
Proof. reflexivity. Qed.

Lemma sample_payload_ip_shaped : ip_shaped sample_payload.
Proof. vm_compute. discriminate. Qed.

Lemma sample_delivering : delivering (sample_flags, true).
Proof. repeat split. Qed.

Lemma sample_capacity_legal : capacity_legal sample_capacity.
Proof. reflexivity. Qed.

(** The sample receive ring holds the sample payload. *)
Lemma sample_receive_ring_holds :
  ring_holds sample_capacity (ReceiveRing sample_receive_state) [sample_payload].
Proof.
  pose proof (TunSendNetBuffer_queue sample_capacity sample_capacity_legal sample_flags
                sample_ring sample_nb [] sample_ring_holds_nothing) as H.
  exact H.
Qed.

Lemma receive_pops_oldest_witness :
  exists s',
    TunReceiveIteration sample_flags sample_capacity true sample_receive_state
    = ReceiveNext s' /\
    ring_holds sample_capacity (ReceiveRing s') [] /\
    (delivering (sample_flags, true) ->
     Indicated s' = indication_of sample_payload :: Indicated sample_receive_state /\
     Statistics s'
     = count_received (Statistics sample_receive_state)
         (Z.of_nat (length sample_payload))) /\
    (~ delivering (sample_flags, true) ->
     Indicated s' = Indicated sample_receive_state /\
     Statistics s' = count_discarded (Statistics sample_receive_state)).
Proof.
  apply (receive_pops_oldest sample_flags sample_capacity true sample_receive_state
           sample_payload []).
  - exact sample_capacity_legal.
  - exact sample_flags_connected.
  - exact sample_receive_ring_holds.
  - exact sample_payload_ip_shaped.
Defined.

(** X10.  With the producer idle, the receive worker delivers a queue of IP
    packets first in, first out: as long as every pass finds the adapter
    connected, present and running and gets a net buffer list, the packets
    are indicated in ring order with their bytes intact, each is counted
    as received, the ring ends up empty, and the worker goes to wait. *)
Theorem receive_run_delivers_in_order (RingCapacity : Z) (Envs : list (Z * bool))
  (s : RECEIVE_STATE) (ps : list (list UCHAR)) :
  capacity_legal RingCapacity ->
  Forall delivering Envs ->
  (length ps < length Envs)%nat ->
  Forall ip_shaped ps ->
  ring_holds RingCapacity (ReceiveRing s) ps ->
  snd (TunReceiveRun Envs RingCapacity s) = RunWaiting /\
  Indicated (fst (TunReceiveRun Envs RingCapacity s))
  = rev (map indication_of ps) ++ Indicated s /\
  Statistics (fst (TunReceiveRun Envs RingCapacity s))
  = count_all_received (Statistics s) ps /\
  ring_holds RingCapacity (ReceiveRing (fst (TunReceiveRun Envs RingCapacity s))) [].
Proof. intros Hc. apply TunReceiveRun_queue. exact Hc. Qed.

Lemma receive_run_delivers_in_order_witness :
  snd (TunReceiveRun [(sample_flags, true); (sample_flags, true)] sample_capacity
         sample_receive_state) = RunWaiting /\
  Indicated (fst (TunReceiveRun [(sample_flags, true); (sample_flags, true)] sample_capacity
                    sample_receive_state))
  = rev (map indication_of [sample_payload]) ++ Indicated sample_receive_state /\
  Statistics (fst (TunReceiveRun [(sample_flags, true); (sample_flags, true)] sample_capacity
                     sample_receive_state))
  = count_all_received (Statistics sample_receive_state) [sample_payload] /\
  ring_holds sample_capacity
    (ReceiveRing (fst (TunReceiveRun [(sample_flags, true); (sample_flags, true)]
                         sample_capacity sample_receive_state))) [].
Proof.
  apply (receive_run_delivers_in_order sample_capacity
           [(sample_flags, true); (sample_flags, true)] sample_receive_state [sample_payload]).
  - exact sample_capacity_legal.
  - repeat constructor.
  - cbn. lia.
  - constructor; [exact sample_payload_ip_shaped | constructor].
  - exact sample_receive_ring_holds.
Defined.

(** ** Accounting of a batch *)

Lemma payload_octets_cons (p : list UCHAR) (ps : list (list UCHAR)) :
  payload_octets (p :: ps) = Z.of_nat (length p) + payload_octets ps.
Proof. reflexivity. Qed.

Lemma TunSendSteps_accounting (Flags RingCapacity : Z) (Nbs : list NET_BUFFER) :
  forall (s : SEND_STATE) (st : NDIS_STATUS),
    SentPacketsCount (fst (fold_left (TunSendStep Flags RingCapacity) Nbs (s, st)))
    = SentPacketsCount s
      + Z.of_nat (length (accepted_payloads Flags RingCapacity (SendRing s) Nbs)) /\
    SentPacketsSize (fst (fold_left (TunSendStep Flags RingCapacity) Nbs (s, st)))
    = SentPacketsSize s
      + payload_octets (accepted_payloads Flags RingCapacity (SendRing s) Nbs) /\
    DiscardedPacketsCount (fst (fold_left (TunSendStep Flags RingCapacity) Nbs (s, st)))
    = DiscardedPacketsCount s
      + (Z.of_nat (length Nbs)
         - Z.of_nat (length (accepted_payloads Flags RingCapacity (SendRing s) Nbs))) /\
    SendTailMovedSet (fst (fold_left (TunSendStep Flags RingCapacity) Nbs (s, st)))
    = SendTailMovedSet s
      + Z.of_nat (length (accepted_payloads Flags RingCapacity (SendRing s) Nbs)).
Proof.
  induction Nbs as [| Nb Nbs IH]; intros s st.
  - cbn. repeat split; lia.
  - cbn [fold_left accepted_payloads]. unfold TunSendStep at 2 4 6 8.
    destruct (TunSendNetBuffer Flags RingCapacity (SendRing s) Nb) as [Ring' | Ring' Status].
    + destruct (IH (mkSendState Ring' (SentPacketsCount s + 1)
                      (SentPacketsSize s + NET_BUFFER_DATA_LENGTH Nb)
                      (DiscardedPacketsCount s) (SendTailMovedSet s + 1)) st)
        as (H1 & H2 & H3 & H4).
      cbn [SendRing SentPacketsCount SentPacketsSize DiscardedPacketsCount SendTailMovedSet]
        in H1, H2, H3, H4.
      rewrite H1, H2, H3, H4, payload_octets_cons.
      unfold NET_BUFFER_DATA_LENGTH. cbn [length].
      repeat split; lia.
    + destruct (IH (mkSendState Ring' (SentPacketsCount s) (SentPacketsSize s)
                      (DiscardedPacketsCount s + 1) (SendTailMovedSet s)) Status)
        as (H1 & H2 & H3 & H4).
      cbn [SendRing SentPacketsCount SentPacketsSize DiscardedPacketsCount SendTailMovedSet]
        in H1, H2, H3, H4.
      rewrite H1, H2, H3, H4. cbn [length].
      repeat split; lia.
Qed.

(** X11.  What a call of the send handler adds to the adapter's counters is
    what it added to the ring: the packet and octet counters grow by the
    number and the payload bytes of the accepted net buffers, the discard
    counter by the number of all the others, the receive-side counters
    stay, and the send ring's event is set once per accepted packet. *)
Theorem send_statistics_match_queue (Flags RingCapacity : Z) (Ring : TUN_RING)
  (NetBufferLists : list NET_BUFFER_LIST) (st : NDIS_STATISTICS_INFO) :
  TunSendStatistics st
    (fst (TunSendNetBufferLists Flags RingCapacity (mkSendState Ring 0 0 0 0) NetBufferLists))
  = mkStatistics (ifHCInOctets st) (ifHCInUcastOctets st) (ifHCInUcastPkts st)
      (ifInDiscards st)
      (InterlockedAdd64 (ifHCOutOctets st)
         (payload_octets
            (accepted_payloads Flags RingCapacity Ring
               (concat (map NblBuffers NetBufferLists)))))
      (InterlockedAdd64 (ifHCOutUcastOctets st)
         (payload_octets
            (accepted_payloads Flags RingCapacity Ring
               (concat (map NblBuffers NetBufferLists)))))
      (InterlockedAdd64 (ifHCOutUcastPkts st)
         (Z.of_nat
            (length
               (accepted_payloads Flags RingCapacity Ring
                  (concat (map NblBuffers NetBufferLists))))))
      (InterlockedAdd64 (ifOutDiscards st)
         (Z.of_nat (length (concat (map NblBuffers NetBufferLists)))
          - Z.of_nat
              (length
                 (accepted_payloads Flags RingCapacity Ring
                    (concat (map NblBuffers NetBufferLists)))))) /\
  SendTailMovedSet
    (fst (TunSendNetBufferLists Flags RingCapacity (mkSendState Ring 0 0 0 0) NetBufferLists))
  = Z.of_nat
      (length
         (accepted_payloads Flags RingCapacity Ring (concat (map NblBuffers NetBufferLists)))).
Proof.
  rewrite (TunSendNetBufferLists_flat Flags RingCapacity NetBufferLists
             (mkSendState Ring 0 0 0 0) NDIS_STATUS_SUCCESS).
  destruct (TunSendSteps_accounting Flags RingCapacity (concat (map NblBuffers NetBufferLists))
              (mkSendState Ring 0 0 0 0) NDIS_STATUS_SUCCESS) as (H1 & H2 & H3 & H4).
  cbn [SendRing SentPacketsCount SentPacketsSize DiscardedPacketsCount SendTailMovedSet]
    in H1, H2, H3, H4.
  unfold TunSendStatistics. rewrite H1, H2, H3, H4. cbn [Z.add].
  split; reflexivity.
Qed.

(** ** A batch on an adapter that is not ready *)

Lemma TunSendNetBuffer_not_ready (Flags RingCapacity : Z) (Ring : TUN_RING) (Nb : NET_BUFFER) :
  ~ flags_all_set Flags ->
  TunSendNetBuffer Flags RingCapacity Ring Nb = SendDiscarded Ring (TunSendFlagsStatus Flags).
Proof.
  intros Hn. unfold TunSendNetBuffer, TunSendFlagsStatus.
  destruct (flag_set Flags TUN_FLAGS_PRESENT) eqn:Ep; cbn [negb]; [| reflexivity].
  destruct (flag_set Flags TUN_FLAGS_RUNNING) eqn:Er; cbn [negb]; [| reflexivity].
  destruct (flag_set Flags TUN_FLAGS_CONNECTED) eqn:Ec; cbn [negb]; [| reflexivity].
  exfalso. apply Hn. repeat split; assumption.
Qed.

Lemma TunSendSteps_not_ready (Flags RingCapacity : Z) (Nbs : list NET_BUFFER) :
  ~ flags_all_set Flags ->
  forall (s : SEND_STATE) (st : NDIS_STATUS),
    fold_left (TunSendStep Flags RingCapacity) Nbs (s, st)
    = (mkSendState (SendRing s) (SentPacketsCount s) (SentPacketsSize s)
         (DiscardedPacketsCount s + Z.of_nat (length Nbs)) (SendTailMovedSet s),
       match Nbs with [] => st | _ :: _ => TunSendFlagsStatus Flags end).
Proof.
  intros Hn. induction Nbs as [| Nb Nbs IH]; intros s st.
  - cbn [fold_left length Z.of_nat]. rewrite Z.add_0_r. destruct s; reflexivity.
  - cbn [fold_left]. unfold TunSendStep at 2.
    rewrite TunSendNetBuffer_not_ready by exact Hn.
    rewrite IH.
    cbn [SendRing SentPacketsCount SentPacketsSize DiscardedPacketsCount SendTailMovedSet].
    replace (DiscardedPacketsCount s + 1 + Z.of_nat (length Nbs))
      with (DiscardedPacketsCount s + Z.of_nat (length (Nb :: Nbs)))
      by (cbn [length]; lia).
    destruct Nbs; reflexivity.
Qed.

Lemma TunSendNetBufferLists_not_ready (Flags RingCapacity : Z)
  (NetBufferLists : list NET_BUFFER_LIST) :
  ~ flags_all_set Flags ->
  forall s : SEND_STATE,
    TunSendNetBufferLists Flags RingCapacity s NetBufferLists
    = (mkSendState (SendRing s) (SentPacketsCount s) (SentPacketsSize s)
         (DiscardedPacketsCount s
          + Z.of_nat (length (concat (map NblBuffers NetBufferLists))))
         (SendTailMovedSet s),
       map (fun Nbl =>
              mkNbl match NblBuffers Nbl with
                    | [] => NblStatus Nbl
                    | _ :: _ => TunSendFlagsStatus Flags
                    end (NblBuffers Nbl))
         NetBufferLists).
Proof.
  intros Hn. induction NetBufferLists as [| Nbl rest IH]; intros s.
  - cbn [TunSendNetBufferLists map concat length Z.of_nat]. rewrite Z.add_0_r.
    destruct s; reflexivity.
  - cbn [TunSendNetBufferLists map concat]. unfold TunSendNetBufferList.
    rewrite TunSendSteps_not_ready by exact Hn.
    rewrite IH.
    cbn [SendRing SentPacketsCount SentPacketsSize DiscardedPacketsCount SendTailMovedSet].
    rewrite length_app, Nat2Z.inj_add, Z.add_assoc. reflexivity.
Qed.

(** X12.  While the adapter is removed, paused or without a client, the
    send handler touches nothing of the ring: for any batch the ring, its
    memory included, is as before, no packet is counted as sent and the
    event is not set; every net buffer is counted as discarded and every
    list that has a net buffer completes with the status of the first
    missing flag (removed before paused before disconnected). *)
Theorem send_batch_when_not_ready (Flags RingCapacity : Z) (s : SEND_STATE)
  (NetBufferLists : list NET_BUFFER_LIST) :
  ~ flags_all_set Flags ->
  TunSendNetBufferLists Flags RingCapacity s NetBufferLists
  = (mkSendState (SendRing s) (SentPacketsCount s) (SentPacketsSize s)
       (DiscardedPacketsCount s + Z.of_nat (length (concat (map NblBuffers NetBufferLists))))
       (SendTailMovedSet s),
     map (fun Nbl =>
            mkNbl match NblBuffers Nbl with
                  | [] => NblStatus Nbl
                  | _ :: _ => TunSendFlagsStatus Flags
                  end (NblBuffers Nbl))
       NetBufferLists).
Proof. intros Hn. apply TunSendNetBufferLists_not_ready. exact Hn. Qed.

Lemma send_batch_when_not_ready_witness :
  TunSendNetBufferLists TUN_FLAGS_PRESENT sample_capacity (mkSendState sample_ring 0 0 0 0)
    [mkNbl NDIS_STATUS_SUCCESS [sample_nb; sample_nb_scattered]; mkNbl NDIS_STATUS_SUCCESS []]
  = (mkSendState sample_ring 0 0 (0 + Z.of_nat (length
       (concat (map NblBuffers
                  [mkNbl NDIS_STATUS_SUCCESS [sample_nb; sample_nb_scattered];
                   mkNbl NDIS_STATUS_SUCCESS []])))) 0,
     map (fun Nbl =>
            mkNbl match NblBuffers Nbl with
                  | [] => NblStatus Nbl
                  | _ :: _ => TunSendFlagsStatus TUN_FLAGS_PRESENT
                  end (NblBuffers Nbl))
       [mkNbl NDIS_STATUS_SUCCESS [sample_nb; sample_nb_scattered];
        mkNbl NDIS_STATUS_SUCCESS []]).
Proof.
  apply (send_batch_when_not_ready TUN_FLAGS_PRESENT sample_capacity
           (mkSendState sample_ring 0 0 0 0)).
  intros (_ & Hr & _). vm_compute in Hr. discriminate Hr.
Defined.

(** ** Progress of the receive loop *)

Section Progress.

Variable RingCapacity : Z.
Hypothesis Hlegal : capacity_legal RingCapacity.

(** Each pass that goes on to the next packet consumes at least one
    alignment unit of the ring's content and leaves [Tail] alone. *)
Lemma TunReceiveIteration_consumes (Flags : Z) (NblAllocated : bool) (s s' : RECEIVE_STATE) :
  TunReceiveIteration Flags RingCapacity NblAllocated s = ReceiveNext s' ->
  Tail (ReceiveRing s') = Tail (ReceiveRing s) /\
  RingContent (Tail (ReceiveRing s')) (Head (ReceiveRing s')) RingCapacity + TUN_ALIGNMENT
  <= RingContent (Tail (ReceiveRing s)) (Head (ReceiveRing s)) RingCapacity.
Proof.
  intros H. apply TunReceiveIteration_next in H.
  destruct H as (f & fl & _ & _ & _ & Hf & _ & ->).
  apply TunReceiveFrame_inv in Hf.
  destruct Hf as (_ & _ & _ & Hsz & Ha & Hfit & _).
  pose proof (capacity_positive RingCapacity Hlegal) as Hp.
  destruct (footprint_aligned _ Hsz) as [Hfp _]. rewrite <- Ha in Hfp.
  cbn [set_Head Head Tail]. split; [reflexivity |].
  rewrite advance_value by exact Hlegal.
  rewrite !RingContent_mod in * by exact Hlegal.
  rewrite Zminus_mod_idemp_r.
  replace (Tail (ReceiveRing s) - (Head (ReceiveRing s) + AlignedPacketSize f))
    with (Tail (ReceiveRing s) - Head (ReceiveRing s) - AlignedPacketSize f) by ring.
  rewrite <- Zminus_mod_idemp_l.
  pose proof (Z.mod_pos_bound (Tail (ReceiveRing s) - Head (ReceiveRing s)) RingCapacity
                ltac:(lia)) as Hc.
  unfold sizeof_TUN_PACKET, TUN_ALIGNMENT, sizeof_ULONG in *.
  rewrite Z.mod_small by lia. lia.
Qed.

Lemma TunReceiveRun_bounded (Envs : list (Z * bool)) :
  forall s : RECEIVE_STATE,
    RingContent (Tail (ReceiveRing s)) (Head (ReceiveRing s)) RingCapacity
    < TUN_ALIGNMENT * Z.of_nat (length Envs) ->
    snd (TunReceiveRun Envs RingCapacity s) <> RunContinues.
Proof.
  induction Envs as [| [Flags a] rest IH]; intros s Hlt.
  - pose proof (RingContent_range RingCapacity Hlegal
                  (Tail (ReceiveRing s)) (Head (ReceiveRing s))) as Hr.
    cbn [length Z.of_nat] in Hlt. lia.
  - cbn [TunReceiveRun].
    destruct (TunReceiveIteration Flags RingCapacity a s) as [| | s'] eqn:E;
      cbn [snd]; try discriminate.
    apply IH. apply TunReceiveIteration_consumes in E. destruct E as [_ E].
    cbn [length] in Hlt. unfold TUN_ALIGNMENT, sizeof_ULONG in *. lia.
Qed.

(** No pass keeps a net buffer list. *)
Lemma TunReceiveIteration_frees (Flags : Z) (NblAllocated : bool) (s s' : RECEIVE_STATE) :
  TunReceiveIteration Flags RingCapacity NblAllocated s = ReceiveNext s' ->
  NblOutstanding s' = NblOutstanding s.
Proof.
  unfold TunReceiveIteration.
  destruct (negb (flag_set Flags TUN_FLAGS_CONNECTED)); [discriminate |].
  destruct (Head (ReceiveRing s) >=? RingCapacity); [discriminate |].
  destruct (Head (ReceiveRing s) =? Tail (ReceiveRing s)); [discriminate |].
  unfold TunReceivePacket.
  destruct (TunReceiveFrame _ _ _ _) as [f |]; [| discriminate].
  destruct (TunClassify f) as [fl |]; [| discriminate].
  destruct NblAllocated; cbn [negb].
  - destruct (negb _); intros H; inversion H; subst; clear H; cbn; lia.
  - intros H; inversion H; subst; clear H; reflexivity.
Qed.

End Progress.

(** X13.  The receive worker cannot be kept busy by the ring's content
    alone: whatever the ring's memory, Head and Tail are, with the producer
    idle the loop is left or the worker goes to wait after at most one
    pass per alignment unit of the capacity (plus the pass that finds out),
    because every pass that goes on moves Head forward by at least
    [TUN_ALIGNMENT] bytes of content. *)
Theorem receive_run_terminates (RingCapacity : Z) (Envs : list (Z * bool))
  (s : RECEIVE_STATE) :
  capacity_legal RingCapacity ->
  RingCapacity <= TUN_ALIGNMENT * Z.of_nat (length Envs) ->
  snd (TunReceiveRun Envs RingCapacity s) <> RunContinues.
Proof.
  intros Hc Hn. apply TunReceiveRun_bounded; [exact Hc |].
  pose proof (RingContent_range RingCapacity Hc
                (Tail (ReceiveRing s)) (Head (ReceiveRing s))) as Hr.
  lia.
Qed.

Lemma receive_run_terminates_witness :
  snd (TunReceiveRun (repeat (sample_flags, true) (Z.to_nat 0x8000)) sample_capacity
         sample_receive_state) <> RunContinues.
Proof.
  apply (receive_run_terminates sample_capacity
           (repeat (sample_flags, true) (Z.to_nat 0x8000)) sample_receive_state).
  - reflexivity.
  - rewrite repeat_length. vm_compute. discriminate.
Defined.

(** X14.  The receive worker leaks no net buffer list: over any run of the
    loop, however each pass ends, the number of lists taken from the pool
    and not yet returned is what it was before the run. *)
Theorem receive_run_frees_every_nbl (RingCapacity : Z) (Envs : list (Z * bool))
  (s : RECEIVE_STATE) :
  NblOutstanding (fst (TunReceiveRun Envs RingCapacity s)) = NblOutstanding s.
Proof.
  revert s. induction Envs as [| [Flags a] rest IH]; intros s; [reflexivity |].
  cbn [TunReceiveRun].
  destruct (TunReceiveIteration Flags RingCapacity a s) as [| | s'] eqn:E;
    [reflexivity | reflexivity |].
  rewrite IH. apply (TunReceiveIteration_frees RingCapacity Flags a). exact E.
Qed.



(** ** The sentinels *)

Section Sentinels.

Variable RingCapacity : Z.
Hypothesis Hlegal : capacity_legal RingCapacity.

(** Whatever the flags, a ring whose [Tail] is the sentinel takes no packet
    and is not written to. *)
Lemma TunSendNetBuffer_sentinel (Flags : Z) (Ring : TUN_RING) (Nb : NET_BUFFER) :
  Tail Ring = Ulong.MAXULONG ->
  exists Status, TunSendNetBuffer Flags RingCapacity Ring Nb = SendDiscarded Ring Status.
Proof.
  intros Ht. unfold TunSendNetBuffer.
  destruct (negb (flag_set Flags TUN_FLAGS_PRESENT)); [eexists; reflexivity |].
  destruct (negb (flag_set Flags TUN_FLAGS_RUNNING)); [eexists; reflexivity |].
  destruct (negb (flag_set Flags TUN_FLAGS_CONNECTED)); [eexists; reflexivity |].
  destruct (NET_BUFFER_DATA_LENGTH Nb >? TUN_MAX_IP_PACKET_SIZE); [eexists; reflexivity |].
  destruct (Head Ring >=? RingCapacity); [eexists; reflexivity |].
  rewrite Ht, (MAXULONG_out_of_range RingCapacity Hlegal). eexists; reflexivity.
Qed.

Lemma TunSendSteps_sentinel (Flags : Z) (Nbs : list NET_BUFFER) :
  forall (s : SEND_STATE) (st : NDIS_STATUS),
    Tail (SendRing s) = Ulong.MAXULONG ->
    fst (fold_left (TunSendStep Flags RingCapacity) Nbs (s, st))
    = mkSendState (SendRing s) (SentPacketsCount s) (SentPacketsSize s)
        (DiscardedPacketsCount s + Z.of_nat (length Nbs)) (SendTailMovedSet s).
Proof.
  induction Nbs as [| Nb Nbs IH]; intros s st Ht.
  - cbn [fold_left length Z.of_nat fst]. rewrite Z.add_0_r. destruct s; reflexivity.
  - cbn [fold_left]. unfold TunSendStep at 2.
    destruct (TunSendNetBuffer_sentinel Flags (SendRing s) Nb Ht) as [Status ->].
    rewrite IH by exact Ht.
    cbn [SendRing SentPacketsCount SentPacketsSize DiscardedPacketsCount SendTailMovedSet].
    f_equal. cbn [length]. lia.
Qed.

End Sentinels.

(** X16.  Once teardown has stored [MAXULONG] in [Tail] of the send ring,
    the send handler never writes to that ring again, whatever flags a
    late caller may still have read: for any batch the ring and its
    memory are as before, every net buffer is counted as discarded and the
    event is not set. *)
Theorem send_ring_dead_after_teardown (Flags RingCapacity : Z) (s : SEND_STATE)
  (NetBufferLists : list NET_BUFFER_LIST) :
  capacity_legal RingCapacity ->
  Tail (SendRing s) = Ulong.MAXULONG ->
  fst (TunSendNetBufferLists Flags RingCapacity s NetBufferLists)
  = mkSendState (SendRing s) (SentPacketsCount s) (SentPacketsSize s)
      (DiscardedPacketsCount s + Z.of_nat (length (concat (map NblBuffers NetBufferLists))))
      (SendTailMovedSet s).
Proof.
  intros Hc Ht.
  rewrite (TunSendNetBufferLists_flat Flags RingCapacity NetBufferLists s NDIS_STATUS_SUCCESS).
  apply TunSendSteps_sentinel; assumption.
Qed.

Lemma send_ring_dead_after_teardown_witness :
  fst (TunSendNetBufferLists sample_flags sample_capacity
         (mkSendState (set_Tail sample_ring Ulong.MAXULONG) 0 0 0 0)
         [mkNbl NDIS_STATUS_SUCCESS [sample_nb; sample_nb_scattered]])
  = mkSendState (SendRing (mkSendState (set_Tail sample_ring Ulong.MAXULONG) 0 0 0 0))
      (SentPacketsCount (mkSendState (set_Tail sample_ring Ulong.MAXULONG) 0 0 0 0))
      (SentPacketsSize (mkSendState (set_Tail sample_ring Ulong.MAXULONG) 0 0 0 0))
      (DiscardedPacketsCount (mkSendState (set_Tail sample_ring Ulong.MAXULONG) 0 0 0 0)
       + Z.of_nat (length (concat (map NblBuffers
                      [mkNbl NDIS_STATUS_SUCCESS [sample_nb; sample_nb_scattered]]))))
      (SendTailMovedSet (mkSendState (set_Tail sample_ring Ulong.MAXULONG) 0 0 0 0)).
Proof.
  apply (send_ring_dead_after_teardown sample_flags sample_capacity
           (mkSendState (set_Tail sample_ring Ulong.MAXULONG) 0 0 0 0)).
  - reflexivity.
  - reflexivity.
Defined.

(** X17.  Leaving the receive loop is final: the worker stores [MAXULONG]
    in [Head] on its way out, and from a ring in that state every later
    run of the loop exits on its first pass without indicating, counting
    or consuming anything. *)
Theorem receive_ring_dead_after_exit (RingCapacity : Z) (e : Z * bool)
  (Envs : list (Z * bool)) (s : RECEIVE_STATE) :
  capacity_legal RingCapacity ->
  TunReceiveRun (e :: Envs) RingCapacity (TunReceiveExit s) = (TunReceiveExit s, RunExited).
Proof.
  intros Hc. destruct e as [Flags a]. cbn [TunReceiveRun].
  rewrite (receive_exit_breaks_ring RingCapacity Hc Flags a s). unfold TunReceiveExit, InterlockedExchangeU_Head, set_Head.
  cbn [ReceiveRing Statistics Indicated NblOutstanding Head Tail Alertable Data].
  reflexivity.
Qed.

Lemma receive_ring_dead_after_exit_witness :
  TunReceiveRun [(sample_flags, true); (sample_flags, true)] sample_capacity
    (TunReceiveExit sample_receive_state)
  = (TunReceiveExit sample_receive_state, RunExited).
Proof.
  apply (receive_ring_dead_after_exit sample_capacity (sample_flags, true)
           [(sample_flags, true)] sample_receive_state).
  reflexivity.
Defined.

(** ** The flags word *)

Section Flags.

Lemma flag_set_testbit (F k : Z) :
  0 <= k -> flag_set F (Z.shiftl 1 k) = Z.testbit F k.
Proof.
  intros Hk. unfold flag_set. rewrite Z.shiftl_1_l.
  destruct (Z.testbit F k) eqn:E.
  - apply negb_true_iff, Z.eqb_neq. intros H0.
    assert (H : Z.testbit (Z.land F (2 ^ k)) k = false) by (rewrite H0; apply Z.bits_0).
    rewrite Z.land_spec, E, Z.pow2_bits_true in H by lia. discriminate H.
  - apply negb_false_iff, Z.eqb_eq. apply Z.bits_inj'. intros n Hn.
    rewrite Z.land_spec, Z.bits_0, Z.pow2_bits_eqb by lia.
    destruct (Z.eqb_spec k n) as [-> | _].
    + rewrite E. reflexivity.
    + apply andb_false_r.
Qed.

Lemma flag_after_or (F j k : Z) :
  0 <= j -> 0 <= k ->
  flag_set (InterlockedOr F (Z.shiftl 1 k)) (Z.shiftl 1 j)
  = flag_set F (Z.shiftl 1 j) || (k =? j).
Proof.
  intros Hj Hk. rewrite !flag_set_testbit by lia.
  unfold InterlockedOr. rewrite Z.lor_spec, Z.shiftl_1_l, Z.pow2_bits_eqb by lia.
  reflexivity.
Qed.

Lemma flag_after_and_not (F j k : Z) :
  0 <= j -> 0 <= k ->
  flag_set (InterlockedAnd F (Z.lnot (Z.shiftl 1 k))) (Z.shiftl 1 j)
  = flag_set F (Z.shiftl 1 j) && negb (k =? j).
Proof.
  intros Hj Hk. rewrite !flag_set_testbit by lia.
  unfold InterlockedAnd.
  rewrite Z.land_spec, Z.lnot_spec, Z.shiftl_1_l, Z.pow2_bits_eqb by lia.
  reflexivity.
Qed.

(** Setting a flag that was set after it has been cleared gives the
    flags word back. *)
Lemma flag_clear_then_set (F k : Z) :
  0 <= k ->
  flag_set F (Z.shiftl 1 k) = true ->
  InterlockedOr (InterlockedAnd F (Z.lnot (Z.shiftl 1 k))) (Z.shiftl 1 k) = F.
Proof.
  intros Hk Hset. rewrite flag_set_testbit in Hset by lia.
  unfold InterlockedOr, InterlockedAnd. apply Z.bits_inj'. intros n Hn.
  rewrite Z.lor_spec, Z.land_spec, Z.lnot_spec, Z.shiftl_1_l, Z.pow2_bits_eqb by lia.
  destruct (Z.eqb_spec k n) as [-> | _].
  - rewrite Hset. reflexivity.
  - cbn [negb]. rewrite andb_true_r, orb_false_r. reflexivity.
Qed.

End Flags.

(** ** The send handler on the context *)

Lemma store_ring_same (K : KERNEL) (Address : Z) :
  forall a, RingMemory (store_ring K Address (RingMemory K Address)) a = RingMemory K a.
Proof.
  intros a. unfold store_ring. cbn [RingMemory].
  destruct (Z.eqb_spec a Address) as [-> | _]; reflexivity.
Qed.

(** The handler on a context whose flags are not all set. *)
Lemma TunSendNetBufferLists_Ctx_not_ready (Ctx : TUN_CTX) (K : KERNEL)
  (NetBufferLists : list NET_BUFFER_LIST) :
  ~ flags_all_set (Ctx_Flags Ctx) ->
  snd (TunSendNetBufferLists_Ctx Ctx K NetBufferLists)
  = map (fun Nbl =>
           mkNbl match NblBuffers Nbl with
                 | [] => NblStatus Nbl
                 | _ :: _ => TunSendFlagsStatus (Ctx_Flags Ctx)
                 end (NblBuffers Nbl))
      NetBufferLists /\
  (forall a, RingMemory (snd (fst (TunSendNetBufferLists_Ctx Ctx K NetBufferLists))) a
             = RingMemory K a) /\
  Calls (snd (fst (TunSendNetBufferLists_Ctx Ctx K NetBufferLists))) = Calls K /\
  kernel_resources (snd (fst (TunSendNetBufferLists_Ctx Ctx K NetBufferLists)))
  = kernel_resources K /\
  Ctx_Flags (fst (fst (TunSendNetBufferLists_Ctx Ctx K NetBufferLists))) = Ctx_Flags Ctx /\
  ifOutDiscards (Ctx_Statistics (fst (fst (TunSendNetBufferLists_Ctx Ctx K NetBufferLists))))
  = InterlockedAdd64 (ifOutDiscards (Ctx_Statistics Ctx))
      (Z.of_nat (length (concat (map NblBuffers NetBufferLists)))).
Proof.
  intros Hn. unfold TunSendNetBufferLists_Ctx.
  rewrite (TunSendNetBufferLists_not_ready (Ctx_Flags Ctx) (Device_Send_Capacity Ctx)
             NetBufferLists Hn).
  cbn [fst snd SendRing SendTailMovedSet DiscardedPacketsCount Z.to_nat repeat].
  split; [reflexivity |].
  split; [intros a; unfold kernel_calls; cbn [RingMemory]; apply store_ring_same |].
  split; [reflexivity |]. split; [reflexivity |]. split; reflexivity.
Qed.

(** X18.  Pausing the adapter stops the send path: after [TunPause] on a
    present adapter the send handler completes every list that has a net
    buffer with [NDIS_STATUS_PAUSED], counts every net buffer as
    discarded, writes to no ring and sets no event; the only call pausing
    itself makes is one pass of the transition lock. *)
Theorem pause_stops_sending (Ctx : TUN_CTX) (K : KERNEL)
  (NetBufferLists : list NET_BUFFER_LIST) :
  flag_set (Ctx_Flags Ctx) TUN_FLAGS_PRESENT = true ->
  let Ctx1 := fst (fst (TunPause Ctx K)) in
  let K1 := snd (fst (TunPause Ctx K)) in
  snd (TunPause Ctx K) = NDIS_STATUS_SUCCESS /\
  snd (TunSendNetBufferLists_Ctx Ctx1 K1 NetBufferLists)
  = map (fun Nbl =>
           mkNbl match NblBuffers Nbl with
                 | [] => NblStatus Nbl
                 | _ :: _ => NDIS_STATUS_PAUSED
                 end (NblBuffers Nbl))
      NetBufferLists /\
  (forall a, RingMemory (snd (fst (TunSendNetBufferLists_Ctx Ctx1 K1 NetBufferLists))) a
             = RingMemory K a) /\
  Calls (snd (fst (TunSendNetBufferLists_Ctx Ctx1 K1 NetBufferLists)))
  = CallTransitionBarrier :: Calls K /\
  ifOutDiscards
    (Ctx_Statistics (fst (fst (TunSendNetBufferLists_Ctx Ctx1 K1 NetBufferLists))))
  = InterlockedAdd64 (ifOutDiscards (Ctx_Statistics Ctx))
      (Z.of_nat (length (concat (map NblBuffers NetBufferLists)))).
Proof.
  intros Hp Ctx1 K1. subst Ctx1 K1. unfold TunPause. cbn [fst snd].
  assert (Hrun : flag_set (InterlockedAnd (Ctx_Flags Ctx) (Z.lnot TUN_FLAGS_RUNNING))
                   TUN_FLAGS_RUNNING = false).
  { unfold TUN_FLAGS_RUNNING. rewrite flag_after_and_not by lia.
    rewrite Z.eqb_refl. apply andb_false_r. }
  assert (Hpres : flag_set (InterlockedAnd (Ctx_Flags Ctx) (Z.lnot TUN_FLAGS_RUNNING))
                    TUN_FLAGS_PRESENT = true).
  { unfold TUN_FLAGS_RUNNING, TUN_FLAGS_PRESENT in *. rewrite flag_after_and_not by lia.
    rewrite Hp. reflexivity. }
  destruct (TunSendNetBufferLists_Ctx_not_ready
              (set_Flags Ctx (InterlockedAnd (Ctx_Flags Ctx) (Z.lnot TUN_FLAGS_RUNNING)))
              (TransitionBarrier K) NetBufferLists) as (H1 & H2 & H3 & _ & _ & H6).
  { cbn [set_Flags Ctx_Flags]. intros (_ & Hr & _). congruence. }
  split; [reflexivity |].
  split.
  { rewrite H1. cbn [set_Flags Ctx_Flags]. unfold TunSendFlagsStatus.
    rewrite Hpres, Hrun. reflexivity. }
  split; [exact H2 |]. split; [exact H3 |]. exact H6.
Qed.

Lemma pause_stops_sending_witness :
  snd (TunSendNetBufferLists_Ctx (fst (fst (TunPause sample_ctx sample_kernel)))
         (snd (fst (TunPause sample_ctx sample_kernel)))
         [mkNbl NDIS_STATUS_SUCCESS [sample_nb]])
  = map (fun Nbl =>
           mkNbl match NblBuffers Nbl with
                 | [] => NblStatus Nbl
                 | _ :: _ => NDIS_STATUS_PAUSED
                 end (NblBuffers Nbl))
      [mkNbl NDIS_STATUS_SUCCESS [sample_nb]].
Proof.
  apply (pause_stops_sending sample_ctx sample_kernel [mkNbl NDIS_STATUS_SUCCESS [sample_nb]]).
  reflexivity.
Defined.

(** X19.  Pause and restart only ever touch [TUN_FLAGS_RUNNING]: after
    [TunPause] the flag is clear, after [TunRestart] it is set, the present
    and connected flags are as before in both cases, and restarting an
    adapter that was running before the pause gives back the context it
    had. *)
Theorem pause_then_restart (Ctx : TUN_CTX) (K : KERNEL) :
  let Ctx1 := fst (fst (TunPause Ctx K)) in
  let Ctx2 := fst (TunRestart Ctx1) in
  flag_set (Ctx_Flags Ctx1) TUN_FLAGS_RUNNING = false /\
  flag_set (Ctx_Flags Ctx1) TUN_FLAGS_PRESENT = flag_set (Ctx_Flags Ctx) TUN_FLAGS_PRESENT /\
  flag_set (Ctx_Flags Ctx1) TUN_FLAGS_CONNECTED
  = flag_set (Ctx_Flags Ctx) TUN_FLAGS_CONNECTED /\
  flag_set (Ctx_Flags Ctx2) TUN_FLAGS_RUNNING = true /\
  flag_set (Ctx_Flags Ctx2) TUN_FLAGS_PRESENT = flag_set (Ctx_Flags Ctx) TUN_FLAGS_PRESENT /\
  flag_set (Ctx_Flags Ctx2) TUN_FLAGS_CONNECTED
  = flag_set (Ctx_Flags Ctx) TUN_FLAGS_CONNECTED /\
  (flag_set (Ctx_Flags Ctx) TUN_FLAGS_RUNNING = true -> Ctx2 = Ctx).
Proof.
  intros Ctx1 Ctx2. subst Ctx1 Ctx2. unfold TunPause, TunRestart.
  cbn [fst snd set_Flags Ctx_Flags].
  unfold TUN_FLAGS_RUNNING, TUN_FLAGS_PRESENT, TUN_FLAGS_CONNECTED.
  rewrite !flag_after_or, !flag_after_and_not by lia.
  cbn [Z.eqb negb]. rewrite !andb_true_r, !orb_false_r, !andb_false_r, orb_true_r.
  repeat (split; [reflexivity |]).
  intros Hr. rewrite flag_clear_then_set by (try lia; exact Hr).
  destruct Ctx; reflexivity.
Qed.

Lemma pause_then_restart_witness :
  fst (TunRestart (fst (fst (TunPause sample_ctx sample_kernel)))) = sample_ctx.
Proof.
  apply (pause_then_restart sample_ctx sample_kernel).
  reflexivity.
Defined.

(** ** The dispatch routine *)

Section Dispatch.

Variable Env : REGISTER_ENV.
Variable ThreadReferenced : bool.

Lemma IoReleaseRemoveLock_acquired (L : IO_REMOVE_LOCK) (Tag : Z) :
  IoReleaseRemoveLock (mkRemoveLock (Tag :: LockTags L) (Removed L)) Tag = L.
Proof.
  unfold IoReleaseRemoveLock. cbn [LockTags Removed remove_one].
  rewrite Z.eqb_refl. destruct L; reflexivity.
Qed.

(** Releasing the IRP's tag below a tag acquired after it. *)
Lemma IoReleaseRemoveLock_below (L : IO_REMOVE_LOCK) (Tag Top : Z) :
  IoReleaseRemoveLock (mkRemoveLock (Top :: Tag :: LockTags L) (Removed L)) Tag
  = mkRemoveLock (Top :: LockTags L) (Removed L).
Proof.
  unfold IoReleaseRemoveLock. cbn [LockTags Removed remove_one].
  destruct (Z.eqb_spec Tag Top) as [-> | _]; [reflexivity |].
  rewrite Z.eqb_refl. reflexivity.
Qed.

(** A create request, case by case. *)
Lemma TunDispatch_create (c : TUN_CTX) (K : KERNEL) (L : IO_REMOVE_LOCK)
  (Stack : IO_STACK_LOCATION) :
  MajorFunction Stack = IRP_MJ_CREATE ->
  TunDispatch Env ThreadReferenced (Some c) K L Stack
  = if Removed L || negb (flag_set (Ctx_Flags c) TUN_FLAGS_PRESENT) then
      mkDispatchResult STATUS_DELETE_PENDING 0 (Some c) K L
    else
      mkDispatchResult (Known STATUS_SUCCESS) 0 (Some c) K
        (mkRemoveLock (FileObject (StackIrp Stack) :: LockTags L) (Removed L)).
Proof.
  intros Hm. unfold TunDispatch. rewrite Hm.
  destruct L as [tags rm]. cbn [Removed LockTags].
  unfold IoAcquireRemoveLock at 1. cbn [Removed LockTags].
  destruct rm; cbn [orb NT_SUCCESS_EX NT_SUCCESS negb]; [reflexivity |].
  unfold TunDispatchCreate.
  destruct (flag_set (Ctx_Flags c) TUN_FLAGS_PRESENT); cbn [negb].
  - unfold IoAcquireRemoveLock. cbn [Removed LockTags].
    rewrite (IoReleaseRemoveLock_below (mkRemoveLock tags false)). reflexivity.
  - rewrite (IoReleaseRemoveLock_acquired (mkRemoveLock tags false)). reflexivity.
Qed.

(** A control request with the registration code on a lock that is not
    being removed. *)
Lemma TunDispatch_register (c : TUN_CTX) (K : KERNEL) (L : IO_REMOVE_LOCK)
  (Stack : IO_STACK_LOCATION) :
  MajorFunction Stack = IRP_MJ_DEVICE_CONTROL ->
  IoControlCode Stack = TUN_IOCTL_REGISTER_RINGS ->
  Removed L = false ->
  TunDispatch Env ThreadReferenced (Some c) K L Stack
  = mkDispatchResult
      (Known (fst (fst (TunDispatchRegisterBuffers Env c K (StackIrp Stack))))) 0
      (Some (snd (fst (TunDispatchRegisterBuffers Env c K (StackIrp Stack)))))
      (snd (TunDispatchRegisterBuffers Env c K (StackIrp Stack))) L.
Proof.
  intros Hm Hc Hr. unfold TunDispatch. rewrite Hm, Hc, Z.eqb_refl. cbn [negb].
  unfold IoAcquireRemoveLock. rewrite Hr. cbn [NT_SUCCESS_EX NT_SUCCESS negb].
  destruct (TunDispatchRegisterBuffers Env c K (StackIrp Stack)) as [[Status c'] K'].
  cbn [fst snd]. rewrite <- Hr. rewrite IoReleaseRemoveLock_acquired. reflexivity.
Qed.

Lemma TunDispatch_close (c : TUN_CTX) (K : KERNEL) (L : IO_REMOVE_LOCK)
  (Stack : IO_STACK_LOCATION) :
  MajorFunction Stack = IRP_MJ_CLOSE ->
  TunDispatch Env ThreadReferenced (Some c) K L Stack
  = mkDispatchResult (Known STATUS_SUCCESS) 0
      (Some (fst (TunDispatchUnregisterBuffers ThreadReferenced c K
                    (FileObject (StackIrp Stack)))))
      (snd (TunDispatchUnregisterBuffers ThreadReferenced c K (FileObject (StackIrp Stack))))
      (IoReleaseRemoveLock L (FileObject (StackIrp Stack))).
Proof.
  intros Hm. unfold TunDispatch. rewrite Hm.
  destruct (TunDispatchUnregisterBuffers ThreadReferenced c K (FileObject (StackIrp Stack)))
    as [c' K'].
  reflexivity.
Qed.

End Dispatch.

(** X20.  Every open handle holds the device's remove lock exactly once and
    nothing else does: a request leaves the lock as it found it, except
    that a create request that succeeds adds one acquisition tagged with
    its file object and a close request gives one such acquisition back.
    The IRP-tagged acquisition that brackets create and control requests
    is always released, whatever the outcome. *)
Theorem dispatch_remove_lock_balance (Env : REGISTER_ENV) (ThreadReferenced : bool)
  (Ctx : option TUN_CTX) (K : KERNEL) (L : IO_REMOVE_LOCK) (Stack : IO_STACK_LOCATION) :
  Removed (Dispatch_Lock (TunDispatch Env ThreadReferenced Ctx K L Stack)) = Removed L /\
  LockTags (Dispatch_Lock (TunDispatch Env ThreadReferenced Ctx K L Stack))
  = match Ctx, MajorFunction Stack with
    | Some _, IRP_MJ_CREATE =>
        if NT_SUCCESS_EX (IoStatus_Status (TunDispatch Env ThreadReferenced Ctx K L Stack))
        then FileObject (StackIrp Stack) :: LockTags L
        else LockTags L
    | Some _, IRP_MJ_CLOSE => remove_one (FileObject (StackIrp Stack)) (LockTags L)
    | _, _ => LockTags L
    end.
Proof.
  destruct Ctx as [c |]; [| split; reflexivity].
  destruct (MajorFunction Stack) eqn:Hm.
  - rewrite (TunDispatch_create Env ThreadReferenced) by exact Hm.
    destruct (Removed L || negb (flag_set (Ctx_Flags c) TUN_FLAGS_PRESENT));
      split; reflexivity.
  - rewrite (TunDispatch_close Env ThreadReferenced) by exact Hm. split; reflexivity.
  - unfold TunDispatch. rewrite Hm.
    destruct (negb (IoControlCode Stack =? TUN_IOCTL_REGISTER_RINGS)); [split; reflexivity |].
    destruct L as [tags rm]. unfold IoAcquireRemoveLock. cbn [Removed LockTags].
    destruct rm; cbn [NT_SUCCESS_EX NT_SUCCESS negb]; [split; reflexivity |].
    destruct (TunDispatchRegisterBuffers Env c K (StackIrp Stack)) as [[Status c'] K'].
    cbn [Dispatch_Lock].
    rewrite (IoReleaseRemoveLock_acquired (mkRemoveLock tags false)).
    split; reflexivity.
  - unfold TunDispatch. rewrite Hm. split; reflexivity.
  - unfold TunDispatch. rewrite Hm. split; reflexivity.
Qed.

(** X21.  A device-control request that reaches [TunDispatch] succeeds
    exactly when it carries the code [TUN_IOCTL_REGISTER_RINGS], removal of
    the device has not begun and registration is granted; it is then
    completed with [STATUS_SUCCESS] on the registered context and kernel.
    A request with another code is completed with
    [STATUS_INVALID_PARAMETER] before the remove lock is asked for, and a
    request with the right code after removal has begun with
    [STATUS_DELETE_PENDING] before registration is entered; both leave the
    context, the kernel objects and the remove lock as they were.
    Otherwise the request is completed with the status of
    [TunDispatchRegisterBuffers], on the context and kernel it leaves, and
    the remove lock is as before.  The information field is zero in every
    case. *)
Theorem control_request_succeeds_iff_granted (Env : REGISTER_ENV) (ThreadReferenced : bool)
  (c : TUN_CTX) (K : KERNEL) (L : IO_REMOVE_LOCK) (Stack : IO_STACK_LOCATION) :
  MajorFunction Stack = IRP_MJ_DEVICE_CONTROL ->
  (NT_SUCCESS_EX (IoStatus_Status (TunDispatch Env ThreadReferenced (Some c) K L Stack)) = true
   <->
   IoControlCode Stack = TUN_IOCTL_REGISTER_RINGS /\ Removed L = false /\
   registration_granted Env c (StackIrp Stack)) /\
  (NT_SUCCESS_EX (IoStatus_Status (TunDispatch Env ThreadReferenced (Some c) K L Stack)) = true
   ->
   TunDispatch Env ThreadReferenced (Some c) K L Stack
   = mkDispatchResult (Known STATUS_SUCCESS) 0 (Some (registered_ctx Env c (StackIrp Stack)))
       (registered_kernel Env K) L) /\
  (IoControlCode Stack <> TUN_IOCTL_REGISTER_RINGS ->
   TunDispatch Env ThreadReferenced (Some c) K L Stack
   = mkDispatchResult (Known STATUS_INVALID_PARAMETER) 0 (Some c) K L) /\
  (IoControlCode Stack = TUN_IOCTL_REGISTER_RINGS -> Removed L = true ->
   TunDispatch Env ThreadReferenced (Some c) K L Stack
   = mkDispatchResult STATUS_DELETE_PENDING 0 (Some c) K L) /\
  (IoControlCode Stack = TUN_IOCTL_REGISTER_RINGS -> Removed L = false ->
   TunDispatch Env ThreadReferenced (Some c) K L Stack
   = mkDispatchResult
       (Known (fst (fst (TunDispatchRegisterBuffers Env c K (StackIrp Stack))))) 0
       (Some (snd (fst (TunDispatchRegisterBuffers Env c K (StackIrp Stack)))))
       (snd (TunDispatchRegisterBuffers Env c K (StackIrp Stack))) L) /\
  IoStatus_Information (TunDispatch Env ThreadReferenced (Some c) K L Stack) = 0.
Proof.
  intros Hm.
  assert (Hother : IoControlCode Stack <> TUN_IOCTL_REGISTER_RINGS ->
                   TunDispatch Env ThreadReferenced (Some c) K L Stack
                   = mkDispatchResult (Known STATUS_INVALID_PARAMETER) 0 (Some c) K L).
  { intros Hc. apply Z.eqb_neq in Hc. unfold TunDispatch. rewrite Hm, Hc. reflexivity. }
  assert (Hgone : IoControlCode Stack = TUN_IOCTL_REGISTER_RINGS -> Removed L = true ->
                  TunDispatch Env ThreadReferenced (Some c) K L Stack
                  = mkDispatchResult STATUS_DELETE_PENDING 0 (Some c) K L).
  { intros Hc Hr. unfold TunDispatch. rewrite Hm, Hc, Z.eqb_refl. cbn [negb].
    unfold IoAcquireRemoveLock. rewrite Hr. reflexivity. }
  pose proof (TunDispatch_register Env ThreadReferenced c K L Stack Hm) as Hreg.
  assert (Hiff :
    NT_SUCCESS_EX (IoStatus_Status (TunDispatch Env ThreadReferenced (Some c) K L Stack))
    = true <->
    IoControlCode Stack = TUN_IOCTL_REGISTER_RINGS /\ Removed L = false /\
    registration_granted Env c (StackIrp Stack)).
  { destruct (Z.eq_dec (IoControlCode Stack) TUN_IOCTL_REGISTER_RINGS) as [Hc | Hc].
    2: { rewrite (Hother Hc). cbn [IoStatus_Status NT_SUCCESS_EX].
         split; [intros H; discriminate H | intros (H & _); contradiction]. }
    destruct (Removed L) eqn:Hr.
    { rewrite (Hgone Hc eq_refl). cbn [IoStatus_Status NT_SUCCESS_EX].
      split; [intros H; discriminate H | intros (_ & H & _); discriminate H]. }
    rewrite (Hreg Hc eq_refl). cbn [IoStatus_Status NT_SUCCESS_EX].
    rewrite register_succeeds_iff_granted_aux.
    split; [intros H; split; [exact Hc | split; [reflexivity | exact H]] |].
    intros (_ & _ & H). exact H. }
  split; [exact Hiff |].
  split.
  { intros Hs. apply (proj1 Hiff) in Hs. destruct Hs as (Hc & Hr & Hg).
    rewrite (Hreg Hc Hr).
    rewrite (TunDispatchRegisterBuffers_granted Env c K (StackIrp Stack) Hg). reflexivity. }
  split; [exact Hother |]. split; [exact Hgone |]. split; [exact Hreg |].
  destruct (Z.eq_dec (IoControlCode Stack) TUN_IOCTL_REGISTER_RINGS) as [Hc | Hc].
  2: { rewrite (Hother Hc). reflexivity. }
  destruct (Removed L) eqn:Hr.
  - rewrite (Hgone Hc eq_refl). reflexivity.
  - rewrite (Hreg Hc eq_refl). reflexivity.
Qed.

Lemma control_request_succeeds_iff_granted_witness :
  TunDispatch sample_env true (Some sample_ctx) sample_kernel sample_lock sample_control
  = mkDispatchResult (Known STATUS_SUCCESS) 0
      (Some (registered_ctx sample_env sample_ctx (StackIrp sample_control)))
      (registered_kernel sample_env sample_kernel) sample_lock /\
  TunDispatch sample_env true (Some sample_ctx) sample_kernel sample_lock
    (mkStack IRP_MJ_DEVICE_CONTROL (IRP_MN_OTHER 0) (TUN_IOCTL_REGISTER_RINGS + 4) 0x9100
       sample_irp)
  = mkDispatchResult (Known STATUS_INVALID_PARAMETER) 0 (Some sample_ctx) sample_kernel
      sample_lock.
Proof.
  split.
  - destruct (control_request_succeeds_iff_granted sample_env true sample_ctx sample_kernel
                sample_lock sample_control) as (Hiff & Hok & _).
    + reflexivity.
    + apply Hok. apply (proj2 Hiff).
      split; [reflexivity |]. split; [reflexivity |]. exact sample_registration_granted.
  - destruct (control_request_succeeds_iff_granted sample_env true sample_ctx sample_kernel
                sample_lock
                (mkStack IRP_MJ_DEVICE_CONTROL (IRP_MN_OTHER 0) (TUN_IOCTL_REGISTER_RINGS + 4)
                   0x9100 sample_irp)) as (_ & _ & Hother & _).
    + reflexivity.
    + apply Hother. vm_compute. discriminate.
Defined.

(** X22.  Once a removal has been announced no new handle can be opened:
    after a removal query or a surprise removal has gone through
    [TunDispatchPnP], a create request is completed with
    [STATUS_DELETE_PENDING] and holds no remove lock; when the removal is
    cancelled, the same request succeeds and holds the lock tagged with
    its file object.  The Plug and Play request itself always returns
    what NDIS returns for it. *)
Theorem removal_refuses_create (NdisDispatchPnP : NTSTATUS) (Env : REGISTER_ENV)
  (ThreadReferenced : bool) (Ctx : TUN_CTX) (K : KERNEL) (L : IO_REMOVE_LOCK)
  (Remove Cancel Create : IO_STACK_LOCATION) :
  MajorFunction Remove = IRP_MJ_PNP ->
  MinorFunction Remove = IRP_MN_QUERY_REMOVE_DEVICE \/
  MinorFunction Remove = IRP_MN_SURPRISE_REMOVAL ->
  MajorFunction Cancel = IRP_MJ_PNP ->
  MinorFunction Cancel = IRP_MN_CANCEL_REMOVE_DEVICE ->
  MajorFunction Create = IRP_MJ_CREATE ->
  let p := TunDispatchPnP NdisDispatchPnP (Some Ctx) K Remove in
  let q := TunDispatchPnP NdisDispatchPnP (snd (fst p)) (snd p) Cancel in
  fst (fst p) = NdisDispatchPnP /\
  TunDispatch Env ThreadReferenced (snd (fst p)) (snd p) L Create
  = mkDispatchResult STATUS_DELETE_PENDING 0 (snd (fst p)) (snd p) L /\
  (Removed L = false ->
   TunDispatch Env ThreadReferenced (snd (fst q)) (snd q) L Create
   = mkDispatchResult (Known STATUS_SUCCESS) 0 (snd (fst q)) (snd q)
       (mkRemoveLock (FileObject (StackIrp Create) :: LockTags L) (Removed L))).
Proof.
  intros Hrm Hrn Hcm Hcn Hcr p q. subst p q.
  assert (Ep : TunDispatchPnP NdisDispatchPnP (Some Ctx) K Remove
               = (NdisDispatchPnP,
                  Some (set_Flags Ctx
                          (InterlockedAnd (Ctx_Flags Ctx) (Z.lnot TUN_FLAGS_PRESENT))),
                  TransitionBarrier K)).
  { unfold TunDispatchPnP. rewrite Hrm. destruct Hrn as [-> | ->]; reflexivity. }
  rewrite Ep. cbn [fst snd].
  unfold TunDispatchPnP at 1 2 3 4. rewrite Hcm, Hcn. cbn [fst snd].
  split; [reflexivity |].
  rewrite !TunDispatch_create by exact Hcr. cbn [set_Flags Ctx_Flags].
  unfold TUN_FLAGS_PRESENT.
  rewrite flag_after_or, flag_after_and_not by lia.
  rewrite Z.eqb_refl, andb_false_r, orb_true_r. cbn [negb orb].
  rewrite ?orb_true_r.
  split; [reflexivity |].
  intros Hr. rewrite Hr. reflexivity.
Qed.

Lemma removal_refuses_create_witness :
  TunDispatch sample_env true
    (snd (fst (TunDispatchPnP STATUS_SUCCESS (Some sample_ctx) sample_kernel
                 sample_query_remove)))
    (snd (TunDispatchPnP STATUS_SUCCESS (Some sample_ctx) sample_kernel sample_query_remove))
    sample_lock sample_create
  = mkDispatchResult STATUS_DELETE_PENDING 0
      (snd (fst (TunDispatchPnP STATUS_SUCCESS (Some sample_ctx) sample_kernel
                   sample_query_remove)))
      (snd (TunDispatchPnP STATUS_SUCCESS (Some sample_ctx) sample_kernel
              sample_query_remove))
      sample_lock.
Proof.
  apply (removal_refuses_create STATUS_SUCCESS sample_env true sample_ctx sample_kernel
           sample_lock sample_query_remove sample_cancel_remove sample_create).
  - reflexivity.
  - left. reflexivity.
  - reflexivity.
  - reflexivity.
  - reflexivity.
Defined.

(** X23.  The life of one handle, through the dispatch routine: on a
    present adapter whose remove lock is not being removed, a handle that
    is opened, registers rings that are granted and is closed sees three
    successes, and afterwards the remove lock is as it was before the
    handle was opened, no kernel object taken by the registration remains,
    the adapter has no owner and is not connected. *)
Theorem handle_open_register_close (Env : REGISTER_ENV) (ThreadReferenced : bool)
  (Ctx : TUN_CTX) (K : KERNEL) (L : IO_REMOVE_LOCK)
  (Create Control Close : IO_STACK_LOCATION) :
  Removed L = false ->
  flag_set (Ctx_Flags Ctx) TUN_FLAGS_PRESENT = true ->
  MajorFunction Create = IRP_MJ_CREATE ->
  MajorFunction Control = IRP_MJ_DEVICE_CONTROL ->
  IoControlCode Control = TUN_IOCTL_REGISTER_RINGS ->
  MajorFunction Close = IRP_MJ_CLOSE ->
  FileObject (StackIrp Create) = FileObject (StackIrp Control) ->
  FileObject (StackIrp Close) = FileObject (StackIrp Control) ->
  registration_granted Env Ctx (StackIrp Control) ->
  let r1 := TunDispatch Env ThreadReferenced (Some Ctx) K L Create in
  let r2 := TunDispatch Env ThreadReferenced (Dispatch_Ctx r1) (Dispatch_Kernel r1)
              (Dispatch_Lock r1) Control in
  let r3 := TunDispatch Env ThreadReferenced (Dispatch_Ctx r2) (Dispatch_Kernel r2)
              (Dispatch_Lock r2) Close in
  IoStatus_Status r1 = Known STATUS_SUCCESS /\
  IoStatus_Status r2 = Known STATUS_SUCCESS /\
  IoStatus_Status r3 = Known STATUS_SUCCESS /\
  Dispatch_Lock r3 = L /\
  kernel_resources (Dispatch_Kernel r3) = kernel_resources K /\
  exists c3,
    Dispatch_Ctx r3 = Some c3 /\
    Device_Owner c3 = NULL /\
    flag_set (Ctx_Flags c3) TUN_FLAGS_CONNECTED = false /\
    flag_set (Ctx_Flags c3) TUN_FLAGS_PRESENT = true.
Proof.
  intros Hr Hp Hcr Hco Hcode Hcl Hf1 Hf3 Hg r1 r2 r3. subst r1 r2 r3.
  rewrite (TunDispatch_create Env ThreadReferenced Ctx K L Create Hcr).
  rewrite Hr, Hp. cbn [orb negb Dispatch_Ctx Dispatch_Kernel Dispatch_Lock IoStatus_Status].
  rewrite (TunDispatch_register Env ThreadReferenced Ctx K
             (mkRemoveLock (FileObject (StackIrp Create) :: LockTags L) false)
             Control Hco Hcode eq_refl).
  rewrite (TunDispatchRegisterBuffers_granted Env Ctx K (StackIrp Control) Hg).
  cbn [fst snd Dispatch_Ctx Dispatch_Kernel Dispatch_Lock IoStatus_Status].
  rewrite (TunDispatch_close Env ThreadReferenced _ _ _ Close Hcl).
  rewrite Hf3, Hf1.
  rewrite TunDispatchUnregisterBuffers_registered.
  cbn [fst snd Dispatch_Ctx Dispatch_Kernel Dispatch_Lock IoStatus_Status].
  split; [reflexivity |]. split; [reflexivity |]. split; [reflexivity |].
  split.
  { unfold IoReleaseRemoveLock. cbn [LockTags Removed remove_one].
    rewrite Z.eqb_refl. destruct L as [tags rm]. cbn [Removed] in Hr. subst rm.
    reflexivity. }
  split; [reflexivity |].
  eexists. split; [reflexivity |].
  cbn [set_Flags set_Owner Device_Owner Ctx_Flags].
  split; [reflexivity |].
  unfold TUN_FLAGS_CONNECTED, TUN_FLAGS_PRESENT in *.
  rewrite !flag_after_and_not, !flag_after_or by lia.
  rewrite Hp, Z.eqb_refl. cbn [Z.eqb negb orb andb].
  rewrite andb_false_r. split; reflexivity.
Qed.

Lemma handle_open_register_close_witness :
  Dispatch_Lock
    (TunDispatch sample_env true
       (Dispatch_Ctx
          (TunDispatch sample_env true
             (Dispatch_Ctx
                (TunDispatch sample_env true (Some sample_ctx) sample_kernel sample_lock
                   sample_create))
             (Dispatch_Kernel
                (TunDispatch sample_env true (Some sample_ctx) sample_kernel sample_lock
                   sample_create))
             (Dispatch_Lock
                (TunDispatch sample_env true (Some sample_ctx) sample_kernel sample_lock
                   sample_create))
             sample_control))
       (Dispatch_Kernel
          (TunDispatch sample_env true
             (Dispatch_Ctx
                (TunDispatch sample_env true (Some sample_ctx) sample_kernel sample_lock
                   sample_create))
             (Dispatch_Kernel
                (TunDispatch sample_env true (Some sample_ctx) sample_kernel sample_lock
                   sample_create))
             (Dispatch_Lock
                (TunDispatch sample_env true (Some sample_ctx) sample_kernel sample_lock
                   sample_create))
             sample_control))
       (Dispatch_Lock
          (TunDispatch sample_env true
             (Dispatch_Ctx
                (TunDispatch sample_env true (Some sample_ctx) sample_kernel sample_lock
                   sample_create))
             (Dispatch_Kernel
                (TunDispatch sample_env true (Some sample_ctx) sample_kernel sample_lock
                   sample_create))
             (Dispatch_Lock
                (TunDispatch sample_env true (Some sample_ctx) sample_kernel sample_lock
                   sample_create))
             sample_control))
       sample_close)
  = sample_lock.
Proof.
  apply (handle_open_register_close sample_env true sample_ctx sample_kernel sample_lock
           sample_create sample_control sample_close);
    try reflexivity.
  exact sample_registration_granted.
Defined.

(** X24.  Closing a handle that does not own the adapter leaves the
    owner's registration alone: the request succeeds and gives the
    handle's remove lock back, and the context, the kernel objects and
    the rings are untouched. *)
Theorem close_of_other_handle (Env : REGISTER_ENV) (ThreadReferenced : bool)
  (c : TUN_CTX) (K : KERNEL) (L : IO_REMOVE_LOCK) (Close : IO_STACK_LOCATION) :
  MajorFunction Close = IRP_MJ_CLOSE ->
  FileObject (StackIrp Close) <> Device_Owner c ->
  TunDispatch Env ThreadReferenced (Some c) K L Close
  = mkDispatchResult (Known STATUS_SUCCESS) 0 (Some c) K
      (IoReleaseRemoveLock L (FileObject (StackIrp Close))).
Proof.
  intros Hm Hne. rewrite TunDispatch_close by exact Hm.
  rewrite TunDispatchUnregisterBuffers_mismatch by exact Hne. reflexivity.
Qed.

Lemma close_of_other_handle_witness :
  TunDispatch sample_env true (Some (registered_ctx sample_env sample_ctx sample_irp))
    (registered_kernel sample_env sample_kernel) (mkRemoveLock [0x1000; 0x2000] false)
    (mkStack IRP_MJ_CLOSE (IRP_MN_OTHER 0) 0 0x9200
       (mkIrp 0x2000 sizeof_TUN_REGISTER_RINGS sample_rrb))
  = mkDispatchResult (Known STATUS_SUCCESS) 0
      (Some (registered_ctx sample_env sample_ctx sample_irp))
      (registered_kernel sample_env sample_kernel)
      (IoReleaseRemoveLock (mkRemoveLock [0x1000; 0x2000] false)
         (FileObject
            (StackIrp
               (mkStack IRP_MJ_CLOSE (IRP_MN_OTHER 0) 0 0x9200
                  (mkIrp 0x2000 sizeof_TUN_REGISTER_RINGS sample_rrb))))).
Proof.
  apply (close_of_other_handle sample_env true).
  - reflexivity.
  - vm_compute. discriminate.
Defined.

(** X25.  Registration and the send handler fit together: on a registered
    adapter the handler works on the ring the client registered, with the
    capacity registration computed.  If that ring holds the payloads
    [ps], then after a batch it holds [ps] followed by the accepted
    payloads, no other ring is written, the client's event (the object
    registration referenced) is set once per accepted packet and for
    nothing else, and no kernel resource is taken or given back. *)
Theorem send_on_registered_adapter (Env : REGISTER_ENV) (Ctx : TUN_CTX) (K : KERNEL)
  (Irp : IRP) (NetBufferLists : list NET_BUFFER_LIST) (ps : list (list UCHAR)) :
  registration_granted Env Ctx Irp ->
  ring_holds (TUN_RING_CAPACITY (RingSize (Rrb_Send (SystemBuffer Irp))))
    (RingMemory K (Send_System_Address Env)) ps ->
  let Ctx1 := registered_ctx Env Ctx Irp in
  let K1 := registered_kernel Env K in
  let r := TunSendNetBufferLists_Ctx Ctx1 K1 NetBufferLists in
  let new := accepted_payloads (Ctx_Flags Ctx1) (Device_Send_Capacity Ctx1)
               (RingMemory K (Send_System_Address Env))
               (concat (map NblBuffers NetBufferLists)) in
  ring_holds (Device_Send_Capacity Ctx1)
    (RingMemory (snd (fst r)) (Send_System_Address Env)) (ps ++ new) /\
  (forall a, a <> Send_System_Address Env -> RingMemory (snd (fst r)) a = RingMemory K a) /\
  Calls (snd (fst r))
  = repeat (CallKeSetEvent (snd (Send_TailMoved_Reference Env))) (length new) ++ Calls K1 /\
  kernel_resources (snd (fst r)) = kernel_resources K1.
Proof.
  intros Hg Hq Ctx1 K1 r new. subst Ctx1 K1 r new.
  assert (Hlegal : capacity_legal (TUN_RING_CAPACITY (RingSize (Rrb_Send (SystemBuffer Irp))))).
  { destruct Hg as (_ & _ & S1 & _). unfold ring_rejected in S1.
    apply orb_false_iff in S1. destruct S1 as [S1 _].
    apply orb_false_iff in S1. destruct S1 as [S1 _]. exact S1. }
  unfold TunSendNetBufferLists_Ctx.
  cbn [registered_ctx registered_kernel Ctx_Flags Device_Send_Capacity Device_Send_Ring
       Device_Send_TailMoved RingMemory].
  set (F := InterlockedOr (Ctx_Flags Ctx) TUN_FLAGS_CONNECTED).
  set (C := TUN_RING_CAPACITY (RingSize (Rrb_Send (SystemBuffer Irp)))) in *.
  set (R := RingMemory K (Send_System_Address Env)) in *.
  rewrite (TunSendNetBufferLists_flat F C NetBufferLists (mkSendState R 0 0 0 0)
             NDIS_STATUS_SUCCESS).
  pose proof (TunSendSteps_queue C Hlegal F (concat (map NblBuffers NetBufferLists))
                (mkSendState R 0 0 0 0) NDIS_STATUS_SUCCESS ps Hq) as Hring.
  destruct (TunSendSteps_accounting F C (concat (map NblBuffers NetBufferLists))
              (mkSendState R 0 0 0 0) NDIS_STATUS_SUCCESS) as (_ & _ & _ & Hset).
  cbn [SendRing SendTailMovedSet] in Hring, Hset.
  cbn [fst snd]. unfold kernel_calls, store_ring.
  cbn [RingMemory Calls kernel_resources ObjectReferences Mdls LockedPages OpenHandles].
  split; [rewrite Z.eqb_refl; exact Hring |].
  split; [intros a Ha; apply Z.eqb_neq in Ha; rewrite Ha; reflexivity |].
  split; [| reflexivity].
  rewrite Hset, Z.add_0_l, Nat2Z.id. reflexivity.
Qed.

Lemma send_on_registered_adapter_witness :
  ring_holds (Device_Send_Capacity (registered_ctx sample_env sample_ctx sample_irp))
    (RingMemory
       (snd (fst (TunSendNetBufferLists_Ctx (registered_ctx sample_env sample_ctx sample_irp)
                    (registered_kernel sample_env sample_kernel)
                    [mkNbl NDIS_STATUS_SUCCESS [sample_nb; sample_nb_scattered]])))
       (Send_System_Address sample_env))
    ([] ++ accepted_payloads (Ctx_Flags (registered_ctx sample_env sample_ctx sample_irp))
             (Device_Send_Capacity (registered_ctx sample_env sample_ctx sample_irp))
             (RingMemory sample_kernel (Send_System_Address sample_env))
             (concat (map NblBuffers
                        [mkNbl NDIS_STATUS_SUCCESS [sample_nb; sample_nb_scattered]]))).
Proof.
  apply (send_on_registered_adapter sample_env sample_ctx sample_kernel sample_irp
           [mkNbl NDIS_STATUS_SUCCESS [sample_nb; sample_nb_scattered]] []).
  - exact sample_registration_granted.
  - exact sample_ring_holds_nothing.
Defined.

(** ** OID requests *)

Section OidWriters.

Variable r : NDIS_OID_REQUEST.
Hypothesis Hlen : 0 <= InformationBufferLength r.

Lemma TunOidQueryWrite_within (Value : Z) :
  within_buffer r (fst (TunOidQueryWrite r Value)).
Proof.
  unfold TunOidQueryWrite, within_buffer.
  destruct (InformationBufferLength r <? sizeof_ULONG) eqn:E;
    cbn [fst set_BytesWritten set_BytesNeeded set_InformationBuffer InformationBuffer
         InformationBufferLength BytesWritten BytesNeeded RequestType Oid].
  - repeat split; try reflexivity; lia.
  - apply Z.ltb_ge in E. unfold sizeof_ULONG in *.
    repeat split; try reflexivity; try lia.
    intros a Ha. unfold store_ULONG. apply write_bytes_outside.
    cbn [encode_ULONG length]. lia.
Qed.

Lemma TunOidQueryWrite32or64_within (Value : Z) :
  within_buffer r (fst (TunOidQueryWrite32or64 r Value)).
Proof.
  unfold TunOidQueryWrite32or64, within_buffer.
  destruct (InformationBufferLength r <? sizeof_ULONG) eqn:E;
    [| destruct (InformationBufferLength r <? sizeof_ULONG64) eqn:E'];
    cbn [fst set_BytesWritten set_BytesNeeded set_InformationBuffer InformationBuffer
         InformationBufferLength BytesWritten BytesNeeded RequestType Oid].
  - repeat split; try reflexivity; lia.
  - apply Z.ltb_ge in E. unfold sizeof_ULONG in *.
    repeat split; try reflexivity; try lia.
    intros a Ha. unfold store_ULONG. apply write_bytes_outside.
    cbn [encode_ULONG length]. lia.
  - apply Z.ltb_ge in E'. unfold sizeof_ULONG64 in *.
    repeat split; try reflexivity; try lia.
    intros a Ha. unfold store_ULONG64. apply write_bytes_outside.
    cbn [encode_ULONG64 encode_ULONG length app]. lia.
Qed.

Lemma TunOidQueryWriteBuf_within (Buf : list UCHAR) :
  within_buffer r (fst (TunOidQueryWriteBuf r Buf (Z.of_nat (length Buf)))).
Proof.
  unfold TunOidQueryWriteBuf, within_buffer.
  destruct (InformationBufferLength r <? Z.of_nat (length Buf)) eqn:E;
    cbn [fst set_BytesWritten set_BytesNeeded set_InformationBuffer InformationBuffer
         InformationBufferLength BytesWritten BytesNeeded RequestType Oid].
  - repeat split; try reflexivity; lia.
  - apply Z.ltb_ge in E.
    repeat split; try reflexivity; try lia.
    intros a Ha. unfold NdisMoveMemory. apply write_bytes_outside.
    rewrite length_firstn. lia.
Qed.

End OidWriters.

Lemma TunOidQuery_within (E : OID_ENV) (Ctx : TUN_CTX) (r : NDIS_OID_REQUEST) :
  0 <= InformationBufferLength r ->
  within_buffer r (fst (TunOidQuery E Ctx r)).
Proof.
  intros Hlen. unfold TunOidQuery.
  destruct (Oid r);
    try apply TunOidQueryWrite_within;
    try apply TunOidQueryWrite32or64_within;
    try apply TunOidQueryWriteBuf_within;
    try exact Hlen;
    unfold within_buffer;
    cbn [fst set_BytesWritten set_BytesNeeded InformationBuffer InformationBufferLength
         BytesWritten BytesNeeded RequestType Oid];
    repeat split; try reflexivity; lia.
Qed.

Lemma TunOidSet_within (Ctx : TUN_CTX) (r : NDIS_OID_REQUEST) :
  0 <= InformationBufferLength r ->
  within_buffer r (fst (TunOidSet Ctx r)).
Proof.
  intros Hlen. unfold TunOidSet, set_BytesRead.
  cbn [set_BytesWritten set_BytesNeeded InformationBuffer InformationBufferLength
       BytesWritten BytesNeeded RequestType Oid].
  unfold within_buffer, sizeof_NDIS_DEVICE_POWER_STATE.
  destruct (Oid r) eqn:Eo;
    try (destruct (Z.eqb_spec (InformationBufferLength r) 4) as [E4 | E4]; cbn [negb]);
    cbn [fst set_BytesWritten set_BytesNeeded InformationBuffer InformationBufferLength
         BytesWritten BytesNeeded RequestType Oid];
    repeat split; try reflexivity; try exact Eo; lia.
Qed.

Section OidRetry.

Variable r : NDIS_OID_REQUEST.

Lemma TunOidQueryWrite_too_short (Value : Z) :
  snd (TunOidQueryWrite r Value) = NDIS_STATUS_BUFFER_TOO_SHORT ->
  BytesWritten (fst (TunOidQueryWrite r Value)) = 0 /\
  InformationBuffer (fst (TunOidQueryWrite r Value)) = InformationBuffer r /\
  InformationBufferLength r < BytesNeeded (fst (TunOidQueryWrite r Value)) /\
  forall r2 : NDIS_OID_REQUEST,
    InformationBufferLength r2 = BytesNeeded (fst (TunOidQueryWrite r Value)) ->
    snd (TunOidQueryWrite r2 Value) = Known NDIS_STATUS_SUCCESS /\
    BytesWritten (fst (TunOidQueryWrite r2 Value)) = InformationBufferLength r2.
Proof.
  unfold TunOidQueryWrite.
  destruct (Z.ltb_spec (InformationBufferLength r) sizeof_ULONG) as [Hlt | Hge];
    cbn [fst snd set_BytesWritten set_BytesNeeded set_InformationBuffer InformationBuffer
         InformationBufferLength BytesWritten BytesNeeded];
    [intros _ | discriminate].
  split; [reflexivity |]. split; [reflexivity |]. split; [exact Hlt |].
  intros r2 H2. rewrite H2, Z.ltb_irrefl.
  cbn [fst snd set_BytesWritten set_BytesNeeded set_InformationBuffer BytesWritten].
  split; reflexivity.
Qed.

Lemma TunOidQueryWrite32or64_too_short (Value : Z) :
  snd (TunOidQueryWrite32or64 r Value) = NDIS_STATUS_BUFFER_TOO_SHORT ->
  BytesWritten (fst (TunOidQueryWrite32or64 r Value)) = 0 /\
  InformationBuffer (fst (TunOidQueryWrite32or64 r Value)) = InformationBuffer r /\
  InformationBufferLength r < BytesNeeded (fst (TunOidQueryWrite32or64 r Value)) /\
  forall r2 : NDIS_OID_REQUEST,
    InformationBufferLength r2 = BytesNeeded (fst (TunOidQueryWrite32or64 r Value)) ->
    snd (TunOidQueryWrite32or64 r2 Value) = Known NDIS_STATUS_SUCCESS /\
    BytesWritten (fst (TunOidQueryWrite32or64 r2 Value)) = InformationBufferLength r2.
Proof.
  unfold TunOidQueryWrite32or64.
  destruct (Z.ltb_spec (InformationBufferLength r) sizeof_ULONG) as [Hlt | Hge];
    [| destruct (InformationBufferLength r <? sizeof_ULONG64)];
    cbn [fst snd set_BytesWritten set_BytesNeeded set_InformationBuffer InformationBuffer
         InformationBufferLength BytesWritten BytesNeeded];
    [intros _ | discriminate | discriminate].
  split; [reflexivity |]. split; [reflexivity |].
  split; [unfold sizeof_ULONG, sizeof_ULONG64 in *; lia |].
  intros r2 H2. rewrite H2.
  change (sizeof_ULONG64 <? sizeof_ULONG) with false. rewrite Z.ltb_irrefl.
  cbn [fst snd set_BytesWritten set_BytesNeeded set_InformationBuffer BytesWritten].
  split; reflexivity.
Qed.

Lemma TunOidQueryWriteBuf_too_short (Buf : list UCHAR) (Size : Z) :
  snd (TunOidQueryWriteBuf r Buf Size) = NDIS_STATUS_BUFFER_TOO_SHORT ->
  BytesWritten (fst (TunOidQueryWriteBuf r Buf Size)) = 0 /\
  InformationBuffer (fst (TunOidQueryWriteBuf r Buf Size)) = InformationBuffer r /\
  InformationBufferLength r < BytesNeeded (fst (TunOidQueryWriteBuf r Buf Size)) /\
  forall r2 : NDIS_OID_REQUEST,
    InformationBufferLength r2 = BytesNeeded (fst (TunOidQueryWriteBuf r Buf Size)) ->
    snd (TunOidQueryWriteBuf r2 Buf Size) = Known NDIS_STATUS_SUCCESS /\
    BytesWritten (fst (TunOidQueryWriteBuf r2 Buf Size)) = InformationBufferLength r2.
Proof.
  unfold TunOidQueryWriteBuf.
  destruct (Z.ltb_spec (InformationBufferLength r) Size) as [Hlt | Hge];
    cbn [fst snd set_BytesWritten set_BytesNeeded set_InformationBuffer InformationBuffer
         InformationBufferLength BytesWritten BytesNeeded];
    [intros _ | discriminate].
  split; [reflexivity |]. split; [reflexivity |]. split; [exact Hlt |].
  intros r2 H2. rewrite H2, Z.ltb_irrefl.
  cbn [fst snd set_BytesWritten set_BytesNeeded set_InformationBuffer BytesWritten].
  split; reflexivity.
Qed.

End OidRetry.

Ltac retry_by lemma :=
  let H := fresh "H" in
  let H1 := fresh "H" in
  let H2 := fresh "H" in
  let H3 := fresh "H" in
  let H4 := fresh "H" in
  intros H; destruct (lemma H) as (H1 & H2 & H3 & H4);
  split; [exact H1 |]; split; [exact H2 |]; split; [exact H3 |];
  intros buf; apply H4; reflexivity.

Lemma TunOidQuery_too_short (E : OID_ENV) (Ctx : TUN_CTX) (r : NDIS_OID_REQUEST) :
  snd (TunOidQuery E Ctx r) = NDIS_STATUS_BUFFER_TOO_SHORT ->
  BytesWritten (fst (TunOidQuery E Ctx r)) = 0 /\
  InformationBuffer (fst (TunOidQuery E Ctx r)) = InformationBuffer r /\
  InformationBufferLength r < BytesNeeded (fst (TunOidQuery E Ctx r)) /\
  forall buf : memory,
    snd (TunOidQuery E Ctx (retry_with r buf (BytesNeeded (fst (TunOidQuery E Ctx r)))))
    = Known NDIS_STATUS_SUCCESS /\
    BytesWritten
      (fst (TunOidQuery E Ctx (retry_with r buf (BytesNeeded (fst (TunOidQuery E Ctx r))))))
    = BytesNeeded (fst (TunOidQuery E Ctx r)).
Proof.
  unfold TunOidQuery. cbn [retry_with Oid].
  destruct (Oid r); cbn [snd]; try discriminate.
  - retry_by (TunOidQueryWrite_too_short r TUN_MAX_IP_PACKET_SIZE).
  - retry_by (TunOidQueryWrite_too_short r TUN_MAX_RING_CAPACITY).
  - retry_by (TunOidQueryWrite_too_short r TUN_MAX_RING_CAPACITY).
  - retry_by (TunOidQueryWrite_too_short r TUN_MAX_IP_PACKET_SIZE).
  - retry_by (TunOidQueryWrite_too_short r TUN_MAX_IP_PACKET_SIZE).
  - retry_by (TunOidQueryWriteBuf_too_short r TUN_VENDOR_NAME
                (Z.of_nat (length TUN_VENDOR_NAME))).
  - retry_by (TunOidQueryWrite_too_short r (TUN_HTONL TUN_VENDOR_ID)).
  - retry_by (TunOidQueryWrite_too_short r
                (Z.lor (Z.shiftl (WINTUN_VERSION_MAJ E) 16) (WINTUN_VERSION_MIN E))).
  - retry_by (TunOidQueryWrite32or64_too_short r
                (counter_sum (InterlockedGet64 (ifHCOutUcastPkts (Ctx_Statistics Ctx)))
                   (InterlockedGet64 (ifHCOutMulticastPkts E))
                   (InterlockedGet64 (ifHCOutBroadcastPkts E)))).
  - retry_by (TunOidQueryWrite32or64_too_short r
                (counter_sum (InterlockedGet64 (ifHCInUcastPkts (Ctx_Statistics Ctx)))
                   (InterlockedGet64 (ifHCInMulticastPkts E))
                   (InterlockedGet64 (ifHCInBroadcastPkts E)))).
  - retry_by (TunOidQueryWriteBuf_too_short r (StatisticsImage E (Ctx_Statistics Ctx))
                (Z.of_nat (length (StatisticsImage E (Ctx_Statistics Ctx))))).
  - retry_by (TunOidQueryWriteBuf_too_short r (InterruptParametersImage E)
                (Z.of_nat (length (InterruptParametersImage E)))).
Qed.

(** X26.  An OID request is answered inside the caller's buffer.  Whatever
    the request, its buffer and its length, no byte outside the first
    [InformationBufferLength] bytes of the buffer is changed and the
    request keeps its type, identifier and length; unless the request type
    is refused with [NDIS_STATUS_INVALID_OID], the number of bytes
    reported as written or read is at most the buffer's length.  A query
    refused with [NDIS_STATUS_BUFFER_TOO_SHORT] has written nothing and
    asks for more bytes than the buffer has, and the same query with a
    buffer of the size asked for succeeds and writes exactly that many
    bytes. *)
Theorem oid_request_stays_in_buffer (E : OID_ENV) (Ctx : TUN_CTX) (r : NDIS_OID_REQUEST) :
  0 <= InformationBufferLength r ->
  (forall a, a < 0 \/ InformationBufferLength r <= a ->
             InformationBuffer (fst (TunOidRequest E Ctx r)) a = InformationBuffer r a) /\
  InformationBufferLength (fst (TunOidRequest E Ctx r)) = InformationBufferLength r /\
  RequestType (fst (TunOidRequest E Ctx r)) = RequestType r /\
  Oid (fst (TunOidRequest E Ctx r)) = Oid r /\
  (snd (TunOidRequest E Ctx r) <> NDIS_STATUS_INVALID_OID ->
   0 <= BytesWritten (fst (TunOidRequest E Ctx r)) <= InformationBufferLength r) /\
  (snd (TunOidQuery E Ctx r) = NDIS_STATUS_BUFFER_TOO_SHORT ->
   BytesWritten (fst (TunOidQuery E Ctx r)) = 0 /\
   InformationBuffer (fst (TunOidQuery E Ctx r)) = InformationBuffer r /\
   InformationBufferLength r < BytesNeeded (fst (TunOidQuery E Ctx r)) /\
   forall buf : memory,
     snd (TunOidQuery E Ctx (retry_with r buf (BytesNeeded (fst (TunOidQuery E Ctx r)))))
     = Known NDIS_STATUS_SUCCESS /\
     BytesWritten
       (fst (TunOidQuery E Ctx (retry_with r buf (BytesNeeded (fst (TunOidQuery E Ctx r))))))
     = BytesNeeded (fst (TunOidQuery E Ctx r))).
Proof.
  intros Hlen.
  assert (Hin : (exists Code, RequestType r = NdisRequestOther Code /\
                              TunOidRequest E Ctx r = (r, NDIS_STATUS_INVALID_OID)) \/
                within_buffer r (fst (TunOidRequest E Ctx r))).
  { unfold TunOidRequest. destruct (RequestType r) eqn:Et.
    - right. apply TunOidQuery_within. exact Hlen.
    - right. apply TunOidQuery_within. exact Hlen.
    - right. apply TunOidSet_within. exact Hlen.
    - left. exists Code. split; reflexivity. }
  destruct Hin as [(Code & _ & ->) | (H1 & H2 & H3 & H4 & H5)]; cbn [fst snd].
  - repeat split; try reflexivity; try congruence.
    all: apply TunOidQuery_too_short; assumption.
  - split; [exact H1 |]. split; [exact H3 |]. split; [exact H4 |]. split; [exact H5 |].
    split; [intros _; exact H2 |].
    apply TunOidQuery_too_short.
Qed.

Lemma oid_request_stays_in_buffer_witness :
  InformationBuffer
    (fst (TunOidRequest sample_oid_env sample_ctx
            (sample_oid_request NdisRequestQueryInformation OID_GEN_XMIT_OK 6))) 6
  = InformationBuffer (sample_oid_request NdisRequestQueryInformation OID_GEN_XMIT_OK 6) 6 /\
  0 <= BytesWritten
         (fst (TunOidRequest sample_oid_env sample_ctx
                 (sample_oid_request NdisRequestQueryInformation OID_GEN_XMIT_OK 6)))
    <= InformationBufferLength
         (sample_oid_request NdisRequestQueryInformation OID_GEN_XMIT_OK 6).
Proof.
  destruct (oid_request_stays_in_buffer sample_oid_env sample_ctx
              (sample_oid_request NdisRequestQueryInformation OID_GEN_XMIT_OK 6))
    as (H1 & _ & _ & _ & H2 & _).
  - vm_compute. discriminate.
  - split.
    + apply H1. right. vm_compute. discriminate.
    + apply H2. vm_compute. discriminate.
Defined.

(** ** Bytes of integers *)

Lemma uchar_of_Z_bits (a b : Z) :
  (forall n, 0 <= n < 8 -> Z.testbit a n = Z.testbit b n) ->
  uchar_of_Z a = uchar_of_Z b.
Proof.
  intros H. unfold uchar_of_Z.
  replace (a mod 256) with (b mod 256); [reflexivity |].
  change 256 with (2 ^ 8). apply Z.bits_inj'. intros n Hn.
  rewrite !Z.testbit_mod_pow2 by lia.
  destruct (Z.ltb_spec n 8); [| reflexivity].
  cbn [andb]. symmetry. apply H. lia.
Qed.

Lemma encode_ULONG_cast (v : Z) : encode_ULONG (Ulong.cast v) = encode_ULONG v.
Proof.
  unfold encode_ULONG, Ulong.cast, Ulong.modulus.
  assert (H0 : uchar_of_Z (v mod 2 ^ 32) = uchar_of_Z v).
  { apply uchar_of_Z_bits. intros n Hn. apply Z.mod_pow2_bits_low. lia. }
  assert (H : forall k, 0 <= k <= 24 ->
                        uchar_of_Z (Z.shiftr (v mod 2 ^ 32) k) = uchar_of_Z (Z.shiftr v k)).
  { intros k Hk. apply uchar_of_Z_bits. intros n Hn.
    rewrite !Z.shiftr_spec by lia. apply Z.mod_pow2_bits_low. lia. }
  rewrite H0, !H by lia. reflexivity.
Qed.

Lemma decode_encode_ULONG_cast (v : Z) : decode_ULONG (encode_ULONG v) = Ulong.cast v.
Proof.
  rewrite <- encode_ULONG_cast. apply decode_encode_ULONG.
  unfold Ulong.in_range, Ulong.cast, Ulong.modulus. apply Z.mod_pos_bound. lia.
Qed.

Lemma decode_encode_ULONG64 (v : Z) :
  0 <= v < 2 ^ 64 -> decode_ULONG (encode_ULONG64 v) = v.
Proof.
  intros Hv. unfold encode_ULONG64.
  assert (Happ : forall l,
             decode_ULONG (encode_ULONG v ++ l)
             = decode_ULONG (encode_ULONG v) + 2 ^ 32 * decode_ULONG l).
  { intros l. unfold decode_ULONG, encode_ULONG. cbn [app fold_right]. lia. }
  rewrite Happ, !decode_encode_ULONG_cast.
  unfold Ulong.cast, Ulong.modulus. rewrite Z.shiftr_div_pow2 by lia.
  rewrite (Z.mod_small (v / 2 ^ 32)).
  - pose proof (Z.div_mod v (2 ^ 32) ltac:(lia)). lia.
  - split; [apply Z.div_pos; lia |].
    apply Z.div_lt_upper_bound; lia.
Qed.

Lemma counter_sum_range (a b c : Z) : 0 <= counter_sum a b c < 2 ^ 64.
Proof. unfold counter_sum. apply Z.mod_pos_bound. lia. Qed.

Lemma TunOidQueryWrite32or64_value (r : NDIS_OID_REQUEST) (Value : Z) :
  0 <= Value < 2 ^ 64 ->
  (sizeof_ULONG <= InformationBufferLength r < sizeof_ULONG64 ->
   snd (TunOidQueryWrite32or64 r Value) = Known NDIS_STATUS_SUCCESS /\
   BytesWritten (fst (TunOidQueryWrite32or64 r Value)) = sizeof_ULONG /\
   BytesNeeded (fst (TunOidQueryWrite32or64 r Value)) = sizeof_ULONG64 /\
   load_ULONG (InformationBuffer (fst (TunOidQueryWrite32or64 r Value))) 0
   = Value mod 2 ^ 32) /\
  (sizeof_ULONG64 <= InformationBufferLength r ->
   snd (TunOidQueryWrite32or64 r Value) = Known NDIS_STATUS_SUCCESS /\
   BytesWritten (fst (TunOidQueryWrite32or64 r Value)) = sizeof_ULONG64 /\
   decode_ULONG (read_bytes (InformationBuffer (fst (TunOidQueryWrite32or64 r Value))) 0 8)
   = Value).
Proof.
  intros Hv. unfold TunOidQueryWrite32or64. split; intros Hlen.
  - replace (InformationBufferLength r <? sizeof_ULONG) with false
      by (symmetry; apply Z.ltb_ge; lia).
    replace (InformationBufferLength r <? sizeof_ULONG64) with true
      by (symmetry; apply Z.ltb_lt; lia).
    cbn [fst snd set_BytesWritten set_BytesNeeded set_InformationBuffer InformationBuffer
         BytesWritten BytesNeeded].
    repeat split.
    change 0xffffffff with (Z.ones 32). rewrite Z.land_ones by lia.
    rewrite load_store_same.
    + unfold Ulong.cast, Ulong.modulus. apply Z.mod_mod. lia.
    + unfold Ulong.in_range, Ulong.cast, Ulong.modulus. apply Z.mod_pos_bound. lia.
  - unfold sizeof_ULONG, sizeof_ULONG64 in *.
    replace (InformationBufferLength r <? 4) with false
      by (symmetry; apply Z.ltb_ge; lia).
    replace (InformationBufferLength r <? 8) with false
      by (symmetry; apply Z.ltb_ge; lia).
    cbn [fst snd set_BytesWritten set_BytesNeeded set_InformationBuffer InformationBuffer
         BytesWritten BytesNeeded].
    repeat split.
    unfold store_ULONG64.
    change 8%nat with (length (encode_ULONG64 Value)).
    rewrite read_write_same. apply decode_encode_ULONG64. exact Hv.
Qed.

(** X27.  The packet counters are reported in the width the caller's
    buffer allows: a query for [OID_GEN_XMIT_OK] or [OID_GEN_RCV_OK] with a
    buffer of eight bytes or more gets the sum of the unicast, multicast
    and broadcast counters as a 64-bit little-endian number; with four to
    seven bytes it succeeds as well, gets the low 32 bits of the sum, and
    is told that eight bytes are needed for all of it. *)
Theorem oid_packet_counters_32_or_64 (E : OID_ENV) (Ctx : TUN_CTX) (r : NDIS_OID_REQUEST) :
  Oid r = OID_GEN_XMIT_OK \/ Oid r = OID_GEN_RCV_OK ->
  (sizeof_ULONG <= InformationBufferLength r < sizeof_ULONG64 ->
   snd (TunOidQuery E Ctx r) = Known NDIS_STATUS_SUCCESS /\
   BytesWritten (fst (TunOidQuery E Ctx r)) = sizeof_ULONG /\
   BytesNeeded (fst (TunOidQuery E Ctx r)) = sizeof_ULONG64 /\
   load_ULONG (InformationBuffer (fst (TunOidQuery E Ctx r))) 0
   = packets_ok E Ctx (Oid r) mod 2 ^ 32) /\
  (sizeof_ULONG64 <= InformationBufferLength r ->
   snd (TunOidQuery E Ctx r) = Known NDIS_STATUS_SUCCESS /\
   BytesWritten (fst (TunOidQuery E Ctx r)) = sizeof_ULONG64 /\
   decode_ULONG (read_bytes (InformationBuffer (fst (TunOidQuery E Ctx r))) 0 8)
   = packets_ok E Ctx (Oid r)).
Proof.
  intros [Ho | Ho]; unfold TunOidQuery; rewrite Ho; unfold packets_ok, InterlockedGet64;
    apply TunOidQueryWrite32or64_value; apply counter_sum_range.
Qed.

Lemma oid_packet_counters_32_or_64_witness :
  load_ULONG
    (InformationBuffer
       (fst (TunOidQuery sample_oid_env sample_ctx
               (sample_oid_request NdisRequestQueryStatistics OID_GEN_XMIT_OK 6)))) 0
  = packets_ok sample_oid_env sample_ctx
      (Oid (sample_oid_request NdisRequestQueryStatistics OID_GEN_XMIT_OK 6)) mod 2 ^ 32.
Proof.
  destruct (oid_packet_counters_32_or_64 sample_oid_env sample_ctx
              (sample_oid_request NdisRequestQueryStatistics OID_GEN_XMIT_OK 6))
    as [H _].
  - left. reflexivity.
  - apply H. vm_compute. split; [discriminate | reflexivity].
Defined.

(** X28.  What the adapter advertises is what it serves: an object
    identifier is in the list [TunInitializeEx] hands to NDIS exactly when
    the query handler or the set handler has a case for it, that is, when
    at least one of the two answers with something other than
    [NDIS_STATUS_NOT_SUPPORTED]. *)
Theorem supported_oids_are_served (E : OID_ENV) (Ctx : TUN_CTX) (r : NDIS_OID_REQUEST) :
  In (Oid r) SupportedOids <->
  snd (TunOidQuery E Ctx r) <> NDIS_STATUS_NOT_SUPPORTED \/
  snd (TunOidSet Ctx r) <> NDIS_STATUS_NOT_SUPPORTED.
Proof.
  unfold TunOidQuery, TunOidSet, set_BytesRead.
  cbn [set_BytesWritten set_BytesNeeded Oid InformationBufferLength].
  unfold TunOidQueryWrite, TunOidQueryWrite32or64, TunOidQueryWriteBuf.
  destruct (Oid r) eqn:Eo; (split; [intros Hin | intros Hs]);
    try (left;
         repeat match goal with
                | |- context [if ?c then _ else _] => destruct c
                end; cbn [snd]; discriminate);
    try (right;
         repeat match goal with
                | |- context [if ?c then _ else _] => destruct c
                end; cbn [snd]; discriminate);
    try (cbn [In SupportedOids]; repeat first [left; reflexivity | right]; fail).
  - exfalso. cbn [In SupportedOids] in Hin.
    repeat match goal with
           | H : _ \/ _ |- _ => destruct H as [H | H]; [discriminate H |]
           end.
    exact Hin.
  - exfalso. cbn [snd] in Hs. destruct Hs as [Hs | Hs]; apply Hs; reflexivity.
Qed.

(** ** Byte order *)

Ltac closed_mask_bits :=
  repeat match goal with
         | |- context [Z.testbit (Zpos ?p) ?i] =>
             let v := eval vm_compute in (Z.testbit (Zpos p) i) in
             change (Z.testbit (Zpos p) i) with v
         end.

(** Bit [m] of [TUN_HTONL x], for each of the 32 positions. *)
Ltac htonl_bit :=
  unfold TUN_HTONL, Ulong.cast, Ulong.modulus;
  rewrite !Z.lor_spec;
  rewrite !(Z.mod_pow2_bits_low (Z.shiftl _ _)) by lia;
  rewrite !Z.shiftl_spec, !Z.shiftr_spec by lia;
  rewrite !Z.land_spec;
  closed_mask_bits;
  rewrite ?andb_false_r, ?andb_true_r, ?orb_false_r, ?orb_false_l;
  rewrite ?Z.mod_pow2_bits_low by lia;
  f_equal.

Lemma TUN_HTONL_byte (x : Z) (k n : Z) :
  (k = 0 \/ k = 8 \/ k = 16 \/ k = 24) ->
  0 <= n < 8 ->
  Z.testbit (TUN_HTONL x) (n + k) = Z.testbit x (n + (24 - k)).
Proof.
  intros Hk Hn.
  assert (Hcases : n = 0 \/ n = 1 \/ n = 2 \/ n = 3 \/ n = 4 \/ n = 5 \/ n = 6 \/ n = 7)
    by lia.
  destruct Hk as [-> | [-> | [-> | ->]]];
    destruct Hcases as [-> | [-> | [-> | [-> | [-> | [-> | [-> | ->]]]]]]];
    htonl_bit.
Qed.

Ltac htons_bit :=
  unfold TUN_HTONS, Ushort_cast;
  rewrite !Z.lor_spec;
  rewrite !Z.shiftl_spec, !Z.shiftr_spec by lia;
  rewrite !Z.land_spec;
  closed_mask_bits;
  rewrite ?andb_false_r, ?andb_true_r, ?orb_false_r, ?orb_false_l;
  rewrite ?Z.mod_pow2_bits_low by lia;
  f_equal.

Lemma TUN_HTONS_byte (x : Z) (k n : Z) :
  (k = 0 \/ k = 8) ->
  0 <= n < 8 ->
  Z.testbit (TUN_HTONS x) (n + k) = Z.testbit x (n + (8 - k)).
Proof.
  intros Hk Hn.
  assert (Hcases : n = 0 \/ n = 1 \/ n = 2 \/ n = 3 \/ n = 4 \/ n = 5 \/ n = 6 \/ n = 7)
    by lia.
  destruct Hk as [-> | ->];
    destruct Hcases as [-> | [-> | [-> | [-> | [-> | [-> | [-> | ->]]]]]]];
    htons_bit.
Qed.

(** X29.  [TUN_HTONL] reverses the four bytes of a [ULONG]: stored in the
    machine's little-endian order, [TUN_HTONL x] has the bytes of [x] most
    significant first, which is network order.  Applying it twice gives
    the bytes of [x] back.  [TUN_HTONS] exchanges the two bytes of a
    [USHORT] in the same way. *)
Theorem htonl_reverses_bytes (x : Z) :
  encode_ULONG (TUN_HTONL x) = rev (encode_ULONG x) /\
  encode_ULONG (TUN_HTONL (TUN_HTONL x)) = encode_ULONG x /\
  uchar_of_Z (TUN_HTONS x) = uchar_of_Z (Z.shiftr x 8) /\
  uchar_of_Z (Z.shiftr (TUN_HTONS x) 8) = uchar_of_Z x.
Proof.
  assert (H : forall y, encode_ULONG (TUN_HTONL y) = rev (encode_ULONG y)).
  { intros y. unfold encode_ULONG. cbn [rev app].
    f_equal; [| f_equal; [| f_equal; [| f_equal]]];
      apply uchar_of_Z_bits; intros n Hn; rewrite ?Z.shiftr_spec by lia.
    - replace n with (n + 0) at 1 by lia.
      rewrite TUN_HTONL_byte by (try lia; auto). f_equal; lia.
    - rewrite TUN_HTONL_byte by (try lia; auto). f_equal; lia.
    - rewrite TUN_HTONL_byte by (try lia; auto). f_equal; lia.
    - rewrite TUN_HTONL_byte by (try lia; auto). f_equal; lia. }
  split; [apply H |].
  split; [rewrite !H; apply rev_involutive |].
  split; apply uchar_of_Z_bits; intros n Hn; rewrite ?Z.shiftr_spec by lia.
  - replace n with (n + 0) at 1 by lia.
    rewrite TUN_HTONS_byte by (try lia; auto). f_equal; lia.
  - rewrite TUN_HTONS_byte by (try lia; auto). f_equal; lia.
Qed.

(** ** Waiting for the device's references *)

Lemma TunWaitLoop_spec (ReferenceCount : nat -> Z) (Remaining : nat) :
  forall Try : nat,
    (length (TunWaitLoop Remaining Try ReferenceCount) <= Remaining)%nat /\
    TunWaitLoop Remaining Try ReferenceCount
    = repeat SleepTime (length (TunWaitLoop Remaining Try ReferenceCount)) /\
    (forall i, (Try <= i < Try + length (TunWaitLoop Remaining Try ReferenceCount))%nat ->
               ReferenceCount i <> 0) /\
    ((length (TunWaitLoop Remaining Try ReferenceCount) < Remaining)%nat ->
     ReferenceCount (Try + length (TunWaitLoop Remaining Try ReferenceCount))%nat = 0).
Proof.
  induction Remaining as [| Remaining IH]; intros Try; cbn [TunWaitLoop].
  - cbn [length repeat]. split; [lia |]. split; [reflexivity |]. split; intros; lia.
  - destruct (Z.eqb_spec (ReferenceCount Try) 0) as [E | E].
    + cbn [length repeat]. split; [lia |]. split; [reflexivity |].
      split; [intros; lia |]. intros _. rewrite Nat.add_0_r. exact E.
    + destruct (IH (S Try)) as (Hb & Hrep & Hnz & Hz).
      cbn [length repeat]. split; [lia |].
      split; [f_equal; exact Hrep |]. split.
      * intros i Hi. destruct (Nat.eq_dec i Try) as [-> | Hne]; [exact E |].
        apply Hnz. lia.
      * intros Hlt.
        replace (Try + S (length (TunWaitLoop Remaining (S Try) ReferenceCount)))%nat
          with (S Try + length (TunWaitLoop Remaining (S Try) ReferenceCount))%nat by lia.
        apply Hz. lia.
Qed.

Lemma sum_repeat (v : Z) (n : nat) : fold_right Z.add 0 (repeat v n) = Z.of_nat n * v.
Proof.
  induction n as [| n IH]; [reflexivity |].
  cbn [repeat fold_right]. rewrite IH. lia.
Qed.

(** X30.  The wait for the device's references is bounded: whatever the
    reference count does, the loop calls [NdisMSleep] at most [MaxTries]
    times, that is 2400 times, each time with the argument [SleepTime],
    that is 50, so that the arguments add up to at most [TotalTime], that
    is 120000, in the unit [NdisMSleep] counts in.  It sleeps only while
    the count it reads is not zero; if it stops before the limit the count
    it read last was zero; and it reaches the limit when the count is not
    zero at any of the 2400 reads. *)
Theorem wait_for_references_is_bounded (ReferenceCount : nat -> Z) :
  (length (TunWaitForReferencesToDropToZero ReferenceCount) <= 2400)%nat /\
  TunWaitForReferencesToDropToZero ReferenceCount
  = repeat 50 (length (TunWaitForReferencesToDropToZero ReferenceCount)) /\
  fold_right Z.add 0 (TunWaitForReferencesToDropToZero ReferenceCount) <= 120000 /\
  (forall i, (i < length (TunWaitForReferencesToDropToZero ReferenceCount))%nat ->
             ReferenceCount i <> 0) /\
  ((length (TunWaitForReferencesToDropToZero ReferenceCount) < 2400)%nat ->
   ReferenceCount (length (TunWaitForReferencesToDropToZero ReferenceCount)) = 0) /\
  ((forall i, (i < 2400)%nat -> ReferenceCount i <> 0) ->
   length (TunWaitForReferencesToDropToZero ReferenceCount) = 2400%nat).
Proof.
  unfold TunWaitForReferencesToDropToZero.
  replace (Z.to_nat MaxTries) with 2400%nat by reflexivity.
  destruct (TunWaitLoop_spec ReferenceCount 2400 0) as (Hb & Hrep & Hnz & Hz).
  cbn [Nat.add] in Hnz, Hz.
  split; [exact Hb |]. split; [exact Hrep |]. split.
  { rewrite Hrep, sum_repeat. unfold SleepTime. lia. }
  split; [intros i Hi; apply Hnz; lia |].
  split; [exact Hz |].
  intros Hall.
  destruct (Nat.eq_dec (length (TunWaitLoop 2400 0 ReferenceCount)) 2400) as [E | E];
    [exact E |].
  exfalso. apply (Hall (length (TunWaitLoop 2400 0 ReferenceCount))); [lia |].
  apply Hz. lia.
Qed.

Lemma wait_for_references_is_bounded_witness :
  TunWaitForReferencesToDropToZero ReferenceCount_sample = [50; 50] /\
  ReferenceCount_sample (length (TunWaitForReferencesToDropToZero ReferenceCount_sample)) = 0.
Proof.
  destruct (wait_for_references_is_bounded ReferenceCount_sample)
    as (_ & Hrep & _ & _ & Hz & _).
  split; [rewrite Hrep; vm_compute; reflexivity |].
  apply Hz. vm_compute. lia.
Defined.
